(** * Shuttle job tracker: a shallow embedding of [src/master/job_tracker.cc]
      and of the worker's watchdog, [Query] handler and breakpoint file in
      [src/minion/minion_impl.cc].

    Conventions of the embedding.
    - C++ [int], [int64_t] and [time_t] values are integers of [Z].  Casts
      between signed and unsigned types are written out ([to_size_t],
      [to_int]), and so is the wrap-around of the arithmetic a single
      request value can overflow: the [int] product [reduce_total * 2] of
      the constructor and the [int64_t] sums of the user counters
      ([to_int64]), as the compiled code computes them.  Integer division
      [/] truncates: [Z.quot].
    - A pointer to an [AllocateItem] is its position in [allocation_table_];
      the table only grows, so the indices, the time heap and the table share
      the entries exactly as the pointers of the source do.
    - A function that can dereference a null pointer or index a vector out
      of range returns [option]: [None] is undefined behaviour.
    - What the environment supplies (clock readings, file-system answers,
      Galaxy answers, RPC replies, the random draw) is an explicit argument.
    - Calls to collaborators are recorded, in order, in the ghost field
      [trace_]. *)

From Stdlib Require Import ZArith Lia Ascii DecimalPos DecimalN.
From stdpp Require Import gmap strings list fin_maps sorting.

Local Open Scope Z_scope.

(** ** Protocol enumerations (from their uses in the sources) *)

Inductive Status :=
  | kOk | kNoMore | kSuspend | kGalaxyError
  | kWriteFileFail | kOpenFileFail | kNoSuchJob | kNoSuchTask.

Inductive JobState := kPending | kRunning | kFailed | kKilled | kCompleted.

Inductive TaskState :=
  | kTaskRunning | kTaskCompleted | kTaskFailed | kTaskKilled
  | kTaskCanceled | kTaskMoveOutputFailed | kTaskUnknown.

Inductive JobType := kMapOnlyJob | kMapReduceJob.

Inductive InputFormat := kTextInput | kNLineInput.

Inductive WorkMode := kMap | kReduce | kMapOnly.

Inductive ResourceStatus := kResPending | kResAllocated | kResDone.

Global Instance Status_eq_dec : EqDecision Status.
Proof. solve_decision. Defined.
Global Instance JobState_eq_dec : EqDecision JobState.
Proof. solve_decision. Defined.
Global Instance TaskState_eq_dec : EqDecision TaskState.
Proof. solve_decision. Defined.
Global Instance JobType_eq_dec : EqDecision JobType.
Proof. solve_decision. Defined.
Global Instance InputFormat_eq_dec : EqDecision InputFormat.
Proof. solve_decision. Defined.
Global Instance ResourceStatus_eq_dec : EqDecision ResourceStatus.
Proof. solve_decision. Defined.

(** ** Integer conversions *)

(** [(size_t) x] for a 64-bit [size_t]. *)
Definition to_size_t (x : Z) : Z := x mod 2 ^ 64.

(** [(int) x] for a 32-bit [int]. *)
Definition to_int (x : Z) : Z := (x + 2 ^ 31) mod 2 ^ 32 - 2 ^ 31.

(** An [int64_t] result, wrapped into the range of the type. *)
Definition to_int64 (x : Z) : Z := (x + 2 ^ 63) mod 2 ^ 64 - 2 ^ 63.

(** [(int) ::ceil(n / 100.0)] for an [int] numerator [n].  The quotient of
    an [int] by [100.0] is either an integer, hence exact, or at distance at
    least 1/100 from every integer, far more than the rounding error of a
    double of magnitude below 2^31/100; so the double [ceil] is the integer
    ceiling. *)
Definition ceil_div100 (n : Z) : Z := - ((- n) `div` 100).

(** ** Command-line flags ([DECLARE_int32] in job_tracker.cc) *)

Record Flags := {
  FLAGS_first_sleeptime : Z;
  FLAGS_time_tolerance : Z;
  FLAGS_replica_num : Z;
  FLAGS_replica_begin : Z;
  FLAGS_replica_begin_percent : Z;
  FLAGS_retry_bound : Z;
  FLAGS_left_percent : Z;
  FLAGS_max_counters_per_job : Z;
  FLAGS_parallel_attempts : Z
}.

(** The defaults of master_flags.cc; [retry_bound] and
    [max_counters_per_job] are defined elsewhere and stay arguments. *)
Definition default_flags (retry_bound max_counters : Z) : Flags :=
  {| FLAGS_first_sleeptime := 10;
     FLAGS_time_tolerance := 120;
     FLAGS_replica_num := 3;
     FLAGS_replica_begin := 100;
     FLAGS_replica_begin_percent := 10;
     FLAGS_retry_bound := retry_bound;
     FLAGS_left_percent := 120;
     FLAGS_max_counters_per_job := max_counters;
     FLAGS_parallel_attempts := 5 |}.

(** ** Task pools (resource_manager.h is not part of the sources) *)

(** The four fields [Replay] writes. *)
Record IdItem := {
  no : Z;
  attempt : Z;
  status : ResourceStatus;
  allocated : Z
}.

(** Modelled from the spec: the declaration of [ResourceItem] is missing;
    the data model gives it the fields of an [IdItem] and the input split
    ([inputPath], [offset], [length]). *)
Record ResourceItem := {
  res_id : IdItem;
  inputPath : string;
  offset : Z;
  split_length : Z
}.

(** Both managers offer one interface over their own item type. *)
Class PoolItem (A : Type) := {
  id_of : A → IdItem;
  with_id : IdItem → A → A
}.

Global Instance IdItem_pool : PoolItem IdItem :=
  {| id_of := λ i, i; with_id := λ i _, i |}.

Global Instance ResourceItem_pool : PoolItem ResourceItem :=
  {| id_of := res_id;
     with_id := λ i r, {| res_id := i; inputPath := inputPath r;
                          offset := offset r; split_length := split_length r |} |}.

Section Pool.
Context {A : Type} `{PoolItem A}.

(** A pool is the table of its items, the item numbered [n] at position
    [n] (as [Replay] and [Load] lay it out). *)
Definition item_at (n : Z) (p : list A) : option A :=
  if decide (0 ≤ n) then p !! Z.to_nat n else None.

Definition has_status (s : ResourceStatus) (a : A) : bool :=
  bool_decide (status (id_of a) = s).

Definition count_status (s : ResourceStatus) (p : list A) : Z :=
  Z.of_nat (length (filter (λ a, status (id_of a) = s) p)).

(** Modelled from the spec: [SumOfItems()], [Pending()], [Allocated()],
    [Done()] of section 4.1, the counts of the pool. *)
Definition SumOfItem (p : list A) : Z := Z.of_nat (length p).
Definition Pending (p : list A) : Z := count_status kResPending p.
Definition Allocated (p : list A) : Z := count_status kResAllocated p.
Definition Done (p : list A) : Z := count_status kResDone p.

(** Modelled from the spec: [IsAllocated(no)] and [IsDone(no)]. *)
Definition IsAllocated (n : Z) (p : list A) : bool :=
  match item_at n p with
  | Some a => has_status kResAllocated a
  | None => false
  end.

Definition IsDone (n : Z) (p : list A) : bool :=
  match item_at n p with
  | Some a => has_status kResDone a
  | None => false
  end.

Definition hand_out (a : A) : A :=
  with_id {| no := no (id_of a); attempt := attempt (id_of a) + 1;
             status := kResAllocated;
             allocated := allocated (id_of a) + 1 |} a.

(** Modelled from the spec: [Next()] returns a pending item, in ascending
    [no], marks it Allocated and increments its allocated count; [attempt]
    "increments each time the same no is handed out". *)
Fixpoint GetItem (p : list A) : option (A * list A) :=
  match p with
  | [] => None
  | a :: q =>
      if has_status kResPending a then Some (hand_out a, hand_out a :: q)
      else match GetItem q with
           | Some (r, q') => Some (r, a :: q')
           | None => None
           end
  end.

(** Modelled from the spec: [Take(no)] re-emits the given id if it is
    still Allocated and duplicates are allowed, and increments [attempt]. *)
Definition GetCertainItem (dup : bool) (n : Z) (p : list A) : option (A * list A) :=
  match item_at n p with
  | Some a =>
      if dup && has_status kResAllocated a
      then Some (hand_out a, <[Z.to_nat n := hand_out a]> p)
      else None
  | None => None
  end.

(** Modelled from the spec: [Finish(no)] marks the item Done iff it is not
    already Done and returns true iff this call caused the transition
    ([status = Done] implies [allocatedCount = 0]). *)
Definition FinishItem (n : Z) (p : list A) : bool * list A :=
  match item_at n p with
  | Some a =>
      if has_status kResDone a then (false, p)
      else (true, <[Z.to_nat n :=
              with_id {| no := no (id_of a); attempt := attempt (id_of a);
                         status := kResDone; allocated := 0 |} a]> p)
  | None => (false, p)
  end.

(** Modelled from the spec: [ReturnBack(no)] decrements the allocated
    count and, if it reaches 0 and the item is not Done, makes the item
    Pending; on a Done item it is a no-op. *)
Definition ReturnBackItem (n : Z) (p : list A) : list A :=
  match item_at n p with
  | Some a =>
      if has_status kResDone a then p
      else
        let c := allocated (id_of a) - 1 in
        <[Z.to_nat n :=
           with_id {| no := no (id_of a); attempt := attempt (id_of a);
                      status := if decide (c = 0) then kResPending
                                else status (id_of a);
                      allocated := c |} a]> p
  | None => p
  end.
End Pool.

(** ** The allocation ledger *)

(** One handout of a task to a worker ([AllocateItem] of the source). *)
Module AllocateItem.
Record t := mk {
  endpoint : string;
  state : TaskState;
  resource_no : Z;
  attempt : Z;
  is_map : bool;
  alloc_time : Z;
  period : Z
}.

Definition set_state (s : TaskState) (a : t) : t :=
  mk (endpoint a) s (resource_no a) (attempt a) (is_map a) (alloc_time a) (period a).

Definition set_period (p : Z) (a : t) : t :=
  mk (endpoint a) (state a) (resource_no a) (attempt a) (is_map a) (alloc_time a) p.

Global Instance eq_dec : EqDecision t.
Proof. solve_decision. Defined.
End AllocateItem.

(** ** Calls to collaborators, as they are recorded in [trace_] *)

Inductive Event :=
  | EvRetractJob (job_id : string) (end_state : JobState)
  | EvGruStart (mode : WorkMode)
  | EvFsRemove (path : string)
  | EvSortFileWrite (job_output : string) (map_no : Z)
  | EvCancelTask (endpoint job_id : string) (task_id attempt_id : Z)
  | EvQuery (endpoint : string).

(** ** The job descriptor (the fields of the protobuf message the tracker
    reads or writes; [has_x] is the presence bit of an optional field) *)

Record JobDescriptor := Build_JobDescriptor {
  inputs : list string;
  output : string;
  input_format : InputFormat;
  split_size : Z;
  job_type : JobType;
  map_total : Z;
  reduce_total : Z;
  has_reduce_total : bool;
  map_capacity : Z;
  reduce_capacity : Z;
  has_reduce_capacity : bool;
  map_retry : Z;
  has_map_retry : bool;
  reduce_retry : Z;
  has_reduce_retry : bool;
  ignore_map_failures : Z;
  ignore_reduce_failures : Z;
  map_allow_duplicates : bool;
  reduce_allow_duplicates : bool
}.

(** Field updates ([set_x] of the generated protobuf class, one field at a time). *)

Definition set_map_total (v : Z) (t : JobDescriptor) : JobDescriptor :=
  Build_JobDescriptor
    (inputs t) (output t) (input_format t) (split_size t) (job_type t) v
    (reduce_total t) (has_reduce_total t) (map_capacity t) (reduce_capacity t)
    (has_reduce_capacity t) (map_retry t) (has_map_retry t) (reduce_retry t)
    (has_reduce_retry t) (ignore_map_failures t) (ignore_reduce_failures t)
    (map_allow_duplicates t) (reduce_allow_duplicates t).

Definition set_reduce_total (v : Z) (t : JobDescriptor) : JobDescriptor :=
  Build_JobDescriptor
    (inputs t) (output t) (input_format t) (split_size t) (job_type t)
    (map_total t) v (has_reduce_total t) (map_capacity t) (reduce_capacity t)
    (has_reduce_capacity t) (map_retry t) (has_map_retry t) (reduce_retry t)
    (has_reduce_retry t) (ignore_map_failures t) (ignore_reduce_failures t)
    (map_allow_duplicates t) (reduce_allow_duplicates t).

Definition set_has_reduce_total (v : bool) (t : JobDescriptor) : JobDescriptor :=
  Build_JobDescriptor
    (inputs t) (output t) (input_format t) (split_size t) (job_type t)
    (map_total t) (reduce_total t) v (map_capacity t) (reduce_capacity t)
    (has_reduce_capacity t) (map_retry t) (has_map_retry t) (reduce_retry t)
    (has_reduce_retry t) (ignore_map_failures t) (ignore_reduce_failures t)
    (map_allow_duplicates t) (reduce_allow_duplicates t).

Definition set_map_capacity (v : Z) (t : JobDescriptor) : JobDescriptor :=
  Build_JobDescriptor
    (inputs t) (output t) (input_format t) (split_size t) (job_type t)
    (map_total t) (reduce_total t) (has_reduce_total t) v (reduce_capacity t)
    (has_reduce_capacity t) (map_retry t) (has_map_retry t) (reduce_retry t)
    (has_reduce_retry t) (ignore_map_failures t) (ignore_reduce_failures t)
    (map_allow_duplicates t) (reduce_allow_duplicates t).

Definition set_reduce_capacity (v : Z) (t : JobDescriptor) : JobDescriptor :=
  Build_JobDescriptor
    (inputs t) (output t) (input_format t) (split_size t) (job_type t)
    (map_total t) (reduce_total t) (has_reduce_total t) (map_capacity t) v
    (has_reduce_capacity t) (map_retry t) (has_map_retry t) (reduce_retry t)
    (has_reduce_retry t) (ignore_map_failures t) (ignore_reduce_failures t)
    (map_allow_duplicates t) (reduce_allow_duplicates t).

Definition set_map_retry (v : Z) (t : JobDescriptor) : JobDescriptor :=
  Build_JobDescriptor
    (inputs t) (output t) (input_format t) (split_size t) (job_type t)
    (map_total t) (reduce_total t) (has_reduce_total t) (map_capacity t)
    (reduce_capacity t) (has_reduce_capacity t) v (has_map_retry t)
    (reduce_retry t) (has_reduce_retry t) (ignore_map_failures t)
    (ignore_reduce_failures t) (map_allow_duplicates t)
    (reduce_allow_duplicates t).

Definition set_has_map_retry (v : bool) (t : JobDescriptor) : JobDescriptor :=
  Build_JobDescriptor
    (inputs t) (output t) (input_format t) (split_size t) (job_type t)
    (map_total t) (reduce_total t) (has_reduce_total t) (map_capacity t)
    (reduce_capacity t) (has_reduce_capacity t) (map_retry t) v
    (reduce_retry t) (has_reduce_retry t) (ignore_map_failures t)
    (ignore_reduce_failures t) (map_allow_duplicates t)
    (reduce_allow_duplicates t).

Definition set_reduce_retry (v : Z) (t : JobDescriptor) : JobDescriptor :=
  Build_JobDescriptor
    (inputs t) (output t) (input_format t) (split_size t) (job_type t)
    (map_total t) (reduce_total t) (has_reduce_total t) (map_capacity t)
    (reduce_capacity t) (has_reduce_capacity t) (map_retry t)
    (has_map_retry t) v (has_reduce_retry t) (ignore_map_failures t)
    (ignore_reduce_failures t) (map_allow_duplicates t)
    (reduce_allow_duplicates t).

Definition set_has_reduce_retry (v : bool) (t : JobDescriptor) : JobDescriptor :=
  Build_JobDescriptor
    (inputs t) (output t) (input_format t) (split_size t) (job_type t)
    (map_total t) (reduce_total t) (has_reduce_total t) (map_capacity t)
    (reduce_capacity t) (has_reduce_capacity t) (map_retry t)
    (has_map_retry t) (reduce_retry t) v (ignore_map_failures t)
    (ignore_reduce_failures t) (map_allow_duplicates t)
    (reduce_allow_duplicates t).

(** ** The tracker

    The members of [JobTracker] that carry state.  A null pointer is [None]
    (or [false] for [rpc_client_] and [fs_], whose objects hold nothing the
    tracker reads).  [map_] and [reduce_] are the Galaxy handles ([Gru]),
    kept as the mode they were created with; [monitor_] is the one-thread
    pool, kept as the tasks queued on it (delay in milliseconds, [map_now]).
    [trace_] is ghost state. *)

Record JobTracker := Build_JobTracker {
  job_id_ : string;
  job_descriptor_ : JobDescriptor;
  state_ : JobState;
  map_allow_duplicates_ : bool;
  reduce_allow_duplicates_ : bool;
  map_ : option WorkMode;
  map_manager_ : option (list ResourceItem);
  map_end_game_begin_ : Z;
  map_killed_ : Z;
  map_failed_ : Z;
  reduce_begin_ : Z;
  reduce_ : option WorkMode;
  reduce_manager_ : option (list IdItem);
  reduce_end_game_begin_ : Z;
  reduce_killed_ : Z;
  reduce_failed_ : Z;
  monitor_ : option (list (Z * bool));
  map_monitoring_ : bool;
  reduce_monitoring_ : bool;
  rpc_client_ : bool;
  fs_ : bool;
  start_time_ : Z;
  finish_time_ : Z;
  ignored_map_failures_ : Z;
  ignored_reduce_failures_ : Z;
  allocation_table_ : list AllocateItem.t;
  map_index_ : gmap Z (gmap Z nat);
  reduce_index_ : gmap Z (gmap Z nat);
  time_heap_ : list nat;
  map_slug_ : list Z;
  reduce_slug_ : list Z;
  failed_count_ : list Z;
  failed_nodes_ : gmap Z (gset string);
  ignore_failure_mappers_ : gset Z;
  ignore_failure_reducers_ : gset Z;
  map_dismissed_ : gset string;
  reduce_dismissed_ : gset string;
  counters_ : gmap string Z;
  error_msg_ : string;
  trace_ : list Event
}.

(** Assignments to one member. *)

Definition set_job_id_ (v : string) (t : JobTracker) : JobTracker :=
  Build_JobTracker
    v (job_descriptor_ t) (state_ t) (map_allow_duplicates_ t)
    (reduce_allow_duplicates_ t) (map_ t) (map_manager_ t)
    (map_end_game_begin_ t) (map_killed_ t) (map_failed_ t) (reduce_begin_ t)
    (reduce_ t) (reduce_manager_ t) (reduce_end_game_begin_ t)
    (reduce_killed_ t) (reduce_failed_ t) (monitor_ t) (map_monitoring_ t)
    (reduce_monitoring_ t) (rpc_client_ t) (fs_ t) (start_time_ t)
    (finish_time_ t) (ignored_map_failures_ t) (ignored_reduce_failures_ t)
    (allocation_table_ t) (map_index_ t) (reduce_index_ t) (time_heap_ t)
    (map_slug_ t) (reduce_slug_ t) (failed_count_ t) (failed_nodes_ t)
    (ignore_failure_mappers_ t) (ignore_failure_reducers_ t)
    (map_dismissed_ t) (reduce_dismissed_ t) (counters_ t) (error_msg_ t)
    (trace_ t).

Definition set_job_descriptor_ (v : JobDescriptor) (t : JobTracker) : JobTracker :=
  Build_JobTracker
    (job_id_ t) v (state_ t) (map_allow_duplicates_ t)
    (reduce_allow_duplicates_ t) (map_ t) (map_manager_ t)
    (map_end_game_begin_ t) (map_killed_ t) (map_failed_ t) (reduce_begin_ t)
    (reduce_ t) (reduce_manager_ t) (reduce_end_game_begin_ t)
    (reduce_killed_ t) (reduce_failed_ t) (monitor_ t) (map_monitoring_ t)
    (reduce_monitoring_ t) (rpc_client_ t) (fs_ t) (start_time_ t)
    (finish_time_ t) (ignored_map_failures_ t) (ignored_reduce_failures_ t)
    (allocation_table_ t) (map_index_ t) (reduce_index_ t) (time_heap_ t)
    (map_slug_ t) (reduce_slug_ t) (failed_count_ t) (failed_nodes_ t)
    (ignore_failure_mappers_ t) (ignore_failure_reducers_ t)
    (map_dismissed_ t) (reduce_dismissed_ t) (counters_ t) (error_msg_ t)
    (trace_ t).

Definition set_state_ (v : JobState) (t : JobTracker) : JobTracker :=
  Build_JobTracker
    (job_id_ t) (job_descriptor_ t) v (map_allow_duplicates_ t)
    (reduce_allow_duplicates_ t) (map_ t) (map_manager_ t)
    (map_end_game_begin_ t) (map_killed_ t) (map_failed_ t) (reduce_begin_ t)
    (reduce_ t) (reduce_manager_ t) (reduce_end_game_begin_ t)
    (reduce_killed_ t) (reduce_failed_ t) (monitor_ t) (map_monitoring_ t)
    (reduce_monitoring_ t) (rpc_client_ t) (fs_ t) (start_time_ t)
    (finish_time_ t) (ignored_map_failures_ t) (ignored_reduce_failures_ t)
    (allocation_table_ t) (map_index_ t) (reduce_index_ t) (time_heap_ t)
    (map_slug_ t) (reduce_slug_ t) (failed_count_ t) (failed_nodes_ t)
    (ignore_failure_mappers_ t) (ignore_failure_reducers_ t)
    (map_dismissed_ t) (reduce_dismissed_ t) (counters_ t) (error_msg_ t)
    (trace_ t).

Definition set_map_ (v : option WorkMode) (t : JobTracker) : JobTracker :=
  Build_JobTracker
    (job_id_ t) (job_descriptor_ t) (state_ t) (map_allow_duplicates_ t)
    (reduce_allow_duplicates_ t) v (map_manager_ t) (map_end_game_begin_ t)
    (map_killed_ t) (map_failed_ t) (reduce_begin_ t) (reduce_ t)
    (reduce_manager_ t) (reduce_end_game_begin_ t) (reduce_killed_ t)
    (reduce_failed_ t) (monitor_ t) (map_monitoring_ t) (reduce_monitoring_ t)
    (rpc_client_ t) (fs_ t) (start_time_ t) (finish_time_ t)
    (ignored_map_failures_ t) (ignored_reduce_failures_ t)
    (allocation_table_ t) (map_index_ t) (reduce_index_ t) (time_heap_ t)
    (map_slug_ t) (reduce_slug_ t) (failed_count_ t) (failed_nodes_ t)
    (ignore_failure_mappers_ t) (ignore_failure_reducers_ t)
    (map_dismissed_ t) (reduce_dismissed_ t) (counters_ t) (error_msg_ t)
    (trace_ t).

Definition set_map_manager_ (v : option (list ResourceItem)) (t : JobTracker) : JobTracker :=
  Build_JobTracker
    (job_id_ t) (job_descriptor_ t) (state_ t) (map_allow_duplicates_ t)
    (reduce_allow_duplicates_ t) (map_ t) v (map_end_game_begin_ t)
    (map_killed_ t) (map_failed_ t) (reduce_begin_ t) (reduce_ t)
    (reduce_manager_ t) (reduce_end_game_begin_ t) (reduce_killed_ t)
    (reduce_failed_ t) (monitor_ t) (map_monitoring_ t) (reduce_monitoring_ t)
    (rpc_client_ t) (fs_ t) (start_time_ t) (finish_time_ t)
    (ignored_map_failures_ t) (ignored_reduce_failures_ t)
    (allocation_table_ t) (map_index_ t) (reduce_index_ t) (time_heap_ t)
    (map_slug_ t) (reduce_slug_ t) (failed_count_ t) (failed_nodes_ t)
    (ignore_failure_mappers_ t) (ignore_failure_reducers_ t)
    (map_dismissed_ t) (reduce_dismissed_ t) (counters_ t) (error_msg_ t)
    (trace_ t).

Definition set_map_end_game_begin_ (v : Z) (t : JobTracker) : JobTracker :=
  Build_JobTracker
    (job_id_ t) (job_descriptor_ t) (state_ t) (map_allow_duplicates_ t)
    (reduce_allow_duplicates_ t) (map_ t) (map_manager_ t) v (map_killed_ t)
    (map_failed_ t) (reduce_begin_ t) (reduce_ t) (reduce_manager_ t)
    (reduce_end_game_begin_ t) (reduce_killed_ t) (reduce_failed_ t)
    (monitor_ t) (map_monitoring_ t) (reduce_monitoring_ t) (rpc_client_ t)
    (fs_ t) (start_time_ t) (finish_time_ t) (ignored_map_failures_ t)
    (ignored_reduce_failures_ t) (allocation_table_ t) (map_index_ t)
    (reduce_index_ t) (time_heap_ t) (map_slug_ t) (reduce_slug_ t)
    (failed_count_ t) (failed_nodes_ t) (ignore_failure_mappers_ t)
    (ignore_failure_reducers_ t) (map_dismissed_ t) (reduce_dismissed_ t)
    (counters_ t) (error_msg_ t) (trace_ t).

Definition set_map_killed_ (v : Z) (t : JobTracker) : JobTracker :=
  Build_JobTracker
    (job_id_ t) (job_descriptor_ t) (state_ t) (map_allow_duplicates_ t)
    (reduce_allow_duplicates_ t) (map_ t) (map_manager_ t)
    (map_end_game_begin_ t) v (map_failed_ t) (reduce_begin_ t) (reduce_ t)
    (reduce_manager_ t) (reduce_end_game_begin_ t) (reduce_killed_ t)
    (reduce_failed_ t) (monitor_ t) (map_monitoring_ t) (reduce_monitoring_ t)
    (rpc_client_ t) (fs_ t) (start_time_ t) (finish_time_ t)
    (ignored_map_failures_ t) (ignored_reduce_failures_ t)
    (allocation_table_ t) (map_index_ t) (reduce_index_ t) (time_heap_ t)
    (map_slug_ t) (reduce_slug_ t) (failed_count_ t) (failed_nodes_ t)
    (ignore_failure_mappers_ t) (ignore_failure_reducers_ t)
    (map_dismissed_ t) (reduce_dismissed_ t) (counters_ t) (error_msg_ t)
    (trace_ t).

Definition set_map_failed_ (v : Z) (t : JobTracker) : JobTracker :=
  Build_JobTracker
    (job_id_ t) (job_descriptor_ t) (state_ t) (map_allow_duplicates_ t)
    (reduce_allow_duplicates_ t) (map_ t) (map_manager_ t)
    (map_end_game_begin_ t) (map_killed_ t) v (reduce_begin_ t) (reduce_ t)
    (reduce_manager_ t) (reduce_end_game_begin_ t) (reduce_killed_ t)
    (reduce_failed_ t) (monitor_ t) (map_monitoring_ t) (reduce_monitoring_ t)
    (rpc_client_ t) (fs_ t) (start_time_ t) (finish_time_ t)
    (ignored_map_failures_ t) (ignored_reduce_failures_ t)
    (allocation_table_ t) (map_index_ t) (reduce_index_ t) (time_heap_ t)
    (map_slug_ t) (reduce_slug_ t) (failed_count_ t) (failed_nodes_ t)
    (ignore_failure_mappers_ t) (ignore_failure_reducers_ t)
    (map_dismissed_ t) (reduce_dismissed_ t) (counters_ t) (error_msg_ t)
    (trace_ t).

Definition set_reduce_begin_ (v : Z) (t : JobTracker) : JobTracker :=
  Build_JobTracker
    (job_id_ t) (job_descriptor_ t) (state_ t) (map_allow_duplicates_ t)
    (reduce_allow_duplicates_ t) (map_ t) (map_manager_ t)
    (map_end_game_begin_ t) (map_killed_ t) (map_failed_ t) v (reduce_ t)
    (reduce_manager_ t) (reduce_end_game_begin_ t) (reduce_killed_ t)
    (reduce_failed_ t) (monitor_ t) (map_monitoring_ t) (reduce_monitoring_ t)
    (rpc_client_ t) (fs_ t) (start_time_ t) (finish_time_ t)
    (ignored_map_failures_ t) (ignored_reduce_failures_ t)
    (allocation_table_ t) (map_index_ t) (reduce_index_ t) (time_heap_ t)
    (map_slug_ t) (reduce_slug_ t) (failed_count_ t) (failed_nodes_ t)
    (ignore_failure_mappers_ t) (ignore_failure_reducers_ t)
    (map_dismissed_ t) (reduce_dismissed_ t) (counters_ t) (error_msg_ t)
    (trace_ t).

Definition set_reduce_ (v : option WorkMode) (t : JobTracker) : JobTracker :=
  Build_JobTracker
    (job_id_ t) (job_descriptor_ t) (state_ t) (map_allow_duplicates_ t)
    (reduce_allow_duplicates_ t) (map_ t) (map_manager_ t)
    (map_end_game_begin_ t) (map_killed_ t) (map_failed_ t) (reduce_begin_ t)
    v (reduce_manager_ t) (reduce_end_game_begin_ t) (reduce_killed_ t)
    (reduce_failed_ t) (monitor_ t) (map_monitoring_ t) (reduce_monitoring_ t)
    (rpc_client_ t) (fs_ t) (start_time_ t) (finish_time_ t)
    (ignored_map_failures_ t) (ignored_reduce_failures_ t)
    (allocation_table_ t) (map_index_ t) (reduce_index_ t) (time_heap_ t)
    (map_slug_ t) (reduce_slug_ t) (failed_count_ t) (failed_nodes_ t)
    (ignore_failure_mappers_ t) (ignore_failure_reducers_ t)
    (map_dismissed_ t) (reduce_dismissed_ t) (counters_ t) (error_msg_ t)
    (trace_ t).

Definition set_reduce_manager_ (v : option (list IdItem)) (t : JobTracker) : JobTracker :=
  Build_JobTracker
    (job_id_ t) (job_descriptor_ t) (state_ t) (map_allow_duplicates_ t)
    (reduce_allow_duplicates_ t) (map_ t) (map_manager_ t)
    (map_end_game_begin_ t) (map_killed_ t) (map_failed_ t) (reduce_begin_ t)
    (reduce_ t) v (reduce_end_game_begin_ t) (reduce_killed_ t)
    (reduce_failed_ t) (monitor_ t) (map_monitoring_ t) (reduce_monitoring_ t)
    (rpc_client_ t) (fs_ t) (start_time_ t) (finish_time_ t)
    (ignored_map_failures_ t) (ignored_reduce_failures_ t)
    (allocation_table_ t) (map_index_ t) (reduce_index_ t) (time_heap_ t)
    (map_slug_ t) (reduce_slug_ t) (failed_count_ t) (failed_nodes_ t)
    (ignore_failure_mappers_ t) (ignore_failure_reducers_ t)
    (map_dismissed_ t) (reduce_dismissed_ t) (counters_ t) (error_msg_ t)
    (trace_ t).

Definition set_reduce_end_game_begin_ (v : Z) (t : JobTracker) : JobTracker :=
  Build_JobTracker
    (job_id_ t) (job_descriptor_ t) (state_ t) (map_allow_duplicates_ t)
    (reduce_allow_duplicates_ t) (map_ t) (map_manager_ t)
    (map_end_game_begin_ t) (map_killed_ t) (map_failed_ t) (reduce_begin_ t)
    (reduce_ t) (reduce_manager_ t) v (reduce_killed_ t) (reduce_failed_ t)
    (monitor_ t) (map_monitoring_ t) (reduce_monitoring_ t) (rpc_client_ t)
    (fs_ t) (start_time_ t) (finish_time_ t) (ignored_map_failures_ t)
    (ignored_reduce_failures_ t) (allocation_table_ t) (map_index_ t)
    (reduce_index_ t) (time_heap_ t) (map_slug_ t) (reduce_slug_ t)
    (failed_count_ t) (failed_nodes_ t) (ignore_failure_mappers_ t)
    (ignore_failure_reducers_ t) (map_dismissed_ t) (reduce_dismissed_ t)
    (counters_ t) (error_msg_ t) (trace_ t).

Definition set_reduce_killed_ (v : Z) (t : JobTracker) : JobTracker :=
  Build_JobTracker
    (job_id_ t) (job_descriptor_ t) (state_ t) (map_allow_duplicates_ t)
    (reduce_allow_duplicates_ t) (map_ t) (map_manager_ t)
    (map_end_game_begin_ t) (map_killed_ t) (map_failed_ t) (reduce_begin_ t)
    (reduce_ t) (reduce_manager_ t) (reduce_end_game_begin_ t) v
    (reduce_failed_ t) (monitor_ t) (map_monitoring_ t) (reduce_monitoring_ t)
    (rpc_client_ t) (fs_ t) (start_time_ t) (finish_time_ t)
    (ignored_map_failures_ t) (ignored_reduce_failures_ t)
    (allocation_table_ t) (map_index_ t) (reduce_index_ t) (time_heap_ t)
    (map_slug_ t) (reduce_slug_ t) (failed_count_ t) (failed_nodes_ t)
    (ignore_failure_mappers_ t) (ignore_failure_reducers_ t)
    (map_dismissed_ t) (reduce_dismissed_ t) (counters_ t) (error_msg_ t)
    (trace_ t).

Definition set_reduce_failed_ (v : Z) (t : JobTracker) : JobTracker :=
  Build_JobTracker
    (job_id_ t) (job_descriptor_ t) (state_ t) (map_allow_duplicates_ t)
    (reduce_allow_duplicates_ t) (map_ t) (map_manager_ t)
    (map_end_game_begin_ t) (map_killed_ t) (map_failed_ t) (reduce_begin_ t)
    (reduce_ t) (reduce_manager_ t) (reduce_end_game_begin_ t)
    (reduce_killed_ t) v (monitor_ t) (map_monitoring_ t)
    (reduce_monitoring_ t) (rpc_client_ t) (fs_ t) (start_time_ t)
    (finish_time_ t) (ignored_map_failures_ t) (ignored_reduce_failures_ t)
    (allocation_table_ t) (map_index_ t) (reduce_index_ t) (time_heap_ t)
    (map_slug_ t) (reduce_slug_ t) (failed_count_ t) (failed_nodes_ t)
    (ignore_failure_mappers_ t) (ignore_failure_reducers_ t)
    (map_dismissed_ t) (reduce_dismissed_ t) (counters_ t) (error_msg_ t)
    (trace_ t).

Definition set_monitor_ (v : option (list (Z * bool))) (t : JobTracker) : JobTracker :=
  Build_JobTracker
    (job_id_ t) (job_descriptor_ t) (state_ t) (map_allow_duplicates_ t)
    (reduce_allow_duplicates_ t) (map_ t) (map_manager_ t)
    (map_end_game_begin_ t) (map_killed_ t) (map_failed_ t) (reduce_begin_ t)
    (reduce_ t) (reduce_manager_ t) (reduce_end_game_begin_ t)
    (reduce_killed_ t) (reduce_failed_ t) v (map_monitoring_ t)
    (reduce_monitoring_ t) (rpc_client_ t) (fs_ t) (start_time_ t)
    (finish_time_ t) (ignored_map_failures_ t) (ignored_reduce_failures_ t)
    (allocation_table_ t) (map_index_ t) (reduce_index_ t) (time_heap_ t)
    (map_slug_ t) (reduce_slug_ t) (failed_count_ t) (failed_nodes_ t)
    (ignore_failure_mappers_ t) (ignore_failure_reducers_ t)
    (map_dismissed_ t) (reduce_dismissed_ t) (counters_ t) (error_msg_ t)
    (trace_ t).

Definition set_map_monitoring_ (v : bool) (t : JobTracker) : JobTracker :=
  Build_JobTracker
    (job_id_ t) (job_descriptor_ t) (state_ t) (map_allow_duplicates_ t)
    (reduce_allow_duplicates_ t) (map_ t) (map_manager_ t)
    (map_end_game_begin_ t) (map_killed_ t) (map_failed_ t) (reduce_begin_ t)
    (reduce_ t) (reduce_manager_ t) (reduce_end_game_begin_ t)
    (reduce_killed_ t) (reduce_failed_ t) (monitor_ t) v
    (reduce_monitoring_ t) (rpc_client_ t) (fs_ t) (start_time_ t)
    (finish_time_ t) (ignored_map_failures_ t) (ignored_reduce_failures_ t)
    (allocation_table_ t) (map_index_ t) (reduce_index_ t) (time_heap_ t)
    (map_slug_ t) (reduce_slug_ t) (failed_count_ t) (failed_nodes_ t)
    (ignore_failure_mappers_ t) (ignore_failure_reducers_ t)
    (map_dismissed_ t) (reduce_dismissed_ t) (counters_ t) (error_msg_ t)
    (trace_ t).

Definition set_reduce_monitoring_ (v : bool) (t : JobTracker) : JobTracker :=
  Build_JobTracker
    (job_id_ t) (job_descriptor_ t) (state_ t) (map_allow_duplicates_ t)
    (reduce_allow_duplicates_ t) (map_ t) (map_manager_ t)
    (map_end_game_begin_ t) (map_killed_ t) (map_failed_ t) (reduce_begin_ t)
    (reduce_ t) (reduce_manager_ t) (reduce_end_game_begin_ t)
    (reduce_killed_ t) (reduce_failed_ t) (monitor_ t) (map_monitoring_ t) v
    (rpc_client_ t) (fs_ t) (start_time_ t) (finish_time_ t)
    (ignored_map_failures_ t) (ignored_reduce_failures_ t)
    (allocation_table_ t) (map_index_ t) (reduce_index_ t) (time_heap_ t)
    (map_slug_ t) (reduce_slug_ t) (failed_count_ t) (failed_nodes_ t)
    (ignore_failure_mappers_ t) (ignore_failure_reducers_ t)
    (map_dismissed_ t) (reduce_dismissed_ t) (counters_ t) (error_msg_ t)
    (trace_ t).

Definition set_rpc_client_ (v : bool) (t : JobTracker) : JobTracker :=
  Build_JobTracker
    (job_id_ t) (job_descriptor_ t) (state_ t) (map_allow_duplicates_ t)
    (reduce_allow_duplicates_ t) (map_ t) (map_manager_ t)
    (map_end_game_begin_ t) (map_killed_ t) (map_failed_ t) (reduce_begin_ t)
    (reduce_ t) (reduce_manager_ t) (reduce_end_game_begin_ t)
    (reduce_killed_ t) (reduce_failed_ t) (monitor_ t) (map_monitoring_ t)
    (reduce_monitoring_ t) v (fs_ t) (start_time_ t) (finish_time_ t)
    (ignored_map_failures_ t) (ignored_reduce_failures_ t)
    (allocation_table_ t) (map_index_ t) (reduce_index_ t) (time_heap_ t)
    (map_slug_ t) (reduce_slug_ t) (failed_count_ t) (failed_nodes_ t)
    (ignore_failure_mappers_ t) (ignore_failure_reducers_ t)
    (map_dismissed_ t) (reduce_dismissed_ t) (counters_ t) (error_msg_ t)
    (trace_ t).

Definition set_fs_ (v : bool) (t : JobTracker) : JobTracker :=
  Build_JobTracker
    (job_id_ t) (job_descriptor_ t) (state_ t) (map_allow_duplicates_ t)
    (reduce_allow_duplicates_ t) (map_ t) (map_manager_ t)
    (map_end_game_begin_ t) (map_killed_ t) (map_failed_ t) (reduce_begin_ t)
    (reduce_ t) (reduce_manager_ t) (reduce_end_game_begin_ t)
    (reduce_killed_ t) (reduce_failed_ t) (monitor_ t) (map_monitoring_ t)
    (reduce_monitoring_ t) (rpc_client_ t) v (start_time_ t) (finish_time_ t)
    (ignored_map_failures_ t) (ignored_reduce_failures_ t)
    (allocation_table_ t) (map_index_ t) (reduce_index_ t) (time_heap_ t)
    (map_slug_ t) (reduce_slug_ t) (failed_count_ t) (failed_nodes_ t)
    (ignore_failure_mappers_ t) (ignore_failure_reducers_ t)
    (map_dismissed_ t) (reduce_dismissed_ t) (counters_ t) (error_msg_ t)
    (trace_ t).

Definition set_start_time_ (v : Z) (t : JobTracker) : JobTracker :=
  Build_JobTracker
    (job_id_ t) (job_descriptor_ t) (state_ t) (map_allow_duplicates_ t)
    (reduce_allow_duplicates_ t) (map_ t) (map_manager_ t)
    (map_end_game_begin_ t) (map_killed_ t) (map_failed_ t) (reduce_begin_ t)
    (reduce_ t) (reduce_manager_ t) (reduce_end_game_begin_ t)
    (reduce_killed_ t) (reduce_failed_ t) (monitor_ t) (map_monitoring_ t)
    (reduce_monitoring_ t) (rpc_client_ t) (fs_ t) v (finish_time_ t)
    (ignored_map_failures_ t) (ignored_reduce_failures_ t)
    (allocation_table_ t) (map_index_ t) (reduce_index_ t) (time_heap_ t)
    (map_slug_ t) (reduce_slug_ t) (failed_count_ t) (failed_nodes_ t)
    (ignore_failure_mappers_ t) (ignore_failure_reducers_ t)
    (map_dismissed_ t) (reduce_dismissed_ t) (counters_ t) (error_msg_ t)
    (trace_ t).

Definition set_finish_time_ (v : Z) (t : JobTracker) : JobTracker :=
  Build_JobTracker
    (job_id_ t) (job_descriptor_ t) (state_ t) (map_allow_duplicates_ t)
    (reduce_allow_duplicates_ t) (map_ t) (map_manager_ t)
    (map_end_game_begin_ t) (map_killed_ t) (map_failed_ t) (reduce_begin_ t)
    (reduce_ t) (reduce_manager_ t) (reduce_end_game_begin_ t)
    (reduce_killed_ t) (reduce_failed_ t) (monitor_ t) (map_monitoring_ t)
    (reduce_monitoring_ t) (rpc_client_ t) (fs_ t) (start_time_ t) v
    (ignored_map_failures_ t) (ignored_reduce_failures_ t)
    (allocation_table_ t) (map_index_ t) (reduce_index_ t) (time_heap_ t)
    (map_slug_ t) (reduce_slug_ t) (failed_count_ t) (failed_nodes_ t)
    (ignore_failure_mappers_ t) (ignore_failure_reducers_ t)
    (map_dismissed_ t) (reduce_dismissed_ t) (counters_ t) (error_msg_ t)
    (trace_ t).

Definition set_ignored_map_failures_ (v : Z) (t : JobTracker) : JobTracker :=
  Build_JobTracker
    (job_id_ t) (job_descriptor_ t) (state_ t) (map_allow_duplicates_ t)
    (reduce_allow_duplicates_ t) (map_ t) (map_manager_ t)
    (map_end_game_begin_ t) (map_killed_ t) (map_failed_ t) (reduce_begin_ t)
    (reduce_ t) (reduce_manager_ t) (reduce_end_game_begin_ t)
    (reduce_killed_ t) (reduce_failed_ t) (monitor_ t) (map_monitoring_ t)
    (reduce_monitoring_ t) (rpc_client_ t) (fs_ t) (start_time_ t)
    (finish_time_ t) v (ignored_reduce_failures_ t) (allocation_table_ t)
    (map_index_ t) (reduce_index_ t) (time_heap_ t) (map_slug_ t)
    (reduce_slug_ t) (failed_count_ t) (failed_nodes_ t)
    (ignore_failure_mappers_ t) (ignore_failure_reducers_ t)
    (map_dismissed_ t) (reduce_dismissed_ t) (counters_ t) (error_msg_ t)
    (trace_ t).

Definition set_ignored_reduce_failures_ (v : Z) (t : JobTracker) : JobTracker :=
  Build_JobTracker
    (job_id_ t) (job_descriptor_ t) (state_ t) (map_allow_duplicates_ t)
    (reduce_allow_duplicates_ t) (map_ t) (map_manager_ t)
    (map_end_game_begin_ t) (map_killed_ t) (map_failed_ t) (reduce_begin_ t)
    (reduce_ t) (reduce_manager_ t) (reduce_end_game_begin_ t)
    (reduce_killed_ t) (reduce_failed_ t) (monitor_ t) (map_monitoring_ t)
    (reduce_monitoring_ t) (rpc_client_ t) (fs_ t) (start_time_ t)
    (finish_time_ t) (ignored_map_failures_ t) v (allocation_table_ t)
    (map_index_ t) (reduce_index_ t) (time_heap_ t) (map_slug_ t)
    (reduce_slug_ t) (failed_count_ t) (failed_nodes_ t)
    (ignore_failure_mappers_ t) (ignore_failure_reducers_ t)
    (map_dismissed_ t) (reduce_dismissed_ t) (counters_ t) (error_msg_ t)
    (trace_ t).

Definition set_allocation_table_ (v : list AllocateItem.t) (t : JobTracker) : JobTracker :=
  Build_JobTracker
    (job_id_ t) (job_descriptor_ t) (state_ t) (map_allow_duplicates_ t)
    (reduce_allow_duplicates_ t) (map_ t) (map_manager_ t)
    (map_end_game_begin_ t) (map_killed_ t) (map_failed_ t) (reduce_begin_ t)
    (reduce_ t) (reduce_manager_ t) (reduce_end_game_begin_ t)
    (reduce_killed_ t) (reduce_failed_ t) (monitor_ t) (map_monitoring_ t)
    (reduce_monitoring_ t) (rpc_client_ t) (fs_ t) (start_time_ t)
    (finish_time_ t) (ignored_map_failures_ t) (ignored_reduce_failures_ t) v
    (map_index_ t) (reduce_index_ t) (time_heap_ t) (map_slug_ t)
    (reduce_slug_ t) (failed_count_ t) (failed_nodes_ t)
    (ignore_failure_mappers_ t) (ignore_failure_reducers_ t)
    (map_dismissed_ t) (reduce_dismissed_ t) (counters_ t) (error_msg_ t)
    (trace_ t).

Definition set_map_index_ (v : gmap Z (gmap Z nat)) (t : JobTracker) : JobTracker :=
  Build_JobTracker
    (job_id_ t) (job_descriptor_ t) (state_ t) (map_allow_duplicates_ t)
    (reduce_allow_duplicates_ t) (map_ t) (map_manager_ t)
    (map_end_game_begin_ t) (map_killed_ t) (map_failed_ t) (reduce_begin_ t)
    (reduce_ t) (reduce_manager_ t) (reduce_end_game_begin_ t)
    (reduce_killed_ t) (reduce_failed_ t) (monitor_ t) (map_monitoring_ t)
    (reduce_monitoring_ t) (rpc_client_ t) (fs_ t) (start_time_ t)
    (finish_time_ t) (ignored_map_failures_ t) (ignored_reduce_failures_ t)
    (allocation_table_ t) v (reduce_index_ t) (time_heap_ t) (map_slug_ t)
    (reduce_slug_ t) (failed_count_ t) (failed_nodes_ t)
    (ignore_failure_mappers_ t) (ignore_failure_reducers_ t)
    (map_dismissed_ t) (reduce_dismissed_ t) (counters_ t) (error_msg_ t)
    (trace_ t).

Definition set_reduce_index_ (v : gmap Z (gmap Z nat)) (t : JobTracker) : JobTracker :=
  Build_JobTracker
    (job_id_ t) (job_descriptor_ t) (state_ t) (map_allow_duplicates_ t)
    (reduce_allow_duplicates_ t) (map_ t) (map_manager_ t)
    (map_end_game_begin_ t) (map_killed_ t) (map_failed_ t) (reduce_begin_ t)
    (reduce_ t) (reduce_manager_ t) (reduce_end_game_begin_ t)
    (reduce_killed_ t) (reduce_failed_ t) (monitor_ t) (map_monitoring_ t)
    (reduce_monitoring_ t) (rpc_client_ t) (fs_ t) (start_time_ t)
    (finish_time_ t) (ignored_map_failures_ t) (ignored_reduce_failures_ t)
    (allocation_table_ t) (map_index_ t) v (time_heap_ t) (map_slug_ t)
    (reduce_slug_ t) (failed_count_ t) (failed_nodes_ t)
    (ignore_failure_mappers_ t) (ignore_failure_reducers_ t)
    (map_dismissed_ t) (reduce_dismissed_ t) (counters_ t) (error_msg_ t)
    (trace_ t).

Definition set_time_heap_ (v : list nat) (t : JobTracker) : JobTracker :=
  Build_JobTracker
    (job_id_ t) (job_descriptor_ t) (state_ t) (map_allow_duplicates_ t)
    (reduce_allow_duplicates_ t) (map_ t) (map_manager_ t)
    (map_end_game_begin_ t) (map_killed_ t) (map_failed_ t) (reduce_begin_ t)
    (reduce_ t) (reduce_manager_ t) (reduce_end_game_begin_ t)
    (reduce_killed_ t) (reduce_failed_ t) (monitor_ t) (map_monitoring_ t)
    (reduce_monitoring_ t) (rpc_client_ t) (fs_ t) (start_time_ t)
    (finish_time_ t) (ignored_map_failures_ t) (ignored_reduce_failures_ t)
    (allocation_table_ t) (map_index_ t) (reduce_index_ t) v (map_slug_ t)
    (reduce_slug_ t) (failed_count_ t) (failed_nodes_ t)
    (ignore_failure_mappers_ t) (ignore_failure_reducers_ t)
    (map_dismissed_ t) (reduce_dismissed_ t) (counters_ t) (error_msg_ t)
    (trace_ t).

Definition set_map_slug_ (v : list Z) (t : JobTracker) : JobTracker :=
  Build_JobTracker
    (job_id_ t) (job_descriptor_ t) (state_ t) (map_allow_duplicates_ t)
    (reduce_allow_duplicates_ t) (map_ t) (map_manager_ t)
    (map_end_game_begin_ t) (map_killed_ t) (map_failed_ t) (reduce_begin_ t)
    (reduce_ t) (reduce_manager_ t) (reduce_end_game_begin_ t)
    (reduce_killed_ t) (reduce_failed_ t) (monitor_ t) (map_monitoring_ t)
    (reduce_monitoring_ t) (rpc_client_ t) (fs_ t) (start_time_ t)
    (finish_time_ t) (ignored_map_failures_ t) (ignored_reduce_failures_ t)
    (allocation_table_ t) (map_index_ t) (reduce_index_ t) (time_heap_ t) v
    (reduce_slug_ t) (failed_count_ t) (failed_nodes_ t)
    (ignore_failure_mappers_ t) (ignore_failure_reducers_ t)
    (map_dismissed_ t) (reduce_dismissed_ t) (counters_ t) (error_msg_ t)
    (trace_ t).

Definition set_reduce_slug_ (v : list Z) (t : JobTracker) : JobTracker :=
  Build_JobTracker
    (job_id_ t) (job_descriptor_ t) (state_ t) (map_allow_duplicates_ t)
    (reduce_allow_duplicates_ t) (map_ t) (map_manager_ t)
    (map_end_game_begin_ t) (map_killed_ t) (map_failed_ t) (reduce_begin_ t)
    (reduce_ t) (reduce_manager_ t) (reduce_end_game_begin_ t)
    (reduce_killed_ t) (reduce_failed_ t) (monitor_ t) (map_monitoring_ t)
    (reduce_monitoring_ t) (rpc_client_ t) (fs_ t) (start_time_ t)
    (finish_time_ t) (ignored_map_failures_ t) (ignored_reduce_failures_ t)
    (allocation_table_ t) (map_index_ t) (reduce_index_ t) (time_heap_ t)
    (map_slug_ t) v (failed_count_ t) (failed_nodes_ t)
    (ignore_failure_mappers_ t) (ignore_failure_reducers_ t)
    (map_dismissed_ t) (reduce_dismissed_ t) (counters_ t) (error_msg_ t)
    (trace_ t).

Definition set_failed_count_ (v : list Z) (t : JobTracker) : JobTracker :=
  Build_JobTracker
    (job_id_ t) (job_descriptor_ t) (state_ t) (map_allow_duplicates_ t)
    (reduce_allow_duplicates_ t) (map_ t) (map_manager_ t)
    (map_end_game_begin_ t) (map_killed_ t) (map_failed_ t) (reduce_begin_ t)
    (reduce_ t) (reduce_manager_ t) (reduce_end_game_begin_ t)
    (reduce_killed_ t) (reduce_failed_ t) (monitor_ t) (map_monitoring_ t)
    (reduce_monitoring_ t) (rpc_client_ t) (fs_ t) (start_time_ t)
    (finish_time_ t) (ignored_map_failures_ t) (ignored_reduce_failures_ t)
    (allocation_table_ t) (map_index_ t) (reduce_index_ t) (time_heap_ t)
    (map_slug_ t) (reduce_slug_ t) v (failed_nodes_ t)
    (ignore_failure_mappers_ t) (ignore_failure_reducers_ t)
    (map_dismissed_ t) (reduce_dismissed_ t) (counters_ t) (error_msg_ t)
    (trace_ t).

Definition set_failed_nodes_ (v : gmap Z (gset string)) (t : JobTracker) : JobTracker :=
  Build_JobTracker
    (job_id_ t) (job_descriptor_ t) (state_ t) (map_allow_duplicates_ t)
    (reduce_allow_duplicates_ t) (map_ t) (map_manager_ t)
    (map_end_game_begin_ t) (map_killed_ t) (map_failed_ t) (reduce_begin_ t)
    (reduce_ t) (reduce_manager_ t) (reduce_end_game_begin_ t)
    (reduce_killed_ t) (reduce_failed_ t) (monitor_ t) (map_monitoring_ t)
    (reduce_monitoring_ t) (rpc_client_ t) (fs_ t) (start_time_ t)
    (finish_time_ t) (ignored_map_failures_ t) (ignored_reduce_failures_ t)
    (allocation_table_ t) (map_index_ t) (reduce_index_ t) (time_heap_ t)
    (map_slug_ t) (reduce_slug_ t) (failed_count_ t) v
    (ignore_failure_mappers_ t) (ignore_failure_reducers_ t)
    (map_dismissed_ t) (reduce_dismissed_ t) (counters_ t) (error_msg_ t)
    (trace_ t).

Definition set_ignore_failure_mappers_ (v : gset Z) (t : JobTracker) : JobTracker :=
  Build_JobTracker
    (job_id_ t) (job_descriptor_ t) (state_ t) (map_allow_duplicates_ t)
    (reduce_allow_duplicates_ t) (map_ t) (map_manager_ t)
    (map_end_game_begin_ t) (map_killed_ t) (map_failed_ t) (reduce_begin_ t)
    (reduce_ t) (reduce_manager_ t) (reduce_end_game_begin_ t)
    (reduce_killed_ t) (reduce_failed_ t) (monitor_ t) (map_monitoring_ t)
    (reduce_monitoring_ t) (rpc_client_ t) (fs_ t) (start_time_ t)
    (finish_time_ t) (ignored_map_failures_ t) (ignored_reduce_failures_ t)
    (allocation_table_ t) (map_index_ t) (reduce_index_ t) (time_heap_ t)
    (map_slug_ t) (reduce_slug_ t) (failed_count_ t) (failed_nodes_ t) v
    (ignore_failure_reducers_ t) (map_dismissed_ t) (reduce_dismissed_ t)
    (counters_ t) (error_msg_ t) (trace_ t).

Definition set_ignore_failure_reducers_ (v : gset Z) (t : JobTracker) : JobTracker :=
  Build_JobTracker
    (job_id_ t) (job_descriptor_ t) (state_ t) (map_allow_duplicates_ t)
    (reduce_allow_duplicates_ t) (map_ t) (map_manager_ t)
    (map_end_game_begin_ t) (map_killed_ t) (map_failed_ t) (reduce_begin_ t)
    (reduce_ t) (reduce_manager_ t) (reduce_end_game_begin_ t)
    (reduce_killed_ t) (reduce_failed_ t) (monitor_ t) (map_monitoring_ t)
    (reduce_monitoring_ t) (rpc_client_ t) (fs_ t) (start_time_ t)
    (finish_time_ t) (ignored_map_failures_ t) (ignored_reduce_failures_ t)
    (allocation_table_ t) (map_index_ t) (reduce_index_ t) (time_heap_ t)
    (map_slug_ t) (reduce_slug_ t) (failed_count_ t) (failed_nodes_ t)
    (ignore_failure_mappers_ t) v (map_dismissed_ t) (reduce_dismissed_ t)
    (counters_ t) (error_msg_ t) (trace_ t).

Definition set_map_dismissed_ (v : gset string) (t : JobTracker) : JobTracker :=
  Build_JobTracker
    (job_id_ t) (job_descriptor_ t) (state_ t) (map_allow_duplicates_ t)
    (reduce_allow_duplicates_ t) (map_ t) (map_manager_ t)
    (map_end_game_begin_ t) (map_killed_ t) (map_failed_ t) (reduce_begin_ t)
    (reduce_ t) (reduce_manager_ t) (reduce_end_game_begin_ t)
    (reduce_killed_ t) (reduce_failed_ t) (monitor_ t) (map_monitoring_ t)
    (reduce_monitoring_ t) (rpc_client_ t) (fs_ t) (start_time_ t)
    (finish_time_ t) (ignored_map_failures_ t) (ignored_reduce_failures_ t)
    (allocation_table_ t) (map_index_ t) (reduce_index_ t) (time_heap_ t)
    (map_slug_ t) (reduce_slug_ t) (failed_count_ t) (failed_nodes_ t)
    (ignore_failure_mappers_ t) (ignore_failure_reducers_ t) v
    (reduce_dismissed_ t) (counters_ t) (error_msg_ t) (trace_ t).

Definition set_reduce_dismissed_ (v : gset string) (t : JobTracker) : JobTracker :=
  Build_JobTracker
    (job_id_ t) (job_descriptor_ t) (state_ t) (map_allow_duplicates_ t)
    (reduce_allow_duplicates_ t) (map_ t) (map_manager_ t)
    (map_end_game_begin_ t) (map_killed_ t) (map_failed_ t) (reduce_begin_ t)
    (reduce_ t) (reduce_manager_ t) (reduce_end_game_begin_ t)
    (reduce_killed_ t) (reduce_failed_ t) (monitor_ t) (map_monitoring_ t)
    (reduce_monitoring_ t) (rpc_client_ t) (fs_ t) (start_time_ t)
    (finish_time_ t) (ignored_map_failures_ t) (ignored_reduce_failures_ t)
    (allocation_table_ t) (map_index_ t) (reduce_index_ t) (time_heap_ t)
    (map_slug_ t) (reduce_slug_ t) (failed_count_ t) (failed_nodes_ t)
    (ignore_failure_mappers_ t) (ignore_failure_reducers_ t)
    (map_dismissed_ t) v (counters_ t) (error_msg_ t) (trace_ t).

Definition set_counters_ (v : gmap string Z) (t : JobTracker) : JobTracker :=
  Build_JobTracker
    (job_id_ t) (job_descriptor_ t) (state_ t) (map_allow_duplicates_ t)
    (reduce_allow_duplicates_ t) (map_ t) (map_manager_ t)
    (map_end_game_begin_ t) (map_killed_ t) (map_failed_ t) (reduce_begin_ t)
    (reduce_ t) (reduce_manager_ t) (reduce_end_game_begin_ t)
    (reduce_killed_ t) (reduce_failed_ t) (monitor_ t) (map_monitoring_ t)
    (reduce_monitoring_ t) (rpc_client_ t) (fs_ t) (start_time_ t)
    (finish_time_ t) (ignored_map_failures_ t) (ignored_reduce_failures_ t)
    (allocation_table_ t) (map_index_ t) (reduce_index_ t) (time_heap_ t)
    (map_slug_ t) (reduce_slug_ t) (failed_count_ t) (failed_nodes_ t)
    (ignore_failure_mappers_ t) (ignore_failure_reducers_ t)
    (map_dismissed_ t) (reduce_dismissed_ t) v (error_msg_ t) (trace_ t).

Definition set_error_msg_ (v : string) (t : JobTracker) : JobTracker :=
  Build_JobTracker
    (job_id_ t) (job_descriptor_ t) (state_ t) (map_allow_duplicates_ t)
    (reduce_allow_duplicates_ t) (map_ t) (map_manager_ t)
    (map_end_game_begin_ t) (map_killed_ t) (map_failed_ t) (reduce_begin_ t)
    (reduce_ t) (reduce_manager_ t) (reduce_end_game_begin_ t)
    (reduce_killed_ t) (reduce_failed_ t) (monitor_ t) (map_monitoring_ t)
    (reduce_monitoring_ t) (rpc_client_ t) (fs_ t) (start_time_ t)
    (finish_time_ t) (ignored_map_failures_ t) (ignored_reduce_failures_ t)
    (allocation_table_ t) (map_index_ t) (reduce_index_ t) (time_heap_ t)
    (map_slug_ t) (reduce_slug_ t) (failed_count_ t) (failed_nodes_ t)
    (ignore_failure_mappers_ t) (ignore_failure_reducers_ t)
    (map_dismissed_ t) (reduce_dismissed_ t) (counters_ t) v (trace_ t).

Definition set_trace_ (v : list Event) (t : JobTracker) : JobTracker :=
  Build_JobTracker
    (job_id_ t) (job_descriptor_ t) (state_ t) (map_allow_duplicates_ t)
    (reduce_allow_duplicates_ t) (map_ t) (map_manager_ t)
    (map_end_game_begin_ t) (map_killed_ t) (map_failed_ t) (reduce_begin_ t)
    (reduce_ t) (reduce_manager_ t) (reduce_end_game_begin_ t)
    (reduce_killed_ t) (reduce_failed_ t) (monitor_ t) (map_monitoring_ t)
    (reduce_monitoring_ t) (rpc_client_ t) (fs_ t) (start_time_ t)
    (finish_time_ t) (ignored_map_failures_ t) (ignored_reduce_failures_ t)
    (allocation_table_ t) (map_index_ t) (reduce_index_ t) (time_heap_ t)
    (map_slug_ t) (reduce_slug_ t) (failed_count_ t) (failed_nodes_ t)
    (ignore_failure_mappers_ t) (ignore_failure_reducers_ t)
    (map_dismissed_ t) (reduce_dismissed_ t) (counters_ t) (error_msg_ t) v.

(** ** Helpers on the ledger *)

(** [endpoint.substr(0, endpoint.find(":"))], when there is a colon. *)
Fixpoint before_colon (s : string) : option string :=
  match s with
  | EmptyString => None
  | String c r =>
      if decide (c = ":"%char) then Some EmptyString
      else String c <$> before_colon r
  end.

(** [cur_node] of [FinishMap] and [FinishReduce]: empty without a colon. *)
Definition node_of (endpoint : string) : string :=
  default EmptyString (before_colon endpoint).

(** [index[no][attempt]], the lookup both [Finish] functions start with. *)
Definition index_find (index : gmap Z (gmap Z nat)) (n a : Z) : option nat :=
  index !! n ≫= λ m, m !! a.

(** [index[no][attempt] = alloc]. *)
Definition index_put (n a : Z) (ptr : nat) (index : gmap Z (gmap Z nat))
  : gmap Z (gmap Z nat) :=
  <[n := <[a := ptr]> (default ∅ (index !! n))]> index.

(** The entry a [Finish] call works on: the indexed one, if it is Running. *)
Definition find_running (index : gmap Z (gmap Z nat))
    (table : list AllocateItem.t) (n a : Z) : option (nat * AllocateItem.t) :=
  match index_find index n a with
  | Some ptr =>
      match table !! ptr with
      | Some cur =>
          if decide (AllocateItem.state cur = kTaskRunning)
          then Some (ptr, cur) else None
      | None => None
      end
  | None => None
  end.

(** Modelled from the spec: the comparator of [time_heap_] is declared in
    the missing header; the ledger's heap is a "min-heap ordered by
    allocTime".  The heap is kept as the list of its pointers in the order
    they would be popped; entries of equal time keep their insertion order. *)
Fixpoint heap_push (table : list AllocateItem.t) (ptr : nat) (h : list nat) : list nat :=
  match h with
  | [] => [ptr]
  | q :: r =>
      match table !! ptr, table !! q with
      | Some a, Some b =>
          if decide (AllocateItem.alloc_time a < AllocateItem.alloc_time b)
          then ptr :: q :: r
          else q :: heap_push table ptr r
      | _, _ => q :: heap_push table ptr r
      end
  end.

Definition heap_push_all (table : list AllocateItem.t) (ptrs h : list nat) : list nat :=
  foldl (λ acc ptr, heap_push table ptr acc) h ptrs.

(** [vector::resize(n, 0)] on an empty vector, for a count [n >= 0]. *)
Definition zeros (n : Z) : list Z := replicate (Z.to_nat n) 0.

(** [vector::resize(n)] keeping the present elements, for [n >= 0]. *)
Definition resize (n : Z) (v : list Z) : list Z :=
  take (Z.to_nat n) v ++ replicate (Z.to_nat n - length v)%nat 0.

(** Modelled from the spec: [IdManager(n)] holds the reduce ids [0..n-1],
    all Pending. *)
Definition IdManager (n : Z) : list IdItem :=
  (λ i, {| no := i; attempt := 0; status := kResPending; allocated := 0 |})
    <$> seqZ 0 n.

Section Tracker.
Variable F : Flags.

(** *** Construction *)

(** [JobTracker::JobTracker]; [id] is what [GenerateJobId] returned.  The
    product [reduce_total() * 2] is an [int]. *)
Definition new_JobTracker (id : string) (job : JobDescriptor) : JobTracker :=
  let d1 := if has_map_retry job then job
            else set_has_map_retry true (set_map_retry (FLAGS_retry_bound F) job) in
  let d2 := if has_reduce_retry d1 then d1
            else set_has_reduce_retry true (set_reduce_retry (FLAGS_retry_bound F) d1) in
  let d3 := if has_reduce_total d2 && has_reduce_capacity d2 then
              if decide (reduce_capacity d2 > to_int (reduce_total d2 * 2))
              then set_reduce_capacity
                     (Z.max (to_int (reduce_total d2 * 2)) 60) d2
              else d2
            else d2 in
  {| job_id_ := id; job_descriptor_ := d3; state_ := kPending;
     map_allow_duplicates_ := map_allow_duplicates d3;
     reduce_allow_duplicates_ := reduce_allow_duplicates d3;
     map_ := None; map_manager_ := None; map_end_game_begin_ := 0;
     map_killed_ := 0; map_failed_ := 0; reduce_begin_ := 0;
     reduce_ := None; reduce_manager_ := None; reduce_end_game_begin_ := 0;
     reduce_killed_ := 0; reduce_failed_ := 0; monitor_ := Some [];
     map_monitoring_ := false; reduce_monitoring_ := false;
     rpc_client_ := false; fs_ := false; start_time_ := 0; finish_time_ := 0;
     ignored_map_failures_ := 0; ignored_reduce_failures_ := 0;
     allocation_table_ := []; map_index_ := ∅; reduce_index_ := ∅;
     time_heap_ := []; map_slug_ := []; reduce_slug_ := [];
     failed_count_ := []; failed_nodes_ := ∅;
     ignore_failure_mappers_ := ∅; ignore_failure_reducers_ := ∅;
     map_dismissed_ := ∅; reduce_dismissed_ := ∅; counters_ := ∅;
     error_msg_ := EmptyString; trace_ := [] |}.

Definition emit (e : Event) (t : JobTracker) : JobTracker :=
  set_trace_ (trace_ t ++ [e]) t.

(** *** Start *)

(** [BuildResourceManagers]; [partition] is the table the new map manager
    holds after it has split the inputs.  [inputs[0]] on an empty list of
    inputs is undefined. *)
Definition BuildResourceManagers (partition : list ResourceItem) (t : JobTracker)
  : option (Status * JobTracker) :=
  match inputs (job_descriptor_ t) with
  | [] => None
  | _ :: _ =>
      let t1 := set_map_manager_ (Some partition) t in
      let sum_of_map := SumOfItem partition in
      let t2 := set_job_descriptor_ (set_map_total sum_of_map (job_descriptor_ t1)) t1 in
      if decide (map_total (job_descriptor_ t2) < 1) then
        let t3 := set_job_descriptor_
                    (set_has_reduce_total true
                       (set_reduce_total 0 (job_descriptor_ t2))) t2 in
        Some (kOpenFileFail, set_state_ kFailed t3)
      else
        let t3 := if decide (job_type (job_descriptor_ t2) = kMapReduceJob)
                  then set_reduce_manager_
                         (Some (IdManager (reduce_total (job_descriptor_ t2)))) t2
                  else t2 in
        Some (kOk, set_failed_count_
                     (resize sum_of_map (failed_count_ t3)) t3)
  end.

(** [BuildEndGameCounters]. *)
Definition BuildEndGameCounters (t : JobTracker) : JobTracker :=
  match map_manager_ t with
  | None => t
  | Some mm =>
      let sum_of_map := SumOfItem mm in
      let begin0 := sum_of_map - FLAGS_replica_begin F in
      let temp := sum_of_map
                  - (sum_of_map * FLAGS_replica_begin_percent F) `quot` 100 in
      let t1 := set_map_end_game_begin_
                  (if decide (begin0 > temp) then temp else begin0) t in
      match reduce_manager_ t1 with
      | None => t1
      | Some rm =>
          let t2 := set_reduce_begin_
                      (sum_of_map
                       - (sum_of_map * FLAGS_replica_begin_percent F) `quot` 100) t1 in
          let rbegin := SumOfItem rm - FLAGS_replica_begin F in
          let temp' := (SumOfItem rm * FLAGS_replica_begin_percent F) `quot` 100 in
          set_reduce_end_game_begin_
            (if decide (rbegin < temp') then temp' else rbegin) t2
      end
  end.

(** What [Start] asks of its environment. *)
Record StartEnv := {
  se_now : Z;                        (* common::timer::now_time() *)
  se_output_exists : bool;           (* fs_->Exist(output) *)
  se_partition : list ResourceItem;  (* the table of the new map manager *)
  se_map_start : Status              (* map_->Start() *)
}.

(** [JobTracker::Start]. *)
Definition Start (env : StartEnv) (t : JobTracker) : option (Status * JobTracker) :=
  let t1 := set_fs_ true (set_start_time_ (se_now env) t) in
  if se_output_exists env then
    let d := set_has_reduce_total true
               (set_reduce_total 0 (set_map_total 0 (job_descriptor_ t1))) in
    Some (kWriteFileFail, set_state_ kFailed (set_job_descriptor_ d t1))
  else
    match BuildResourceManagers (se_partition env) t1 with
    | None => None
    | Some (st, t2) =>
        if decide (st ≠ kOk) then Some (kNoMore, t2)
        else
          let t3 := set_rpc_client_ true (BuildEndGameCounters t2) in
          let mode := if decide (job_type (job_descriptor_ t3) = kMapOnlyJob)
                      then kMapOnly else kMap in
          let t4 := emit (EvGruStart mode) (set_map_ (Some mode) t3) in
          if decide (se_map_start env = kOk) then Some (kOk, t4)
          else Some (kGalaxyError, t4)
    end.

(** *** Dismissal *)

(** [CanMapDismiss].  The out-parameter [status] is the returned status
    (the caller passes a non-null pointer). *)
Definition CanMapDismiss (endpoint : string) (t : JobTracker)
  : option (Status * JobTracker) :=
  mm ← map_manager_ t;
  let completed := Done mm in
  let not_done := map_total (job_descriptor_ t) - completed in
  let map_dismiss_minion_num :=
    map_capacity (job_descriptor_ t)
    - ceil_div100 (Z.max not_done 5 * FLAGS_left_percent F) in
  if decide (map_capacity (job_descriptor_ t) > not_done) then
    if decide (to_int (Z.of_nat (size (map_dismissed_ t))) >= map_dismiss_minion_num)
    then Some (kSuspend, t)
    else Some (kNoMore, set_map_dismissed_ ({[endpoint]} ∪ map_dismissed_ t) t)
  else Some (kSuspend, t).

(** [CanReduceDismiss]. *)
Definition CanReduceDismiss (endpoint : string) (t : JobTracker)
  : option (Status * JobTracker) :=
  rm ← reduce_manager_ t;
  let completed := Done rm in
  let not_done := reduce_total (job_descriptor_ t) - completed in
  let reduce_dismiss_minion_num :=
    reduce_capacity (job_descriptor_ t)
    - ceil_div100 (Z.max not_done 5 * FLAGS_left_percent F) in
  if decide (reduce_capacity (job_descriptor_ t) > not_done) then
    if decide (to_int (Z.of_nat (size (reduce_dismissed_ t))) >= reduce_dismiss_minion_num)
    then Some (kSuspend, t)
    else Some (kNoMore, set_reduce_dismissed_ ({[endpoint]} ∪ reduce_dismissed_ t) t)
  else Some (kSuspend, t).

(** *** Counters *)

(** [AccumulateCounters]: the guard, then [counters_[key] += value] for
    every reported pair, a sum of two [int64_t]; [counters_[key]] of a name
    not yet present is 0. *)
Definition AccumulateCounters (counters : gmap string Z) (t : JobTracker)
  : bool * JobTracker :=
  if decide (Z.of_nat (size (counters_ t)) > to_size_t (FLAGS_max_counters_per_job F))
  then (false, t)
  else (true,
        set_counters_
          (map_fold (λ key value acc,
                       <[key := to_int64 (default 0 (acc !! key) + value)]> acc)
                    (counters_ t) counters) t).

(** *** Assignment *)

(** The [while] loop that drops from the front of a slug the ids the pool
    does not hold Allocated. *)
Fixpoint drain_slug {A} `{PoolItem A} (p : list A) (slug : list Z) : list Z :=
  match slug with
  | [] => []
  | n :: r => if IsAllocated n p then slug else drain_slug p r
  end.

(** The new ledger entry of an assignment, appended, indexed and pushed
    on the heap. *)
Definition new_alloc (endpoint : string) (n a : Z) (map : bool) (now : Z)
  : AllocateItem.t :=
  AllocateItem.mk endpoint kTaskRunning n a map now (-1).

(** [AssignMap]; [now] is [std::time(NULL)].  The result carries the item
    handed out (or none) and the status written through [status]. *)
Definition AssignMap (now : Z) (endpoint : string) (t : JobTracker)
  : option (option ResourceItem * Status * JobTracker) :=
  let t0 := if decide (state_ t = kPending) then set_state_ kRunning t else t in
  mm ← map_manager_ t0;
  let dismiss t' :=
    '(st, t'') ← CanMapDismiss endpoint t'; Some (None, st, t'') in
  let allocate (cur : ResourceItem) t' :=
    let n := no (res_id cur) in
    t'' ← (if decide (n >= map_end_game_begin_ t') then
             if map_monitoring_ t' then Some t'
             else tasks ← monitor_ t';
                  Some (set_map_monitoring_ true
                          (set_monitor_ (Some (tasks ++ [(0, true)])) t'))
           else Some t');
    let alloc := new_alloc endpoint n (attempt (res_id cur)) true now in
    let ptr := length (allocation_table_ t'') in
    let table := allocation_table_ t'' ++ [alloc] in
    Some (Some cur, kOk,
          set_time_heap_ (heap_push table ptr (time_heap_ t''))
            (set_map_index_ (index_put n (attempt (res_id cur)) ptr (map_index_ t''))
               (set_allocation_table_ table t''))) in
  match GetItem mm with
  | None =>
      let slug := drain_slug mm (map_slug_ t0) in
      let t1 := set_map_slug_ slug t0 in
      match slug with
      | [] => dismiss t1
      | front :: rest =>
          let t2 := set_map_slug_ rest t1 in
          match GetCertainItem (map_allow_duplicates_ t0) front mm with
          | None => dismiss t2
          | Some (cur, mm') => allocate cur (set_map_manager_ (Some mm') t2)
          end
      end
  | Some (cur, mm') =>
      let t1 := set_map_manager_ (Some mm') t0 in
      let t2 :=
        if map_allow_duplicates_ t1
           && bool_decide (no (res_id cur) >= map_end_game_begin_ t1)
        then set_map_slug_
               (map_slug_ t1
                ++ replicate (Z.to_nat (FLAGS_replica_num F)) (no (res_id cur))) t1
        else t1 in
      allocate cur t2
  end.

(** [AssignReduce]. *)
Definition AssignReduce (now : Z) (endpoint : string) (t : JobTracker)
  : option (option IdItem * Status * JobTracker) :=
  let t0 := if decide (state_ t = kPending) then set_state_ kRunning t else t in
  rm ← reduce_manager_ t0;
  let dismiss t' :=
    '(st, t'') ← CanReduceDismiss endpoint t'; Some (None, st, t'') in
  let allocate (cur : IdItem) t' :=
    let n := no cur in
    t'' ← (if decide (n >= reduce_end_game_begin_ t') then
             if reduce_monitoring_ t' then Some t'
             else tasks ← monitor_ t';
                  Some (set_reduce_monitoring_ true
                          (set_monitor_ (Some (tasks ++ [(0, false)])) t'))
           else Some t');
    let alloc := new_alloc endpoint n (attempt cur) false now in
    let ptr := length (allocation_table_ t'') in
    let table := allocation_table_ t'' ++ [alloc] in
    Some (Some cur, kOk,
          set_time_heap_ (heap_push table ptr (time_heap_ t''))
            (set_reduce_index_ (index_put n (attempt cur) ptr (reduce_index_ t''))
               (set_allocation_table_ table t''))) in
  match GetItem rm with
  | None =>
      let slug := drain_slug rm (reduce_slug_ t0) in
      let t1 := set_reduce_slug_ slug t0 in
      match slug with
      | [] => dismiss t1
      | front :: rest =>
          let t2 := set_reduce_slug_ rest t1 in
          match GetCertainItem (reduce_allow_duplicates_ t0) front rm with
          | None => dismiss t2
          | Some (cur, rm') => allocate cur (set_reduce_manager_ (Some rm') t2)
          end
      end
  | Some (cur, rm') =>
      let t1 := set_reduce_manager_ (Some rm') t0 in
      let t2 :=
        if reduce_allow_duplicates_ t1
           && bool_decide (no cur >= reduce_end_game_begin_ t1)
        then set_reduce_slug_
               (reduce_slug_ t1
                ++ replicate (Z.to_nat (FLAGS_replica_num F)) (no cur)) t1
        else t1 in
      allocate cur t2
  end.

(** *** Finishing *)

(** What a [Finish] call asks of its environment. *)
Record FinishEnv := {
  fe_writer_create : Status;  (* w_status of SortFileWriter::Create *)
  fe_writer_close : Status;   (* writer->Close() *)
  fe_reduce_start : Status;   (* reduce_->Start() *)
  fe_now : Z;                 (* std::time(NULL) when the entry is committed *)
  fe_cancel_now : Z           (* std::time(NULL) in CancelOtherAttempts *)
}.

(** One candidate of [CancelOtherAttempts]. *)
Definition cancel_candidate (job : string) (now keep : Z) (ptr : nat)
    (acc : list AllocateItem.t * list Event) : list AllocateItem.t * list Event :=
  match acc.1 !! ptr with
  | Some candidate =>
      if decide (AllocateItem.attempt candidate = keep) then acc
      else
        (<[ptr := AllocateItem.set_period
                    (now - AllocateItem.alloc_time candidate)
                    (AllocateItem.set_state kTaskCanceled candidate)]> acc.1,
         acc.2 ++ [EvCancelTask (AllocateItem.endpoint candidate) job
                     (AllocateItem.resource_no candidate)
                     (AllocateItem.attempt candidate)])
  | None => acc
  end.

(** [CancelOtherAttempts].  The source walks [index[no]] by ascending
    attempt; the fold visits the same entries, and the order shows only
    in the order of the recorded [EvCancelTask] events. *)
Definition CancelOtherAttempts (lookup_index : gmap Z (gmap Z nat))
    (now n a : Z) (t : JobTracker) : JobTracker :=
  if rpc_client_ t then
    match lookup_index !! n with
    | Some m =>
        let r := map_fold (λ _ ptr acc, cancel_candidate (job_id_ t) now a ptr acc)
                          (allocation_table_ t, trace_ t) m in
        set_trace_ r.2 (set_allocation_table_ r.1 t)
    | None => t
    end
  else t.

(** The re-mapping of [kTaskMoveOutputFailed]. *)
Definition remap_move_output_failed {A} `{PoolItem A}
    (manager : option (list A)) (n : Z) (state : TaskState) : option TaskState :=
  if decide (state = kTaskMoveOutputFailed) then
    p ← manager;
    Some (if IsDone n p then kTaskCanceled else kTaskFailed)
  else Some state.

(** How the [switch] of a [Finish] call ends: it falls out ([break]) with
    the state to commit and the [finished] flag, or it returns. *)
Inductive Dispatch :=
  | Break (state : TaskState) (finished : bool) (t : JobTracker)
  | Return (st : Status) (t : JobTracker).

Definition newline : string := String (ascii_of_nat 10) EmptyString.

(** The purge of the map entries from the heap at the end of the map
    phase: every entry is popped, the reduce ones are pushed again. *)
Definition purge_map_entries (table : list AllocateItem.t) (h : list nat) : list nat :=
  heap_push_all table
    (List.filter (λ ptr, match table !! ptr with
                         | Some a => negb (AllocateItem.is_map a)
                         | None => false
                         end) h) [].

(** The fake completion of a failed mapper whose id is in
    [ignore_failure_mappers_]. *)
Definition fake_complete_map (env : FinishEnv) (n : Z) (state : TaskState)
    (t : JobTracker) : TaskState * JobTracker :=
  if decide (state = kTaskFailed ∧ n ∈ ignore_failure_mappers_ t) then
    if decide (job_type (job_descriptor_ t) ≠ kMapOnlyJob) then
      if decide (fe_writer_create env = kOk) then
        let t1 := emit (EvSortFileWrite (output (job_descriptor_ t)) n) t in
        if decide (fe_writer_close env ≠ kOk) then (kTaskFailed, t1)
        else (kTaskCompleted, t1)
      else (kTaskCompleted, t)
    else (kTaskCompleted, t)
  else (state, t).

(** [case kTaskCompleted] of [FinishMap]. *)
Definition map_completed (env : FinishEnv) (n : Z) (counters : gmap string Z)
    (t : JobTracker) : option Dispatch :=
  mm ← map_manager_ t;
  let '(ok, mm') := FinishItem n mm in
  let t1 := set_map_manager_ (Some mm') t in
  if negb ok then Some (Break kTaskCanceled false t1)
  else
    let t2 := (AccumulateCounters counters t1).2 in
    let completed := Done mm' in
    let pull_up :=
      bool_decide (completed = reduce_begin_ t2
                   ∧ job_type (job_descriptor_ t2) ≠ kMapOnlyJob) in
    let t3 := if pull_up
              then emit (EvGruStart kReduce) (set_reduce_ (Some kReduce) t2)
              else t2 in
    if pull_up && bool_decide (fe_reduce_start env ≠ kOk) then
      Some (Break kTaskCompleted true
              (set_state_ kFailed
                 (emit (EvRetractJob (job_id_ t3) kFailed)
                    (set_error_msg_
                       ("Failed to submit job on Galaxy" +:+ newline) t3))))
    else if decide (completed = SumOfItem mm') then
      if decide (job_type (job_descriptor_ t3) = kMapOnlyJob) then
        Some (Break kTaskCompleted true
                (set_state_ kCompleted
                   (emit (EvRetractJob (job_id_ t3) kCompleted)
                      (emit (EvFsRemove (output (job_descriptor_ t3) +:+ "/_temporary"))
                         t3))))
      else
        rm ← reduce_manager_ t3;
        let t4 := set_failed_nodes_ ∅ (set_failed_count_ (zeros (SumOfItem rm)) t3) in
        let t5 := set_time_heap_
                    (purge_map_entries (allocation_table_ t4) (time_heap_ t4)) t4 in
        let t6 := set_monitor_
                    (Some (if reduce_monitoring_ t5 then [(0, false)] else [])) t5 in
        Some (Break kTaskCompleted false (set_map_ None t6))
    else Some (Break kTaskCompleted false t3).

(** The bookkeeping of a failure shared by both phases: one more distinct
    failing node, if it is one.  Reading or writing [failed_count_[no]]
    out of range is undefined. *)
Definition count_failure (n : Z) (cur_node : string) (t : JobTracker)
  : option JobTracker :=
  if decide (0 ≤ n) then
    c ← failed_count_ t !! Z.to_nat n;
    let nodes := default ∅ (failed_nodes_ t !! n) in
    if decide (cur_node ∈ nodes) then
      Some (set_failed_nodes_ (<[n := nodes]> (failed_nodes_ t)) t)
    else
      Some (set_failed_nodes_ (<[n := {[cur_node]} ∪ nodes]> (failed_nodes_ t))
              (set_failed_count_ (<[Z.to_nat n := c + 1]> (failed_count_ t)) t))
  else None.

(** [case kTaskFailed] of [FinishMap]. *)
Definition map_failed (n : Z) (cur_node err_msg : string) (t : JobTracker)
  : option Dispatch :=
  mm ← map_manager_ t;
  let t1 := set_map_manager_ (Some (ReturnBackItem n mm)) t in
  t2 ← count_failure n cur_node t1;
  let t3 := set_map_failed_ (map_failed_ t2 + 1) t2 in
  c ← failed_count_ t3 !! Z.to_nat n;
  if decide (c >= map_retry (job_descriptor_ t3)) then
    if decide (ignored_map_failures_ t3 < ignore_map_failures (job_descriptor_ t3)) then
      Some (Break kTaskFailed false
              (set_ignored_map_failures_ (ignored_map_failures_ t3 + 1)
                 (set_ignore_failure_mappers_
                    ({[n]} ∪ ignore_failure_mappers_ t3) t3)))
    else
      Some (Break kTaskFailed true
              (set_state_ kFailed
                 (emit (EvRetractJob (job_id_ t3) kFailed)
                    (set_error_msg_ err_msg t3))))
  else Some (Break kTaskFailed false t3).

(** The [switch] of [FinishMap]. *)
Definition map_dispatch (env : FinishEnv) (n : Z) (cur_node err_msg : string)
    (counters : gmap string Z) (state : TaskState) (t : JobTracker)
  : option Dispatch :=
  match state with
  | kTaskCompleted => map_completed env n counters t
  | kTaskFailed => map_failed n cur_node err_msg t
  | kTaskKilled =>
      mm ← map_manager_ t;
      Some (Break kTaskKilled false
              (set_map_killed_ (map_killed_ t + 1)
                 (set_map_manager_ (Some (ReturnBackItem n mm)) t)))
  | kTaskCanceled =>
      mm ← map_manager_ t;
      Some (Break kTaskCanceled false
              (if IsDone n mm then t
               else set_map_manager_ (Some (ReturnBackItem n mm)) t))
  | _ => Some (Return kNoMore t)
  end.

(** The entry takes its terminal state and its period. *)
Definition commit_entry (ptr : nat) (state : TaskState) (now : Z)
    (table : list AllocateItem.t) : list AllocateItem.t :=
  match table !! ptr with
  | Some cur =>
      <[ptr := AllocateItem.set_period (now - AllocateItem.alloc_time cur)
                 (AllocateItem.set_state state cur)]> table
  | None => table
  end.

(** The end of [FinishMap], after the switch: the entry is committed, a
    Killed or Failed task is queued for re-issue, and the other attempts of
    a Completed one are canceled. *)
Definition finish_map_commit (env : FinishEnv) (ptr : nat) (rn n a : Z)
    (state3 : TaskState) (finished : bool) (t2 : JobTracker)
  : Status * JobTracker :=
  let t3 := set_allocation_table_
              (commit_entry ptr state3 (fe_now env) (allocation_table_ t2)) t2 in
  let t4 := if map_allow_duplicates_ t3
               && bool_decide (state3 = kTaskKilled ∨ state3 = kTaskFailed)
            then set_map_slug_ (map_slug_ t3 ++ [rn]) t3
            else t3 in
  if decide (state3 ≠ kTaskCompleted) then (kOk, t4)
  else if negb (map_allow_duplicates_ t4) then (kOk, t4)
  else
    let t5 := CancelOtherAttempts (map_index_ t4) (fe_cancel_now env) n a t4 in
    (kOk, if finished then set_rpc_client_ false t5 else t5).

(** [JobTracker::FinishMap]. *)
Definition FinishMap (env : FinishEnv) (n a : Z) (state : TaskState)
    (err_msg : string) (counters : gmap string Z) (t : JobTracker)
  : option (Status * JobTracker) :=
  match find_running (map_index_ t) (allocation_table_ t) n a with
  | None => Some (kNoMore, t)
  | Some (ptr, cur) =>
      let rn := AllocateItem.resource_no cur in
      state1 ← remap_move_output_failed (map_manager_ t) rn state;
      let cur_node := node_of (AllocateItem.endpoint cur) in
      let '(state2, t1) := fake_complete_map env rn state1 t in
      d ← map_dispatch env rn cur_node err_msg counters state2 t1;
      match d with
      | Return st t2 => Some (st, t2)
      | Break state3 finished t2 =>
          Some (finish_map_commit env ptr rn n a state3 finished t2)
      end
  end.

(** [case kTaskCompleted] of [FinishReduce]. *)
Definition reduce_completed (n : Z) (counters : gmap string Z) (t : JobTracker)
  : option Dispatch :=
  rm ← reduce_manager_ t;
  let '(ok, rm') := FinishItem n rm in
  let t1 := set_reduce_manager_ (Some rm') t in
  if negb ok then Some (Break kTaskCanceled false t1)
  else
    let t2 := (AccumulateCounters counters t1).2 in
    let completed := Done rm' in
    if decide (completed = SumOfItem rm') then
      Some (Break kTaskCompleted true
              (set_state_ kCompleted
                 (emit (EvRetractJob (job_id_ t2) kCompleted)
                    (emit (EvFsRemove (output (job_descriptor_ t2) +:+ "/_temporary"))
                       t2))))
    else Some (Break kTaskCompleted false t2).

(** [case kTaskFailed] of [FinishReduce]. *)
Definition reduce_failed (n : Z) (cur_node err_msg : string) (t : JobTracker)
  : option Dispatch :=
  rm ← reduce_manager_ t;
  let t1 := set_reduce_manager_ (Some (ReturnBackItem n rm)) t in
  t2 ← count_failure n cur_node t1;
  let t3 := set_reduce_failed_ (reduce_failed_ t2 + 1) t2 in
  c ← failed_count_ t3 !! Z.to_nat n;
  if decide (c >= reduce_retry (job_descriptor_ t3)) then
    if decide (ignored_reduce_failures_ t3
               < ignore_reduce_failures (job_descriptor_ t3)) then
      Some (Break kTaskFailed false
              (set_ignored_reduce_failures_ (ignored_reduce_failures_ t3 + 1)
                 (set_ignore_failure_reducers_
                    ({[n]} ∪ ignore_failure_reducers_ t3) t3)))
    else
      Some (Break kTaskFailed true
              (set_state_ kFailed
                 (emit (EvRetractJob (job_id_ t3) kFailed)
                    (set_error_msg_ err_msg t3))))
  else Some (Break kTaskFailed false t3).

(** The [switch] of [FinishReduce]. *)
Definition reduce_dispatch (n : Z) (cur_node err_msg : string)
    (counters : gmap string Z) (state : TaskState) (t : JobTracker)
  : option Dispatch :=
  match state with
  | kTaskCompleted => reduce_completed n counters t
  | kTaskFailed => reduce_failed n cur_node err_msg t
  | kTaskKilled =>
      rm ← reduce_manager_ t;
      Some (Break kTaskKilled false
              (set_reduce_killed_ (reduce_killed_ t + 1)
                 (set_reduce_manager_ (Some (ReturnBackItem n rm)) t)))
  | kTaskCanceled =>
      rm ← reduce_manager_ t;
      Some (Break kTaskCanceled false
              (if IsDone n rm then t
               else set_reduce_manager_ (Some (ReturnBackItem n rm)) t))
  | _ => Some (Return kNoMore t)
  end.

(** The test [FinishReduce] opens with: the map manager exists, has fewer
    Done items than [map_total], and the report is not Killed. *)
Definition reduce_too_early (state : TaskState) (t : JobTracker) : bool :=
  match map_manager_ t with
  | Some mm =>
      bool_decide (Done mm < map_total (job_descriptor_ t))
      && bool_decide (state ≠ kTaskKilled)
  | None => false
  end.

(** The end of [FinishReduce], after the switch. *)
Definition finish_reduce_commit (env : FinishEnv) (ptr : nat) (rn n a : Z)
    (state3 : TaskState) (finished : bool) (t2 : JobTracker)
  : Status * JobTracker :=
  let t3 := set_allocation_table_
              (commit_entry ptr state3 (fe_now env) (allocation_table_ t2)) t2 in
  let t4 := if reduce_allow_duplicates_ t3
               && bool_decide (state3 = kTaskKilled ∨ state3 = kTaskFailed)
            then set_reduce_slug_ (reduce_slug_ t3 ++ [rn]) t3
            else t3 in
  if decide (state3 ≠ kTaskCompleted) then (kOk, t4)
  else if negb (reduce_allow_duplicates_ t4) then (kOk, t4)
  else
    let t5 := CancelOtherAttempts (reduce_index_ t4) (fe_cancel_now env) n a t4 in
    (kOk, if finished then set_rpc_client_ false t5 else t5).

(** [JobTracker::FinishReduce]. *)
Definition FinishReduce (env : FinishEnv) (n a : Z) (state : TaskState)
    (err_msg : string) (counters : gmap string Z) (t : JobTracker)
  : option (Status * JobTracker) :=
  if reduce_too_early state t then Some (kSuspend, t)
  else
    match find_running (reduce_index_ t) (allocation_table_ t) n a with
    | None => Some (kNoMore, t)
    | Some (ptr, cur) =>
        let rn := AllocateItem.resource_no cur in
        state1 ← remap_move_output_failed (reduce_manager_ t) rn state;
        let cur_node := node_of (AllocateItem.endpoint cur) in
        let state2 :=
          if decide (state1 = kTaskFailed ∧ rn ∈ ignore_failure_reducers_ t)
          then kTaskCompleted else state1 in
        d ← reduce_dispatch rn cur_node err_msg counters state2 t;
        match d with
        | Return st t2 => Some (st, t2)
        | Break state3 finished t2 =>
            Some (finish_reduce_commit env ptr rn n a state3 finished t2)
        end
    end.

(** *** Kill *)

(** The loop of [Kill] over the ledger: every Running entry becomes
    Killed and is counted. *)
Fixpoint kill_running (now : Z) (table : list AllocateItem.t)
  : list AllocateItem.t * Z * Z :=
  match table with
  | [] => ([], 0, 0)
  | a :: r =>
      let '(r', mk, rk) := kill_running now r in
      if decide (AllocateItem.state a = kTaskRunning) then
        (AllocateItem.set_period (now - AllocateItem.alloc_time a)
           (AllocateItem.set_state kTaskKilled a) :: r',
         if AllocateItem.is_map a then mk + 1 else mk,
         if AllocateItem.is_map a then rk else rk + 1)
      else (a :: r', mk, rk)
  end.

(** [JobTracker::Kill]; [now] is [std::time(NULL)], [finish] is
    [common::timer::now_time()]. *)
Definition Kill (now finish : Z) (end_state : JobState) (t : JobTracker)
  : Status * JobTracker :=
  let t1 := set_state_ end_state
              (set_monitor_ None (set_reduce_ None (set_map_ None t))) in
  let '(table, mk, rk) := kill_running now (allocation_table_ t1) in
  (kOk,
   set_rpc_client_ false
     (set_finish_time_ finish
        (set_reduce_killed_ (reduce_killed_ t1 + rk)
           (set_map_killed_ (map_killed_ t1 + mk)
              (set_allocation_table_ table t1))))).

(** *** Checkpoints *)

(** One history entry of [Replay]. *)
Definition replay_entry (is_map : bool) (table : list IdItem) (it : AllocateItem.t)
  : list IdItem :=
  if decide (to_size_t (AllocateItem.resource_no it) >= Z.of_nat (length table)
             ∨ AllocateItem.is_map it ≠ is_map) then table
  else
    match table !! Z.to_nat (AllocateItem.resource_no it) with
    | Some cur =>
        let cur1 := {| no := no cur; attempt := AllocateItem.attempt it;
                       status := status cur; allocated := allocated cur |} in
        let cur2 :=
          match AllocateItem.state it with
          | kTaskRunning =>
              if decide (status cur1 ≠ kResDone)
              then {| no := no cur1; attempt := attempt cur1;
                      status := kResAllocated; allocated := allocated cur1 + 1 |}
              else cur1
          | kTaskCompleted =>
              {| no := no cur1; attempt := attempt cur1;
                 status := kResDone; allocated := 0 |}
          | _ => cur1
          end in
        <[Z.to_nat (AllocateItem.resource_no it) := cur2]> table
    | None => table
    end.

(** [JobTracker::Replay] on a table of [size] items. *)
Definition Replay (history : list AllocateItem.t) (size : nat) (is_map : bool)
  : list IdItem :=
  foldl (replay_entry is_map)
        ((λ i, {| no := Z.of_nat i; attempt := 0; status := kResPending;
                  allocated := 0 |}) <$> seq 0 size)
        history.

(** The loop of [Load] over the history: the entry is copied into the
    table and indexed; a Running one is pushed on the heap, a Failed or a
    Killed one is counted for its phase. *)
Definition load_entry (t : JobTracker) (it : AllocateItem.t) : JobTracker :=
  let ptr := length (allocation_table_ t) in
  let t1 := set_allocation_table_ (allocation_table_ t ++ [it]) t in
  let t2 :=
    if AllocateItem.is_map it
    then set_map_index_
           (index_put (AllocateItem.resource_no it) (AllocateItem.attempt it) ptr
                      (map_index_ t1)) t1
    else set_reduce_index_
           (index_put (AllocateItem.resource_no it) (AllocateItem.attempt it) ptr
                      (reduce_index_ t1)) t1 in
  match AllocateItem.state it with
  | kTaskRunning =>
      set_time_heap_ (heap_push (allocation_table_ t2) ptr (time_heap_ t2)) t2
  | kTaskFailed =>
      if AllocateItem.is_map it then set_map_failed_ (map_failed_ t2 + 1) t2
      else set_reduce_failed_ (reduce_failed_ t2 + 1) t2
  | kTaskKilled =>
      if AllocateItem.is_map it then set_map_killed_ (map_killed_ t2 + 1) t2
      else set_reduce_killed_ (reduce_killed_ t2 + 1) t2
  | _ => t2
  end.

(** [std::copy(id_data, res_data)]: the id fields of each resource item
    are overwritten by the replayed ones. *)
Definition overwrite_ids (ids : list IdItem) (res : list ResourceItem)
  : list ResourceItem :=
  zip_with with_id ids res ++ drop (length ids) res.

(** [Load], first part: the two managers are rebuilt from the history and
    the resource dump, and the end-game thresholds from the managers. *)
Definition load_managers (data : list AllocateItem.t)
    (resource : list ResourceItem) (t : JobTracker) : JobTracker :=
  let d := job_descriptor_ t in
  let t3 :=
    if decide (map_total d ≠ 0) then
      set_map_manager_
        (Some (overwrite_ids (Replay data (Z.to_nat (map_total d)) true) resource)) t
    else t in
  let t4 :=
    if decide (reduce_total d ≠ 0) then
      set_reduce_manager_
        (Some (Replay data (length (IdManager (reduce_total d))) false)) t3
    else t3 in
  BuildEndGameCounters t4.

(** The phase [Load] resumes in: the reduce phase when every map is Done. *)
Definition maps_done (t : JobTracker) : bool :=
  match map_manager_ t with
  | Some mm => bool_decide (Done mm = map_total (job_descriptor_ t))
  | None => false
  end.

(** [Load], second part: [failed_count_] is sized for the phase. *)
Definition load_failed_count (t : JobTracker) : option JobTracker :=
  let d := job_descriptor_ t in
  let t6 := set_failed_count_ (resize (map_total d) (failed_count_ t)) t in
  if maps_done t then
    if decide (reduce_total d < 0) then None
    else Some (set_failed_count_ (zeros (reduce_total d)) t6)
  else Some t6.

(** [Load], third part: a Running job gets its monitor task, a live one its
    RPC client; the monitor of a finished job is deleted. *)
Definition load_monitor (is_map : bool) (t : JobTracker) : option JobTracker :=
  let live := bool_decide (state_ t = kRunning ∨ state_ t = kPending) in
  t8 ← (if decide (state_ t = kRunning) then
          tasks ← monitor_ t;
          let t' := set_monitor_ (Some (tasks ++ [(0, is_map)])) t in
          Some (if is_map then set_map_monitoring_ true t'
                else set_reduce_monitoring_ true t')
        else Some t);
  Some (if live then set_rpc_client_ true t8 else set_monitor_ None t8).

(** [JobTracker::Load].  [None] stands for undefined behaviour or for the
    exception of a [resize] to a negative count ([id_data.resize] with a
    negative [map_total], [failed_count_.resize] with a negative
    [reduce_total]). *)
Definition Load (jobid : string) (state : JobState) (data : list AllocateItem.t)
    (resource : list ResourceItem) (start_time finish_time : Z) (t : JobTracker)
  : option (bool * JobTracker) :=
  let t1 := set_finish_time_ finish_time
              (set_start_time_ start_time (set_state_ state (set_job_id_ jobid t))) in
  let live := bool_decide (state_ t1 = kRunning ∨ state_ t1 = kPending) in
  let t2 := if live then set_fs_ true t1 else t1 in
  let d := job_descriptor_ t2 in
  if decide (map_total d < 0) then None
  else if decide (map_total d ≠ 0 ∧ length resource ≠ Z.to_nat (map_total d))
  then Some (false, set_map_manager_ (Some []) t2)
  else
    let t5 := load_managers data resource t2 in
    t7 ← load_failed_count t5;
    t9 ← load_monitor (negb (maps_done t5)) t7;
    Some (true, foldl load_entry t9 data).

(** [HistoryForDump]: a copy of the ledger. *)
Definition HistoryForDump (t : JobTracker) : list AllocateItem.t :=
  allocation_table_ t.

(** [InputDataForDump].  Modelled from the spec: [Dump()] of a pool is the
    snapshot of its id-space, the table of its items. *)
Definition InputDataForDump (t : JobTracker) : list ResourceItem :=
  match map_manager_ t with
  | None => []
  | Some mm => mm
  end.

(** *** The straggler monitor *)

(** The reply to a [Query] RPC: every field of the message is optional;
    a getter on an unset field gives the protobuf default. *)
Record QueryResponse := {
  resp_job_id : option string;
  resp_task_id : option Z;
  resp_attempt_id : option Z;
  resp_task_state : option TaskState;
  resp_log_msg : option string
}.

Definition empty_response : QueryResponse :=
  {| resp_job_id := None; resp_task_id := None; resp_attempt_id := None;
     resp_task_state := None; resp_log_msg := None |}.

Definition job_id_of (r : QueryResponse) : string := default EmptyString (resp_job_id r).
Definition task_id_of (r : QueryResponse) : Z := default 0 (resp_task_id r).
Definition attempt_id_of (r : QueryResponse) : Z := default 0 (resp_attempt_id r).

(** What a monitor pass asks of its environment. *)
Record MonitorEnv := {
  me_random : bool;                          (* rn < 0.3 *)
  me_now : Z;                                (* std::time(NULL) before the loop *)
  me_query : nat → bool * QueryResponse;     (* SendRequest(Query) for an entry *)
  me_kill_now : Z                            (* std::time(NULL) when an entry is killed *)
}.

(** [time_used]: the periods of the Completed entries of the phase. *)
Definition time_used (map_now : bool) (table : list AllocateItem.t) : list Z :=
  AllocateItem.period <$>
    List.filter (λ a, bool_decide (AllocateItem.is_map a = map_now)
                      && bool_decide (AllocateItem.state a = kTaskCompleted)) table.

(** The timeout bound: the upper median of the periods plus a fifth. *)
Definition timeout_of (used : list Z) : Z :=
  let sorted := merge_sort Z.le used in
  let m := default 0 (sorted !! (length sorted `div` 2)%nat) in
  m + m `quot` 5.

Definition kill_entry (ptr : nat) (now : Z) (map_now : bool) (t : JobTracker)
  : JobTracker :=
  let t1 := set_allocation_table_
              (commit_entry ptr kTaskKilled now (allocation_table_ t)) t in
  if map_now then set_map_killed_ (map_killed_ t1 + 1) t1
  else set_reduce_killed_ (reduce_killed_ t1 + 1) t1.

(** The end of the loop body: the entry is requeued for its phase.  The
    result says whether the loop counter is given back ([++counter]). *)
Definition monitor_requeue (map_now : bool) (top : nat) (t : JobTracker)
    (returned : list nat) : option (bool * JobTracker * list nat) :=
  a ← allocation_table_ t !! top;
  let late := bool_decide (AllocateItem.attempt a >= FLAGS_parallel_attempts F - 1
                           ∧ AllocateItem.state a = kTaskRunning) in
  let returned' := if late then returned ++ [top] else returned in
  let n := AllocateItem.resource_no a in
  if map_now then
    if late && bool_decide (size (map_index_ t) < length (map_slug_ t))%nat
    then Some (true, t, returned')
    else
      t1 ← (if decide (AllocateItem.state a = kTaskKilled) then
              mm ← map_manager_ t;
              Some (set_map_manager_ (Some (ReturnBackItem n mm)) t)
            else Some t);
      Some (late, set_map_slug_ (map_slug_ t1 ++ [n]) t1, returned')
  else
    if late && bool_decide (size (reduce_index_ t) < length (reduce_slug_ t))%nat
    then Some (true, t, returned')
    else
      let t1 := if decide (AllocateItem.state a = kTaskKilled) then
                  match reduce_manager_ t with
                  | Some rm => set_reduce_manager_ (Some (ReturnBackItem n rm)) t
                  | None => t
                  end
                else t in
      Some (late, set_reduce_slug_ (reduce_slug_ t1 ++ [n]) t1, returned').

(** The body of the loop for the entry [top], popped from the heap. *)
Definition monitor_entry (env : MonitorEnv) (map_now not_allow_duplicates : bool)
    (timeout : Z) (top : nat) (t : JobTracker) (returned : list nat)
  : option (bool * JobTracker * list nat) :=
  a ← allocation_table_ t !! top;
  if decide (AllocateItem.state a ≠ kTaskRunning) then Some (true, t, returned)
  else if decide (AllocateItem.is_map a ≠ map_now) then Some (true, t, returned ++ [top])
  else if not_allow_duplicates
          || bool_decide (me_now env - AllocateItem.alloc_time a < timeout)
          || me_random env
  then
    if rpc_client_ t then
      let t1 := emit (EvQuery (AllocateItem.endpoint a)) t in
      let '(ok, response) := me_query env top in
      if ok && bool_decide (job_id_of response = job_id_ t1
                            ∧ task_id_of response = AllocateItem.resource_no a
                            ∧ attempt_id_of response = AllocateItem.attempt a)
      then Some (true, t1, returned ++ [top])
      else
        orphan ← (if ok then
                    if map_now then
                      mm ← map_manager_ t1;
                      Some (negb (IsAllocated (AllocateItem.resource_no a) mm))
                    else
                      match reduce_manager_ t1 with
                      | Some rm =>
                          Some (negb (IsAllocated (AllocateItem.resource_no a) rm))
                      | None => Some false
                      end
                  else Some false);
        if orphan : bool
        then Some (true, kill_entry top (me_kill_now env) map_now t1, returned)
        else monitor_requeue map_now top
               (kill_entry top (me_kill_now env) map_now t1) returned
    else None
  else monitor_requeue map_now top t returned.

(** The [while] loop: [counter] entries at most, from the top of the
    heap, until one is younger than [sleep_time]. *)
Fixpoint monitor_loop (env : MonitorEnv) (map_now not_allow_duplicates : bool)
    (timeout sleep_time : Z) (counter : nat) (heap : list nat)
    (t : JobTracker) (returned : list nat)
  : option (JobTracker * list nat * list nat) :=
  match counter, heap with
  | O, _ => Some (t, returned, heap)
  | S _, [] => Some (t, returned, heap)
  | S c, top :: rest =>
      a ← allocation_table_ t !! top;
      if decide (me_now env - AllocateItem.alloc_time a < sleep_time)
      then Some (t, returned, heap)
      else
        '(again, t', returned') ←
           monitor_entry env map_now not_allow_duplicates timeout top t returned;
        monitor_loop env map_now not_allow_duplicates timeout sleep_time
                     (if again : bool then S c else c) rest t' returned'
  end.

(** [JobTracker::KeepMonitoring]. *)
Definition KeepMonitoring (env : MonitorEnv) (map_now : bool) (t : JobTracker)
  : option JobTracker :=
  let used := time_used map_now (allocation_table_ t) in
  let need_random_query := me_random env in
  if bool_decide (used = []) && negb need_random_query then
    tasks ← monitor_ t;
    Some (set_monitor_
            (Some (tasks ++ [(FLAGS_first_sleeptime F * 1000, map_now)])) t)
  else
    let timeout := if bool_decide (used = []) then 0 else timeout_of used in
    let not_allow_duplicates :=
      (map_now && negb (map_allow_duplicates_ t))
      || (negb map_now && negb (reduce_allow_duplicates_ t)) in
    let sleep_time := Z.min (FLAGS_time_tolerance F) timeout in
    '(t1, returned, heap) ←
       monitor_loop env map_now not_allow_duplicates timeout sleep_time 10
                    (time_heap_ t) t [];
    let t2 := set_time_heap_
                (heap_push_all (allocation_table_ t1) returned heap) t1 in
    tasks ← monitor_ t2;
    Some (set_monitor_ (Some (tasks ++ [(sleep_time * 1000, map_now)])) t2).
End Tracker.

(** *** Update *)

Inductive JobPriority := kVeryHigh | kHigh | kNormal | kLow.

(** [ParsePriority]. *)
Definition ParsePriority (priority : string) : JobPriority :=
  if decide (priority = "kMonitor") then kVeryHigh
  else if decide (priority = "kOnline") then kHigh
  else if decide (priority = "kOffline") then kNormal
  else if decide (priority = "kBestEffort") then kLow
  else kNormal.

(** What [Update] asks of Galaxy. *)
Record UpdateEnv := {
  ue_map_update : Status;     (* map_->Update(priority, map_capacity) *)
  ue_reduce_update : Status   (* reduce_->Update(priority, reduce_capacity) *)
}.

(** The part of [Update] for one Gru: nothing without the Gru; with it,
    the answer of Galaxy decides, and the capacity and the priority are
    written only after a [kOk].  The [priority] field of the descriptor is
    not among the fields [JobDescriptor] keeps, so the value written by
    [set_priority], if any, is carried beside the tracker. *)
Definition update_gru (gru : option WorkMode) (answer : Status)
    (priority : string) (capacity : Z) (set_capacity : Z → JobDescriptor → JobDescriptor)
    (s : JobTracker * option JobPriority)
  : option (JobTracker * option JobPriority) :=
  match gru with
  | None => Some s
  | Some _ =>
      if decide (answer ≠ kOk) then None
      else
        let t1 := if decide (capacity ≠ -1)
                  then set_job_descriptor_
                         (set_capacity capacity (job_descriptor_ s.1)) s.1
                  else s.1 in
        Some (t1, if decide (priority ≠ EmptyString)
                  then Some (ParsePriority priority) else s.2)
  end.

(** [JobTracker::Update]; the third component is the priority the call
    has written to the descriptor, if it has written one. *)
Definition Update (env : UpdateEnv) (priority : string)
    (map_capacity reduce_capacity : Z) (t : JobTracker)
  : Status * JobTracker * option JobPriority :=
  match update_gru (map_ t) (ue_map_update env) priority map_capacity
                   set_map_capacity (t, None) with
  | None => (kGalaxyError, t, None)
  | Some s1 =>
      match update_gru (reduce_ s1.1) (ue_reduce_update env) priority
                       reduce_capacity set_reduce_capacity s1 with
      | None => (kGalaxyError, s1.1, s1.2)
      | Some s2 => (kOk, s2.1, s2.2)
      end
  end.

(** *** Statistics *)

(** The message [GetMapStatistics] and [GetReduceStatistics] fill. *)
Record TaskStatistics := {
  total : Z; pending : Z; running : Z; failed : Z; killed : Z; completed : Z
}.

(** [JobTracker::GetMapStatistics]. *)
Definition GetMapStatistics (t : JobTracker) : TaskStatistics :=
  {| total := map_total (job_descriptor_ t);
     pending := match map_manager_ t with Some mm => Pending mm | None => 0 end;
     running := match map_manager_ t with Some mm => Allocated mm | None => 0 end;
     failed := map_failed_ t;
     killed := map_killed_ t;
     completed := match map_manager_ t with Some mm => Done mm | None => 0 end |}.

(** [JobTracker::GetReduceStatistics]. *)
Definition GetReduceStatistics (t : JobTracker) : TaskStatistics :=
  {| total := reduce_total (job_descriptor_ t);
     pending := match reduce_manager_ t with Some rm => Pending rm | None => 0 end;
     running := match reduce_manager_ t with Some rm => Allocated rm | None => 0 end;
     failed := reduce_failed_ t;
     killed := reduce_killed_ t;
     completed := match reduce_manager_ t with Some rm => Done rm | None => 0 end |}.

(** ** The worker ([MinionImpl] of minion_impl.cc) *)

Module Minion.
(** The members [Query] reads. *)
Record MinionImpl := {
  jobid_ : string;
  cur_task_id_ : Z;
  cur_attempt_id_ : Z;
  cur_task_state_ : TaskState;
  task_frozen_ : bool;
  over_loaded_ : bool;
  frozen_time_ : Z;
  work_mode_ : WorkMode
}.

(** The request: presence and value of its optional [detail] field. *)
Record QueryRequest := { has_detail : bool; detail : bool }.

(** [MinionImpl::Query]; [now] is [::time(NULL)], [error_msg] is what
    [executor_->GetErrorMsg] returns for the current task.  The result is
    the response as it stands when [done->Run()] sends it. *)
Definition Query (now : Z) (error_msg : string) (request : QueryRequest)
    (m : MinionImpl) : QueryResponse :=
  if over_loaded_ m then empty_response
  else if task_frozen_ m && bool_decide (frozen_time_ m + 300 < now)
  then empty_response
  else
    {| resp_job_id := Some (jobid_ m);
       resp_task_id := Some (cur_task_id_ m);
       resp_attempt_id := Some (cur_attempt_id_ m);
       resp_task_state := Some (cur_task_state_ m);
       resp_log_msg := if has_detail request && detail request
                       then Some error_msg else None |}.
(** [MinionImpl::MinionImpl], without [--kill_task]: the members as the
    constructor leaves them ([jobid_] is set afterwards by [SetJobId]).  An
    unknown work mode aborts the process: there is no worker. *)
Definition new_MinionImpl (work_mode_flag : string) : option MinionImpl :=
  mode ← (if decide (work_mode_flag = "map") then Some kMap
          else if decide (work_mode_flag = "reduce") then Some kReduce
          else if decide (work_mode_flag = "map-only") then Some kMapOnly
          else None);
  Some {| jobid_ := EmptyString; cur_task_id_ := -1; cur_attempt_id_ := -1;
          cur_task_state_ := kTaskUnknown; task_frozen_ := false;
          over_loaded_ := false; frozen_time_ := 0; work_mode_ := mode |}.

(** The two flags of the watchdog. *)
Record WatchFlags := { FLAGS_flow_limit_10gb : Z; FLAGS_flow_limit_1gb : Z }.

(** What a tick of the watchdog reads from the machine.  The load average
    and the number of CPUs are [double]s that enter the code through two
    comparisons only; the tick is given the outcome of each. *)
Record WatchEnv := {
  we_loadavg_opened : bool;   (* fopen("/proc/loadavg", "r") != NULL *)
  we_load_high : bool;        (* minute_load > 1.5 * numCPU *)
  we_load_low : bool;         (* minute_load < 0.8 * numCPU *)
  we_is_10gb : bool;          (* netstat_.Is10gb() *)
  we_send_speed : Z;          (* netstat_.GetSendSpeed() *)
  we_recv_speed : Z;          (* netstat_.GetRecvSpeed() *)
  we_now : Z                  (* ::time(NULL) *)
}.

(** The signals [system("killall ...")] sends to the tools of the task. *)
Inductive Signal := SIGSTOP | SIGCONT.

(** The members a freeze writes: the time, if the task is not frozen yet,
    and the flag. *)
Definition freeze (now : Z) (overload : bool) (m : MinionImpl) : MinionImpl :=
  {| jobid_ := jobid_ m; cur_task_id_ := cur_task_id_ m;
     cur_attempt_id_ := cur_attempt_id_ m; cur_task_state_ := cur_task_state_ m;
     task_frozen_ := true;
     over_loaded_ := if overload then true else over_loaded_ m;
     frozen_time_ := if task_frozen_ m then frozen_time_ m else now;
     work_mode_ := work_mode_ m |}.

Definition resume (m : MinionImpl) : MinionImpl :=
  {| jobid_ := jobid_ m; cur_task_id_ := cur_task_id_ m;
     cur_attempt_id_ := cur_attempt_id_ m; cur_task_state_ := cur_task_state_ m;
     task_frozen_ := false; over_loaded_ := false;
     frozen_time_ := frozen_time_ m; work_mode_ := work_mode_ m |}.

(** [MinionImpl::WatchDogTask]: one tick; the signals sent are returned
    beside the worker.  (The tick always queues the next one.) *)
Definition WatchDogTask (flags : WatchFlags) (env : WatchEnv) (m : MinionImpl)
  : MinionImpl * list Signal :=
  if negb (we_loadavg_opened env) then (m, [])
  else
    let network_limit := if we_is_10gb env then FLAGS_flow_limit_10gb flags
                         else FLAGS_flow_limit_1gb flags in
    if we_load_high env then (freeze (we_now env) true m, [SIGSTOP])
    else if bool_decide (we_send_speed env > network_limit)
            || bool_decide (we_recv_speed env > network_limit)
    then (freeze (we_now env) false m, [SIGSTOP])
    else if task_frozen_ m && we_load_low env then (resume m, [SIGCONT])
    else (m, []).

(** [MinionImpl::CancelTask]: the status of the response, and whether
    [executor_->Stop] has been called.  The attempt id of the request is
    not read. *)
Definition CancelTask (job_id : string) (task_id attempt_id : Z) (m : MinionImpl)
  : Status * bool :=
  if decide (task_id ≠ cur_task_id_ m ∨ jobid_ m ≠ job_id) then (kNoSuchTask, false)
  else (kOk, true).

(** *** The breakpoint file *)

(** [printf("%d")] and [scanf("%d")] on decimal numerals, most significant
    digit first ([Decimal.uint] of the standard library). *)
Fixpoint print_uint (u : Decimal.uint) : string :=
  match u with
  | Decimal.Nil => EmptyString
  | Decimal.D0 r => String "0" (print_uint r)
  | Decimal.D1 r => String "1" (print_uint r)
  | Decimal.D2 r => String "2" (print_uint r)
  | Decimal.D3 r => String "3" (print_uint r)
  | Decimal.D4 r => String "4" (print_uint r)
  | Decimal.D5 r => String "5" (print_uint r)
  | Decimal.D6 r => String "6" (print_uint r)
  | Decimal.D7 r => String "7" (print_uint r)
  | Decimal.D8 r => String "8" (print_uint r)
  | Decimal.D9 r => String "9" (print_uint r)
  end.

Definition print_int (z : Z) : string :=
  if decide (z < 0) then String "-" (print_uint (N.to_uint (Z.to_N (- z))))
  else print_uint (N.to_uint (Z.to_N z)).

Definition digit_of (c : ascii) : option (Decimal.uint → Decimal.uint) :=
  if decide (c = "0"%char) then Some Decimal.D0
  else if decide (c = "1"%char) then Some Decimal.D1
  else if decide (c = "2"%char) then Some Decimal.D2
  else if decide (c = "3"%char) then Some Decimal.D3
  else if decide (c = "4"%char) then Some Decimal.D4
  else if decide (c = "5"%char) then Some Decimal.D5
  else if decide (c = "6"%char) then Some Decimal.D6
  else if decide (c = "7"%char) then Some Decimal.D7
  else if decide (c = "8"%char) then Some Decimal.D8
  else if decide (c = "9"%char) then Some Decimal.D9
  else None.

(** The longest run of digits at the front of a string, and what follows. *)
Fixpoint scan_digits (s : string) : Decimal.uint * string :=
  match s with
  | EmptyString => (Decimal.Nil, EmptyString)
  | String c r =>
      match digit_of c with
      | Some d => let '(u, rest) := scan_digits r in (d u, rest)
      | None => (Decimal.Nil, s)
      end
  end.

(** [isspace]: space, and the characters 9 to 13. *)
Definition is_space (c : ascii) : bool :=
  let n := nat_of_ascii c in
  bool_decide (n = 32%nat) || (bool_decide (9 ≤ n)%nat && bool_decide (n ≤ 13)%nat).

Fixpoint skip_spaces (s : string) : string :=
  match s with
  | EmptyString => EmptyString
  | String c r => if is_space c then skip_spaces r else s
  end.

(** One [%d] directive: white space is skipped, a sign is optional, one
    digit at least is needed.  [None] is a matching failure. *)
Definition scan_int (s : string) : option (Z * string) :=
  let s1 := skip_spaces s in
  let '(negative, s2) :=
    match s1 with
    | String c r =>
        if decide (c = "-"%char) then (true, r)
        else if decide (c = "+"%char) then (false, r)
        else (false, s1)
    | EmptyString => (false, s1)
    end in
  match scan_digits s2 with
  | (Decimal.Nil, _) => None
  | (u, rest) =>
      let v := Z.of_N (N.of_uint u) in
      Some (if negative : bool then - v else v, rest)
  end.

(** [SaveBreakpoint]: the content of [./task_running] afterwards, when the
    file could be opened for writing; [file] is its content before. *)
Definition SaveBreakpoint (opened : bool) (task_id attempt_id : Z)
    (file : option string) : option string :=
  if opened
  then Some (print_int task_id +:+ " " +:+ print_int attempt_id
             +:+ String (ascii_of_nat 10) EmptyString)
  else file.

(** [ClearBreakpoint]: the file is gone if [remove] succeeds. *)
Definition ClearBreakpoint (removed : bool) (file : option string) : option string :=
  if removed then None else file.

(** The request [CheckUnfinishedTask] sends to the master. *)
Record FinishTaskRequest := {
  fn_jobid : string; fn_task_id : Z; fn_attempt_id : Z;
  fn_task_state : TaskState; fn_endpoint : string; fn_work_mode : WorkMode
}.

(** How [CheckUnfinishedTask] ends. *)
Inductive Checked :=
  | NoBreakpoint                         (* no file: nothing is done *)
  | InvalidBreakpoint                    (* fscanf did not read two numbers *)
  | Reported (r : FinishTaskRequest)     (* the request was sent *)
  | Aborted (r : FinishTaskRequest).     (* it could not be sent: abort() *)

(** [MinionImpl::CheckUnfinishedTask]; [file] is the content of
    [./task_running], if it exists, [jobid_flag] is [FLAGS_jobid] and
    [sent] is what [SendRequest] returns.  A number that does not fit an
    [int] makes [fscanf] undefined: [None]. *)
Definition CheckUnfinishedTask (file : option string) (jobid_flag endpoint : string)
    (sent : bool) (m : MinionImpl) : option Checked :=
  match file with
  | None => Some NoBreakpoint
  | Some content =>
      match scan_int content with
      | None => Some InvalidBreakpoint
      | Some (task_id, rest) =>
          match scan_int rest with
          | None => Some InvalidBreakpoint
          | Some (attempt_id, _) =>
              if bool_decide (- 2 ^ 31 ≤ task_id < 2 ^ 31)
                 && bool_decide (- 2 ^ 31 ≤ attempt_id < 2 ^ 31)
              then
                let r := {| fn_jobid := jobid_flag; fn_task_id := task_id;
                            fn_attempt_id := attempt_id;
                            fn_task_state := kTaskKilled;
                            fn_endpoint := endpoint;
                            fn_work_mode := work_mode_ m |} in
                Some (if sent then Reported r else Aborted r)
              else None
          end
      end
  end.
End Minion.

(** * Concrete trackers for the examples *)

Definition ex_flags : Flags := default_flags 3 1.

(** A map-reduce job over one input, one reduce task, retry bound 1 and two
    ignorable map failures. *)
Definition ex_job : JobDescriptor :=
  {| inputs := ["in"]; output := "out"; input_format := kTextInput; split_size := 0;
     job_type := kMapReduceJob; map_total := 0; reduce_total := 1;
     has_reduce_total := true; map_capacity := 10; reduce_capacity := 10;
     has_reduce_capacity := true; map_retry := 1; has_map_retry := true;
     reduce_retry := 1; has_reduce_retry := true; ignore_map_failures := 2;
     ignore_reduce_failures := 0; map_allow_duplicates := true;
     reduce_allow_duplicates := true |}.

(** The same job without a reduce phase. *)
Definition ex_map_only_job : JobDescriptor :=
  {| inputs := ["in"]; output := "out"; input_format := kTextInput; split_size := 0;
     job_type := kMapOnlyJob; map_total := 0; reduce_total := 0;
     has_reduce_total := true; map_capacity := 10; reduce_capacity := 0;
     has_reduce_capacity := true; map_retry := 1; has_map_retry := true;
     reduce_retry := 1; has_reduce_retry := true; ignore_map_failures := 2;
     ignore_reduce_failures := 0; map_allow_duplicates := true;
     reduce_allow_duplicates := true |}.

(** A split of the input, not yet handed out. *)
Definition ex_split (n : Z) : ResourceItem :=
  {| res_id := {| no := n; attempt := 0; status := kResPending; allocated := 0 |};
     inputPath := "in"; offset := 0; split_length := 1 |}.

Definition ex_start_env (splits : Z) : StartEnv :=
  {| se_now := 1000; se_output_exists := false;
     se_partition := ex_split <$> seqZ 0 splits; se_map_start := kOk |}.

Definition ex_finish_env : FinishEnv :=
  {| fe_writer_create := kOk; fe_writer_close := kOk; fe_reduce_start := kOk;
     fe_now := 1010; fe_cancel_now := 1010 |}.

(** The tracker of [job] after a successful [Start] over [splits] splits. *)
Definition ex_started (job : JobDescriptor) (splits : Z) : option JobTracker :=
  snd <$> Start ex_flags (ex_start_env splits) (new_JobTracker ex_flags "job_1" job).

Definition ex_new (job : JobDescriptor) : JobTracker :=
  new_JobTracker ex_flags "job_1" job.

(** The map-reduce job started over five splits, nothing assigned yet. *)
Definition ex_tracker5 : JobTracker :=
  default (ex_new ex_job) (ex_started ex_job 5).

(** A tracker whose counter table holds more names than the flag allows. *)
Definition ex_full_counters : JobTracker :=
  set_counters_ {[ "a" := 1; "b" := 2 ]} ex_tracker5.

(** * Runs of a tracker *)

(** The calls the master and the timer make on one tracker, with what the
    environment answers to each. *)
Inductive Call :=
  | CallStart (env : StartEnv)
  | CallAssignMap (now : Z) (endpoint : string)
  | CallAssignReduce (now : Z) (endpoint : string)
  | CallFinishMap (env : FinishEnv) (n a : Z) (state : TaskState)
      (err_msg : string) (counters : gmap string Z)
  | CallFinishReduce (env : FinishEnv) (n a : Z) (state : TaskState)
      (err_msg : string) (counters : gmap string Z)
  | CallKeepMonitoring (env : MonitorEnv) (map_now : bool)
  | CallKill (now finish : Z) (end_state : JobState)
  | CallLoad (jobid : string) (state : JobState) (data : list AllocateItem.t)
      (resource : list ResourceItem) (start_time finish_time : Z).

(** The tracker after one call; [None] when the call is undefined. *)
Definition call (F : Flags) (c : Call) (t : JobTracker) : option JobTracker :=
  match c with
  | CallStart env => snd <$> Start F env t
  | CallAssignMap now endpoint => snd <$> AssignMap F now endpoint t
  | CallAssignReduce now endpoint => snd <$> AssignReduce F now endpoint t
  | CallFinishMap env n a state err_msg counters =>
      snd <$> FinishMap F env n a state err_msg counters t
  | CallFinishReduce env n a state err_msg counters =>
      snd <$> FinishReduce F env n a state err_msg counters t
  | CallKeepMonitoring env map_now => KeepMonitoring F env map_now t
  | CallKill now finish end_state => Some (Kill now finish end_state t).2
  | CallLoad jobid state data resource start_time finish_time =>
      snd <$> Load F jobid state data resource start_time finish_time t
  end.

Definition run (F : Flags) (calls : list Call) (t : JobTracker) : option JobTracker :=
  foldl (λ acc c, acc ≫= call F c) (Some t) calls.

(** The trackers a master can hold: a new one, and what calls make of it. *)
Inductive reachable (F : Flags) : JobTracker → Prop :=
  | reachable_new (id : string) (job : JobDescriptor) :
      reachable F (new_JobTracker F id job)
  | reachable_call (c : Call) (t t' : JobTracker) :
      reachable F t → call F c t = Some t' → reachable F t'.

(** * More concrete trackers *)

(** Five maps are handed out; task 0 is duplicated three times (attempts
    2, 3 and 4); tasks 1 to 4 complete. *)
Definition ex_end_game_calls : list Call :=
  [ CallStart (ex_start_env 5);
    CallAssignMap 1001 "w1:1"; CallAssignMap 1002 "w2:1"; CallAssignMap 1003 "w3:1";
    CallAssignMap 1004 "w4:1"; CallAssignMap 1005 "w5:1";
    CallAssignMap 1006 "w6:1"; CallAssignMap 1007 "w7:1"; CallAssignMap 1008 "w8:1";
    CallFinishMap ex_finish_env 1 1 kTaskCompleted "" ∅;
    CallFinishMap ex_finish_env 2 1 kTaskCompleted "" ∅;
    CallFinishMap ex_finish_env 3 1 kTaskCompleted "" ∅;
    CallFinishMap ex_finish_env 4 1 kTaskCompleted "" ∅ ].


(** One more worker asks for a map: the slug is drained and left empty. *)
Definition ex_empty_slug : JobTracker :=
  default (ex_new ex_job)
    (run ex_flags (ex_end_game_calls ++ [CallAssignMap 1011 "w9:1"]) (ex_new ex_job)).

(** What the examples read off a ledger entry and off a tracker. *)
Definition entry_view (a : AllocateItem.t) : Z * Z * TaskState :=
  (AllocateItem.resource_no a, AllocateItem.attempt a, AllocateItem.state a).



(** A worker on task 0, attempt 1, that the watchdog found overloaded. *)
Definition ex_overloaded : Minion.MinionImpl :=
  {| Minion.jobid_ := "job_1"; Minion.cur_task_id_ := 0;
     Minion.cur_attempt_id_ := 1; Minion.cur_task_state_ := kTaskRunning;
     Minion.task_frozen_ := true; Minion.over_loaded_ := true;
     Minion.frozen_time_ := 1990; Minion.work_mode_ := kMap |}.

Definition ex_request : Minion.QueryRequest :=
  {| Minion.has_detail := false; Minion.detail := false |}.

(** A pass that queries, and reaches the overloaded worker. *)
Definition ex_query_env : MonitorEnv :=
  {| me_random := true; me_now := 2000;
     me_query := λ _, (true, Minion.Query 2000 "" ex_request ex_overloaded);
     me_kill_now := 2001 |}.

(** The synthetic sort file cannot be closed. *)
Definition ex_close_fails_env : FinishEnv :=
  {| fe_writer_create := kOk; fe_writer_close := kWriteFileFail;
     fe_reduce_start := kOk; fe_now := 1020; fe_cancel_now := 1020 |}.

(** Task 0 fails on node h1 and is put in the ignore set (retry bound 1,
    budget 2); its next attempt fails on the same node and the empty sort
    file that would fake its completion cannot be written. *)
Definition ex_ignore_calls : list Call :=
  [ CallStart (ex_start_env 2);
    CallAssignMap 1001 "h1:1";
    CallFinishMap ex_finish_env 0 1 kTaskFailed "boom" ∅;
    CallAssignMap 1011 "h1:2";
    CallFinishMap ex_close_fails_env 0 2 kTaskFailed "boom" ∅ ].

Definition ex_ignored_twice : JobTracker :=
  default (ex_new ex_job) (run ex_flags ex_ignore_calls (ex_new ex_job)).

(** [ex_empty_slug] after attempt 1 of task 0 has reported Completed. *)
Definition ex_first_won : JobTracker :=
  default ex_empty_slug
    (snd <$> FinishMap ex_flags ex_finish_env 0 1 kTaskCompleted "" ∅ ex_empty_slug).

(** Task 0 fails once and is completed by its second attempt, which
    cancels the first. *)
Definition ex_retry_calls : list Call :=
  [ CallStart (ex_start_env 2);
    CallAssignMap 1001 "h1:1";
    CallFinishMap ex_finish_env 0 1 kTaskFailed "boom" ∅;
    CallAssignMap 1011 "h2:1";
    CallFinishMap ex_close_fails_env 0 2 kTaskCompleted "" ∅ ].

Definition ex_retried : JobTracker :=
  default (ex_new ex_job) (run ex_flags ex_retry_calls (ex_new ex_job)).

(** * Notions used in the statements *)



(** The worker answers nothing: it is overloaded, or frozen for more than
    300 seconds. *)
Definition silent (m : Minion.MinionImpl) (now : Z) : Prop :=
  Minion.over_loaded_ m = true
  ∨ (Minion.task_frozen_ m = true ∧ Minion.frozen_time_ m + 300 < now).

(** What the failure bookkeeping of the map phase consists of: the count
    and the nodes per task id, the ignore set and its counter, and the
    budget of the descriptor. *)
Definition failure_books (t : JobTracker)
  : list Z * gmap Z (gset string) * gset Z * Z * Z :=
  (failed_count_ t, failed_nodes_ t, ignore_failure_mappers_ t,
   ignored_map_failures_ t, ignore_map_failures (job_descriptor_ t)).

(** [failed_count_[no]] never exceeds the number of nodes in
    [failed_nodes_[no]]. *)
Definition failures_counted_once (t : JobTracker) : Prop :=
  ∀ (i : nat) (c : Z),
    failed_count_ t !! i = Some c →
    c ≤ Z.of_nat (size (default ∅ (failed_nodes_ t !! Z.of_nat i))).

(** The ignore set is no larger than its counter, and the counter stays
    within the budget. *)
Definition ignored_within_budget (t : JobTracker) : Prop :=
  Z.of_nat (size (ignore_failure_mappers_ t)) ≤ ignored_map_failures_ t
  ∧ ignored_map_failures_ t ≤ Z.max 0 (ignore_map_failures (job_descriptor_ t)).

(** Both properties of the failure books. *)
Definition books_ok (t : JobTracker) : Prop :=
  failures_counted_once t ∧ ignored_within_budget t.

(** The tracker the switch leaves, however it ends. *)
Definition dispatch_tracker (d : Dispatch) : JobTracker :=
  match d with
  | Break _ _ t => t
  | Return _ t => t
  end.

(** What the fold of [CancelOtherAttempts] does to an entry of the table:
    nothing, or the entry is canceled. *)
Definition canceled (now : Z) (c : AllocateItem.t) : AllocateItem.t :=
  AllocateItem.set_period (now - AllocateItem.alloc_time c)
    (AllocateItem.set_state kTaskCanceled c).

(** The members [CancelOtherAttempts] leaves alone. *)
Definition outside_ledger (t : JobTracker) :=
  (map_manager_ t, reduce_manager_ t, map_index_ t, reduce_index_ t,
   counters_ t, state_ t, map_failed_ t, reduce_failed_ t, error_msg_ t,
   job_descriptor_ t, map_allow_duplicates_ t, reduce_allow_duplicates_ t).

(** The [Finish] function of a phase. *)
Definition Finish (F : Flags) (map : bool) :=
  if map then FinishMap F else FinishReduce F.

(** The index of a phase. *)
Definition phase_index (map : bool) (t : JobTracker) : gmap Z (gmap Z nat) :=
  if map then map_index_ t else reduce_index_ t.



(** What a checkpoint of [J] gives back: the history and the resource dump
    of [J], its id, state and times, loaded into a tracker newly built from
    the descriptor of [J] ([id'] is the id the constructor generated, which
    [Load] replaces). *)
Definition Load_after_Dump (F : Flags) (id' : string) (J : JobTracker)
  : option (bool * JobTracker) :=
  Load F (job_id_ J) (state_ J) (HistoryForDump J) (InputDataForDump J)
       (start_time_ J) (finish_time_ J) (new_JobTracker F id' (job_descriptor_ J)).

(** The entries of a phase in a given state. *)
Definition count_entries (map : bool) (st : TaskState)
    (table : list AllocateItem.t) : Z :=
  Z.of_nat (length (List.filter
                      (λ a, bool_decide (AllocateItem.is_map a = map)
                            && bool_decide (AllocateItem.state a = st)) table)).

(** One if the entry is of the phase and in the state, zero otherwise. *)
Definition counts_as (map : bool) (st : TaskState) (a : AllocateItem.t) : Z :=
  if bool_decide (AllocateItem.is_map a = map)
     && bool_decide (AllocateItem.state a = st) then 1 else 0.

(** The members the first parts of [Load] keep. *)
Definition loaded_so_far (t : JobTracker) :=
  (job_id_ t, state_ t, allocation_table_ t, map_failed_ t, map_killed_ t,
   reduce_failed_ t, reduce_killed_ t, monitor_ t, job_descriptor_ t).

(** * Notions used in the further properties *)

(** Who an entry of the ledger was given to, and when: the members no
    function writes after the entry is made. *)
Definition same_task (c c' : AllocateItem.t) : Prop :=
  AllocateItem.endpoint c' = AllocateItem.endpoint c
  ∧ AllocateItem.resource_no c' = AllocateItem.resource_no c
  ∧ AllocateItem.attempt c' = AllocateItem.attempt c
  ∧ AllocateItem.is_map c' = AllocateItem.is_map c
  ∧ AllocateItem.alloc_time c' = AllocateItem.alloc_time c.

(** An entry later on: the same task, and not Running again once it has
    left that state. *)
Definition entry_evolves (c c' : AllocateItem.t) : Prop :=
  same_task c c'
  ∧ (AllocateItem.state c ≠ kTaskRunning → AllocateItem.state c' ≠ kTaskRunning).

(** A ledger later on: every entry is still at its position. *)
Definition table_evolves (table table' : list AllocateItem.t) : Prop :=
  ∀ (p : nat) (c : AllocateItem.t),
    table !! p = Some c → ∃ c', table' !! p = Some c' ∧ entry_evolves c c'.

(** Table and indices of a tracker. *)
Definition ledger_of (t : JobTracker) :=
  (allocation_table_ t, map_index_ t, reduce_index_ t).

(** A step that writes neither the table nor the indices, and gives the
    heap no new pointer. *)
Definition ledger_kept (t t' : JobTracker) : Prop :=
  ledger_of t' = ledger_of t ∧ time_heap_ t' ⊆ time_heap_ t.

(** A step that makes no entry: the ledger keeps its length and its
    entries their positions, the indices are as they were, and the heap
    gets no new pointer. *)
Definition in_place (t t' : JobTracker) : Prop :=
  length (allocation_table_ t') = length (allocation_table_ t)
  ∧ table_evolves (allocation_table_ t) (allocation_table_ t')
  ∧ map_index_ t' = map_index_ t
  ∧ reduce_index_ t' = reduce_index_ t
  ∧ time_heap_ t' ⊆ time_heap_ t.

(** Every pointer of an index leads to an entry of the table, made for the
    task, the attempt and the phase it is indexed under. *)
Definition index_ok (map : bool) (index : gmap Z (gmap Z nat))
    (table : list AllocateItem.t) : Prop :=
  ∀ (n a : Z) (p : nat),
    index_find index n a = Some p →
    ∃ c, table !! p = Some c
         ∧ AllocateItem.resource_no c = n
         ∧ AllocateItem.attempt c = a
         ∧ AllocateItem.is_map c = map.

(** Every pointer of the heap leads to an entry of the table. *)
Definition heap_ok (heap : list nat) (table : list AllocateItem.t) : Prop :=
  ∀ p : nat, p ∈ heap → (p < length table)%nat.

(** No pointer of the tracker dangles. *)
Definition ledger_ok (t : JobTracker) : Prop :=
  index_ok true (map_index_ t) (allocation_table_ t)
  ∧ index_ok false (reduce_index_ t) (allocation_table_ t)
  ∧ heap_ok (time_heap_ t) (allocation_table_ t).

(** An entry the monitor or [Kill] has killed at time [now]. *)
Definition killed_at (now : Z) (c : AllocateItem.t) : AllocateItem.t :=
  AllocateItem.set_period (now - AllocateItem.alloc_time c)
    (AllocateItem.set_state kTaskKilled c).

(** What a monitor pass can do to an entry: nothing, or kill it if it is
    Running and of the monitored phase. *)
Definition monitor_touched (map_now : bool) (now : Z) (c c' : AllocateItem.t)
  : Prop :=
  c' = c
  ∨ (AllocateItem.state c = kTaskRunning ∧ AllocateItem.is_map c = map_now
     ∧ c' = killed_at now c).

(** The members a monitor pass never writes. *)
Definition monitor_keeps (t : JobTracker) :=
  (job_id_ t, state_ t, job_descriptor_ t, counters_ t, error_msg_ t,
   map_failed_ t, reduce_failed_ t, failure_books t, map_index_ t,
   reduce_index_ t, map_dismissed_ t, reduce_dismissed_ t, map_ t, reduce_ t,
   rpc_client_ t, map_monitoring_ t, reduce_monitoring_ t,
   map_end_game_begin_ t, reduce_begin_ t, reduce_end_game_begin_ t).

(** The members of the phase a monitor pass is not for. *)
Definition other_phase_kept (map_now : bool) (t t' : JobTracker) : Prop :=
  if map_now
  then reduce_killed_ t' = reduce_killed_ t ∧ reduce_slug_ t' = reduce_slug_ t
       ∧ reduce_manager_ t' = reduce_manager_ t
  else map_killed_ t' = map_killed_ t ∧ map_slug_ t' = map_slug_ t
       ∧ map_manager_ t' = map_manager_ t.

(** What a monitor pass for a phase makes of a tracker, the heap and the
    timer apart: it kills Running entries of the phase, and sends queries. *)
Definition monitor_pass (map_now : bool) (now : Z) (t t' : JobTracker) : Prop :=
  length (allocation_table_ t') = length (allocation_table_ t)
  ∧ (∀ (p : nat) (c : AllocateItem.t),
       allocation_table_ t !! p = Some c →
       ∃ c', allocation_table_ t' !! p = Some c'
             ∧ monitor_touched map_now now c c')
  ∧ monitor_keeps t' = monitor_keeps t
  ∧ other_phase_kept map_now t t'
  ∧ ∃ endpoints : list string,
      trace_ t' = trace_ t ++ (EvQuery <$> endpoints).

(** What an assignment makes of the ledger: one entry more, at the end of
    the table, indexed for its phase under its task and attempt, and pushed
    on the heap. *)
Definition entry_made (map : bool) (alloc : AllocateItem.t) (t t' : JobTracker)
  : Prop :=
  allocation_table_ t' = allocation_table_ t ++ [alloc]
  ∧ phase_index map t'
    = index_put (AllocateItem.resource_no alloc) (AllocateItem.attempt alloc)
                (length (allocation_table_ t)) (phase_index map t)
  ∧ phase_index (negb map) t' = phase_index (negb map) t
  ∧ time_heap_ t'
    = heap_push (allocation_table_ t') (length (allocation_table_ t)) (time_heap_ t).

(** The job state after an assignment: a Pending job is Running. *)
Definition started (s : JobState) : JobState :=
  if decide (s = kPending) then kRunning else s.

(** The entries of a history that [Replay] takes for the item [n] of the
    table of a phase: those of the phase, for the task [n]. *)
Definition replayed_for (is_map : bool) (n : nat) (history : list AllocateItem.t)
  : list AllocateItem.t :=
  List.filter (λ it, bool_decide (AllocateItem.is_map it = is_map)
                     && bool_decide (AllocateItem.resource_no it = Z.of_nat n))
              history.

Definition in_state (st : TaskState) (it : AllocateItem.t) : bool :=
  bool_decide (AllocateItem.state it = st).

(** The item [n] of a replayed table, in closed form, from the entries
    [hits] of the history that are for it: Done if one of them is Completed,
    else Allocated as many times as there are Running ones, else Pending,
    with the attempt number of the last of them. *)
Definition replayed_item (n : nat) (hits : list AllocateItem.t) : IdItem :=
  let done := existsb (in_state kTaskCompleted) hits in
  let running := List.filter (in_state kTaskRunning) hits in
  {| no := Z.of_nat n;
     attempt := default 0 (AllocateItem.attempt <$> last hits);
     status := if done then kResDone
               else match running with [] => kResPending | _ => kResAllocated end;
     allocated := if done then 0 else Z.of_nat (length running) |}.

(** The calls to [MasterImpl::RetractJob] among the calls recorded, with
    the job id and the state they pass. *)
Definition retractions (evs : list Event) : list (string * JobState) :=
  omap (λ e, match e with
             | EvRetractJob id js => Some (id, js)
             | _ => None
             end) evs.

(** A step that retracts nothing and leaves the job in its state. *)
Definition quiet (t t' : JobTracker) : Prop :=
  job_id_ t' = job_id_ t ∧ state_ t' = state_ t
  ∧ ∃ evs, trace_ t' = trace_ t ++ evs ∧ retractions evs = [].

(** A step that tells the master what becomes of the job: it retracts
    nothing and leaves the job in its state, or it retracts the job once,
    as Completed or as Failed, and that is the state it leaves the job in. *)
Definition told (t t' : JobTracker) : Prop :=
  job_id_ t' = job_id_ t
  ∧ ∃ evs, trace_ t' = trace_ t ++ evs
           ∧ match retractions evs with
             | [] => state_ t' = state_ t
             | [(id, js)] =>
                 id = job_id_ t ∧ state_ t' = js ∧ (js = kCompleted ∨ js = kFailed)
             | _ => False
             end.

(** Pools and descriptor of a tracker. *)
Definition pools_of (t : JobTracker) :=
  (map_manager_ t, reduce_manager_ t, job_descriptor_ t).

(** * Concrete inputs of the further properties *)

(** [ex_empty_slug] after a monitor pass whose queries reach the overloaded
    worker. *)
Definition ex_monitored : JobTracker :=
  default ex_empty_slug (KeepMonitoring ex_flags ex_query_env true ex_empty_slug).

(** The first assignment of [ex_tracker5]. *)
Definition ex_assigned : option ResourceItem * Status * JobTracker :=
  default (None, kOk, ex_tracker5) (AssignMap ex_flags 1001 "w1:1" ex_tracker5).

(** The map-only job over one split, its one map handed out. *)
Definition ex_one_map : JobTracker :=
  default (ex_new ex_map_only_job)
    (run ex_flags [CallStart (ex_start_env 1); CallAssignMap 1001 "w1:1"]
         (ex_new ex_map_only_job)).

(** ... and that map reported Completed. *)
Definition ex_one_map_done : JobTracker :=
  default ex_one_map
    (snd <$> FinishMap ex_flags ex_finish_env 0 1 kTaskCompleted "" ∅ ex_one_map).

(** Galaxy refuses the submission. *)
Definition ex_galaxy_refuses : StartEnv :=
  {| se_now := 1000; se_output_exists := false;
     se_partition := ex_split <$> seqZ 0 2; se_map_start := kGalaxyError |}.

Definition ex_refused : JobTracker :=
  default (ex_new ex_job) (snd <$> Start ex_flags ex_galaxy_refuses (ex_new ex_job)).

(** The worker after a run of watchdog ticks. *)
Definition ticks (flags : Minion.WatchFlags) (envs : list Minion.WatchEnv)
    (m : Minion.MinionImpl) : Minion.MinionImpl :=
  foldl (λ m env, (Minion.WatchDogTask flags env m).1) m envs.

(** A worker frozen at time 100 for network traffic, not for load. *)
Definition ex_frozen : Minion.MinionImpl :=
  {| Minion.jobid_ := "job_1"; Minion.cur_task_id_ := 0;
     Minion.cur_attempt_id_ := 1; Minion.cur_task_state_ := kTaskRunning;
     Minion.task_frozen_ := true; Minion.over_loaded_ := false;
     Minion.frozen_time_ := 100; Minion.work_mode_ := kMap |}.

Definition ex_watch_flags : Minion.WatchFlags :=
  {| Minion.FLAGS_flow_limit_10gb := 1000; Minion.FLAGS_flow_limit_1gb := 100 |}.

(** A tick that finds the network busy and the load neither high nor low. *)
Definition ex_busy_tick (now : Z) : Minion.WatchEnv :=
  {| Minion.we_loadavg_opened := true; Minion.we_load_high := false;
     Minion.we_load_low := false; Minion.we_is_10gb := false;
     Minion.we_send_speed := 500; Minion.we_recv_speed := 0;
     Minion.we_now := now |}.

(** The first assignment of a reduce of [ex_tracker5]. *)
Definition ex_assigned_reduce : option IdItem * Status * JobTracker :=
  default (None, kOk, ex_tracker5) (AssignReduce ex_flags 1001 "r1:1" ex_tracker5).

(** A started map of the job is running, Galaxy accepts the update of the
    map Gru. *)
Definition ex_update_env : UpdateEnv :=
  {| ue_map_update := kOk; ue_reduce_update := kGalaxyError |}.

(** A string that does not go on with a digit. *)
Definition no_digit_ahead (s : string) : Prop :=
  match s with
  | EmptyString => True
  | String c _ => Minion.digit_of c = None
  end.

(** The four counters of failed and killed attempts. *)
Definition tallies (t : JobTracker) : Z * Z * Z * Z :=
  (map_failed_ t, map_killed_ t, reduce_failed_ t, reduce_killed_ t).

(** Every Failed and every Killed entry of the ledger has been counted for
    its phase. *)
Definition counted (t : JobTracker) : Prop :=
  count_entries true kTaskFailed (allocation_table_ t) ≤ map_failed_ t
  ∧ count_entries true kTaskKilled (allocation_table_ t) ≤ map_killed_ t
  ∧ count_entries false kTaskFailed (allocation_table_ t) ≤ reduce_failed_ t
  ∧ count_entries false kTaskKilled (allocation_table_ t) ≤ reduce_killed_ t.

(** * Notions and inputs of the statements over runs *)

(** A report of a worker: a [FinishMap] or a [FinishReduce] call. *)
Definition is_report (c : Call) : bool :=
  match c with
  | CallFinishMap _ _ _ _ _ _ | CallFinishReduce _ _ _ _ _ _ => true
  | _ => false
  end.

(** A job killed after its first assignment, and a worker that asks for a
    map afterwards. *)
Definition ex_killed_calls : list Call :=
  [ CallStart (ex_start_env 2);
    CallAssignMap 1001 "w1:1";
    CallKill 1005 1005 kKilled ].

Definition ex_killed : JobTracker :=
  default (ex_new ex_job) (run ex_flags ex_killed_calls (ex_new ex_job)).

Definition ex_assigned_after_kill : JobTracker :=
  default ex_killed (call ex_flags (CallAssignMap 1011 "w2:1") ex_killed).










(** The ignore set of the map phase and its counter. *)
Definition ignore_books (t : JobTracker) : gset Z * Z :=
  (ignore_failure_mappers_ t, ignored_map_failures_ t).

(** The job over two splits with its first map handed out, and the same
    after that attempt has failed. *)
Definition ex_before_failure : JobTracker :=
  default (ex_new ex_job)
    (run ex_flags [CallStart (ex_start_env 2); CallAssignMap 1001 "h1:1"]
         (ex_new ex_job)).

Definition ex_after_failure : JobTracker :=
  default ex_before_failure
    (call ex_flags (CallFinishMap ex_finish_env 0 1 kTaskFailed "boom" ∅)
          ex_before_failure).
(** * Properties *)

(** Reading a member back after assignments: the assignments and the
    projections of the two big records, and nothing else, are unfolded. *)
Ltac member_simpl :=
  cbn [
    set_map_total set_reduce_total set_has_reduce_total set_map_capacity
    set_reduce_capacity set_map_retry set_has_map_retry set_reduce_retry
    set_has_reduce_retry set_job_id_ set_job_descriptor_ set_state_ set_map_
    set_map_manager_ set_map_end_game_begin_ set_map_killed_ set_map_failed_
    set_reduce_begin_ set_reduce_ set_reduce_manager_
    set_reduce_end_game_begin_ set_reduce_killed_ set_reduce_failed_
    set_monitor_ set_map_monitoring_ set_reduce_monitoring_ set_rpc_client_
    set_fs_ set_start_time_ set_finish_time_ set_ignored_map_failures_
    set_ignored_reduce_failures_ set_allocation_table_ set_map_index_
    set_reduce_index_ set_time_heap_ set_map_slug_ set_reduce_slug_
    set_failed_count_ set_failed_nodes_ set_ignore_failure_mappers_
    set_ignore_failure_reducers_ set_map_dismissed_ set_reduce_dismissed_
    set_counters_ set_error_msg_ set_trace_ job_id_ job_descriptor_ state_
    map_allow_duplicates_ reduce_allow_duplicates_ map_ map_manager_
    map_end_game_begin_ map_killed_ map_failed_ reduce_begin_ reduce_
    reduce_manager_ reduce_end_game_begin_ reduce_killed_ reduce_failed_
    monitor_ map_monitoring_ reduce_monitoring_ rpc_client_ fs_ start_time_
    finish_time_ ignored_map_failures_ ignored_reduce_failures_
    allocation_table_ map_index_ reduce_index_ time_heap_ map_slug_
    reduce_slug_ failed_count_ failed_nodes_ ignore_failure_mappers_
    ignore_failure_reducers_ map_dismissed_ reduce_dismissed_ counters_
    error_msg_ trace_ inputs output input_format split_size job_type
    map_total reduce_total has_reduce_total map_capacity reduce_capacity
    has_reduce_capacity map_retry has_map_retry reduce_retry
    has_reduce_retry ignore_map_failures ignore_reduce_failures
    map_allow_duplicates reduce_allow_duplicates
    AllocateItem.set_state AllocateItem.set_period AllocateItem.endpoint
    AllocateItem.state AllocateItem.resource_no AllocateItem.attempt
    AllocateItem.is_map AllocateItem.alloc_time AllocateItem.period
    emit fst snd] in *.

(** ** Arithmetic of the conversions *)


Lemma to_int_small (n : Z) : - 2 ^ 31 ≤ n < 2 ^ 31 → to_int n = n.
Proof. intros Hn. unfold to_int. rewrite Z.mod_small; lia. Qed.


(** ** FinishReduce before the end of the map phase *)

(** C1.  While the map pool has fewer Done items than [map_total], a
    report that is not Killed makes [FinishReduce] return [kSuspend], and
    the tracker it leaves is the tracker it was given: no ledger entry, no
    pool status, no counter and no job state is modified. *)
Theorem FinishReduce_too_early (F : Flags) (env : FinishEnv) (n a : Z)
    (state : TaskState) (err_msg : string) (counters : gmap string Z)
    (t : JobTracker) (mm : list ResourceItem) :
  map_manager_ t = Some mm →
  Done mm < map_total (job_descriptor_ t) →
  state ≠ kTaskKilled →
  FinishReduce F env n a state err_msg counters t = Some (kSuspend, t).
Proof.
  intros Hmm Hdone Hstate. unfold FinishReduce, reduce_too_early.
  rewrite Hmm, bool_decide_eq_true_2, bool_decide_eq_true_2; done.
Qed.

(** ** Start *)

(** The descriptor and the members of a new tracker. *)
Lemma new_JobTracker_members (F : Flags) (id : string) (job : JobDescriptor) :
  let t := new_JobTracker F id job in
  inputs (job_descriptor_ t) = inputs job
  ∧ output (job_descriptor_ t) = output job
  ∧ job_type (job_descriptor_ t) = job_type job
  ∧ reduce_total (job_descriptor_ t) = reduce_total job
  ∧ map_ t = None ∧ reduce_ t = None
  ∧ map_manager_ t = None ∧ reduce_manager_ t = None
  ∧ reduce_begin_ t = 0 ∧ reduce_end_game_begin_ t = 0
  ∧ trace_ t = [].
Proof.
  destruct job as [ins out fmt ss jt mt rt hrt mc rc hrc mr hmr rr hrr imf irf mad rad].
  unfold new_JobTracker; simpl.
  destruct hmr, hrr, hrt, hrc; simpl; repeat case_decide; simpl; done.
Qed.





Lemma FinishReduce_too_early_witness :
  map_manager_ ex_tracker5 = Some (se_partition (ex_start_env 5))
  ∧ Done (se_partition (ex_start_env 5)) < map_total (job_descriptor_ ex_tracker5)
  ∧ kTaskCompleted ≠ kTaskKilled
  ∧ FinishReduce ex_flags ex_finish_env 0 1 kTaskCompleted "" ∅ ex_tracker5
    = Some (kSuspend, ex_tracker5).
Proof.
  assert (H1 : map_manager_ ex_tracker5 = Some (se_partition (ex_start_env 5)))
    by reflexivity.
  assert (H2 : Done (se_partition (ex_start_env 5))
               < map_total (job_descriptor_ ex_tracker5)) by (vm_compute; done).
  assert (H3 : kTaskCompleted ≠ kTaskKilled) by done.
  exact (conj H1 (conj H2 (conj H3
           (FinishReduce_too_early ex_flags ex_finish_env 0 1 kTaskCompleted "" ∅
              ex_tracker5 _ H1 H2 H3)))).
Defined.


(** C3, as the claim has it, fails on an empty partition: [Start] returns
    [kNoMore], not [kOpenFileFail]. *)
Lemma Start_empty_partition_returns_NoMore :
  (Start ex_flags (ex_start_env 0) (ex_new ex_job) ≫= λ r, Some (r.1, state_ r.2))
  = Some (kNoMore, kFailed)
  ∧ kNoMore ≠ kOpenFileFail.
Proof. split; [vm_compute; reflexivity | discriminate]. Qed.

(** C3, as the code has it.  When the output exists, [Start] returns
    [kWriteFileFail] and leaves the job Failed with both totals 0, no Galaxy
    handle and no call made.  When the partition is empty,
    [BuildResourceManagers] reports [kOpenFileFail] and leaves the job
    Failed, and [Start] returns [kNoMore] in its place, again with no Galaxy
    handle and no call made. *)
Theorem Start_failures (F : Flags) (id : string) (job : JobDescriptor)
    (env : StartEnv) :
  inputs job ≠ [] →
  (se_output_exists env = true →
     ∃ t', Start F env (new_JobTracker F id job) = Some (kWriteFileFail, t')
           ∧ state_ t' = kFailed
           ∧ map_total (job_descriptor_ t') = 0
           ∧ reduce_total (job_descriptor_ t') = 0
           ∧ map_ t' = None ∧ reduce_ t' = None ∧ trace_ t' = [])
  ∧ (se_output_exists env = false → se_partition env = [] →
     ∃ t', Start F env (new_JobTracker F id job) = Some (kNoMore, t')
           ∧ BuildResourceManagers []
               (set_fs_ true (set_start_time_ (se_now env) (new_JobTracker F id job)))
             = Some (kOpenFileFail, t')
           ∧ state_ t' = kFailed
           ∧ map_total (job_descriptor_ t') = 0
           ∧ reduce_total (job_descriptor_ t') = 0
           ∧ map_ t' = None ∧ reduce_ t' = None ∧ trace_ t' = []).
Proof.
  intros Hin.
  destruct (new_JobTracker_members F id job)
    as (Hi & _ & _ & _ & Hm & Hr & _ & _ & _ & _ & Htr).
  cbv zeta in *.
  generalize dependent (new_JobTracker F id job). intros t Hi Hm Hr Htr.
  split.
  - intros Hout. unfold Start. rewrite Hout.
    eexists; split; [reflexivity|]. by member_simpl.
  - intros Hout Hpart. unfold Start, BuildResourceManagers.
    rewrite Hout, Hpart. member_simpl.
    destruct (inputs (job_descriptor_ t)) as [|i0 ins]; [congruence|].
    member_simpl. unfold SumOfItem. simpl.
    eexists; split; [reflexivity|]. split; [reflexivity|]. by member_simpl.
Qed.

Lemma Start_failures_witness :
  inputs ex_job ≠ []
  ∧ (∃ t', Start ex_flags
             {| se_now := 1000; se_output_exists := true;
                se_partition := []; se_map_start := kOk |} (ex_new ex_job)
           = Some (kWriteFileFail, t'))
  ∧ (∃ t', Start ex_flags (ex_start_env 0) (ex_new ex_job) = Some (kNoMore, t')).
Proof.
  assert (H1 : inputs ex_job ≠ []) by done.
  split; [exact H1|]. split.
  - destruct (proj1 (Start_failures ex_flags "job_1" ex_job
                       {| se_now := 1000; se_output_exists := true;
                          se_partition := []; se_map_start := kOk |} H1)
                eq_refl) as (t' & Ht & _).
    exists t'. exact Ht.
  - destruct (proj2 (Start_failures ex_flags "job_1" ex_job (ex_start_env 0) H1)
                eq_refl eq_refl) as (t' & Ht & _).
    exists t'. exact Ht.
Defined.

(** ** Dismissal *)



(** At the budget the answer is [kSuspend]; one below it the endpoint is
    dismissed. *)
Example CanMapDismiss_at_budget :
  (CanMapDismiss ex_flags "w:3"
     (set_map_dismissed_ {[ "w:1"; "w:2"; "w:4"; "w:5" ]} ex_tracker5) ≫= λ r, Some r.1)
  = Some kSuspend
  ∧ (CanMapDismiss ex_flags "w:3"
       (set_map_dismissed_ {[ "w:1"; "w:2"; "w:4" ]} ex_tracker5)
       ≫= λ r, Some (r.1, size (map_dismissed_ r.2)))
    = Some (kNoMore, 4%nat).
Proof. split; vm_compute; reflexivity. Qed.

(** ** Counters *)

Lemma to_int64_small (n : Z) : - 2 ^ 63 ≤ n < 2 ^ 63 → to_int64 n = n.
Proof. intros Hn. unfold to_int64. rewrite Z.mod_small; lia. Qed.

Lemma accumulate_lookup (c r : gmap string Z) (k : string) :
  map_fold (λ key value acc,
              <[key := to_int64 (default 0 (acc !! key) + value)]> acc) c r !! k
  = match r !! k with
    | Some v => Some (to_int64 (default 0 (c !! k) + v))
    | None => c !! k
    end.
Proof.
  revert k.
  apply (map_fold_weak_ind
           (λ acc m, ∀ k, acc !! k
                          = match m !! k with
                            | Some v => Some (to_int64 (default 0 (c !! k) + v))
                            | None => c !! k
                            end)).
  - intros k. by rewrite lookup_empty.
  - intros i x m acc Hi IH k.
    destruct (decide (i = k)) as [->|Hne].
    + by rewrite !lookup_insert_eq, IH, Hi.
    + rewrite !lookup_insert_ne by done. apply IH.
Qed.

(** C9, as the claim has it, fails once the table is over the bound: the
    name ["a"] is present with value 1, a report of 5 for it is not added,
    and the tracker is left as it was. *)
Lemma AccumulateCounters_full_drops_known_name :
  Z.of_nat (size (counters_ ex_full_counters))
    > to_size_t (FLAGS_max_counters_per_job ex_flags)
  ∧ counters_ ex_full_counters !! "a" = Some 1
  ∧ AccumulateCounters ex_flags {[ "a" := 5 ]} ex_full_counters
    = (false, ex_full_counters)
  ∧ counters_ (AccumulateCounters ex_flags {[ "a" := 5 ]} ex_full_counters).2 !! "a"
    ≠ Some (1 + 5).
Proof.
  split; [vm_compute; reflexivity|].
  split; [vm_compute; reflexivity|].
  split; [vm_compute; reflexivity|].
  vm_compute. discriminate.
Qed.

(** C9, as the code has it.  The bound is tested once, before anything is
    added, against the number of names already in the table (the flag
    converted to [size_t]).  Over the bound the call returns false and
    changes nothing, for new and for known names alike; otherwise it returns
    true and every reported value is added to the value of its name, a name
    not yet present taking the reported value.  The sums are sums of
    [int64_t]: where none leaves the range of the type they are the sums of
    the integers, and one that does wraps around. *)
Theorem AccumulateCounters_spec (F : Flags) (counters : gmap string Z)
    (t : JobTracker) :
  map_Forall (λ _ v, - 2 ^ 63 ≤ v < 2 ^ 63) counters →
  AccumulateCounters F counters t
  = (if decide (Z.of_nat (size (counters_ t))
                > to_size_t (FLAGS_max_counters_per_job F))
     then (false, t)
     else (true,
           set_counters_
             (union_with (λ a b, Some (to_int64 (a + b))) (counters_ t) counters)
             t))
  ∧ ((∀ (k : string) (a b : Z),
        counters_ t !! k = Some a → counters !! k = Some b →
        - 2 ^ 63 ≤ a + b < 2 ^ 63) →
     AccumulateCounters F counters t
     = if decide (Z.of_nat (size (counters_ t))
                  > to_size_t (FLAGS_max_counters_per_job F))
       then (false, t)
       else (true,
             set_counters_
               (union_with (λ a b, Some (a + b)) (counters_ t) counters) t)).
Proof.
  intros Hrange.
  assert (Heq : AccumulateCounters F counters t
                = if decide (Z.of_nat (size (counters_ t))
                             > to_size_t (FLAGS_max_counters_per_job F))
                  then (false, t)
                  else (true,
                        set_counters_
                          (union_with (λ a b, Some (to_int64 (a + b)))
                             (counters_ t) counters) t)).
  { unfold AccumulateCounters. case_decide; [done|].
    do 2 f_equal. apply map_eq. intros k.
    rewrite accumulate_lookup, lookup_union_with.
    destruct (counters !! k) as [v|] eqn:Hv; [|by destruct (counters_ t !! k)].
    destruct (counters_ t !! k); simpl; [done|].
    f_equal. apply to_int64_small. by apply (Hrange k v). }
  split; [exact Heq|].
  intros Hfit. rewrite Heq. case_decide; [done|].
  do 2 f_equal. apply map_eq. intros k. rewrite !lookup_union_with.
  destruct (counters_ t !! k) as [a|] eqn:Ha, (counters !! k) as [b|] eqn:Hb;
    simpl; try done.
  f_equal. apply to_int64_small. by apply (Hfit k a b).
Qed.

Lemma AccumulateCounters_spec_witness :
  map_Forall (λ _ v, - 2 ^ 63 ≤ v < 2 ^ 63) ({[ "a" := 5 ]} : gmap string Z)
  ∧ AccumulateCounters ex_flags {[ "a" := 5 ]} ex_tracker5
    = (true, set_counters_ {[ "a" := 5 ]} ex_tracker5).
Proof.
  assert (Hr : map_Forall (λ _ v, - 2 ^ 63 ≤ v < 2 ^ 63)
                 ({[ "a" := 5 ]} : gmap string Z)).
  { intros k v Hk. apply lookup_singleton_Some in Hk as [_ <-].
    split; vm_compute; congruence. }
  split; [exact Hr|].
  rewrite (proj1 (AccumulateCounters_spec ex_flags {[ "a" := 5 ]} ex_tracker5 Hr)).
  vm_compute. reflexivity.
Defined.

(** A sum that leaves the range of [int64_t] wraps around: one more on the
    largest value gives the smallest. *)
Example AccumulateCounters_wraps :
  counters_ (AccumulateCounters ex_flags {[ "a" := 1 ]}
               (set_counters_ {[ "a" := 2 ^ 63 - 1 ]} ex_tracker5)).2 !! "a"
  = Some (- 2 ^ 63).
Proof. vm_compute. reflexivity. Qed.

(** ** The straggler monitor *)

Lemma commit_entry_lookup (ptr : nat) (state : TaskState) (now : Z)
    (table : list AllocateItem.t) (cur : AllocateItem.t) :
  table !! ptr = Some cur →
  commit_entry ptr state now table !! ptr
  = Some (AllocateItem.set_period (now - AllocateItem.alloc_time cur)
            (AllocateItem.set_state state cur)).
Proof.
  intros Hcur. unfold commit_entry. rewrite Hcur.
  apply list_lookup_insert_eq. by eapply lookup_lt_Some.
Qed.

Lemma commit_entry_lookup_ne (ptr q : nat) (state : TaskState) (now : Z)
    (table : list AllocateItem.t) :
  ptr ≠ q → commit_entry ptr state now table !! q = table !! q.
Proof.
  intros Hne. unfold commit_entry. destruct (table !! ptr); [|done].
  by apply list_lookup_insert_ne.
Qed.

Lemma commit_entry_length (ptr : nat) (state : TaskState) (now : Z)
    (table : list AllocateItem.t) :
  length (commit_entry ptr state now table) = length table.
Proof. unfold commit_entry. destruct (table !! ptr); [apply length_insert|done]. Qed.



(** ** The worker's Query and the monitor *)

Lemma kill_entry_lookup (ptr : nat) (now : Z) (map_now : bool) (t : JobTracker)
    (a : AllocateItem.t) :
  allocation_table_ t !! ptr = Some a →
  allocation_table_ (kill_entry ptr now map_now t) !! ptr
  = Some (AllocateItem.set_period (now - AllocateItem.alloc_time a)
            (AllocateItem.set_state kTaskKilled a)).
Proof.
  intros Ha. unfold kill_entry. destruct map_now; member_simpl;
    by apply commit_entry_lookup.
Qed.

(** C10.  [Query] answers with the job id, the task id, the attempt id and
    the task state of the worker, except when the worker is silent: then the
    response is sent with no field set.  A monitor pass that queries a silent
    worker for a Running entry of its phase reads the defaults, finds them
    different from its own job id, and kills the entry: the entry is Killed
    in the ledger, counted as killed, and not restored to the heap. *)
Theorem Query_silent_worker_is_dead (m : Minion.MinionImpl) (now : Z)
    (error_msg : string) (request : Minion.QueryRequest) :
  (silent m now → Minion.Query now error_msg request m = empty_response)
  ∧ (¬ silent m now →
       resp_job_id (Minion.Query now error_msg request m) = Some (Minion.jobid_ m)
       ∧ resp_task_id (Minion.Query now error_msg request m)
         = Some (Minion.cur_task_id_ m)
       ∧ resp_attempt_id (Minion.Query now error_msg request m)
         = Some (Minion.cur_attempt_id_ m)
       ∧ resp_task_state (Minion.Query now error_msg request m)
         = Some (Minion.cur_task_state_ m))
  ∧ ∀ (F : Flags) (env : MonitorEnv) (map_now not_allow_duplicates ok : bool)
      (timeout : Z) (top : nat) (t : JobTracker) (returned : list nat)
      (a : AllocateItem.t),
      silent m now →
      allocation_table_ t !! top = Some a →
      AllocateItem.state a = kTaskRunning →
      AllocateItem.is_map a = map_now →
      not_allow_duplicates
        || bool_decide (me_now env - AllocateItem.alloc_time a < timeout)
        || me_random env = true →
      rpc_client_ t = true →
      me_query env top = (ok, Minion.Query now error_msg request m) →
      job_id_ t ≠ EmptyString →
      (map_now = true → is_Some (map_manager_ t)) →
      ∃ again t',
        monitor_entry F env map_now not_allow_duplicates timeout top t returned
        = Some (again, t', returned)
        ∧ AllocateItem.state <$> allocation_table_ t' !! top = Some kTaskKilled
        ∧ map_killed_ t' = map_killed_ t + (if map_now then 1 else 0)
        ∧ reduce_killed_ t' = reduce_killed_ t + (if map_now then 0 else 1).
Proof.
  split; [|split].
  - intros [Hov|[Hfr Hlong]]; unfold Minion.Query.
    + by rewrite Hov.
    + rewrite Hfr, bool_decide_eq_true_2 by done. by destruct (Minion.over_loaded_ m).
  - intros Hns. unfold Minion.Query.
    destruct (Minion.over_loaded_ m) eqn:Hov; [exfalso; apply Hns; by left|].
    destruct (Minion.task_frozen_ m) eqn:Hfr; simpl; [|done].
    case_bool_decide; [exfalso; apply Hns; by right|done].
  - intros F env map_now nad ok timeout top t returned a
           Hsil Ha Hst Hmap Hq Hrpc Hreply Hid Hmgr.
    assert (Hresp : Minion.Query now error_msg request m = empty_response).
    { destruct Hsil as [Hov|[Hfr Hlong]]; unfold Minion.Query.
      - by rewrite Hov.
      - rewrite Hfr, bool_decide_eq_true_2 by done.
        by destruct (Minion.over_loaded_ m). }
    rewrite Hresp in Hreply.
    unfold monitor_entry. rewrite Ha. simpl.
    rewrite decide_False by (intros H; by apply H).
    rewrite decide_False by (intros H; by apply H).
    rewrite Hq, Hrpc, Hreply. member_simpl.
    assert (Hmis : bool_decide
                     (job_id_of empty_response = job_id_ t
                      ∧ task_id_of empty_response = AllocateItem.resource_no a
                      ∧ attempt_id_of empty_response = AllocateItem.attempt a)
                   = false).
    { apply bool_decide_eq_false_2. intros [Hj _]. by apply Hid. }
    rewrite Hmis, andb_false_r.
    pose proof (kill_entry_lookup top (me_kill_now env) map_now
                  (emit (EvQuery (AllocateItem.endpoint a)) t) a Ha) as Hk.
    assert (Hcnt : ∀ t0, map_killed_ (kill_entry top (me_kill_now env) map_now t0)
                         = map_killed_ t0 + (if map_now then 1 else 0)
                         ∧ reduce_killed_ (kill_entry top (me_kill_now env) map_now t0)
                           = reduce_killed_ t0 + (if map_now then 0 else 1)).
    { intros t0. unfold kill_entry. destruct map_now; member_simpl; lia. }
    assert (Hmm : ∀ t0, map_manager_ (kill_entry top (me_kill_now env) map_now t0)
                        = map_manager_ t0
                        ∧ reduce_manager_ (kill_entry top (me_kill_now env) map_now t0)
                          = reduce_manager_ t0).
    { intros t0. unfold kill_entry. by destruct map_now; member_simpl. }
    set (t1 := emit (EvQuery (AllocateItem.endpoint a)) t) in *.
    assert (Ht1 : map_manager_ t1 = map_manager_ t
                  ∧ reduce_manager_ t1 = reduce_manager_ t
                  ∧ map_killed_ t1 = map_killed_ t
                  ∧ reduce_killed_ t1 = reduce_killed_ t) by done.
    destruct Ht1 as (Hm1 & Hr1 & Hk1 & Hk2).
    set (tk := kill_entry top (me_kill_now env) map_now t1) in *.
    destruct (Hcnt t1) as [Hc1 Hc2]. destruct (Hmm t1) as [Hmm1 Hmm2].
    fold tk in Hc1, Hc2, Hmm1, Hmm2.
    assert (Hreq : ∃ again t',
               monitor_requeue F map_now top tk returned = Some (again, t', returned)
               ∧ allocation_table_ t' = allocation_table_ tk
               ∧ map_killed_ t' = map_killed_ tk
               ∧ reduce_killed_ t' = reduce_killed_ tk).
    { unfold monitor_requeue. rewrite Hk. simpl.
      rewrite bool_decide_eq_false_2 by (intros [_ H]; done). simpl.
      destruct map_now.
      - destruct (Hmgr eq_refl) as [mm Hmm0].
        rewrite Hmm1, Hm1, Hmm0. simpl. eexists _, _. split; [reflexivity|].
        by member_simpl.
      - destruct (reduce_manager_ tk); eexists _, _; (split; [reflexivity|]);
          by member_simpl. }
    destruct Hreq as (again & t' & Hreq & Htab & Hkm & Hkr).
    assert (Hgoal_tk : AllocateItem.state <$> allocation_table_ tk !! top
                       = Some kTaskKilled) by (by rewrite Hk).
    assert (Hfin_req : ∃ again0 t'0,
               monitor_requeue F map_now top tk returned = Some (again0, t'0, returned)
               ∧ AllocateItem.state <$> allocation_table_ t'0 !! top = Some kTaskKilled
               ∧ map_killed_ t'0 = map_killed_ t + (if map_now then 1 else 0)
               ∧ reduce_killed_ t'0 = reduce_killed_ t + (if map_now then 0 else 1)).
    { exists again, t'. rewrite Hreq, Htab, Hkm, Hkr. split; [done|].
      split; [done|]. lia. }
    assert (Hfin_orphan : ∃ again0 t'0,
               Some (true, tk, returned) = Some (again0, t'0, returned)
               ∧ AllocateItem.state <$> allocation_table_ t'0 !! top = Some kTaskKilled
               ∧ map_killed_ t'0 = map_killed_ t + (if map_now then 1 else 0)
               ∧ reduce_killed_ t'0 = reduce_killed_ t + (if map_now then 0 else 1)).
    { exists true, tk. split; [done|]. split; [done|]. lia. }
    clearbody tk t1.
    destruct ok; simpl; [|exact Hfin_req].
    destruct map_now.
    + destruct (Hmgr eq_refl) as [mm Hmm0]. rewrite ?Hm1, Hmm0. simpl.
      by destruct (IsAllocated (AllocateItem.resource_no a) mm).
    + rewrite ?Hr1. destruct (reduce_manager_ t) as [rm|]; simpl; [|done].
      by destruct (IsAllocated (AllocateItem.resource_no a) rm).
Qed.

Lemma Query_silent_worker_is_dead_witness :
  silent ex_overloaded 2000
  ∧ Minion.Query 2000 "" ex_request ex_overloaded = empty_response
  ∧ ∃ again t',
      monitor_entry ex_flags ex_query_env true false 7 0 ex_empty_slug []
      = Some (again, t', [])
      ∧ AllocateItem.state <$> allocation_table_ t' !! 0%nat = Some kTaskKilled.
Proof.
  assert (Hs : silent ex_overloaded 2000) by (by left).
  pose proof (Query_silent_worker_is_dead ex_overloaded 2000 "" ex_request)
    as (Hq & _ & Hm).
  split; [exact Hs|]. split; [exact (Hq Hs)|].
  assert (Ha : allocation_table_ ex_empty_slug !! 0%nat
               = Some (new_alloc "w1:1" 0 1 true 1001)) by (vm_compute; reflexivity).
  assert (Hr : rpc_client_ ex_empty_slug = true) by (vm_compute; reflexivity).
  assert (Hj : job_id_ ex_empty_slug ≠ EmptyString) by (vm_compute; discriminate).
  assert (Hg : true = true → is_Some (map_manager_ ex_empty_slug)).
  { intros _. vm_compute. eexists. reflexivity. }
  destruct (Hm ex_flags ex_query_env true false true 7 0%nat ex_empty_slug []
              _ Hs Ha eq_refl eq_refl eq_refl Hr eq_refl Hj Hg)
    as (again & t' & H1 & H2 & _).
  exists again, t'. split; [exact H1 | exact H2].
Defined.

(** ** The failure books *)

Lemma books_ok_frame (t t' : JobTracker) :
  failure_books t' = failure_books t → books_ok t → books_ok t'.
Proof.
  unfold failure_books, books_ok, failures_counted_once, ignored_within_budget.
  intros Heq. injection Heq as -> -> -> -> ->. done.
Qed.

Lemma resize_lookup (n : Z) (v : list Z) (i : nat) (c : Z) :
  resize n v !! i = Some c → v !! i = Some c ∨ c = 0.
Proof.
  unfold resize. intros H. apply lookup_app_Some in H as [H|[_ H]].
  - left. apply lookup_take_Some in H. tauto.
  - right. apply lookup_replicate in H. tauto.
Qed.

Lemma zeros_lookup (n : Z) (i : nat) (c : Z) : zeros n !! i = Some c → c = 0.
Proof. unfold zeros. intros H. apply lookup_replicate in H. tauto. Qed.

Lemma books_ok_new (F : Flags) (id : string) (job : JobDescriptor) :
  books_ok (new_JobTracker F id job).
Proof.
  split.
  - intros i c H. unfold new_JobTracker in H. simpl in H. by destruct i.
  - unfold ignored_within_budget.
    change (ignore_failure_mappers_ (new_JobTracker F id job)) with (∅ : gset Z).
    change (ignored_map_failures_ (new_JobTracker F id job)) with 0.
    rewrite size_empty. lia.
Qed.

(** The counts may be reset or extended by zeros, the rest being kept. *)
Lemma books_ok_counts_reset (t t' : JobTracker) :
  (∀ i c, failed_count_ t' !! i = Some c → failed_count_ t !! i = Some c ∨ c = 0) →
  failed_nodes_ t' = failed_nodes_ t ∨ failed_nodes_ t' = ∅ ∧ (∀ i c, failed_count_ t' !! i = Some c → c = 0) →
  ignore_failure_mappers_ t' = ignore_failure_mappers_ t →
  ignored_map_failures_ t' = ignored_map_failures_ t →
  ignore_map_failures (job_descriptor_ t') = ignore_map_failures (job_descriptor_ t) →
  books_ok t → books_ok t'.
Proof.
  intros Hc Hn Hi Hm Hb [H1 H2]. split.
  - intros i c Hic. destruct Hn as [Hn|[Hn Hz]].
    + rewrite Hn. destruct (Hc i c Hic) as [H| ->]; [by apply H1|lia].
    + rewrite (Hz i c Hic). lia.
  - unfold ignored_within_budget. by rewrite Hi, Hm, Hb.
Qed.

Ltac books_same := unfold failure_books; member_simpl; reflexivity.

Lemma BuildEndGameCounters_books (F : Flags) (t : JobTracker) :
  failure_books (BuildEndGameCounters F t) = failure_books t.
Proof.
  unfold BuildEndGameCounters. destruct (map_manager_ t); [|done].
  member_simpl. destruct (reduce_manager_ t); books_same.
Qed.

Lemma BuildResourceManagers_books_ok (partition : list ResourceItem)
    (t : JobTracker) (st : Status) (t' : JobTracker) :
  BuildResourceManagers partition t = Some (st, t') → books_ok t → books_ok t'.
Proof.
  unfold BuildResourceManagers. intros H.
  repeat case_match; simplify_eq.
  - by apply books_ok_frame.
  - apply books_ok_counts_reset; member_simpl; try done.
    + intros i c. apply resize_lookup.
    + by left.
  - apply books_ok_counts_reset; member_simpl; try done.
    + intros i c. apply resize_lookup.
    + by left.
Qed.

Lemma Start_books_ok (F : Flags) (env : StartEnv) (t : JobTracker)
    (st : Status) (t' : JobTracker) :
  Start F env t = Some (st, t') → books_ok t → books_ok t'.
Proof.
  unfold Start. intros H Hok.
  destruct (se_output_exists env).
  { injection H as <- <-. revert Hok. by apply books_ok_frame. }
  destruct (BuildResourceManagers _ _) as [[st2 t2]|] eqn:HB; [|done].
  apply BuildResourceManagers_books_ok in HB;
    [|revert Hok; by apply books_ok_frame].
  repeat case_match; simplify_eq; try done.
  all: eapply books_ok_frame; [|exact HB].
  all: unfold failure_books; member_simpl;
    by pose proof (BuildEndGameCounters_books F t2) as [= -> -> -> -> ->].
Qed.

Lemma CanMapDismiss_books (F : Flags) (endpoint : string) (t : JobTracker)
    (st : Status) (t' : JobTracker) :
  CanMapDismiss F endpoint t = Some (st, t') → failure_books t' = failure_books t.
Proof.
  unfold CanMapDismiss. intros H.
  destruct (map_manager_ t); simpl in H; [|done].
  repeat case_match; simplify_eq; books_same.
Qed.

Lemma CanReduceDismiss_books (F : Flags) (endpoint : string) (t : JobTracker)
    (st : Status) (t' : JobTracker) :
  CanReduceDismiss F endpoint t = Some (st, t') → failure_books t' = failure_books t.
Proof.
  unfold CanReduceDismiss. intros H.
  destruct (reduce_manager_ t); simpl in H; [|done].
  repeat case_match; simplify_eq; books_same.
Qed.

Lemma AssignMap_books (F : Flags) (now : Z) (endpoint : string) (t : JobTracker)
    (r : option ResourceItem) (st : Status) (t' : JobTracker) :
  AssignMap F now endpoint t = Some (r, st, t') → failure_books t' = failure_books t.
Proof.
  unfold AssignMap. intros H.
  repeat (case_match || simplify_option_eq);
    try match goal with
        | H : CanMapDismiss _ _ _ = Some _ |- _ =>
            apply CanMapDismiss_books in H; rewrite H
        end;
    books_same.
Qed.

Lemma AssignReduce_books (F : Flags) (now : Z) (endpoint : string) (t : JobTracker)
    (r : option IdItem) (st : Status) (t' : JobTracker) :
  AssignReduce F now endpoint t = Some (r, st, t') → failure_books t' = failure_books t.
Proof.
  unfold AssignReduce. intros H.
  repeat (case_match || simplify_option_eq);
    try match goal with
        | H : CanReduceDismiss _ _ _ = Some _ |- _ =>
            apply CanReduceDismiss_books in H; rewrite H
        end;
    books_same.
Qed.

Lemma CancelOtherAttempts_books (index : gmap Z (gmap Z nat)) (now n a : Z)
    (t : JobTracker) :
  failure_books (CancelOtherAttempts index now n a t) = failure_books t.
Proof.
  unfold CancelOtherAttempts. repeat case_match; books_same.
Qed.

Lemma Kill_books (now finish : Z) (end_state : JobState) (t : JobTracker) :
  failure_books (Kill now finish end_state t).2 = failure_books t.
Proof.
  unfold Kill. member_simpl.
  destruct (kill_running now (allocation_table_ t)) as [[table mk] rk].
  books_same.
Qed.

Lemma fake_complete_map_books (env : FinishEnv) (n : Z) (state : TaskState)
    (t : JobTracker) :
  failure_books (fake_complete_map env n state t).2 = failure_books t.
Proof. unfold fake_complete_map. repeat case_match; books_same. Qed.

Lemma AccumulateCounters_books (F : Flags) (counters : gmap string Z)
    (t : JobTracker) :
  failure_books (AccumulateCounters F counters t).2 = failure_books t.
Proof. unfold AccumulateCounters. case_match; books_same. Qed.

Lemma books_ok_cleared (t t' : JobTracker) (n : Z) :
  failed_count_ t' = zeros n →
  failed_nodes_ t' = ∅ →
  ignore_failure_mappers_ t' = ignore_failure_mappers_ t →
  ignored_map_failures_ t' = ignored_map_failures_ t →
  ignore_map_failures (job_descriptor_ t') = ignore_map_failures (job_descriptor_ t) →
  books_ok t → books_ok t'.
Proof.
  intros Hc Hn Hi Hm Hb. apply books_ok_counts_reset; try done.
  - intros i c. rewrite Hc. intros H. right. by eapply zeros_lookup.
  - right. split; [done|]. intros i c. rewrite Hc. apply zeros_lookup.
Qed.

Lemma map_completed_books_ok (F : Flags) (env : FinishEnv) (n : Z)
    (counters : gmap string Z) (t : JobTracker) (d : Dispatch) :
  map_completed F env n counters t = Some d →
  books_ok t → books_ok (dispatch_tracker d).
Proof.
  unfold map_completed. intros H Hok.
  destruct (map_manager_ t) as [mm|]; simpl in H; [|done].
  destruct (FinishItem n mm) as [ok mm'].
  pose proof (AccumulateCounters_books F counters
                (set_map_manager_ (Some mm') t)) as HA.
  set (t2 := (AccumulateCounters F counters (set_map_manager_ (Some mm') t)).2) in *.
  assert (Hok2 : books_ok t2).
  { eapply books_ok_frame; [|exact Hok]. rewrite HA. books_same. }
  clearbody t2.
  destruct ok; simpl in H; [|injection H as <-; simpl;
                             revert Hok; by apply books_ok_frame].
  repeat (case_match || simplify_option_eq); simpl.
  all: try (revert Hok2; apply books_ok_frame; books_same).
  all: revert Hok2; eapply books_ok_cleared; member_simpl; try reflexivity.
  all: repeat case_match; member_simpl; reflexivity.
Qed.

Lemma count_failure_counted_once (n : Z) (cur_node : string) (t t' : JobTracker) :
  count_failure n cur_node t = Some t' →
  failures_counted_once t → failures_counted_once t'.
Proof.
  unfold count_failure. intros H Hok.
  case_decide as Hn; [|done].
  destruct (failed_count_ t !! Z.to_nat n) as [c|] eqn:Hc; simpl in H; [|done].
  case_decide as Hin; injection H as <-; intros i c' Hi; member_simpl.
  - destruct (decide (n = Z.of_nat i)) as [->|Hne].
    + rewrite lookup_insert_eq. simpl. by apply Hok.
    + rewrite lookup_insert_ne by done. by apply Hok.
  - destruct (decide (n = Z.of_nat i)) as [->|Hne].
    + rewrite lookup_insert_eq. simpl.
      rewrite Nat2Z.id in Hi, Hc.
      rewrite list_lookup_insert_eq in Hi by (by eapply lookup_lt_Some).
      injection Hi as <-. apply Hok in Hc.
      rewrite size_union by set_solver. rewrite size_singleton. lia.
    + rewrite lookup_insert_ne by done.
      rewrite list_lookup_insert_ne in Hi by lia. by apply Hok.
Qed.

Lemma count_failure_others (n : Z) (cur_node : string) (t t' : JobTracker) :
  count_failure n cur_node t = Some t' →
  ignore_failure_mappers_ t' = ignore_failure_mappers_ t
  ∧ ignored_map_failures_ t' = ignored_map_failures_ t
  ∧ job_descriptor_ t' = job_descriptor_ t
  ∧ map_failed_ t' = map_failed_ t
  ∧ job_id_ t' = job_id_ t ∧ trace_ t' = trace_ t ∧ state_ t' = state_ t.
Proof.
  unfold count_failure. intros H.
  repeat (case_match || simplify_option_eq); by member_simpl.
Qed.

(** A failure from a node already recorded for the task changes no count. *)
Lemma count_failure_known_node (n : Z) (cur_node : string) (t t' : JobTracker) :
  count_failure n cur_node t = Some t' →
  cur_node ∈ default ∅ (failed_nodes_ t !! n) →
  failed_count_ t' = failed_count_ t.
Proof.
  unfold count_failure. intros H Hin.
  repeat (case_match || simplify_option_eq); by member_simpl.
Qed.

(** What [case kTaskFailed] of [FinishMap] does, [c] being the count of the
    task after the failure has been booked. *)
Lemma map_failed_spec (n : Z) (cur_node err_msg : string) (t : JobTracker)
    (d : Dispatch) :
  map_failed n cur_node err_msg t = Some d →
  ∃ finished t' c,
    d = Break kTaskFailed finished t'
    ∧ failed_count_ t' !! Z.to_nat n = Some c
    ∧ map_failed_ t' = map_failed_ t + 1
    ∧ (cur_node ∈ default ∅ (failed_nodes_ t !! n) →
       failed_count_ t' = failed_count_ t)
    ∧ (if decide (c >= map_retry (job_descriptor_ t)) then
         if decide (ignored_map_failures_ t
                    < ignore_map_failures (job_descriptor_ t))
         then finished = false
              ∧ ignore_failure_mappers_ t' = {[n]} ∪ ignore_failure_mappers_ t
              ∧ ignored_map_failures_ t' = ignored_map_failures_ t + 1
              ∧ state_ t' = state_ t ∧ trace_ t' = trace_ t
         else finished = true
              ∧ ignore_failure_mappers_ t' = ignore_failure_mappers_ t
              ∧ ignored_map_failures_ t' = ignored_map_failures_ t
              ∧ state_ t' = kFailed
              ∧ trace_ t' = trace_ t ++ [EvRetractJob (job_id_ t) kFailed]
       else finished = false
            ∧ ignore_failure_mappers_ t' = ignore_failure_mappers_ t
            ∧ ignored_map_failures_ t' = ignored_map_failures_ t
            ∧ state_ t' = state_ t ∧ trace_ t' = trace_ t).
Proof.
  unfold map_failed. intros H.
  destruct (map_manager_ t) as [mm|]; simpl in H; [|done].
  destruct (count_failure n cur_node _) as [t2|] eqn:Hcf; simpl in H; [|done].
  pose proof (count_failure_others _ _ _ _ Hcf) as (Hi & Hm & Hd & Hf & Hj & Htr & Hs).
  pose proof (count_failure_known_node _ _ _ _ Hcf) as Hkn.
  member_simpl.
  destruct (failed_count_ t2 !! Z.to_nat n) as [c|] eqn:Hc; simpl in H; [|done].
  rewrite Hd, Hm, Hi in H.
  repeat case_decide; injection H as <-; eexists _, _, c;
    (split; [reflexivity|]); member_simpl;
    rewrite ?decide_True by done; rewrite ?decide_False by done;
    rewrite ?Hj, ?Hs, ?Htr, ?Hf; done.
Qed.

Lemma map_failed_books_ok (n : Z) (cur_node err_msg : string) (t : JobTracker)
    (d : Dispatch) :
  map_failed n cur_node err_msg t = Some d →
  books_ok t → books_ok (dispatch_tracker d).
Proof.
  unfold map_failed. intros H [Hc Hb].
  destruct (map_manager_ t) as [mm|]; simpl in H; [|done].
  destruct (count_failure n cur_node _) as [t2|] eqn:Hcf; simpl in H; [|done].
  pose proof (count_failure_others _ _ _ _ Hcf) as (Hi & Hm & Hd & _).
  apply count_failure_counted_once in Hcf; [|exact Hc].
  member_simpl. unfold ignored_within_budget in Hb.
  destruct (failed_count_ t2 !! Z.to_nat n) as [c|]; simpl in H; [|done].
  rewrite Hd, Hm, Hi in H.
  repeat case_decide; injection H as <-; simpl; (split; [exact Hcf|]);
    unfold ignored_within_budget; member_simpl; rewrite ?Hi, ?Hm, ?Hd;
    try done.
  split; [|lia].
  pose proof (size_union_alt {[n]} (ignore_failure_mappers_ t)) as Hsz.
  pose proof (subseteq_size (ignore_failure_mappers_ t ∖ {[n]})
                (ignore_failure_mappers_ t)
                (subseteq_difference_l _ _ _ (reflexivity _))).
  rewrite size_singleton in Hsz. lia.
Qed.

Lemma map_dispatch_books_ok (F : Flags) (env : FinishEnv) (n : Z)
    (cur_node err_msg : string) (counters : gmap string Z) (state : TaskState)
    (t : JobTracker) (d : Dispatch) :
  map_dispatch F env n cur_node err_msg counters state t = Some d →
  books_ok t → books_ok (dispatch_tracker d).
Proof.
  destruct state; simpl; intros H Hok.
  - by simplify_eq.
  - by eapply map_completed_books_ok.
  - by eapply map_failed_books_ok.
  - destruct (map_manager_ t); simplify_option_eq. simpl.
    revert Hok. apply books_ok_frame. books_same.
  - destruct (map_manager_ t); simplify_option_eq. simpl.
    revert Hok. apply books_ok_frame. case_match; books_same.
  - by simplify_eq.
  - by simplify_eq.
Qed.

Lemma finish_map_commit_books (env : FinishEnv) (ptr : nat) (rn n a : Z)
    (state3 : TaskState) (finished : bool) (t2 : JobTracker) :
  failure_books (finish_map_commit env ptr rn n a state3 finished t2).2
  = failure_books t2.
Proof.
  unfold finish_map_commit.
  repeat case_match; simpl; rewrite ?CancelOtherAttempts_books; try books_same.
  all: unfold failure_books; member_simpl.
  all: repeat match goal with
         | |- context [CancelOtherAttempts ?i ?now ?n ?a ?t] =>
             let Hco := fresh "Hco" in
             pose proof (CancelOtherAttempts_books i now n a t) as Hco;
             unfold failure_books in Hco;
             injection Hco as -> -> -> -> ->
         end.
  all: by member_simpl.
Qed.

Lemma FinishMap_books_ok (F : Flags) (env : FinishEnv) (n a : Z)
    (state : TaskState) (err_msg : string) (counters : gmap string Z)
    (t : JobTracker) (st : Status) (t' : JobTracker) :
  FinishMap F env n a state err_msg counters t = Some (st, t') →
  books_ok t → books_ok t'.
Proof.
  unfold FinishMap. intros H Hok.
  destruct (find_running _ _ n a) as [[ptr cur]|]; [|by simplify_eq].
  destruct (remap_move_output_failed _ _ state) as [state1|]; simpl in H; [|done].
  pose proof (fake_complete_map_books env (AllocateItem.resource_no cur) state1 t)
    as Hfc.
  destruct (fake_complete_map env _ state1 t) as [state2 t1]. simpl in Hfc.
  destruct (map_dispatch F env _ _ err_msg counters state2 t1) as [d|] eqn:Hd;
    simpl in H; [|done].
  apply map_dispatch_books_ok in Hd; [|revert Hok; by apply books_ok_frame].
  destruct d as [state3 finished t2|st2 t2]; simpl in Hd; [|by simplify_eq].
  pose proof (finish_map_commit_books env ptr (AllocateItem.resource_no cur) n a
                state3 finished t2) as Hc.
  destruct (finish_map_commit _ _ _ _ _ _ _ _) as [st3 t3]. simpl in Hc, H.
  injection H as <- <-.
  revert Hd. by apply books_ok_frame.
Qed.

Lemma reduce_dispatch_books_ok (F : Flags) (n : Z) (cur_node err_msg : string)
    (counters : gmap string Z) (state : TaskState) (t : JobTracker) (d : Dispatch) :
  reduce_dispatch F n cur_node err_msg counters state t = Some d →
  books_ok t → books_ok (dispatch_tracker d).
Proof.
  destruct state; simpl; intros H Hok; try by simplify_eq.
  - unfold reduce_completed in H.
    destruct (reduce_manager_ t) as [rm|]; simpl in H; [|done].
    destruct (FinishItem n rm) as [ok rm'].
    pose proof (AccumulateCounters_books F counters
                  (set_reduce_manager_ (Some rm') t)) as HA.
    destruct (AccumulateCounters F counters _) as [b t2]. simpl in *.
    repeat case_match; simplify_eq; simpl; revert Hok; apply books_ok_frame;
      unfold failure_books in *; member_simpl; congruence.
  - unfold reduce_failed in H.
    destruct (reduce_manager_ t) as [rm|]; simpl in H; [|done].
    destruct (count_failure n cur_node _) as [t2|] eqn:Hcf; simpl in H; [|done].
    pose proof (count_failure_others _ _ _ _ Hcf) as (Hi & Hm & Hd & _).
    destruct Hok as [Hc Hb].
    apply count_failure_counted_once in Hcf; [|exact Hc].
    member_simpl. unfold ignored_within_budget in Hb.
    destruct (failed_count_ t2 !! Z.to_nat n) as [c|]; simpl in H; [|done].
    repeat case_decide; injection H as <-; simpl; (split; [exact Hcf|]);
      unfold ignored_within_budget; member_simpl; by rewrite Hi, Hm, Hd.
  - destruct (reduce_manager_ t); simplify_option_eq. simpl.
    revert Hok. apply books_ok_frame. books_same.
  - destruct (reduce_manager_ t); simplify_option_eq. simpl.
    revert Hok. apply books_ok_frame. case_match; books_same.
Qed.

Lemma finish_reduce_commit_books (env : FinishEnv) (ptr : nat) (rn n a : Z)
    (state3 : TaskState) (finished : bool) (t2 : JobTracker) :
  failure_books (finish_reduce_commit env ptr rn n a state3 finished t2).2
  = failure_books t2.
Proof.
  unfold finish_reduce_commit.
  repeat case_match; simpl; rewrite ?CancelOtherAttempts_books; try books_same.
  all: unfold failure_books; member_simpl.
  all: repeat match goal with
         | |- context [CancelOtherAttempts ?i ?now ?n ?a ?t] =>
             let Hco := fresh "Hco" in
             pose proof (CancelOtherAttempts_books i now n a t) as Hco;
             unfold failure_books in Hco;
             injection Hco as -> -> -> -> ->
         end.
  all: by member_simpl.
Qed.

Lemma FinishReduce_books_ok (F : Flags) (env : FinishEnv) (n a : Z)
    (state : TaskState) (err_msg : string) (counters : gmap string Z)
    (t : JobTracker) (st : Status) (t' : JobTracker) :
  FinishReduce F env n a state err_msg counters t = Some (st, t') →
  books_ok t → books_ok t'.
Proof.
  unfold FinishReduce. intros H Hok.
  destruct (reduce_too_early state t); [by simplify_eq|].
  destruct (find_running _ _ n a) as [[ptr cur]|]; [|by simplify_eq].
  destruct (remap_move_output_failed _ _ state) as [state1|]; simpl in H; [|done].
  destruct (reduce_dispatch F _ _ err_msg counters _ t) as [d|] eqn:Hd;
    simpl in H; [|done].
  apply reduce_dispatch_books_ok in Hd; [|done].
  destruct d as [state3 finished t2|st2 t2]; simpl in Hd; [|by simplify_eq].
  pose proof (finish_reduce_commit_books env ptr (AllocateItem.resource_no cur) n a
                state3 finished t2) as Hc.
  destruct (finish_reduce_commit _ _ _ _ _ _ _ _) as [st3 t3]. simpl in Hc, H.
  injection H as <- <-.
  revert Hd. by apply books_ok_frame.
Qed.

Lemma kill_entry_books (ptr : nat) (now : Z) (map_now : bool) (t : JobTracker) :
  failure_books (kill_entry ptr now map_now t) = failure_books t.
Proof. unfold kill_entry. destruct map_now; books_same. Qed.

Lemma monitor_requeue_books (F : Flags) (map_now : bool) (top : nat)
    (t : JobTracker) (returned : list nat) (again : bool) (t' : JobTracker)
    (returned' : list nat) :
  monitor_requeue F map_now top t returned = Some (again, t', returned') →
  failure_books t' = failure_books t.
Proof.
  unfold monitor_requeue. intros H.
  repeat (case_match || simplify_option_eq); books_same.
Qed.

Lemma monitor_entry_books (F : Flags) (env : MonitorEnv)
    (map_now not_allow_duplicates : bool) (timeout : Z) (top : nat)
    (t : JobTracker) (returned : list nat) (again : bool) (t' : JobTracker)
    (returned' : list nat) :
  monitor_entry F env map_now not_allow_duplicates timeout top t returned
  = Some (again, t', returned') →
  failure_books t' = failure_books t.
Proof.
  unfold monitor_entry. intros H.
  destruct (allocation_table_ t !! top) as [a|]; simpl in H; [|done].
  repeat (case_match || simplify_option_eq);
    try match goal with
        | H : monitor_requeue _ _ _ _ _ = Some _ |- _ =>
            apply monitor_requeue_books in H; rewrite H
        end;
    rewrite ?kill_entry_books; books_same.
Qed.

Lemma monitor_loop_books (F : Flags) (env : MonitorEnv)
    (map_now not_allow_duplicates : bool) (timeout sleep_time : Z)
    (heap : list nat) :
  ∀ (counter : nat) (t : JobTracker) (returned : list nat) (t' : JobTracker)
    (returned' heap' : list nat),
    monitor_loop F env map_now not_allow_duplicates timeout sleep_time
                 counter heap t returned = Some (t', returned', heap') →
    failure_books t' = failure_books t.
Proof.
  induction heap as [|top rest IH]; intros counter t returned t' returned' heap' H.
  - destruct counter; by simplify_eq/=.
  - destruct counter as [|c]; [by simplify_eq/=|].
    simpl in H.
    destruct (allocation_table_ t !! top) as [a|]; simpl in H; [|done].
    case_decide; [by simplify_eq|].
    destruct (monitor_entry F env _ _ timeout top t returned)
      as [[[again t1] returned1]|] eqn:He; simpl in H; [|done].
    apply monitor_entry_books in He. apply IH in H. congruence.
Qed.

Lemma KeepMonitoring_books (F : Flags) (env : MonitorEnv) (map_now : bool)
    (t t' : JobTracker) :
  KeepMonitoring F env map_now t = Some t' → failure_books t' = failure_books t.
Proof.
  unfold KeepMonitoring. intros H.
  case_match.
  - destruct (monitor_ t); simplify_option_eq. books_same.
  - destruct (monitor_loop F env _ _ _ _ 10 _ t [])
      as [[[t1 returned] heap]|] eqn:Hl; simpl in H; [|done].
    apply monitor_loop_books in Hl. member_simpl.
    destruct (monitor_ t1); simplify_option_eq.
    unfold failure_books in *; member_simpl; congruence.
Qed.

Lemma load_entry_books (t : JobTracker) (it : AllocateItem.t) :
  failure_books (load_entry t it) = failure_books t.
Proof. unfold load_entry. repeat case_match; books_same. Qed.

Lemma foldl_load_entry_books (data : list AllocateItem.t) (t : JobTracker) :
  failure_books (foldl load_entry t data) = failure_books t.
Proof.
  revert t. induction data as [|it data IH]; intros t; [done|].
  simpl. by rewrite IH, load_entry_books.
Qed.

Lemma load_managers_books (F : Flags) (data : list AllocateItem.t)
    (resource : list ResourceItem) (t : JobTracker) :
  failure_books (load_managers F data resource t) = failure_books t.
Proof.
  unfold load_managers. rewrite BuildEndGameCounters_books.
  repeat case_match; books_same.
Qed.

Lemma load_failed_count_books_ok (t t' : JobTracker) :
  load_failed_count t = Some t' → books_ok t → books_ok t'.
Proof.
  unfold load_failed_count. intros H.
  repeat case_match; simplify_eq.
  - apply books_ok_counts_reset; member_simpl; try done.
    + intros i c Hz. right. by eapply zeros_lookup.
    + by left.
  - apply books_ok_counts_reset; member_simpl; try done.
    + intros i c. apply resize_lookup.
    + by left.
Qed.

Lemma load_monitor_books (is_map : bool) (t t' : JobTracker) :
  load_monitor is_map t = Some t' → failure_books t' = failure_books t.
Proof.
  unfold load_monitor. intros H.
  repeat (case_match || simplify_option_eq); books_same.
Qed.

Lemma Load_books_ok (F : Flags) (jobid : string) (state : JobState)
    (data : list AllocateItem.t) (resource : list ResourceItem)
    (start_time finish_time : Z) (t : JobTracker) (b : bool) (t' : JobTracker) :
  Load F jobid state data resource start_time finish_time t = Some (b, t') →
  books_ok t → books_ok t'.
Proof.
  unfold Load. intros H Hok. member_simpl.
  match type of H with
  | context [load_managers F data resource ?x] =>
      assert (Hok2 : books_ok x)
        by (revert Hok; apply books_ok_frame;
            destruct (bool_decide (state = kRunning ∨ state = kPending));
            books_same);
      assert (Hjd : job_descriptor_ x = job_descriptor_ t)
        by (destruct (bool_decide (state = kRunning ∨ state = kPending));
            by member_simpl);
      set (t2 := x) in *; clearbody t2
  end.
  rewrite Hjd in H.
  case_decide; [done|].
  case_decide; [injection H as <- <-; revert Hok2; apply books_ok_frame;
                books_same|].
  destruct (load_failed_count _) as [t7|] eqn:H7; simpl in H; [|done].
  destruct (load_monitor _ t7) as [t9|] eqn:H9; simpl in H; [|done].
  injection H as <- <-.
  apply load_monitor_books in H9.
  apply load_failed_count_books_ok in H7.
  - eapply books_ok_frame; [|exact H7]. by rewrite foldl_load_entry_books.
  - eapply books_ok_frame; [|exact Hok2]. by rewrite load_managers_books.
Qed.

Lemma call_books_ok (F : Flags) (c : Call) (t t' : JobTracker) :
  call F c t = Some t' → books_ok t → books_ok t'.
Proof.
  destruct c; simpl; intros H Hok.
  - destruct (Start F env t) as [[st t1]|] eqn:HS; simplify_eq/=.
    by eapply Start_books_ok.
  - destruct (AssignMap F now endpoint t) as [[[r st] t1]|] eqn:HA; simplify_eq/=.
    revert Hok. apply books_ok_frame. by eapply AssignMap_books.
  - destruct (AssignReduce F now endpoint t) as [[[r st] t1]|] eqn:HA; simplify_eq/=.
    revert Hok. apply books_ok_frame. by eapply AssignReduce_books.
  - destruct (FinishMap F env n a state err_msg counters t) as [[st t1]|] eqn:HF;
      simplify_eq/=. by eapply FinishMap_books_ok.
  - destruct (FinishReduce F env n a state err_msg counters t) as [[st t1]|] eqn:HF;
      simplify_eq/=. by eapply FinishReduce_books_ok.
  - revert Hok. apply books_ok_frame. by eapply KeepMonitoring_books.
  - injection H as <-. revert Hok. apply books_ok_frame. apply Kill_books.
  - destruct (Load F jobid state data resource start_time finish_time t)
      as [[b t1]|] eqn:HL; simplify_eq/=. by eapply Load_books_ok.
Qed.

Lemma reachable_books_ok (F : Flags) (t : JobTracker) :
  reachable F t → books_ok t.
Proof.
  induction 1 as [id job|c t t' _ IH Hc].
  - apply books_ok_new.
  - by eapply call_books_ok.
Qed.

Lemma reachable_run (F : Flags) (calls : list Call) :
  ∀ t t', reachable F t → run F calls t = Some t' → reachable F t'.
Proof.
  unfold run. induction calls as [|c calls IH] using rev_ind; intros t t' Hr H.
  - by simplify_eq/=.
  - rewrite foldl_app in H. simpl in H.
    destruct (foldl _ (Some t) calls) as [t1|] eqn:H1; simpl in H; [|done].
    eapply reachable_call; [|exact H]. by eapply IH.
Qed.

(** C4, at the input where the code breaks it.  Task 0 (retry bound 1,
    budget 2) fails on node h1 and is put in the ignore set, the counter
    going to 1.  Its next attempt fails on the same node, and the empty sort
    file that would fake its completion cannot be closed: the report stays
    Failed, the count of task 0 is still at the bound, and [case kTaskFailed]
    does [ignore_failure_mappers_.insert(no); ignored_map_failures_++] again
    without testing membership.  The set still holds the one id and the
    counter is 2: the set and its counter are no longer equal. *)
Lemma ignore_counter_overtakes_set :
  run ex_flags ex_ignore_calls (ex_new ex_job) = Some ex_ignored_twice
  ∧ ignore_failure_mappers_ ex_ignored_twice = {[0]}
  ∧ size (ignore_failure_mappers_ ex_ignored_twice) = 1%nat
  ∧ ignored_map_failures_ ex_ignored_twice = 2
  ∧ Z.of_nat (size (ignore_failure_mappers_ ex_ignored_twice))
    ≠ ignored_map_failures_ ex_ignored_twice.
Proof.
  split_and!; try (vm_compute; reflexivity). vm_compute. discriminate.
Qed.

(** X20.  The failure books of the map phase.  In every state a master can
    reach, [failed_count_[no]] is at most the number of nodes in
    [failed_nodes_[no]], the ignore set is no larger than its counter, and
    the counter is within the budget of the descriptor (taken as 0 when it
    is negative). *)
Theorem failure_books_invariant (F : Flags) (t : JobTracker) :
  reachable F t →
  (∀ (i : nat) (c : Z),
     failed_count_ t !! i = Some c →
     c ≤ Z.of_nat (size (default ∅ (failed_nodes_ t !! Z.of_nat i))))
  ∧ Z.of_nat (size (ignore_failure_mappers_ t)) ≤ ignored_map_failures_ t
  ∧ ignored_map_failures_ t ≤ Z.max 0 (ignore_map_failures (job_descriptor_ t)).
Proof.
  intros Hr. destruct (reachable_books_ok F t Hr) as [Hc [Hb1 Hb2]].
  split; [exact Hc|]. split; [exact Hb1|exact Hb2].
Qed.

Lemma failure_books_invariant_witness :
  reachable ex_flags ex_ignored_twice
  ∧ Z.of_nat (size (ignore_failure_mappers_ ex_ignored_twice))
    ≤ ignored_map_failures_ ex_ignored_twice
  ∧ ignored_map_failures_ ex_ignored_twice
    ≤ Z.max 0 (ignore_map_failures (job_descriptor_ ex_ignored_twice)).
Proof.
  assert (Hr : reachable ex_flags ex_ignored_twice).
  { eapply (reachable_run ex_flags ex_ignore_calls (ex_new ex_job));
      [apply reachable_new | vm_compute; reflexivity]. }
  split; [exact Hr|].
  exact (proj2 (failure_books_invariant ex_flags ex_ignored_twice Hr)).
Defined.

(** ** Done at most once *)

Section PoolFacts.
Context {A : Type} `{PoolItem A}.

(** The one law of the interface the pool needs: the id written is the id
    read back. *)
Hypothesis id_of_with_id : ∀ (i : IdItem) (a : A), id_of (with_id i a) = i.








End PoolFacts.







Lemma cancel_fold_table (job : string) (now keep : Z) (m : gmap Z nat)
    (table : list AllocateItem.t) (trace : list Event) :
  ∀ ptr c, table !! ptr = Some c →
    (map_fold (λ _ p acc, cancel_candidate job now keep p acc) (table, trace) m).1
      !! ptr = Some c
    ∨ (map_fold (λ _ p acc, cancel_candidate job now keep p acc) (table, trace) m).1
        !! ptr = Some (canceled now c).
Proof.
  apply (map_fold_weak_ind
           (λ acc _, ∀ ptr c, table !! ptr = Some c →
                       acc.1 !! ptr = Some c ∨ acc.1 !! ptr = Some (canceled now c))).
  - intros ptr c Hc. by left.
  - intros k p m' acc _ IH ptr c Hc. unfold cancel_candidate.
    destruct (acc.1 !! p) as [cand|] eqn:Hp; [|by apply IH].
    case_decide; [by apply IH|]. simpl.
    destruct (decide (p = ptr)) as [->|Hne].
    + right. rewrite list_lookup_insert_eq by (by eapply lookup_lt_Some).
      destruct (IH ptr c Hc) as [H1|H1]; rewrite H1 in Hp; by injection Hp as <-.
    + rewrite list_lookup_insert_ne by done. by apply IH.
Qed.

Lemma CancelOtherAttempts_entry (index : gmap Z (gmap Z nat)) (now n a : Z)
    (t : JobTracker) (ptr : nat) (c : AllocateItem.t) :
  allocation_table_ t !! ptr = Some c →
  allocation_table_ (CancelOtherAttempts index now n a t) !! ptr = Some c
  ∨ allocation_table_ (CancelOtherAttempts index now n a t) !! ptr
    = Some (canceled now c).
Proof.
  intros Hc. unfold CancelOtherAttempts.
  destruct (rpc_client_ t); [|by left].
  destruct (index !! n) as [m|]; [|by left].
  member_simpl. by apply cancel_fold_table.
Qed.

Lemma CancelOtherAttempts_outside (index : gmap Z (gmap Z nat)) (now n a : Z)
    (t : JobTracker) :
  outside_ledger (CancelOtherAttempts index now n a t) = outside_ledger t.
Proof.
  unfold CancelOtherAttempts, outside_ledger. by repeat case_match.
Qed.






Lemma find_running_index (index : gmap Z (gmap Z nat))
    (table : list AllocateItem.t) (n a : Z) (p : nat) (c : AllocateItem.t) :
  find_running index table n a = Some (p, c) →
  index_find index n a = Some p ∧ table !! p = Some c
  ∧ AllocateItem.state c = kTaskRunning.
Proof.
  unfold find_running. intros H.
  destruct (index_find index n a) as [q|]; [|done].
  destruct (table !! q) as [c'|] eqn:Hq; [|done].
  case_decide; [|done]. by injection H as <- <-.
Qed.

(** Both answers occur.  In [ex_empty_slug] the first report cancels the
    other attempts and the second is answered [kNoMore]; in the same tracker
    without an RPC client nothing is canceled, the second report reaches
    [FinishItem], is refused, and is answered [kOk] with its entry
    Canceled. *)
Example completed_twice_both_answers :
  fst <$> Finish ex_flags true ex_finish_env 0 2 kTaskCompleted "" ∅ ex_first_won
  = Some kNoMore
  ∧ (Finish ex_flags true ex_finish_env 0 1 kTaskCompleted "" ∅
       (set_rpc_client_ false ex_empty_slug)
     ≫= λ r, fst <$> Finish ex_flags true ex_finish_env 0 2 kTaskCompleted "" ∅ r.2)
    = Some kOk.
Proof. split; vm_compute; reflexivity. Qed.

(** ** Load after Dump *)

Lemma count_entries_snoc (map : bool) (st : TaskState)
    (table : list AllocateItem.t) (a : AllocateItem.t) :
  count_entries map st (table ++ [a])
  = count_entries map st table + counts_as map st a.
Proof.
  unfold count_entries, counts_as. rewrite List.filter_app, length_app. simpl.
  destruct (_ && _); simpl; lia.
Qed.

(** What the loop of [Load] keeps and what it adds. *)
Lemma load_entry_ledger (t : JobTracker) (it : AllocateItem.t) :
  job_id_ (load_entry t it) = job_id_ t
  ∧ state_ (load_entry t it) = state_ t
  ∧ map_manager_ (load_entry t it) = map_manager_ t
  ∧ reduce_manager_ (load_entry t it) = reduce_manager_ t
  ∧ allocation_table_ (load_entry t it) = allocation_table_ t ++ [it]
  ∧ map_failed_ (load_entry t it) = map_failed_ t + counts_as true kTaskFailed it
  ∧ map_killed_ (load_entry t it) = map_killed_ t + counts_as true kTaskKilled it
  ∧ reduce_failed_ (load_entry t it)
    = reduce_failed_ t + counts_as false kTaskFailed it
  ∧ reduce_killed_ (load_entry t it)
    = reduce_killed_ t + counts_as false kTaskKilled it.
Proof.
  unfold load_entry, counts_as.
  destruct it as [ep st rn at' m alloc per].
  destruct m, st; simpl; member_simpl; split_and!; try done; lia.
Qed.

Lemma foldl_load_entry_ledger (data : list AllocateItem.t) :
  ∀ t,
    job_id_ (foldl load_entry t data) = job_id_ t
    ∧ state_ (foldl load_entry t data) = state_ t
    ∧ map_manager_ (foldl load_entry t data) = map_manager_ t
    ∧ reduce_manager_ (foldl load_entry t data) = reduce_manager_ t
    ∧ allocation_table_ (foldl load_entry t data) = allocation_table_ t ++ data
    ∧ map_failed_ (foldl load_entry t data)
      = map_failed_ t + count_entries true kTaskFailed data
    ∧ map_killed_ (foldl load_entry t data)
      = map_killed_ t + count_entries true kTaskKilled data
    ∧ reduce_failed_ (foldl load_entry t data)
      = reduce_failed_ t + count_entries false kTaskFailed data
    ∧ reduce_killed_ (foldl load_entry t data)
      = reduce_killed_ t + count_entries false kTaskKilled data.
Proof.
  induction data as [|it data IH] using rev_ind; intros t.
  - unfold count_entries. simpl. rewrite app_nil_r. split_and!; try done; lia.
  - rewrite foldl_app. simpl.
    destruct (IH t) as (I1 & I2 & I3 & I4 & I5 & I6 & I7 & I8 & I9).
    destruct (load_entry_ledger (foldl load_entry t data) it)
      as (L1 & L2 & L3 & L4 & L5 & L6 & L7 & L8 & L9).
    rewrite !count_entries_snoc.
    split_and!; try congruence; try lia.
    by rewrite L5, I5, app_assoc.
Qed.

Lemma BuildEndGameCounters_loaded (F : Flags) (t : JobTracker) :
  loaded_so_far (BuildEndGameCounters F t) = loaded_so_far t
  ∧ map_manager_ (BuildEndGameCounters F t) = map_manager_ t
  ∧ reduce_manager_ (BuildEndGameCounters F t) = reduce_manager_ t.
Proof.
  unfold BuildEndGameCounters. destruct (map_manager_ t) eqn:Hm; [|done].
  member_simpl. by destruct (reduce_manager_ t) eqn:Hr.
Qed.

Lemma load_managers_loaded (F : Flags) (data : list AllocateItem.t)
    (resource : list ResourceItem) (t : JobTracker) :
  loaded_so_far (load_managers F data resource t) = loaded_so_far t
  ∧ map_manager_ (load_managers F data resource t)
    = (if decide (map_total (job_descriptor_ t) ≠ 0)
       then Some (overwrite_ids
                    (Replay data (Z.to_nat (map_total (job_descriptor_ t))) true)
                    resource)
       else map_manager_ t)
  ∧ reduce_manager_ (load_managers F data resource t)
    = (if decide (reduce_total (job_descriptor_ t) ≠ 0)
       then Some (Replay data
                    (length (IdManager (reduce_total (job_descriptor_ t)))) false)
       else reduce_manager_ t).
Proof.
  unfold load_managers. cbv zeta.
  match goal with
  | |- context [BuildEndGameCounters F ?x] =>
      destruct (BuildEndGameCounters_loaded F x) as (-> & -> & ->)
  end.
  by destruct (decide (map_total _ ≠ 0)), (decide (reduce_total _ ≠ 0)).
Qed.

Lemma load_failed_count_loaded (t : JobTracker) :
  0 ≤ reduce_total (job_descriptor_ t) →
  ∃ t', load_failed_count t = Some t'
        ∧ loaded_so_far t' = loaded_so_far t
        ∧ map_manager_ t' = map_manager_ t
        ∧ reduce_manager_ t' = reduce_manager_ t.
Proof.
  intros Hr. unfold load_failed_count. cbv zeta.
  destruct (maps_done t); [|by eexists].
  rewrite decide_False by lia. by eexists.
Qed.

Lemma load_monitor_loaded (is_map : bool) (t : JobTracker) :
  is_Some (monitor_ t) →
  ∃ t', load_monitor is_map t = Some t'
        ∧ job_id_ t' = job_id_ t ∧ state_ t' = state_ t
        ∧ allocation_table_ t' = allocation_table_ t
        ∧ map_failed_ t' = map_failed_ t ∧ map_killed_ t' = map_killed_ t
        ∧ reduce_failed_ t' = reduce_failed_ t
        ∧ reduce_killed_ t' = reduce_killed_ t
        ∧ map_manager_ t' = map_manager_ t
        ∧ reduce_manager_ t' = reduce_manager_ t.
Proof.
  intros [tasks Hm]. unfold load_monitor. cbv zeta. rewrite Hm. simpl.
  destruct (decide (state_ t = kRunning)); simpl;
    destruct (bool_decide (state_ t = kRunning ∨ state_ t = kPending));
    try destruct is_map; by eexists.
Qed.

Lemma new_JobTracker_blank (F : Flags) (id : string) (job : JobDescriptor) :
  map_total (job_descriptor_ (new_JobTracker F id job)) = map_total job
  ∧ reduce_total (job_descriptor_ (new_JobTracker F id job)) = reduce_total job
  ∧ allocation_table_ (new_JobTracker F id job) = []
  ∧ map_failed_ (new_JobTracker F id job) = 0
  ∧ map_killed_ (new_JobTracker F id job) = 0
  ∧ reduce_failed_ (new_JobTracker F id job) = 0
  ∧ reduce_killed_ (new_JobTracker F id job) = 0
  ∧ monitor_ (new_JobTracker F id job) = Some []
  ∧ map_manager_ (new_JobTracker F id job) = None
  ∧ reduce_manager_ (new_JobTracker F id job) = None.
Proof.
  destruct job as [ins out fmt ss jt mt rt hrt mc rc hrc mr hmr rr hrr imf irf mad rad].
  unfold new_JobTracker; simpl.
  destruct hmr, hrr, hrt, hrc; simpl; repeat case_decide; simpl; done.
Qed.

(** C5, as the claim has it, fails on the failed counter: [ex_retried] has
    counted one failed map, the attempt that failed was later canceled by
    the winner, and the tracker loaded from the dump counts none. *)
Lemma Load_after_Dump_forgets_failure :
  run ex_flags ex_retry_calls (ex_new ex_job) = Some ex_retried
  ∧ map_failed_ ex_retried = 1
  ∧ entry_view <$> allocation_table_ ex_retried = [(0, 1, kTaskCanceled);
                                                   (0, 2, kTaskCompleted)]
  ∧ (λ r, (r.1, map_failed_ r.2)) <$> Load_after_Dump ex_flags "job_2" ex_retried
    = Some (true, 0).
Proof. split_and!; vm_compute; reflexivity. Qed.

(** C5, as the code has it.  Loaded from the dump of [J], a new tracker
    gets the id and the state of [J] and a ledger equal to that of [J],
    entry by entry; its failed and killed counters are the numbers of Failed
    and Killed entries of each phase in that ledger, and its pools are what
    [Replay] derives from the ledger (over the splits of the dump, for the
    maps). *)
Theorem Load_after_Dump_rebuilds (F : Flags) (id' : string) (J : JobTracker) :
  0 ≤ map_total (job_descriptor_ J) →
  0 ≤ reduce_total (job_descriptor_ J) →
  (map_total (job_descriptor_ J) ≠ 0 →
   length (InputDataForDump J) = Z.to_nat (map_total (job_descriptor_ J))) →
  ∃ L,
    Load_after_Dump F id' J = Some (true, L)
    ∧ job_id_ L = job_id_ J
    ∧ state_ L = state_ J
    ∧ allocation_table_ L = allocation_table_ J
    ∧ map_failed_ L = count_entries true kTaskFailed (allocation_table_ J)
    ∧ map_killed_ L = count_entries true kTaskKilled (allocation_table_ J)
    ∧ reduce_failed_ L = count_entries false kTaskFailed (allocation_table_ J)
    ∧ reduce_killed_ L = count_entries false kTaskKilled (allocation_table_ J)
    ∧ map_manager_ L
      = (if decide (map_total (job_descriptor_ J) ≠ 0)
         then Some (overwrite_ids
                      (Replay (allocation_table_ J)
                         (Z.to_nat (map_total (job_descriptor_ J))) true)
                      (InputDataForDump J))
         else None)
    ∧ reduce_manager_ L
      = (if decide (reduce_total (job_descriptor_ J) ≠ 0)
         then Some (Replay (allocation_table_ J)
                      (Z.to_nat (reduce_total (job_descriptor_ J))) false)
         else None).
Proof.
  intros Hmt Hrt Hlen.
  unfold Load_after_Dump, HistoryForDump.
  destruct (new_JobTracker_blank F id' (job_descriptor_ J))
    as (B1 & B2 & B3 & B4 & B5 & B6 & B7 & B8 & B9 & B10).
  generalize dependent (new_JobTracker F id' (job_descriptor_ J)). intros t0 **.
  unfold Load. cbv zeta.
  set (t2 := if bool_decide (_ ∨ _) then _ else _).
  assert (H2 : loaded_so_far t2
               = (job_id_ J, state_ J, [], 0, 0, 0, 0, Some [], job_descriptor_ t0)
               ∧ map_manager_ t2 = None ∧ reduce_manager_ t2 = None).
  { subst t2. destruct (bool_decide _); unfold loaded_so_far; member_simpl;
      by rewrite B3, B4, B5, B6, B7, B8, B9, B10. }
  clearbody t2. destruct H2 as (H2 & H2m & H2r).
  assert (Hjd : job_descriptor_ t2 = job_descriptor_ t0).
  { unfold loaded_so_far in H2. by injection H2. }
  rewrite Hjd, B1. rewrite decide_False by lia.
  rewrite decide_False by (intros [Hnz Hl]; by apply Hl, Hlen).
  destruct (load_managers_loaded F (allocation_table_ J) (InputDataForDump J) t2)
    as (M1 & M2 & M3).
  rewrite Hjd, B1, H2m in M2. rewrite Hjd, B2, H2r in M3.
  set (t5 := load_managers F (allocation_table_ J) (InputDataForDump J) t2) in *.
  clearbody t5.
  assert (Hjd5 : job_descriptor_ t5 = job_descriptor_ t0).
  { unfold loaded_so_far in M1, H2. rewrite H2 in M1. by injection M1. }
  destruct (load_failed_count_loaded t5) as (t7 & -> & N1 & N2 & N3);
    [by rewrite Hjd5, B2|].
  simpl.
  destruct (load_monitor_loaded (negb (maps_done t5)) t7)
    as (t9 & -> & P1 & P2 & P3 & P4 & P5 & P6 & P7 & P8 & P9).
  { unfold loaded_so_far in N1, M1, H2. rewrite M1, H2 in N1.
    injection N1 as _ _ _ _ _ _ _ -> _. by eexists. }
  simpl. eexists. split; [reflexivity|].
  destruct (foldl_load_entry_ledger (allocation_table_ J) t9)
    as (-> & -> & -> & -> & -> & -> & -> & -> & ->).
  unfold loaded_so_far in N1, M1, H2. rewrite M1, H2 in N1.
  injection N1 as Q1 Q2 Q3 Q4 Q5 Q6 Q7 _ _.
  rewrite P1, P2, P3, P4, P5, P6, P7, P8, P9, Q1, Q2, Q3, Q4, Q5, Q6, Q7, N2, N3,
    M2, M3.
  split_and!; try done.
  unfold IdManager. by rewrite length_fmap, length_seqZ.
Qed.

Lemma Load_after_Dump_rebuilds_witness :
  0 ≤ map_total (job_descriptor_ ex_retried)
  ∧ 0 ≤ reduce_total (job_descriptor_ ex_retried)
  ∧ length (InputDataForDump ex_retried)
    = Z.to_nat (map_total (job_descriptor_ ex_retried))
  ∧ ∃ L,
      Load_after_Dump ex_flags "job_2" ex_retried = Some (true, L)
      ∧ allocation_table_ L = allocation_table_ ex_retried
      ∧ map_failed_ L
        = count_entries true kTaskFailed (allocation_table_ ex_retried).
Proof.
  assert (H1 : 0 ≤ map_total (job_descriptor_ ex_retried)) by (vm_compute; discriminate).
  assert (H2 : 0 ≤ reduce_total (job_descriptor_ ex_retried))
    by (vm_compute; discriminate).
  assert (H3 : length (InputDataForDump ex_retried)
               = Z.to_nat (map_total (job_descriptor_ ex_retried)))
    by (vm_compute; reflexivity).
  split; [exact H1|]. split; [exact H2|]. split; [exact H3|].
  destruct (Load_after_Dump_rebuilds ex_flags "job_2" ex_retried H1 H2 (λ _, H3))
    as (L & HL & _ & _ & Ht & Hf & _).
  exists L. split; [exact HL|]. split; [exact Ht | exact Hf].
Defined.
(** * Further properties *)

(** ** The ledger only grows *)

Lemma entry_evolves_refl (c : AllocateItem.t) : entry_evolves c c.
Proof. by repeat split. Qed.

Lemma entry_evolves_trans (c1 c2 c3 : AllocateItem.t) :
  entry_evolves c1 c2 → entry_evolves c2 c3 → entry_evolves c1 c3.
Proof.
  intros [(A1 & A2 & A3 & A4 & A5) A6] [(B1 & B2 & B3 & B4 & B5) B6].
  repeat split; try congruence. auto.
Qed.

Lemma entry_evolves_state (c : AllocateItem.t) (st : TaskState) (period : Z) :
  (AllocateItem.state c ≠ kTaskRunning → st ≠ kTaskRunning) →
  entry_evolves c (AllocateItem.set_period period (AllocateItem.set_state st c)).
Proof. intros H. by repeat split. Qed.

Lemma table_evolves_refl (table : list AllocateItem.t) : table_evolves table table.
Proof. intros p c Hc. exists c. split; [done|apply entry_evolves_refl]. Qed.

Lemma table_evolves_trans (t1 t2 t3 : list AllocateItem.t) :
  table_evolves t1 t2 → table_evolves t2 t3 → table_evolves t1 t3.
Proof.
  intros H12 H23 p c Hc.
  destruct (H12 p c Hc) as (c2 & Hc2 & E12).
  destruct (H23 p c2 Hc2) as (c3 & Hc3 & E23).
  exists c3. split; [done|]. by eapply entry_evolves_trans.
Qed.

Lemma table_evolves_app (table more : list AllocateItem.t) :
  table_evolves table (table ++ more).
Proof.
  intros p c Hc. exists c. split; [|apply entry_evolves_refl].
  by apply lookup_app_l_Some.
Qed.

Lemma table_evolves_insert (table : list AllocateItem.t) (ptr : nat)
    (c c' : AllocateItem.t) :
  table !! ptr = Some c → entry_evolves c c' →
  table_evolves table (<[ptr := c']> table).
Proof.
  intros Hc He p d Hd. destruct (decide (p = ptr)) as [->|Hne].
  - exists c'. rewrite list_lookup_insert_eq by (by eapply lookup_lt_Some).
    split; [done|]. congruence.
  - exists d. rewrite list_lookup_insert_ne by done.
    split; [done|apply entry_evolves_refl].
Qed.

Lemma table_evolves_length (table table' : list AllocateItem.t) :
  table_evolves table table' → (length table ≤ length table')%nat.
Proof.
  intros H. destruct (decide (length table = 0%nat)) as [|Hne]; [lia|].
  destruct (lookup_lt_is_Some_2 table (length table - 1)) as [c Hc]; [lia|].
  destruct (H _ _ Hc) as (c' & Hc' & _). apply lookup_lt_Some in Hc'. lia.
Qed.

Lemma commit_entry_evolves (ptr : nat) (st : TaskState) (now : Z)
    (table : list AllocateItem.t) :
  st ≠ kTaskRunning → table_evolves table (commit_entry ptr st now table).
Proof.
  intros Hst. unfold commit_entry.
  destruct (table !! ptr) as [cur|] eqn:Hcur; [|apply table_evolves_refl].
  eapply table_evolves_insert; [done|]. by apply entry_evolves_state.
Qed.

Lemma commit_entry_running_evolves (ptr : nat) (st : TaskState) (now : Z)
    (table : list AllocateItem.t) (cur : AllocateItem.t) :
  table !! ptr = Some cur → AllocateItem.state cur = kTaskRunning →
  table_evolves table (commit_entry ptr st now table).
Proof.
  intros Hcur Hrun. unfold commit_entry. rewrite Hcur.
  eapply table_evolves_insert; [done|]. by apply entry_evolves_state.
Qed.

Lemma in_place_refl (t : JobTracker) : in_place t t.
Proof. split_and!; try done. apply table_evolves_refl. Qed.

Lemma in_place_trans (t1 t2 t3 : JobTracker) :
  in_place t1 t2 → in_place t2 t3 → in_place t1 t3.
Proof.
  intros (A1 & A2 & A3 & A4 & A5) (B1 & B2 & B3 & B4 & B5).
  split_and!; try congruence.
  - by eapply table_evolves_trans.
  - by etrans.
Qed.

Lemma ledger_kept_refl (t : JobTracker) : ledger_kept t t.
Proof. by split. Qed.

Lemma ledger_kept_trans (t1 t2 t3 : JobTracker) :
  ledger_kept t1 t2 → ledger_kept t2 t3 → ledger_kept t1 t3.
Proof. intros [A1 A2] [B1 B2]. split; [congruence|by etrans]. Qed.

Lemma ledger_kept_in_place (t t' : JobTracker) : ledger_kept t t' → in_place t t'.
Proof.
  unfold ledger_kept, ledger_of. intros [H Hh]. injection H as H1 H2 H3.
  split_and!; try congruence; try done.
  rewrite H1. apply table_evolves_refl.
Qed.

Lemma ledger_kept_table (t t' : JobTracker) :
  ledger_kept t t' → allocation_table_ t' = allocation_table_ t.
Proof. unfold ledger_kept, ledger_of. intros [H _]. by injection H. Qed.

Ltac ledger_same :=
  split; [unfold ledger_of; member_simpl; reflexivity
         |member_simpl; reflexivity].

Lemma heap_push_elem (table : list AllocateItem.t) (ptr : nat) (h : list nat)
    (p : nat) :
  p ∈ heap_push table ptr h ↔ p = ptr ∨ p ∈ h.
Proof.
  induction h as [|q r IH]; simpl.
  - rewrite elem_of_cons, elem_of_nil. tauto.
  - destruct (table !! ptr) as [a|], (table !! q) as [b|];
      try case_decide; rewrite !elem_of_cons, ?IH; tauto.
Qed.

Lemma heap_push_all_elem (table : list AllocateItem.t) (ptrs h : list nat)
    (p : nat) :
  p ∈ heap_push_all table ptrs h ↔ p ∈ ptrs ∨ p ∈ h.
Proof.
  unfold heap_push_all. revert h.
  induction ptrs as [|q r IH]; intros h; simpl.
  - rewrite elem_of_nil. tauto.
  - rewrite IH, heap_push_elem, elem_of_cons. tauto.
Qed.

Lemma purge_map_entries_subseteq (table : list AllocateItem.t) (h : list nat) :
  purge_map_entries table h ⊆ h.
Proof.
  intros p. unfold purge_map_entries. rewrite heap_push_all_elem.
  intros [Hp|Hp]; [|by apply elem_of_nil in Hp].
  apply list_elem_of_In, filter_In in Hp as [Hp _]. by apply list_elem_of_In.
Qed.

Lemma BuildEndGameCounters_kept (F : Flags) (t : JobTracker) :
  ledger_kept t (BuildEndGameCounters F t).
Proof.
  unfold BuildEndGameCounters. destruct (map_manager_ t); [|apply ledger_kept_refl].
  member_simpl. destruct (reduce_manager_ t); ledger_same.
Qed.

Lemma BuildResourceManagers_kept (partition : list ResourceItem)
    (t : JobTracker) (st : Status) (t' : JobTracker) :
  BuildResourceManagers partition t = Some (st, t') → ledger_kept t t'.
Proof.
  unfold BuildResourceManagers. intros H.
  repeat case_match; simplify_eq; ledger_same.
Qed.

Lemma Start_kept (F : Flags) (env : StartEnv) (t : JobTracker)
    (st : Status) (t' : JobTracker) :
  Start F env t = Some (st, t') → ledger_kept t t'.
Proof.
  unfold Start. intros H.
  destruct (se_output_exists env).
  { injection H as <- <-. ledger_same. }
  destruct (BuildResourceManagers _ _) as [[st2 t2]|] eqn:HB; [|done].
  apply BuildResourceManagers_kept in HB.
  assert (H0 : ledger_kept t t2).
  { eapply ledger_kept_trans; [|exact HB]. ledger_same. }
  pose proof (BuildEndGameCounters_kept F t2) as HE.
  set (t3 := BuildEndGameCounters F t2) in *. clearbody t3.
  repeat case_match; simplify_eq; try done.
  all: eapply ledger_kept_trans; [exact H0|].
  all: eapply ledger_kept_trans; [exact HE|]; ledger_same.
Qed.

Lemma cancel_fold_length (job : string) (now keep : Z) (m : gmap Z nat)
    (table : list AllocateItem.t) (trace : list Event) :
  length (map_fold (λ _ p acc, cancel_candidate job now keep p acc)
            (table, trace) m).1
  = length table.
Proof.
  apply (map_fold_weak_ind (λ acc _, length acc.1 = length table)); [done|].
  intros k p m' acc _ IH. unfold cancel_candidate.
  destruct (acc.1 !! p); [|done]. case_decide; [done|]. simpl.
  by rewrite length_insert.
Qed.

Lemma canceled_evolves (now : Z) (c : AllocateItem.t) :
  entry_evolves c (canceled now c).
Proof. by apply entry_evolves_state. Qed.

Lemma CancelOtherAttempts_in_place (index : gmap Z (gmap Z nat)) (now n a : Z)
    (t : JobTracker) :
  in_place t (CancelOtherAttempts index now n a t).
Proof.
  pose proof (CancelOtherAttempts_outside index now n a t) as Ho.
  unfold outside_ledger in Ho. injection Ho as _ _ O3 O4 _ _ _ _ _ _ _ _.
  split_and!; try done.
  - unfold CancelOtherAttempts. repeat case_match; try done.
    member_simpl. apply cancel_fold_length.
  - intros p c Hc.
    destruct (CancelOtherAttempts_entry index now n a t p c Hc) as [H|H];
      eexists; (split; [exact H|]).
    + apply entry_evolves_refl.
    + apply canceled_evolves.
  - unfold CancelOtherAttempts. by repeat case_match.
Qed.

Lemma AccumulateCounters_kept (F : Flags) (counters : gmap string Z)
    (t : JobTracker) :
  ledger_kept t (AccumulateCounters F counters t).2.
Proof. unfold AccumulateCounters. case_match; ledger_same. Qed.

Lemma fake_complete_map_kept (env : FinishEnv) (n : Z) (state : TaskState)
    (t : JobTracker) :
  ledger_kept t (fake_complete_map env n state t).2.
Proof. unfold fake_complete_map. repeat case_match; ledger_same. Qed.

Lemma ledger_kept_purged (t t' : JobTracker) :
  ledger_of t' = ledger_of t →
  time_heap_ t' = purge_map_entries (allocation_table_ t) (time_heap_ t) →
  ledger_kept t t'.
Proof.
  intros H Hh. split; [done|]. rewrite Hh. apply purge_map_entries_subseteq.
Qed.

Lemma map_completed_kept (F : Flags) (env : FinishEnv) (n : Z)
    (counters : gmap string Z) (t : JobTracker) (d : Dispatch) :
  map_completed F env n counters t = Some d → ledger_kept t (dispatch_tracker d).
Proof.
  unfold map_completed. intros H.
  destruct (map_manager_ t) as [mm|]; simpl in H; [|done].
  destruct (FinishItem n mm) as [ok mm'].
  pose proof (AccumulateCounters_kept F counters
                (set_map_manager_ (Some mm') t)) as HA.
  set (t2 := (AccumulateCounters F counters (set_map_manager_ (Some mm') t)).2) in *.
  assert (H2 : ledger_kept t t2).
  { eapply ledger_kept_trans; [|exact HA]. ledger_same. }
  clearbody t2. clear HA.
  destruct ok; simpl in H; [|injection H as <-; simpl; ledger_same].
  repeat (case_match || simplify_option_eq); simpl.
  all: eapply ledger_kept_trans; [exact H2|].
  all: try ledger_same.
  all: apply ledger_kept_purged; [unfold ledger_of|]; member_simpl;
    repeat case_match; member_simpl; reflexivity.
Qed.

Lemma count_failure_kept (n : Z) (cur_node : string) (t t' : JobTracker) :
  count_failure n cur_node t = Some t' → ledger_kept t t'.
Proof.
  unfold count_failure. intros H.
  repeat (case_match || simplify_option_eq); ledger_same.
Qed.

Lemma map_failed_kept (n : Z) (cur_node err_msg : string) (t : JobTracker)
    (d : Dispatch) :
  map_failed n cur_node err_msg t = Some d → ledger_kept t (dispatch_tracker d).
Proof.
  unfold map_failed. intros H.
  destruct (map_manager_ t) as [mm|]; simpl in H; [|done].
  destruct (count_failure n cur_node _) as [t2|] eqn:Hc; simpl in H; [|done].
  apply count_failure_kept in Hc.
  assert (H2 : ledger_kept t t2).
  { eapply ledger_kept_trans; [|exact Hc]. ledger_same. }
  clear Hc.
  repeat (case_match || simplify_option_eq); simpl.
  all: eapply ledger_kept_trans; [exact H2|]; ledger_same.
Qed.

Lemma map_dispatch_kept (F : Flags) (env : FinishEnv) (n : Z)
    (cur_node err_msg : string) (counters : gmap string Z) (state : TaskState)
    (t : JobTracker) (d : Dispatch) :
  map_dispatch F env n cur_node err_msg counters state t = Some d →
  ledger_kept t (dispatch_tracker d).
Proof.
  destruct state; simpl; intros H.
  - simplify_eq. apply ledger_kept_refl.
  - by eapply map_completed_kept.
  - by eapply map_failed_kept.
  - destruct (map_manager_ t); simplify_option_eq. simpl. ledger_same.
  - destruct (map_manager_ t); simplify_option_eq. simpl.
    case_match; ledger_same.
  - simplify_eq. apply ledger_kept_refl.
  - simplify_eq. apply ledger_kept_refl.
Qed.

Lemma in_place_committed (ptr : nat) (st : TaskState) (now : Z) (t : JobTracker)
    (cur : AllocateItem.t) :
  allocation_table_ t !! ptr = Some cur →
  AllocateItem.state cur = kTaskRunning →
  in_place t (set_allocation_table_
                (commit_entry ptr st now (allocation_table_ t)) t).
Proof.
  intros Hcur Hrun. split_and!; member_simpl; try done.
  - apply commit_entry_length.
  - by eapply commit_entry_running_evolves.
Qed.

Lemma finish_map_commit_in_place (env : FinishEnv) (ptr : nat) (rn n a : Z)
    (st : TaskState) (fin : bool) (t : JobTracker) (cur : AllocateItem.t) :
  allocation_table_ t !! ptr = Some cur →
  AllocateItem.state cur = kTaskRunning →
  in_place t (finish_map_commit env ptr rn n a st fin t).2.
Proof.
  intros Hcur Hrun. unfold finish_map_commit. cbv zeta.
  pose proof (in_place_committed ptr st (fe_now env) t cur Hcur Hrun) as H3.
  set (t3 := set_allocation_table_ _ t) in *. clearbody t3.
  set (t4 := if map_allow_duplicates_ t3 && _ then _ else t3).
  assert (H4 : in_place t t4).
  { eapply in_place_trans; [exact H3|]. subst t4.
    destruct (map_allow_duplicates_ t3 && _); [apply ledger_kept_in_place; ledger_same|apply in_place_refl]. }
  clearbody t4. clear H3.
  destruct (decide (st ≠ kTaskCompleted)); [done|].
  destruct (negb (map_allow_duplicates_ t4)); [done|]. simpl.
  eapply in_place_trans; [exact H4|].
  eapply in_place_trans; [apply CancelOtherAttempts_in_place|].
  destruct fin; [apply ledger_kept_in_place; ledger_same|apply in_place_refl].
Qed.

Lemma finish_reduce_commit_in_place (env : FinishEnv) (ptr : nat) (rn n a : Z)
    (st : TaskState) (fin : bool) (t : JobTracker) (cur : AllocateItem.t) :
  allocation_table_ t !! ptr = Some cur →
  AllocateItem.state cur = kTaskRunning →
  in_place t (finish_reduce_commit env ptr rn n a st fin t).2.
Proof.
  intros Hcur Hrun. unfold finish_reduce_commit. cbv zeta.
  pose proof (in_place_committed ptr st (fe_now env) t cur Hcur Hrun) as H3.
  set (t3 := set_allocation_table_ _ t) in *. clearbody t3.
  set (t4 := if reduce_allow_duplicates_ t3 && _ then _ else t3).
  assert (H4 : in_place t t4).
  { eapply in_place_trans; [exact H3|]. subst t4.
    destruct (reduce_allow_duplicates_ t3 && _); [apply ledger_kept_in_place; ledger_same|apply in_place_refl]. }
  clearbody t4. clear H3.
  destruct (decide (st ≠ kTaskCompleted)); [done|].
  destruct (negb (reduce_allow_duplicates_ t4)); [done|]. simpl.
  eapply in_place_trans; [exact H4|].
  eapply in_place_trans; [apply CancelOtherAttempts_in_place|].
  destruct fin; [apply ledger_kept_in_place; ledger_same|apply in_place_refl].
Qed.

Lemma FinishMap_in_place (F : Flags) (env : FinishEnv) (n a : Z)
    (state : TaskState) (err_msg : string) (counters : gmap string Z)
    (t : JobTracker) (st : Status) (t' : JobTracker) :
  FinishMap F env n a state err_msg counters t = Some (st, t') → in_place t t'.
Proof.
  unfold FinishMap. intros H.
  destruct (find_running _ _ n a) as [[ptr cur]|] eqn:Hf;
    [|simplify_eq; apply in_place_refl].
  apply find_running_index in Hf as (_ & Hcur & Hrun).
  destruct (remap_move_output_failed _ _ state) as [state1|]; simpl in H; [|done].
  pose proof (fake_complete_map_kept env (AllocateItem.resource_no cur) state1 t)
    as Hfc.
  destruct (fake_complete_map env _ state1 t) as [state2 t1]. simpl in Hfc.
  destruct (map_dispatch F env _ _ err_msg counters state2 t1) as [d|] eqn:Hd;
    simpl in H; [|done].
  apply map_dispatch_kept in Hd.
  assert (H2 : ledger_kept t (dispatch_tracker d)) by (by eapply ledger_kept_trans).
  clear Hd Hfc.
  destruct d as [state3 finished t2|st2 t2]; simpl in *;
    [|simplify_eq; by apply ledger_kept_in_place].
  injection H as H. apply (f_equal snd) in H. simpl in H. subst t'.
  eapply in_place_trans; [by apply ledger_kept_in_place|].
  eapply finish_map_commit_in_place; [|done].
  by rewrite (ledger_kept_table _ _ H2).
Qed.

Lemma reduce_completed_kept (F : Flags) (n : Z) (counters : gmap string Z)
    (t : JobTracker) (d : Dispatch) :
  reduce_completed F n counters t = Some d → ledger_kept t (dispatch_tracker d).
Proof.
  unfold reduce_completed. intros H.
  destruct (reduce_manager_ t) as [rm|]; simpl in H; [|done].
  destruct (FinishItem n rm) as [ok rm'].
  pose proof (AccumulateCounters_kept F counters
                (set_reduce_manager_ (Some rm') t)) as HA.
  set (t2 := (AccumulateCounters F counters (set_reduce_manager_ (Some rm') t)).2) in *.
  assert (H2 : ledger_kept t t2).
  { eapply ledger_kept_trans; [|exact HA]. ledger_same. }
  clearbody t2. clear HA.
  destruct ok; simpl in H; [|injection H as <-; simpl; ledger_same].
  case_decide; injection H as <-; simpl.
  all: eapply ledger_kept_trans; [exact H2|]; ledger_same.
Qed.

Lemma reduce_failed_kept (n : Z) (cur_node err_msg : string) (t : JobTracker)
    (d : Dispatch) :
  reduce_failed n cur_node err_msg t = Some d → ledger_kept t (dispatch_tracker d).
Proof.
  unfold reduce_failed. intros H.
  destruct (reduce_manager_ t) as [rm|]; simpl in H; [|done].
  destruct (count_failure n cur_node _) as [t2|] eqn:Hc; simpl in H; [|done].
  apply count_failure_kept in Hc.
  assert (H2 : ledger_kept t t2).
  { eapply ledger_kept_trans; [|exact Hc]. ledger_same. }
  clear Hc.
  repeat (case_match || simplify_option_eq); simpl.
  all: eapply ledger_kept_trans; [exact H2|]; ledger_same.
Qed.

Lemma reduce_dispatch_kept (F : Flags) (n : Z) (cur_node err_msg : string)
    (counters : gmap string Z) (state : TaskState) (t : JobTracker)
    (d : Dispatch) :
  reduce_dispatch F n cur_node err_msg counters state t = Some d →
  ledger_kept t (dispatch_tracker d).
Proof.
  destruct state; simpl; intros H.
  - simplify_eq. apply ledger_kept_refl.
  - by eapply reduce_completed_kept.
  - by eapply reduce_failed_kept.
  - destruct (reduce_manager_ t); simplify_option_eq. simpl. ledger_same.
  - destruct (reduce_manager_ t); simplify_option_eq. simpl.
    case_match; ledger_same.
  - simplify_eq. apply ledger_kept_refl.
  - simplify_eq. apply ledger_kept_refl.
Qed.

Lemma FinishReduce_in_place (F : Flags) (env : FinishEnv) (n a : Z)
    (state : TaskState) (err_msg : string) (counters : gmap string Z)
    (t : JobTracker) (st : Status) (t' : JobTracker) :
  FinishReduce F env n a state err_msg counters t = Some (st, t') → in_place t t'.
Proof.
  unfold FinishReduce. intros H.
  destruct (reduce_too_early state t); [simplify_eq; apply in_place_refl|].
  destruct (find_running _ _ n a) as [[ptr cur]|] eqn:Hf;
    [|simplify_eq; apply in_place_refl].
  apply find_running_index in Hf as (_ & Hcur & Hrun).
  destruct (remap_move_output_failed _ _ state) as [state1|]; simpl in H; [|done].
  destruct (reduce_dispatch F _ _ err_msg counters _ t) as [d|] eqn:Hd;
    simpl in H; [|done].
  apply reduce_dispatch_kept in Hd.
  destruct d as [state3 finished t2|st2 t2]; simpl in *;
    [|simplify_eq; by apply ledger_kept_in_place].
  injection H as H. apply (f_equal snd) in H. simpl in H. subst t'.
  eapply in_place_trans; [by apply ledger_kept_in_place|].
  eapply finish_reduce_commit_in_place; [|done].
  by rewrite (ledger_kept_table _ _ Hd).
Qed.

(** [Kill] entry by entry. *)
Lemma kill_running_lookup (now : Z) (table : list AllocateItem.t) (p : nat) :
  (kill_running now table).1.1 !! p
  = (λ c, if decide (AllocateItem.state c = kTaskRunning)
          then killed_at now c else c) <$> table !! p.
Proof.
  revert p. induction table as [|a r IH]; intros p; [done|].
  simpl. destruct (kill_running now r) as [[r' mk] rk]. simpl in IH.
  case_decide; destruct p as [|p]; simpl; try apply IH.
  - by rewrite decide_True.
  - by rewrite decide_False.
Qed.

Lemma kill_running_length (now : Z) (table : list AllocateItem.t) :
  length (kill_running now table).1.1 = length table.
Proof.
  induction table as [|a r IH]; [done|].
  simpl. destruct (kill_running now r) as [[r' mk] rk]. simpl in IH.
  case_decide; simpl; by rewrite IH.
Qed.

Lemma killed_evolves (now : Z) (c : AllocateItem.t) : entry_evolves c (killed_at now c).
Proof. by apply entry_evolves_state. Qed.

Lemma Kill_in_place (now finish : Z) (end_state : JobState) (t : JobTracker) :
  in_place t (Kill now finish end_state t).2.
Proof.
  unfold Kill. member_simpl.
  pose proof (kill_running_lookup now (allocation_table_ t)) as Hl.
  pose proof (kill_running_length now (allocation_table_ t)) as Hn.
  destruct (kill_running now (allocation_table_ t)) as [[table mk] rk].
  simpl in *. split_and!; member_simpl; try done.
  intros p c Hc. rewrite Hl, Hc. simpl. eexists. split; [done|].
  case_decide; [apply killed_evolves|apply entry_evolves_refl].
Qed.

(** ** What a monitor pass writes *)

Lemma monitor_touched_trans (map_now : bool) (now : Z) (c1 c2 c3 : AllocateItem.t) :
  monitor_touched map_now now c1 c2 → monitor_touched map_now now c2 c3 →
  monitor_touched map_now now c1 c3.
Proof.
  intros [->|(H1 & H2 & ->)] [->|(K1 & K2 & K3)]; try by (left + right).
Qed.

Lemma other_phase_kept_refl (map_now : bool) (t : JobTracker) :
  other_phase_kept map_now t t.
Proof. by destruct map_now. Qed.

Lemma other_phase_kept_trans (map_now : bool) (t1 t2 t3 : JobTracker) :
  other_phase_kept map_now t1 t2 → other_phase_kept map_now t2 t3 →
  other_phase_kept map_now t1 t3.
Proof.
  destruct map_now; intros (A1 & A2 & A3) (B1 & B2 & B3);
    split_and!; congruence.
Qed.

Lemma monitor_pass_refl (map_now : bool) (now : Z) (t : JobTracker) :
  monitor_pass map_now now t t.
Proof.
  split_and!; try done.
  - intros p c Hc. exists c. split; [done|by left].
  - apply other_phase_kept_refl.
  - exists []. by rewrite app_nil_r.
Qed.

Lemma monitor_pass_trans (map_now : bool) (now : Z) (t1 t2 t3 : JobTracker) :
  monitor_pass map_now now t1 t2 → monitor_pass map_now now t2 t3 →
  monitor_pass map_now now t1 t3.
Proof.
  intros (A1 & A2 & A3 & A4 & e1 & A5) (B1 & B2 & B3 & B4 & e2 & B5).
  split_and!; try congruence.
  - intros p c Hc. destruct (A2 p c Hc) as (c2 & Hc2 & T12).
    destruct (B2 p c2 Hc2) as (c3 & Hc3 & T23).
    exists c3. split; [done|]. by eapply monitor_touched_trans.
  - by eapply other_phase_kept_trans.
  - exists (e1 ++ e2). by rewrite B5, A5, fmap_app, app_assoc.
Qed.

(** A step that writes at most the slug and the pool of the monitored
    phase. *)
Lemma monitor_pass_frame (map_now : bool) (now : Z) (t t' : JobTracker) :
  allocation_table_ t' = allocation_table_ t →
  monitor_keeps t' = monitor_keeps t →
  other_phase_kept map_now t t' →
  trace_ t' = trace_ t →
  monitor_pass map_now now t t'.
Proof.
  intros Ht Hk Ho Htr. split_and!; try done.
  - by rewrite Ht.
  - intros p c Hc. exists c. rewrite Ht. split; [done|by left].
  - exists []. by rewrite app_nil_r.
Qed.

Ltac pass_same :=
  apply monitor_pass_frame;
  [member_simpl; reflexivity
  |unfold monitor_keeps, failure_books; member_simpl; reflexivity
  |unfold other_phase_kept; member_simpl; repeat case_match; done
  |member_simpl; reflexivity].

Lemma monitor_pass_query (map_now : bool) (now : Z) (endpoint : string)
    (t : JobTracker) :
  monitor_pass map_now now t (emit (EvQuery endpoint) t).
Proof.
  unfold emit. split_and!; member_simpl; try done.
  - intros p c Hc. exists c. split; [done|by left].
  - unfold other_phase_kept. by destruct map_now.
  - by exists [endpoint].
Qed.

Lemma monitor_pass_kill (top : nat) (now : Z) (map_now : bool) (t : JobTracker)
    (a : AllocateItem.t) :
  allocation_table_ t !! top = Some a →
  AllocateItem.state a = kTaskRunning →
  AllocateItem.is_map a = map_now →
  monitor_pass map_now now t (kill_entry top now map_now t).
Proof.
  intros Ha Hrun Hmap. unfold kill_entry.
  assert (Hl : ∀ p c, allocation_table_ t !! p = Some c →
            ∃ c', commit_entry top kTaskKilled now (allocation_table_ t) !! p = Some c'
                  ∧ monitor_touched map_now now c c').
  { intros p c Hc. destruct (decide (p = top)) as [->|Hne].
    - rewrite (commit_entry_lookup _ _ _ _ _ Ha). eexists. split; [done|].
      right. by simplify_eq.
    - rewrite commit_entry_lookup_ne by done. exists c. split; [done|by left]. }
  destruct map_now; split_and!; member_simpl;
    try done; try apply commit_entry_length.
  all: exists []; by rewrite app_nil_r.
Qed.

Lemma monitor_requeue_pass (F : Flags) (map_now : bool) (now : Z) (top : nat)
    (t : JobTracker) (returned : list nat) (again : bool) (t' : JobTracker)
    (returned' : list nat) :
  monitor_requeue F map_now top t returned = Some (again, t', returned') →
  monitor_pass map_now now t t'
  ∧ time_heap_ t' = time_heap_ t ∧ monitor_ t' = monitor_ t
  ∧ (returned' = returned ∨ returned' = returned ++ [top]).
Proof.
  unfold monitor_requeue. intros H.
  destruct (allocation_table_ t !! top) as [a|]; simpl in H; [|done].
  set (late := bool_decide _) in *. clearbody late.
  assert (Hr : (if late then returned ++ [top] else returned) = returned
               ∨ (if late then returned ++ [top] else returned) = returned ++ [top])
    by (destruct late; auto).
  set (returned1 := if late then _ else _) in *. clearbody returned1.
  destruct map_now.
  - destruct (late && _); [simplify_eq; split_and!; try done;
                           apply monitor_pass_refl|].
    destruct (decide (AllocateItem.state a = kTaskKilled)).
    + destruct (map_manager_ t) as [mm|]; simpl in H; [|done].
      injection H as <- <- <-. split_and!; try done. pass_same.
    + simpl in H. injection H as <- <- <-. split_and!; try done. pass_same.
  - destruct (late && _); [simplify_eq; split_and!; try done;
                           apply monitor_pass_refl|].
    injection H as <- <- <-.
    split_and!; try done; [|by repeat case_match..].
    repeat case_match; pass_same.
Qed.

Lemma kill_entry_heap (top : nat) (now : Z) (map_now : bool) (t : JobTracker) :
  time_heap_ (kill_entry top now map_now t) = time_heap_ t
  ∧ monitor_ (kill_entry top now map_now t) = monitor_ t.
Proof. unfold kill_entry. by destruct map_now. Qed.

Lemma monitor_entry_pass (F : Flags) (env : MonitorEnv)
    (map_now not_allow_duplicates : bool) (timeout : Z) (top : nat)
    (t : JobTracker) (returned : list nat) (again : bool) (t' : JobTracker)
    (returned' : list nat) :
  monitor_entry F env map_now not_allow_duplicates timeout top t returned
  = Some (again, t', returned') →
  monitor_pass map_now (me_kill_now env) t t'
  ∧ time_heap_ t' = time_heap_ t ∧ monitor_ t' = monitor_ t
  ∧ (returned' = returned ∨ returned' = returned ++ [top]).
Proof.
  unfold monitor_entry. intros H.
  destruct (allocation_table_ t !! top) as [a|] eqn:Ha; simpl in H; [|done].
  destruct (decide (AllocateItem.state a ≠ kTaskRunning)) as [|Hrun];
    [simplify_eq; split_and!; auto; apply monitor_pass_refl|].
  apply dec_stable in Hrun.
  destruct (decide (AllocateItem.is_map a ≠ map_now)) as [|Hmap];
    [simplify_eq; split_and!; auto; apply monitor_pass_refl|].
  apply dec_stable in Hmap.
  destruct (_ || _ || _).
  2:{ by eapply monitor_requeue_pass. }
  destruct (rpc_client_ t); [|done].
  pose proof (monitor_pass_query map_now (me_kill_now env)
                (AllocateItem.endpoint a) t) as Hq.
  assert (Hq2 : time_heap_ (emit (EvQuery (AllocateItem.endpoint a)) t) = time_heap_ t
                ∧ monitor_ (emit (EvQuery (AllocateItem.endpoint a)) t) = monitor_ t
                ∧ allocation_table_ (emit (EvQuery (AllocateItem.endpoint a)) t) !! top
                  = Some a) by done.
  set (t1 := emit (EvQuery (AllocateItem.endpoint a)) t) in *. clearbody t1.
  destruct Hq2 as (Q1 & Q2 & Q3).
  destruct (me_query env top) as [ok response].
  destruct (ok && _); [simplify_eq; split_and!; auto|].
  pose proof (monitor_pass_kill top (me_kill_now env) map_now t1 a Q3 Hrun Hmap)
    as Hk.
  pose proof (kill_entry_heap top (me_kill_now env) map_now t1) as [K1 K2].
  set (t2 := kill_entry top (me_kill_now env) map_now t1) in *. clearbody t2.
  match type of H with
  | (?o ≫= _) = _ => destruct o as [orphan|]; simpl in H; [|done]
  end.
  destruct orphan.
  - injection H as <- <- <-. split_and!; try congruence; auto.
    by eapply monitor_pass_trans.
  - apply (monitor_requeue_pass F map_now (me_kill_now env)) in H
      as (R1 & R2 & R3 & R4).
    split_and!; try congruence.
    eapply monitor_pass_trans; [exact Hq|]. by eapply monitor_pass_trans.
Qed.

Lemma monitor_loop_pass (F : Flags) (env : MonitorEnv)
    (map_now not_allow_duplicates : bool) (timeout sleep_time : Z)
    (heap : list nat) :
  ∀ (counter : nat) (t : JobTracker) (returned : list nat) (t' : JobTracker)
    (returned' heap' : list nat),
    monitor_loop F env map_now not_allow_duplicates timeout sleep_time
                 counter heap t returned = Some (t', returned', heap') →
    monitor_pass map_now (me_kill_now env) t t'
    ∧ time_heap_ t' = time_heap_ t ∧ monitor_ t' = monitor_ t
    ∧ heap' ⊆ heap
    ∧ ∀ p, p ∈ returned' → p ∈ returned ∨ p ∈ heap.
Proof.
  induction heap as [|top rest IH]; intros counter t returned t' returned' heap' H.
  - destruct counter; simplify_eq/=; split_and!; auto; apply monitor_pass_refl.
  - destruct counter as [|c];
      [simplify_eq/=; split_and!; auto; apply monitor_pass_refl|].
    simpl in H.
    destruct (allocation_table_ t !! top) as [a|]; simpl in H; [|done].
    case_decide; [simplify_eq; split_and!; auto; apply monitor_pass_refl|].
    destruct (monitor_entry F env _ _ timeout top t returned)
      as [[[again t1] returned1]|] eqn:He; simpl in H; [|done].
    apply monitor_entry_pass in He as (E1 & E2 & E3 & E4).
    apply IH in H as (L1 & L2 & L3 & L4 & L5).
    split_and!; try congruence.
    + by eapply monitor_pass_trans.
    + intros p Hp. apply elem_of_cons. right. by apply L4.
    + intros p Hp. destruct (L5 p Hp) as [Hr|Hr].
      * destruct E4 as [->| ->]; [by left|].
        apply elem_of_app in Hr as [Hr|Hr]; [by left|].
        right. apply elem_of_cons. left. by apply list_elem_of_singleton in Hr.
      * right. apply elem_of_cons. by right.
Qed.

Lemma monitor_pass_in_place (map_now : bool) (now : Z) (t t' : JobTracker) :
  monitor_pass map_now now t t' → time_heap_ t' ⊆ time_heap_ t → in_place t t'.
Proof.
  intros (H1 & H2 & H3 & _) Hh. unfold monitor_keeps in H3.
  split_and!; try done; try congruence.
  intros p c Hc. destruct (H2 p c Hc) as (c' & Hc' & Ht).
  exists c'. split; [done|].
  destruct Ht as [->|(_ & _ & ->)]; [apply entry_evolves_refl|apply killed_evolves].
Qed.

Lemma KeepMonitoring_pass (F : Flags) (env : MonitorEnv) (map_now : bool)
    (t t' : JobTracker) :
  KeepMonitoring F env map_now t = Some t' →
  monitor_pass map_now (me_kill_now env) t t'
  ∧ time_heap_ t' ⊆ time_heap_ t
  ∧ ∃ tasks delay,
      monitor_ t = Some tasks ∧ monitor_ t' = Some (tasks ++ [(delay, map_now)]).
Proof.
  unfold KeepMonitoring. intros H.
  destruct (bool_decide (time_used map_now (allocation_table_ t) = [])
            && negb (me_random env)).
  - destruct (monitor_ t) as [tasks|] eqn:Hm; simpl in H; [|done].
    injection H as <-. split_and!; [pass_same|done|].
    by eexists _, _.
  - destruct (monitor_loop F env _ _ _ _ 10 _ t [])
      as [[[t1 returned] heap]|] eqn:Hl; simpl in H; [|done].
    apply monitor_loop_pass in Hl as (L1 & L2 & L3 & L4 & L5).
    member_simpl. rewrite L3 in H.
    destruct (monitor_ t) as [tasks|] eqn:Hm; simpl in H; [|done].
    injection H as <-. split_and!.
    + eapply monitor_pass_trans; [exact L1|]. pass_same.
    + member_simpl. intros p. rewrite heap_push_all_elem.
      intros [Hp|Hp]; [|by apply L4].
      destruct (L5 p Hp) as [Hn|Hh]; [by apply elem_of_nil in Hn|done].
    + member_simpl. by eexists _, _.
Qed.

Lemma KeepMonitoring_in_place (F : Flags) (env : MonitorEnv) (map_now : bool)
    (t t' : JobTracker) :
  KeepMonitoring F env map_now t = Some t' → in_place t t'.
Proof.
  intros H. apply KeepMonitoring_pass in H as (H1 & H2 & _).
  by eapply monitor_pass_in_place.
Qed.

(** ** Assignment *)

Lemma CanMapDismiss_kept (F : Flags) (endpoint : string) (t : JobTracker)
    (st : Status) (t' : JobTracker) :
  CanMapDismiss F endpoint t = Some (st, t') →
  (st = kSuspend ∨ st = kNoMore) ∧ ledger_kept t t' ∧ state_ t' = state_ t.
Proof.
  unfold CanMapDismiss. intros H.
  destruct (map_manager_ t); simpl in H; [|done].
  repeat case_match; simplify_eq; split_and!; auto; ledger_same.
Qed.

Lemma CanReduceDismiss_kept (F : Flags) (endpoint : string) (t : JobTracker)
    (st : Status) (t' : JobTracker) :
  CanReduceDismiss F endpoint t = Some (st, t') →
  (st = kSuspend ∨ st = kNoMore) ∧ ledger_kept t t' ∧ state_ t' = state_ t.
Proof.
  unfold CanReduceDismiss. intros H.
  destruct (reduce_manager_ t); simpl in H; [|done].
  repeat case_match; simplify_eq; split_and!; auto; ledger_same.
Qed.

Lemma AssignMap_ledger (F : Flags) (now : Z) (endpoint : string) (t : JobTracker)
    (r : option ResourceItem) (st : Status) (t' : JobTracker) :
  AssignMap F now endpoint t = Some (r, st, t') →
  state_ t' = started (state_ t)
  ∧ match r with
    | Some cur =>
        st = kOk
        ∧ entry_made true
            (new_alloc endpoint (no (res_id cur)) (attempt (res_id cur)) true now)
            t t'
    | None => (st = kSuspend ∨ st = kNoMore) ∧ ledger_kept t t'
    end.
Proof.
  unfold AssignMap, started. intros H.
  repeat (case_match || simplify_option_eq);
    try match goal with
        | H : CanMapDismiss _ _ _ = Some _ |- _ =>
            apply CanMapDismiss_kept in H as (? & ? & Hst)
        end.
  all: try (split; [by rewrite ?Hst; member_simpl|]).
  all: try (split; [done|]; unfold entry_made; by member_simpl).
  all: try (split; [done|]; eapply ledger_kept_trans; [|eassumption]; ledger_same).
Qed.

Lemma AssignReduce_ledger (F : Flags) (now : Z) (endpoint : string)
    (t : JobTracker) (r : option IdItem) (st : Status) (t' : JobTracker) :
  AssignReduce F now endpoint t = Some (r, st, t') →
  state_ t' = started (state_ t)
  ∧ match r with
    | Some cur =>
        st = kOk
        ∧ entry_made false (new_alloc endpoint (no cur) (attempt cur) false now) t t'
    | None => (st = kSuspend ∨ st = kNoMore) ∧ ledger_kept t t'
    end.
Proof.
  unfold AssignReduce, started. intros H.
  repeat (case_match || simplify_option_eq);
    try match goal with
        | H : CanReduceDismiss _ _ _ = Some _ |- _ =>
            apply CanReduceDismiss_kept in H as (? & ? & Hst)
        end.
  all: try (split; [by rewrite ?Hst; member_simpl|]).
  all: try (split; [done|]; unfold entry_made; by member_simpl).
  all: try (split; [done|]; eapply ledger_kept_trans; [|eassumption]; ledger_same).
Qed.

(** ** No pointer dangles *)

Lemma index_ok_evolves (map : bool) (index : gmap Z (gmap Z nat))
    (table table' : list AllocateItem.t) :
  table_evolves table table' → index_ok map index table → index_ok map index table'.
Proof.
  intros He Hok n a p Hp.
  destruct (Hok n a p Hp) as (c & Hc & H1 & H2 & H3).
  destruct (He p c Hc) as (c' & Hc' & (_ & S2 & S3 & S4 & _) & _).
  exists c'. split_and!; congruence.
Qed.

Lemma heap_ok_evolves (heap heap' : list nat) (table table' : list AllocateItem.t) :
  table_evolves table table' → heap' ⊆ heap → heap_ok heap table →
  heap_ok heap' table'.
Proof.
  intros He Hsub Hok p Hp. apply Hsub, Hok in Hp.
  apply table_evolves_length in He. lia.
Qed.

Lemma ledger_ok_in_place (t t' : JobTracker) :
  in_place t t' → ledger_ok t → ledger_ok t'.
Proof.
  intros (_ & He & Hm & Hr & Hh) (O1 & O2 & O3). split_and!.
  - rewrite Hm. by eapply index_ok_evolves.
  - rewrite Hr. by eapply index_ok_evolves.
  - by eapply heap_ok_evolves.
Qed.

Lemma index_find_put (n a n' a' : Z) (ptr p : nat) (index : gmap Z (gmap Z nat)) :
  index_find (index_put n a ptr index) n' a' = Some p →
  (n' = n ∧ a' = a ∧ p = ptr) ∨ index_find index n' a' = Some p.
Proof.
  unfold index_find, index_put. destruct (decide (n = n')) as [->|Hn].
  - rewrite lookup_insert_eq. simpl. destruct (decide (a = a')) as [->|Ha].
    + rewrite lookup_insert_eq. intros [= <-]. by left.
    + rewrite lookup_insert_ne by done. intros H. right.
      destruct (index !! n'); [done|]. simpl in H. by rewrite lookup_empty in H.
  - rewrite lookup_insert_ne by done. by right.
Qed.

Lemma index_ok_put (map : bool) (index : gmap Z (gmap Z nat))
    (table : list AllocateItem.t) (c : AllocateItem.t) :
  AllocateItem.is_map c = map →
  index_ok map index table →
  index_ok map (index_put (AllocateItem.resource_no c) (AllocateItem.attempt c)
                          (length table) index)
           (table ++ [c]).
Proof.
  intros Hmap Hok n a p Hp.
  apply index_find_put in Hp as [(-> & -> & ->)|Hp].
  - exists c. by rewrite lookup_app_r, Nat.sub_diag.
  - destruct (Hok n a p Hp) as (c' & Hc' & H). exists c'.
    split; [by apply lookup_app_l_Some|done].
Qed.

Lemma index_ok_app (map : bool) (index : gmap Z (gmap Z nat))
    (table more : list AllocateItem.t) :
  index_ok map index table → index_ok map index (table ++ more).
Proof. apply index_ok_evolves, table_evolves_app. Qed.

Lemma heap_ok_push (heap : list nat) (table : list AllocateItem.t)
    (c : AllocateItem.t) :
  heap_ok heap table →
  heap_ok (heap_push (table ++ [c]) (length table) heap) (table ++ [c]).
Proof.
  intros Hok p Hp. rewrite length_app. simpl.
  apply heap_push_elem in Hp as [->|Hp]; [lia|]. apply Hok in Hp. lia.
Qed.

Lemma heap_ok_app (heap : list nat) (table more : list AllocateItem.t) :
  heap_ok heap table → heap_ok heap (table ++ more).
Proof. intros Hok p Hp. rewrite length_app. apply Hok in Hp. lia. Qed.

Lemma ledger_ok_entry_made (map : bool) (c : AllocateItem.t) (t t' : JobTracker) :
  AllocateItem.is_map c = map →
  entry_made map c t t' → ledger_ok t → ledger_ok t'.
Proof.
  intros Hmap (E1 & E2 & E3 & E4) (O1 & O2 & O3).
  unfold ledger_ok. rewrite E4, E1.
  destruct map; simpl in *; rewrite E2, E3; split_and!.
  all: try (by apply index_ok_put).
  all: try (by apply index_ok_app).
  all: by apply heap_ok_push.
Qed.

Lemma load_entry_ledger_ok (t : JobTracker) (it : AllocateItem.t) :
  ledger_ok t → ledger_ok (load_entry t it).
Proof.
  intros (O1 & O2 & O3). unfold load_entry, ledger_ok.
  destruct (AllocateItem.is_map it) eqn:Hmap;
    destruct (AllocateItem.state it); member_simpl; split_and!.
  all: try (by apply index_ok_put).
  all: try (by apply index_ok_app).
  all: try (by apply heap_ok_push).
  all: by apply heap_ok_app.
Qed.

Lemma load_entry_evolves (t : JobTracker) (it : AllocateItem.t) :
  allocation_table_ (load_entry t it) = allocation_table_ t ++ [it].
Proof.
  unfold load_entry.
  destruct (AllocateItem.is_map it), (AllocateItem.state it); by member_simpl.
Qed.

Lemma foldl_load_entry_table (data : list AllocateItem.t) (t : JobTracker) :
  allocation_table_ (foldl load_entry t data) = allocation_table_ t ++ data.
Proof.
  revert t. induction data as [|it data IH]; intros t; simpl.
  - by rewrite app_nil_r.
  - by rewrite IH, load_entry_evolves, <- app_assoc.
Qed.

Lemma foldl_load_entry_ledger_ok (data : list AllocateItem.t) (t : JobTracker) :
  ledger_ok t → ledger_ok (foldl load_entry t data).
Proof.
  revert t. induction data as [|it data IH]; intros t Hok; [done|].
  simpl. by apply IH, load_entry_ledger_ok.
Qed.

Lemma load_managers_kept (F : Flags) (data : list AllocateItem.t)
    (resource : list ResourceItem) (t : JobTracker) :
  ledger_kept t (load_managers F data resource t).
Proof.
  unfold load_managers.
  eapply ledger_kept_trans; [|apply BuildEndGameCounters_kept].
  repeat case_match; ledger_same.
Qed.

Lemma load_failed_count_kept (t t' : JobTracker) :
  load_failed_count t = Some t' → ledger_kept t t'.
Proof.
  unfold load_failed_count. intros H. repeat case_match; simplify_eq; ledger_same.
Qed.

Lemma load_monitor_kept (is_map : bool) (t t' : JobTracker) :
  load_monitor is_map t = Some t' → ledger_kept t t'.
Proof.
  unfold load_monitor. intros H.
  repeat (case_match || simplify_option_eq); ledger_same.
Qed.

(** [Load] before its loop writes neither table nor indices nor heap; the
    loop, if it is reached, appends the history. *)
Lemma Load_ledger (F : Flags) (jobid : string) (state : JobState)
    (data : list AllocateItem.t) (resource : list ResourceItem)
    (start_time finish_time : Z) (t : JobTracker) (b : bool) (t' : JobTracker) :
  Load F jobid state data resource start_time finish_time t = Some (b, t') →
  ∃ t0, ledger_kept t t0
        ∧ t' = (if b then foldl load_entry t0 data else t0).
Proof.
  unfold Load. intros H. member_simpl.
  match type of H with
  | context [load_managers F data resource ?x] =>
      assert (H2 : ledger_kept t x)
        by (destruct (bool_decide (state = kRunning ∨ state = kPending));
            ledger_same);
      set (t2 := x) in *; clearbody t2
  end.
  case_decide; [done|].
  case_decide.
  { injection H as <- <-. eexists. split; [|reflexivity].
    eapply ledger_kept_trans; [exact H2|]. ledger_same. }
  destruct (load_failed_count _) as [t7|] eqn:H7; simpl in H; [|done].
  destruct (load_monitor _ t7) as [t9|] eqn:H9; simpl in H; [|done].
  injection H as <- <-. exists t9. split; [|done].
  apply load_monitor_kept in H9. apply load_failed_count_kept in H7.
  eapply ledger_kept_trans; [exact H2|].
  eapply ledger_kept_trans; [apply load_managers_kept|].
  by eapply ledger_kept_trans.
Qed.

Lemma Load_ledger_ok (F : Flags) (jobid : string) (state : JobState)
    (data : list AllocateItem.t) (resource : list ResourceItem)
    (start_time finish_time : Z) (t : JobTracker) (b : bool) (t' : JobTracker) :
  Load F jobid state data resource start_time finish_time t = Some (b, t') →
  ledger_ok t → ledger_ok t'.
Proof.
  intros H Hok. apply Load_ledger in H as (t0 & Hk & ->).
  apply ledger_kept_in_place in Hk.
  pose proof (ledger_ok_in_place _ _ Hk Hok) as H0.
  destruct b; [by apply foldl_load_entry_ledger_ok|done].
Qed.

Lemma Load_evolves (F : Flags) (jobid : string) (state : JobState)
    (data : list AllocateItem.t) (resource : list ResourceItem)
    (start_time finish_time : Z) (t : JobTracker) (b : bool) (t' : JobTracker) :
  Load F jobid state data resource start_time finish_time t = Some (b, t') →
  table_evolves (allocation_table_ t) (allocation_table_ t').
Proof.
  intros H. apply Load_ledger in H as (t0 & Hk & ->).
  apply ledger_kept_table in Hk.
  destruct b; [|rewrite Hk; apply table_evolves_refl].
  rewrite foldl_load_entry_table, Hk. apply table_evolves_app.
Qed.

Lemma ledger_ok_new (F : Flags) (id : string) (job : JobDescriptor) :
  ledger_ok (new_JobTracker F id job).
Proof.
  unfold new_JobTracker, ledger_ok. member_simpl. split_and!.
  - intros n a p H. unfold index_find in H. by rewrite lookup_empty in H.
  - intros n a p H. unfold index_find in H. by rewrite lookup_empty in H.
  - intros p Hp. by apply elem_of_nil in Hp.
Qed.

Lemma call_ledger (F : Flags) (c : Call) (t t' : JobTracker) :
  call F c t = Some t' →
  table_evolves (allocation_table_ t) (allocation_table_ t')
  ∧ (ledger_ok t → ledger_ok t').
Proof.
  assert (Hin : in_place t t' →
                table_evolves (allocation_table_ t) (allocation_table_ t')
                ∧ (ledger_ok t → ledger_ok t')).
  { intros Hi. split; [apply Hi|by apply ledger_ok_in_place]. }
  destruct c; simpl; intros H.
  - destruct (Start F env t) as [[st t1]|] eqn:HS; simplify_eq/=.
    apply Hin, ledger_kept_in_place. by eapply Start_kept.
  - destruct (AssignMap F now endpoint t) as [[[r st] t1]|] eqn:HA; simplify_eq/=.
    apply AssignMap_ledger in HA as [_ HA]. destruct r as [cur|].
    + destruct HA as [_ HA]. split; [|eapply ledger_ok_entry_made; [|exact HA]; done].
      destruct HA as (-> & _). apply table_evolves_app.
    + apply Hin, ledger_kept_in_place, HA.
  - destruct (AssignReduce F now endpoint t) as [[[r st] t1]|] eqn:HA; simplify_eq/=.
    apply AssignReduce_ledger in HA as [_ HA]. destruct r as [cur|].
    + destruct HA as [_ HA]. split; [|eapply ledger_ok_entry_made; [|exact HA]; done].
      destruct HA as (-> & _). apply table_evolves_app.
    + apply Hin, ledger_kept_in_place, HA.
  - destruct (FinishMap F env n a state err_msg counters t) as [[st t1]|] eqn:HF;
      simplify_eq/=. by eapply Hin, FinishMap_in_place.
  - destruct (FinishReduce F env n a state err_msg counters t) as [[st t1]|] eqn:HF;
      simplify_eq/=. by eapply Hin, FinishReduce_in_place.
  - by eapply Hin, KeepMonitoring_in_place.
  - injection H as <-. apply Hin, Kill_in_place.
  - destruct (Load F jobid state data resource start_time finish_time t)
      as [[b t1]|] eqn:HL; simplify_eq/=.
    split; [by eapply Load_evolves|by eapply Load_ledger_ok].
Qed.

(** X1.  The ledger is append-only.  Whatever calls are made on a tracker,
    every entry of [allocation_table_] stays at its position and keeps its
    endpoint, task id, attempt, phase and allocation time; an entry that
    has left Running is never Running again. *)
Theorem ledger_append_only (F : Flags) (calls : list Call) (t t' : JobTracker) :
  run F calls t = Some t' →
  (length (allocation_table_ t) ≤ length (allocation_table_ t'))%nat
  ∧ ∀ (p : nat) (c : AllocateItem.t),
      allocation_table_ t !! p = Some c →
      ∃ c', allocation_table_ t' !! p = Some c'
            ∧ same_task c c'
            ∧ (AllocateItem.state c ≠ kTaskRunning →
               AllocateItem.state c' ≠ kTaskRunning).
Proof.
  intros H.
  assert (He : table_evolves (allocation_table_ t) (allocation_table_ t')).
  { revert t' H. unfold run.
    induction calls as [|c calls IH] using rev_ind; intros t' H.
    - simplify_eq/=. apply table_evolves_refl.
    - rewrite foldl_app in H. simpl in H.
      destruct (foldl _ (Some t) calls) as [t1|] eqn:H1; simpl in H; [|done].
      eapply table_evolves_trans; [by apply IH|]. by eapply call_ledger. }
  split; [by apply table_evolves_length|].
  intros p c Hc. destruct (He p c Hc) as (c' & Hc' & Hs & Hr). eauto.
Qed.

Lemma ledger_append_only_witness :
  run ex_flags [CallFinishMap ex_finish_env 0 1 kTaskCompleted "" ∅] ex_empty_slug
  = Some ex_first_won
  ∧ (length (allocation_table_ ex_empty_slug)
     ≤ length (allocation_table_ ex_first_won))%nat.
Proof.
  assert (H : run ex_flags [CallFinishMap ex_finish_env 0 1 kTaskCompleted "" ∅]
                ex_empty_slug = Some ex_first_won) by (vm_compute; reflexivity).
  exact (conj H (proj1 (ledger_append_only _ _ _ _ H))).
Defined.

(** X2.  No pointer of a tracker dangles.  In every state a master can
    reach, each pointer of [map_index_] and of [reduce_index_] leads to an
    entry of the table made for the task, the attempt and the phase it is
    indexed under, and each pointer of [time_heap_] to an entry of the
    table; so the entry a [Finish] call finds is one of the task and the
    attempt reported. *)
Theorem reachable_ledger_ok (F : Flags) (t : JobTracker) :
  reachable F t →
  ledger_ok t
  ∧ ∀ (map : bool) (n a : Z) (p : nat) (c : AllocateItem.t),
      find_running (phase_index map t) (allocation_table_ t) n a = Some (p, c) →
      AllocateItem.resource_no c = n ∧ AllocateItem.attempt c = a
      ∧ AllocateItem.is_map c = map.
Proof.
  intros Hr.
  assert (Hok : ledger_ok t).
  { induction Hr as [id job|c t t' _ IH Hc]; [apply ledger_ok_new|].
    by eapply call_ledger. }
  split; [done|]. intros map n a p c Hf.
  apply find_running_index in Hf as (Hi & Hc & _).
  destruct Hok as (O1 & O2 & _).
  destruct map; simpl in Hi;
    [destruct (O1 n a p Hi) as (c' & Hc' & H)
    |destruct (O2 n a p Hi) as (c' & Hc' & H)];
    by simplify_eq.
Qed.

Lemma reachable_ledger_ok_witness :
  reachable ex_flags ex_ignored_twice ∧ ledger_ok ex_ignored_twice.
Proof.
  assert (Hr : reachable ex_flags ex_ignored_twice).
  { eapply (reachable_run ex_flags ex_ignore_calls (ex_new ex_job));
      [apply reachable_new | vm_compute; reflexivity]. }
  exact (conj Hr (proj1 (reachable_ledger_ok _ _ Hr))).
Defined.

(** X3.  What a monitor pass writes.  [KeepMonitoring] for a phase leaves
    every entry of the ledger as it was or, if it was Running and of that
    phase, Killed; it leaves alone the job state, the descriptor, the
    counters, the failure bookkeeping, the indices, and the killed count,
    the slug and the pool of the other phase; it gives the heap no new
    pointer, calls nothing but [Query], and queues itself once more on the
    timer. *)
Theorem KeepMonitoring_writes (F : Flags) (env : MonitorEnv) (map_now : bool)
    (t t' : JobTracker) :
  KeepMonitoring F env map_now t = Some t' →
  length (allocation_table_ t') = length (allocation_table_ t)
  ∧ (∀ (p : nat) (c : AllocateItem.t),
       allocation_table_ t !! p = Some c →
       allocation_table_ t' !! p = Some c
       ∨ (AllocateItem.state c = kTaskRunning ∧ AllocateItem.is_map c = map_now
          ∧ ∃ c', allocation_table_ t' !! p = Some c' ∧ same_task c c'
                  ∧ AllocateItem.state c' = kTaskKilled))
  ∧ monitor_keeps t' = monitor_keeps t
  ∧ other_phase_kept map_now t t'
  ∧ time_heap_ t' ⊆ time_heap_ t
  ∧ (∃ endpoints : list string, trace_ t' = trace_ t ++ (EvQuery <$> endpoints))
  ∧ ∃ (tasks : list (Z * bool)) (delay : Z),
      monitor_ t = Some tasks ∧ monitor_ t' = Some (tasks ++ [(delay, map_now)]).
Proof.
  intros H. apply KeepMonitoring_pass in H
    as ((P1 & P2 & P3 & P4 & P5) & Hh & Hm).
  split_and!; try done.
  intros p c Hc. destruct (P2 p c Hc) as (c' & Hc' & [->|(H1 & H2 & ->)]); auto.
  right. split_and!; try done. by eexists.
Qed.

Lemma KeepMonitoring_writes_witness :
  KeepMonitoring ex_flags ex_query_env true ex_empty_slug = Some ex_monitored
  ∧ length (allocation_table_ ex_monitored) = length (allocation_table_ ex_empty_slug)
  ∧ time_heap_ ex_monitored ⊆ time_heap_ ex_empty_slug.
Proof.
  assert (H : KeepMonitoring ex_flags ex_query_env true ex_empty_slug
              = Some ex_monitored) by (vm_compute; reflexivity).
  destruct (KeepMonitoring_writes _ _ _ _ _ H) as (H1 & _ & _ & _ & H5 & _).
  exact (conj H (conj H1 H5)).
Defined.

(** X4.  [AssignMap] hands out an item exactly when it makes an entry: the
    status is then [kOk], and the ledger has one entry more, Running, for
    the worker, the task and the attempt handed out, allocated at the time
    of the call, indexed in [map_index_] and pushed on the heap.  When it
    hands out nothing the status is [kSuspend] or [kNoMore] and table,
    indices and heap are untouched.  Either way a Pending job is Running
    afterwards. *)
Theorem AssignMap_makes_one_entry (F : Flags) (now : Z) (endpoint : string)
    (t : JobTracker) (r : option ResourceItem) (st : Status) (t' : JobTracker) :
  AssignMap F now endpoint t = Some (r, st, t') →
  state_ t' = started (state_ t)
  ∧ match r with
    | Some cur =>
        st = kOk
        ∧ allocation_table_ t'
          = allocation_table_ t
            ++ [AllocateItem.mk endpoint kTaskRunning (no (res_id cur))
                  (attempt (res_id cur)) true now (-1)]
        ∧ map_index_ t'
          = index_put (no (res_id cur)) (attempt (res_id cur))
                      (length (allocation_table_ t)) (map_index_ t)
        ∧ reduce_index_ t' = reduce_index_ t
        ∧ ∀ p : nat,
            p ∈ time_heap_ t' ↔ p = length (allocation_table_ t) ∨ p ∈ time_heap_ t
    | None =>
        (st = kSuspend ∨ st = kNoMore)
        ∧ ledger_of t' = ledger_of t ∧ time_heap_ t' ⊆ time_heap_ t
    end.
Proof.
  intros H. apply AssignMap_ledger in H as [Hs H]. split; [done|].
  destruct r as [cur|]; [|done].
  destruct H as (-> & E1 & E2 & E3 & E4). simpl in E2, E3.
  split_and!; try done.
  intros p. rewrite E4. apply heap_push_elem.
Qed.

Lemma AssignMap_makes_one_entry_witness :
  AssignMap ex_flags 1001 "w1:1" ex_tracker5 = Some ex_assigned
  ∧ state_ ex_assigned.2 = started (state_ ex_tracker5).
Proof.
  assert (H : AssignMap ex_flags 1001 "w1:1" ex_tracker5
              = Some (ex_assigned.1.1, ex_assigned.1.2, ex_assigned.2))
    by (vm_compute; reflexivity).
  exact (conj H (proj1 (AssignMap_makes_one_entry _ _ _ _ _ _ _ H))).
Defined.

(** X5.  [AssignReduce] likewise: an item handed out is an entry made, for
    the reduce phase; nothing handed out is nothing written to table,
    indices or heap. *)
Theorem AssignReduce_makes_one_entry (F : Flags) (now : Z) (endpoint : string)
    (t : JobTracker) (r : option IdItem) (st : Status) (t' : JobTracker) :
  AssignReduce F now endpoint t = Some (r, st, t') →
  state_ t' = started (state_ t)
  ∧ match r with
    | Some cur =>
        st = kOk
        ∧ allocation_table_ t'
          = allocation_table_ t
            ++ [AllocateItem.mk endpoint kTaskRunning (no cur) (attempt cur)
                  false now (-1)]
        ∧ reduce_index_ t'
          = index_put (no cur) (attempt cur)
                      (length (allocation_table_ t)) (reduce_index_ t)
        ∧ map_index_ t' = map_index_ t
        ∧ ∀ p : nat,
            p ∈ time_heap_ t' ↔ p = length (allocation_table_ t) ∨ p ∈ time_heap_ t
    | None =>
        (st = kSuspend ∨ st = kNoMore)
        ∧ ledger_of t' = ledger_of t ∧ time_heap_ t' ⊆ time_heap_ t
    end.
Proof.
  intros H. apply AssignReduce_ledger in H as [Hs H]. split; [done|].
  destruct r as [cur|]; [|done].
  destruct H as (-> & E1 & E2 & E3 & E4). simpl in E2, E3.
  split_and!; try done.
  intros p. rewrite E4. apply heap_push_elem.
Qed.

Lemma AssignReduce_makes_one_entry_witness :
  AssignReduce ex_flags 1001 "r1:1" ex_tracker5 = Some ex_assigned_reduce
  ∧ state_ ex_assigned_reduce.2 = started (state_ ex_tracker5).
Proof.
  assert (H : AssignReduce ex_flags 1001 "r1:1" ex_tracker5
              = Some (ex_assigned_reduce.1.1, ex_assigned_reduce.1.2,
                      ex_assigned_reduce.2))
    by (vm_compute; reflexivity).
  exact (conj H (proj1 (AssignReduce_makes_one_entry _ _ _ _ _ _ _ H))).
Defined.

(** ** Kill *)

Lemma kill_running_counts (now : Z) (table : list AllocateItem.t) :
  (kill_running now table).1.2 = count_entries true kTaskRunning table
  ∧ (kill_running now table).2 = count_entries false kTaskRunning table.
Proof.
  unfold count_entries. induction table as [|a r [IH1 IH2]]; [done|].
  simpl. destruct (kill_running now r) as [[r' mk] rk]. simpl in *.
  destruct a as [ep st rn at' m alloc per]. simpl.
  case_decide as Hst; simpl.
  - subst st. destruct m; simpl; split; lia.
  - rewrite (bool_decide_eq_false_2 (st = kTaskRunning)) by done.
    rewrite !andb_false_r. simpl. done.
Qed.

(** X6.  [Kill] ends every attempt.  It answers [kOk], sets the job state
    to the one asked for, drops both Grus, the timer and the RPC client, and
    turns every Running entry of the ledger into a Killed one, counted for
    its phase; the other entries are untouched. *)
Theorem Kill_ends_every_attempt (now finish : Z) (end_state : JobState)
    (t : JobTracker) :
  (Kill now finish end_state t).1 = kOk
  ∧ state_ (Kill now finish end_state t).2 = end_state
  ∧ finish_time_ (Kill now finish end_state t).2 = finish
  ∧ map_ (Kill now finish end_state t).2 = None
  ∧ reduce_ (Kill now finish end_state t).2 = None
  ∧ monitor_ (Kill now finish end_state t).2 = None
  ∧ rpc_client_ (Kill now finish end_state t).2 = false
  ∧ length (allocation_table_ (Kill now finish end_state t).2)
    = length (allocation_table_ t)
  ∧ (∀ (p : nat) (c : AllocateItem.t),
       allocation_table_ t !! p = Some c →
       if decide (AllocateItem.state c = kTaskRunning)
       then ∃ c', allocation_table_ (Kill now finish end_state t).2 !! p = Some c'
                  ∧ same_task c c' ∧ AllocateItem.state c' = kTaskKilled
       else allocation_table_ (Kill now finish end_state t).2 !! p = Some c)
  ∧ (∀ (p : nat) (c : AllocateItem.t),
       allocation_table_ (Kill now finish end_state t).2 !! p = Some c →
       AllocateItem.state c ≠ kTaskRunning)
  ∧ map_killed_ (Kill now finish end_state t).2
    = map_killed_ t + count_entries true kTaskRunning (allocation_table_ t)
  ∧ reduce_killed_ (Kill now finish end_state t).2
    = reduce_killed_ t + count_entries false kTaskRunning (allocation_table_ t).
Proof.
  unfold Kill. member_simpl.
  pose proof (kill_running_lookup now (allocation_table_ t)) as Hl.
  pose proof (kill_running_length now (allocation_table_ t)) as Hn.
  pose proof (kill_running_counts now (allocation_table_ t)) as [Hm Hr].
  destruct (kill_running now (allocation_table_ t)) as [[table mk] rk].
  simpl in *. member_simpl. split_and!; try done; try congruence.
  - intros p c Hc. rewrite Hl, Hc. simpl. case_decide; [|done].
    eexists. by split.
  - intros p c. rewrite Hl. destruct (allocation_table_ t !! p) as [c0|]; [|done].
    simpl. intros [= <-]. by case_decide.
Qed.

Lemma Kill_no_running (now finish : Z) (end_state : JobState) (t : JobTracker)
    (p : nat) (c : AllocateItem.t) :
  allocation_table_ (Kill now finish end_state t).2 !! p = Some c →
  AllocateItem.state c ≠ kTaskRunning.
Proof.
  unfold Kill. member_simpl.
  pose proof (kill_running_lookup now (allocation_table_ t)) as Hl.
  destruct (kill_running now (allocation_table_ t)) as [[table mk] rk].
  simpl in *. member_simpl.
  rewrite Hl. destruct (allocation_table_ t !! p) as [c0|]; [|done].
  simpl. intros [= <-]. by case_decide.
Qed.

Lemma Finish_refused (F : Flags) (map : bool) (env : FinishEnv) (n a : Z)
    (state : TaskState) (err_msg : string) (counters : gmap string Z)
    (t : JobTracker) :
  find_running (phase_index map t) (allocation_table_ t) n a = None →
  ∃ st, Finish F map env n a state err_msg counters t = Some (st, t)
        ∧ (st = kNoMore ∨ (map = false ∧ st = kSuspend)).
Proof.
  intros Hf. destruct map; simpl in *.
  - unfold FinishMap. rewrite Hf. eauto.
  - unfold FinishReduce. destruct (reduce_too_early state t); [eauto|].
    rewrite Hf. eauto.
Qed.

Lemma report_refused (F : Flags) (c : Call) (t : JobTracker) :
  is_report c = true →
  (∀ (map : bool) (env : FinishEnv) (n a : Z) (state : TaskState)
     (err_msg : string) (counters : gmap string Z),
     ∃ st, Finish F map env n a state err_msg counters t = Some (st, t)
           ∧ (st = kNoMore ∨ (map = false ∧ st = kSuspend))) →
  call F c t = Some t.
Proof.
  destruct c; simpl; intros Hc Hone; try done.
  - destruct (Hone true env n a state err_msg counters) as (st & Hst & _).
    simpl in Hst. by rewrite Hst.
  - destruct (Hone false env n a state err_msg counters) as (st & Hst & _).
    simpl in Hst. by rewrite Hst.
Qed.

(** X7.  Right after [Kill] no report counts.  On the tracker [Kill]
    returns, every report of a worker, for either phase, is answered
    [kNoMore] (or [kSuspend], from [FinishReduce] only) and leaves the
    tracker exactly as [Kill] left it; so does every sequence of reports.
    This holds until the next assignment or load, not longer: [Kill] leaves
    the pools as they are, [AssignMap] and [AssignReduce] test the job state
    for [kPending] only, and the report of an attempt handed out after
    [Kill] is accepted. *)
Theorem Finish_after_Kill (F : Flags) (now finish : Z) (end_state : JobState)
    (t : JobTracker) (reports : list Call) :
  Forall (λ c, is_report c = true) reports →
  run F reports (Kill now finish end_state t).2
  = Some (Kill now finish end_state t).2
  ∧ ∀ (map : bool) (env : FinishEnv) (n a : Z) (state : TaskState)
      (err_msg : string) (counters : gmap string Z),
      ∃ st,
        Finish F map env n a state err_msg counters (Kill now finish end_state t).2
        = Some (st, (Kill now finish end_state t).2)
        ∧ (st = kNoMore ∨ (map = false ∧ st = kSuspend)).
Proof.
  intros Hrep.
  assert (Hone : ∀ (map : bool) (env : FinishEnv) (n a : Z) (state : TaskState)
                   (err_msg : string) (counters : gmap string Z),
             ∃ st,
               Finish F map env n a state err_msg counters
                      (Kill now finish end_state t).2
               = Some (st, (Kill now finish end_state t).2)
               ∧ (st = kNoMore ∨ (map = false ∧ st = kSuspend))).
  { intros map env n a state err_msg counters.
    apply Finish_refused. unfold find_running.
    destruct (index_find _ n a) as [ptr|]; [|done].
    destruct (allocation_table_ _ !! ptr) as [cur|] eqn:Hc; [|done].
    apply Kill_no_running in Hc. by rewrite decide_False. }
  split; [|exact Hone].
  set (K := (Kill now finish end_state t).2) in *. clearbody K.
  unfold run. revert Hrep.
  induction reports as [|c reports IH] using rev_ind; intros Hrep; [done|].
  apply Forall_app in Hrep as [Hrep Hc]. apply Forall_inv in Hc.
  rewrite foldl_app. cbn [foldl]. rewrite (IH Hrep).
  change (call F c K = Some K). by apply report_refused.
Qed.

Lemma Finish_after_Kill_witness :
  Forall (λ c, is_report c = true)
    [CallFinishMap ex_finish_env 0 1 kTaskCompleted "" ∅;
     CallFinishReduce ex_finish_env 0 1 kTaskFailed "boom" ∅]
  ∧ run ex_flags
        [CallFinishMap ex_finish_env 0 1 kTaskCompleted "" ∅;
         CallFinishReduce ex_finish_env 0 1 kTaskFailed "boom" ∅]
        (Kill 1005 1005 kKilled ex_one_map).2
    = Some (Kill 1005 1005 kKilled ex_one_map).2.
Proof.
  assert (Hrep : Forall (λ c, is_report c = true)
                   [CallFinishMap ex_finish_env 0 1 kTaskCompleted "" ∅;
                    CallFinishReduce ex_finish_env 0 1 kTaskFailed "boom" ∅])
    by (repeat constructor).
  exact (conj Hrep
           (proj1 (Finish_after_Kill ex_flags 1005 1005 kKilled ex_one_map _ Hrep))).
Defined.

(** The refusal does not outlast [Kill].  In [ex_killed] the one attempt
    handed out has been killed; a worker that asks for a map afterwards is
    handed task 1, and its Completed report is answered [kOk] and marks the
    task Done. *)
Example report_after_later_assignment :
  entry_view <$> allocation_table_ ex_killed = [(0, 1, kTaskKilled)]
  ∧ state_ ex_killed = kKilled
  ∧ entry_view <$> allocation_table_ ex_assigned_after_kill
    = [(0, 1, kTaskKilled); (1, 1, kTaskRunning)]
  ∧ (FinishMap ex_flags ex_finish_env 1 1 kTaskCompleted "" ∅
               ex_assigned_after_kill
     ≫= λ r, mm ← map_manager_ r.2; Some (r.1, IsDone 1 mm))
    = Some (kOk, true).
Proof. split_and!; vm_compute; reflexivity. Qed.

(** X8.  A report for an attempt the ledger does not hold Running is
    refused.  In every state a master can reach, if no entry of the phase
    for task [n] and attempt [a] is Running, the [Finish] call for them
    answers [kNoMore] (or [kSuspend], from [FinishReduce] only) and changes
    nothing. *)
Theorem Finish_without_running_attempt (F : Flags) (map : bool)
    (env : FinishEnv) (n a : Z) (state : TaskState) (err_msg : string)
    (counters : gmap string Z) (t : JobTracker) :
  reachable F t →
  (∀ (p : nat) (c : AllocateItem.t),
     allocation_table_ t !! p = Some c →
     AllocateItem.is_map c = map → AllocateItem.resource_no c = n →
     AllocateItem.attempt c = a → AllocateItem.state c ≠ kTaskRunning) →
  ∃ st, Finish F map env n a state err_msg counters t = Some (st, t)
        ∧ (st = kNoMore ∨ (map = false ∧ st = kSuspend)).
Proof.
  intros Hr Hno. apply Finish_refused.
  destruct (find_running _ _ n a) as [[p c]|] eqn:Hf; [|done].
  assert (Hok : ledger_ok t).
  { clear Hno Hf. induction Hr as [id job|c' t t' _ IH Hc]; [apply ledger_ok_new|].
    by eapply call_ledger. }
  apply find_running_index in Hf as (Hi & Hc & Hrun).
  destruct Hok as (O1 & O2 & _).
  assert (H : AllocateItem.resource_no c = n ∧ AllocateItem.attempt c = a
              ∧ AllocateItem.is_map c = map).
  { destruct map; simpl in Hi;
      [destruct (O1 n a p Hi) as (c' & Hc' & H)
      |destruct (O2 n a p Hi) as (c' & Hc' & H)];
      by simplify_eq. }
  destruct H as (H1 & H2 & H3). by destruct (Hno p c Hc H3 H1 H2).
Qed.

Lemma Finish_without_running_attempt_witness :
  reachable ex_flags ex_retried
  ∧ ∃ st, Finish ex_flags true ex_finish_env 0 1 kTaskCompleted "" ∅ ex_retried
          = Some (st, ex_retried)
          ∧ (st = kNoMore ∨ (true = false ∧ st = kSuspend)).
Proof.
  assert (Hr : reachable ex_flags ex_retried).
  { eapply (reachable_run ex_flags ex_retry_calls (ex_new ex_job));
      [apply reachable_new | vm_compute; reflexivity]. }
  assert (Hno : ∀ (p : nat) (c : AllocateItem.t),
            allocation_table_ ex_retried !! p = Some c →
            AllocateItem.is_map c = true → AllocateItem.resource_no c = 0 →
            AllocateItem.attempt c = 1 → AllocateItem.state c ≠ kTaskRunning).
  { intros p c Hc _ _ _.
    assert (Hall : Forall (λ c, AllocateItem.state c ≠ kTaskRunning)
                     (allocation_table_ ex_retried))
      by (vm_compute; repeat constructor; discriminate).
    eapply Forall_lookup_1 in Hall; [exact Hall|exact Hc]. }
  exact (conj Hr (Finish_without_running_attempt ex_flags true ex_finish_env 0 1
                    kTaskCompleted "" ∅ ex_retried Hr Hno)).
Defined.

(** ** Dismissal of reduce workers *)


(** ** Construction *)

(** X10.  The reduce capacity of a new tracker.  The retry bounds are the
    job's, or the flag's when the job gives none.  When the job gives both
    [reduce_total] and [reduce_capacity], the capacity is compared with
    [twice], the [int] product [reduce_total * 2]: a capacity of at most
    [twice] is kept, a larger one is replaced by [max(twice, 60)], so one
    above [twice] but below 60 is raised to 60, not lowered.  [twice] is
    [2 * reduce_total] for a [reduce_total] between [-2^30] and [2^30 - 1];
    beyond, the product wraps around. *)
Theorem new_JobTracker_capacity (F : Flags) (id : string) (job : JobDescriptor) :
  let twice := to_int (reduce_total job * 2) in
  map_retry (job_descriptor_ (new_JobTracker F id job))
  = (if has_map_retry job then map_retry job else FLAGS_retry_bound F)
  ∧ reduce_retry (job_descriptor_ (new_JobTracker F id job))
    = (if has_reduce_retry job then reduce_retry job else FLAGS_retry_bound F)
  ∧ (has_reduce_total job = true → has_reduce_capacity job = true →
     reduce_capacity (job_descriptor_ (new_JobTracker F id job))
     ≤ Z.max twice 60
     ∧ (reduce_capacity job ≤ twice →
        reduce_capacity (job_descriptor_ (new_JobTracker F id job))
        = reduce_capacity job)
     ∧ (twice < reduce_capacity job →
        reduce_capacity (job_descriptor_ (new_JobTracker F id job))
        = Z.max twice 60)
     ∧ (twice < reduce_capacity job < 60 →
        reduce_capacity (job_descriptor_ (new_JobTracker F id job)) = 60))
  ∧ (has_reduce_total job && has_reduce_capacity job = false →
     reduce_capacity (job_descriptor_ (new_JobTracker F id job))
     = reduce_capacity job)
  ∧ (- 2 ^ 30 ≤ reduce_total job < 2 ^ 30 → twice = reduce_total job * 2).
Proof.
  destruct job as [ins out fmt ss jt mt rt hrt mc rc hrc mr hmr rr hrr imf irf mad rad].
  unfold new_JobTracker; simpl.
  assert (Hsmall : - 2 ^ 30 ≤ rt < 2 ^ 30 → to_int (rt * 2) = rt * 2).
  { intros Hr. apply to_int_small.
    change (2 ^ 30) with 1073741824 in Hr. change (2 ^ 31) with 2147483648. lia. }
  destruct hmr, hrr, hrt, hrc; simpl; repeat case_decide; simpl;
    (split_and!; [done|done|try done|done|exact Hsmall]);
    intros; split_and!; intros; lia.
Qed.

Lemma new_JobTracker_capacity_witness :
  has_reduce_total ex_job = true ∧ has_reduce_capacity ex_job = true
  ∧ reduce_capacity (job_descriptor_ (new_JobTracker ex_flags "job_1" ex_job))
    ≤ Z.max (to_int (reduce_total ex_job * 2)) 60.
Proof.
  exact (conj eq_refl (conj eq_refl
           (proj1 (proj1 (proj2 (proj2
              (new_JobTracker_capacity ex_flags "job_1" ex_job))) eq_refl eq_refl)))).
Defined.

(** With [reduce_total = 2^30] the product wraps to [-2^31]: a capacity of
    100, far below twice the total, is taken for too large and set to 60. *)
Example new_JobTracker_capacity_wraps :
  reduce_capacity
    (job_descriptor_
       (new_JobTracker ex_flags "job_1"
          (set_reduce_capacity 100 (set_reduce_total (2 ^ 30) ex_job))))
  = 60.
Proof. vm_compute. reflexivity. Qed.

(** ** Load *)

Lemma load_monitor_total (is_map : bool) (t : JobTracker) :
  (state_ t = kRunning → is_Some (monitor_ t)) →
  ∃ t', load_monitor is_map t = Some t'
        ∧ job_id_ t' = job_id_ t ∧ state_ t' = state_ t
        ∧ allocation_table_ t' = allocation_table_ t
        ∧ map_failed_ t' = map_failed_ t ∧ map_killed_ t' = map_killed_ t
        ∧ reduce_failed_ t' = reduce_failed_ t
        ∧ reduce_killed_ t' = reduce_killed_ t.
Proof.
  intros Hm. unfold load_monitor. cbv zeta.
  destruct (decide (state_ t = kRunning)) as [Hr|Hr]; simpl.
  - destruct (Hm Hr) as [tasks ->]. simpl.
    destruct (bool_decide (state_ t = kRunning ∨ state_ t = kPending));
      destruct is_map; by eexists.
  - destruct (bool_decide (state_ t = kRunning ∨ state_ t = kPending)); by eexists.
Qed.

(** X11.  The verdict of [Load].  On a tracker whose descriptor has
    non-negative totals (and with a timer, if the job is loaded as
    Running), [Load] returns; it returns false exactly when [map_total] is
    not 0 and the resource dump has another number of items.  Either way
    the id and the state of the tracker are already those of the
    checkpoint.  A refused load has appended nothing to the ledger and has
    replaced the map manager by an empty one; an accepted load has appended
    the history and added its Failed and Killed entries to the counters of
    their phases. *)
Theorem Load_verdict (F : Flags) (jobid : string) (state : JobState)
    (data : list AllocateItem.t) (resource : list ResourceItem)
    (start_time finish_time : Z) (t : JobTracker) :
  0 ≤ map_total (job_descriptor_ t) →
  0 ≤ reduce_total (job_descriptor_ t) →
  (state = kRunning → is_Some (monitor_ t)) →
  ∃ (b : bool) (t' : JobTracker),
    Load F jobid state data resource start_time finish_time t = Some (b, t')
    ∧ (b = false ↔
       map_total (job_descriptor_ t) ≠ 0
       ∧ length resource ≠ Z.to_nat (map_total (job_descriptor_ t)))
    ∧ job_id_ t' = jobid ∧ state_ t' = state
    ∧ allocation_table_ t' = allocation_table_ t ++ (if b then data else [])
    ∧ (b = false →
       map_manager_ t' = Some [] ∧ reduce_manager_ t' = reduce_manager_ t
       ∧ ledger_of t' = ledger_of t ∧ time_heap_ t' = time_heap_ t)
    ∧ (b = true →
       map_failed_ t' = map_failed_ t + count_entries true kTaskFailed data
       ∧ map_killed_ t' = map_killed_ t + count_entries true kTaskKilled data
       ∧ reduce_failed_ t' = reduce_failed_ t + count_entries false kTaskFailed data
       ∧ reduce_killed_ t' = reduce_killed_ t + count_entries false kTaskKilled data).
Proof.
  intros Hmt Hrt Hmon. unfold Load. cbv zeta.
  set (t2 := if bool_decide (_ ∨ _) then _ else _).
  assert (H2 : loaded_so_far t2
               = (jobid, state, allocation_table_ t, map_failed_ t, map_killed_ t,
                  reduce_failed_ t, reduce_killed_ t, monitor_ t, job_descriptor_ t)
               ∧ map_manager_ t2 = map_manager_ t
               ∧ reduce_manager_ t2 = reduce_manager_ t
               ∧ ledger_of t2 = ledger_of t ∧ time_heap_ t2 = time_heap_ t).
  { subst t2. by destruct (bool_decide _). }
  clearbody t2. destruct H2 as (H2 & H2m & H2r & H2l & H2h).
  assert (Hjd : job_descriptor_ t2 = job_descriptor_ t).
  { unfold loaded_so_far in H2. by injection H2. }
  rewrite Hjd. rewrite decide_False by lia.
  destruct (decide (map_total (job_descriptor_ t) ≠ 0
                    ∧ length resource ≠ Z.to_nat (map_total (job_descriptor_ t))))
    as [Hbad|Hgood].
  { exists false, (set_map_manager_ (Some []) t2).
    unfold loaded_so_far in H2. injection H2 as Q1 Q2 Q3 _ _ _ _ _ _.
    split_and!; try done; member_simpl; try done.
    by rewrite app_nil_r. }
  destruct (load_managers_loaded F data resource t2) as (M1 & M2 & M3).
  set (t5 := load_managers F data resource t2) in *. clearbody t5.
  assert (Hjd5 : job_descriptor_ t5 = job_descriptor_ t).
  { unfold loaded_so_far in M1, H2. rewrite H2 in M1. by injection M1. }
  destruct (load_failed_count_loaded t5) as (t7 & -> & N1 & N2 & N3);
    [by rewrite Hjd5|].
  simpl.
  destruct (load_monitor_total (negb (maps_done t5)) t7)
    as (t9 & -> & P1 & P2 & P3 & P4 & P5 & P6 & P7).
  { unfold loaded_so_far in N1, M1, H2. rewrite M1, H2 in N1.
    injection N1 as _ -> _ _ _ _ _ -> _. done. }
  simpl. exists true. eexists. split; [reflexivity|].
  destruct (foldl_load_entry_ledger data t9)
    as (-> & -> & _ & _ & -> & -> & -> & -> & ->).
  unfold loaded_so_far in N1, M1, H2. rewrite M1, H2 in N1.
  injection N1 as Q1 Q2 Q3 Q4 Q5 Q6 Q7 _ _.
  rewrite P1, P2, P3, P4, P5, P6, P7, Q1, Q2, Q3, Q4, Q5, Q6, Q7.
  split_and!; done.
Qed.

Lemma Load_verdict_witness :
  0 ≤ map_total (job_descriptor_ (ex_new ex_job))
  ∧ 0 ≤ reduce_total (job_descriptor_ (ex_new ex_job))
  ∧ ∃ (b : bool) (t' : JobTracker),
      Load ex_flags "job_2" kCompleted (HistoryForDump ex_retried)
           (InputDataForDump ex_retried) 0 0 (ex_new ex_job) = Some (b, t')
      ∧ job_id_ t' = "job_2".
Proof.
  assert (H1 : 0 ≤ map_total (job_descriptor_ (ex_new ex_job)))
    by (vm_compute; discriminate).
  assert (H2 : 0 ≤ reduce_total (job_descriptor_ (ex_new ex_job)))
    by (vm_compute; discriminate).
  assert (H3 : kCompleted = kRunning → is_Some (monitor_ (ex_new ex_job)))
    by discriminate.
  split; [exact H1|]. split; [exact H2|].
  destruct (Load_verdict ex_flags "job_2" kCompleted (HistoryForDump ex_retried)
              (InputDataForDump ex_retried) 0 0 (ex_new ex_job) H1 H2 H3)
    as (b & t' & HL & _ & Hid & _).
  exists b, t'. exact (conj HL Hid).
Defined.

(** ** Replay *)

Lemma replay_entry_length (is_map : bool) (table : list IdItem)
    (it : AllocateItem.t) :
  length (replay_entry is_map table it) = length table.
Proof.
  unfold replay_entry. case_decide; [done|].
  destruct (table !! _); [|done]. by rewrite length_insert.
Qed.

Lemma foldl_replay_entry_length (is_map : bool) (history : list AllocateItem.t)
    (table : list IdItem) :
  length (foldl (replay_entry is_map) table history) = length table.
Proof.
  revert table. induction history as [|it h IH]; intros table; [done|].
  simpl. by rewrite IH, replay_entry_length.
Qed.

Lemma replayed_for_snoc (is_map : bool) (n : nat) (h : list AllocateItem.t)
    (it : AllocateItem.t) :
  replayed_for is_map n (h ++ [it])
  = replayed_for is_map n h
    ++ (if bool_decide (AllocateItem.is_map it = is_map)
           && bool_decide (AllocateItem.resource_no it = Z.of_nat n)
        then [it] else []).
Proof. unfold replayed_for. rewrite List.filter_app. simpl. by destruct (_ && _). Qed.

Lemma replayed_item_snoc (n : nat) (hits : list AllocateItem.t)
    (it : AllocateItem.t) :
  replayed_item n (hits ++ [it])
  = let cur := replayed_item n hits in
    let cur1 := {| no := no cur; attempt := AllocateItem.attempt it;
                   status := status cur; allocated := allocated cur |} in
    match AllocateItem.state it with
    | kTaskRunning =>
        if decide (status cur1 ≠ kResDone)
        then {| no := no cur1; attempt := attempt cur1;
                status := kResAllocated; allocated := allocated cur1 + 1 |}
        else cur1
    | kTaskCompleted =>
        {| no := no cur1; attempt := attempt cur1;
           status := kResDone; allocated := 0 |}
    | _ => cur1
    end.
Proof.
  unfold replayed_item. cbv zeta.
  rewrite existsb_app, List.filter_app, last_snoc, length_app.
  destruct it as [ep st rn at' m alloc per]. unfold in_state at 2 4.
  destruct (existsb (in_state kTaskCompleted) hits) eqn:Hd;
    destruct st; simpl; rewrite ?app_nil_r; try done.
  - destruct (List.filter (in_state kTaskRunning) hits) eqn:Hf; simpl;
      f_equal; rewrite ?length_app; simpl; lia.
  - f_equal; lia.
  - f_equal; lia.
  - f_equal; lia.
  - f_equal; lia.
  - f_equal; lia.
Qed.

Lemma to_size_t_int (x : Z) :
  - 2 ^ 31 ≤ x < 2 ^ 31 →
  to_size_t x = if decide (0 ≤ x) then x else x + 2 ^ 64.
Proof.
  intros Hx. unfold to_size_t.
  change (2 ^ 31) with 2147483648 in Hx.
  change (2 ^ 64) with 18446744073709551616.
  case_decide.
  - apply Z.mod_small. lia.
  - symmetry. apply (Z.mod_unique _ _ (-1)); lia.
Qed.

Lemma replay_entry_lookup (is_map : bool) (table : list IdItem)
    (it : AllocateItem.t) (n : nat) (hits : list AllocateItem.t) :
  Z.of_nat (length table) ≤ 2 ^ 63 →
  - 2 ^ 31 ≤ AllocateItem.resource_no it < 2 ^ 31 →
  table !! n = Some (replayed_item n hits) →
  replay_entry is_map table it !! n
  = Some (replayed_item n
            (hits ++ (if bool_decide (AllocateItem.is_map it = is_map)
                         && bool_decide (AllocateItem.resource_no it = Z.of_nat n)
                      then [it] else []))).
Proof.
  intros Hlen Hint Hn. pose proof (lookup_lt_Some _ _ _ Hn) as Hlt.
  unfold replay_entry. rewrite (to_size_t_int _ Hint).
  change (2 ^ 31) with 2147483648 in Hint.
  change (2 ^ 63) with 9223372036854775808 in Hlen.
  change (2 ^ 64) with 18446744073709551616.
  destruct (decide (AllocateItem.is_map it = is_map)) as [Hm|Hm].
  2:{ rewrite decide_True by (by right).
      rewrite (bool_decide_eq_false_2 _ Hm). simpl. by rewrite app_nil_r. }
  rewrite (bool_decide_eq_true_2 _ Hm). simpl.
  destruct (decide (AllocateItem.resource_no it = Z.of_nat n)) as [Hrn|Hrn].
  - rewrite (bool_decide_eq_true_2 _ Hrn), Hrn.
    rewrite (decide_True (P := 0 ≤ Z.of_nat n)) by lia.
    rewrite decide_False by (intros [?|?]; [lia|done]).
    rewrite Nat2Z.id, Hn.
    rewrite list_lookup_insert_eq by done.
    by rewrite replayed_item_snoc.
  - rewrite (bool_decide_eq_false_2 _ Hrn), app_nil_r.
    case_decide as Hg; [done|].
    destruct (table !! Z.to_nat (AllocateItem.resource_no it)); [|done].
    rewrite list_lookup_insert_ne; [done|].
    intros <-. case_decide; lia.
Qed.

(** X12.  [Replay] in closed form.  For a table of at most [2^63] items and
    a history whose task ids are [int]s, the replayed table has the size
    asked for, and its item [n] is determined by the entries of the history
    of that phase and task alone: Done if one of them is Completed
    (whatever comes after), else Allocated once for each Running one, else
    Pending; its attempt number is that of the last of them. *)
Theorem Replay_closed_form (history : list AllocateItem.t) (size : nat)
    (is_map : bool) :
  Z.of_nat size ≤ 2 ^ 63 →
  Forall (λ it, - 2 ^ 31 ≤ AllocateItem.resource_no it < 2 ^ 31) history →
  length (Replay history size is_map) = size
  ∧ ∀ n : nat,
      (n < size)%nat →
      Replay history size is_map !! n
      = Some (replayed_item n (replayed_for is_map n history)).
Proof.
  intros Hsize Hint. unfold Replay.
  split; [by rewrite foldl_replay_entry_length, length_fmap, length_seq|].
  intros n Hn. induction history as [|it h IH] using rev_ind.
  - simpl. rewrite list_lookup_fmap, lookup_seq_lt by lia. reflexivity.
  - apply Forall_app in Hint as [Hh Hit]. apply Forall_inv in Hit.
    rewrite foldl_app. simpl. rewrite replayed_for_snoc.
    apply replay_entry_lookup; [|exact Hit|by apply IH].
    by rewrite foldl_replay_entry_length, length_fmap, length_seq.
Qed.


Lemma Replay_closed_form_witness :
  Z.of_nat 2 ≤ 2 ^ 63
  ∧ Forall (λ it, - 2 ^ 31 ≤ AllocateItem.resource_no it < 2 ^ 31)
           (allocation_table_ ex_retried)
  ∧ Replay (allocation_table_ ex_retried) 2 true !! 0%nat
    = Some (replayed_item 0 (replayed_for true 0 (allocation_table_ ex_retried))).
Proof.
  assert (H1 : Z.of_nat 2 ≤ 2 ^ 63) by (vm_compute; discriminate).
  assert (H2 : Forall (λ it, - 2 ^ 31 ≤ AllocateItem.resource_no it < 2 ^ 31)
                 (allocation_table_ ex_retried))
    by (apply (bool_decide_unpack _); vm_compute; exact I).
  assert (H3 : (0 < 2)%nat) by lia.
  exact (conj H1 (conj H2
           (proj2 (Replay_closed_form (allocation_table_ ex_retried) 2 true H1 H2)
                  0%nat H3))).
Defined.

(** ** The master is told of every change of the job state *)

Lemma retractions_app (e1 e2 : list Event) :
  retractions (e1 ++ e2) = retractions e1 ++ retractions e2.
Proof. apply omap_app. Qed.

Lemma quiet_refl (t : JobTracker) : quiet t t.
Proof. split_and!; try done. exists []. by rewrite app_nil_r. Qed.

Lemma quiet_trans (t1 t2 t3 : JobTracker) : quiet t1 t2 → quiet t2 t3 → quiet t1 t3.
Proof.
  intros (A1 & A2 & e1 & A3 & A4) (B1 & B2 & e2 & B3 & B4).
  split_and!; try congruence. exists (e1 ++ e2).
  by rewrite B3, A3, app_assoc, retractions_app, A4, B4.
Qed.

Lemma quiet_told (t t' : JobTracker) : quiet t t' → told t t'.
Proof.
  intros (A1 & A2 & e1 & A3 & A4). split; [done|]. exists e1.
  split; [done|]. by rewrite A4.
Qed.

Lemma quiet_then_told (t1 t2 t3 : JobTracker) :
  quiet t1 t2 → told t2 t3 → told t1 t3.
Proof.
  intros (A1 & A2 & e1 & A3 & A4) (B1 & e2 & B3 & B4).
  split; [congruence|]. exists (e1 ++ e2).
  split; [by rewrite B3, A3, app_assoc|].
  rewrite retractions_app, A4. simpl.
  destruct (retractions e2) as [|[id js] [|? ?]]; try done; congruence.
Qed.

Lemma told_then_quiet (t1 t2 t3 : JobTracker) :
  told t1 t2 → quiet t2 t3 → told t1 t3.
Proof.
  intros (A1 & e1 & A3 & A4) (B1 & B2 & e2 & B3 & B4).
  split; [congruence|]. exists (e1 ++ e2).
  split; [by rewrite B3, A3, app_assoc|].
  rewrite retractions_app, B4, app_nil_r.
  destruct (retractions e1) as [|[id js] [|? ?]]; try done; congruence.
Qed.

(** A step that records nothing and leaves id and state alone. *)
Lemma quiet_silent (t t' : JobTracker) :
  job_id_ t' = job_id_ t → state_ t' = state_ t → trace_ t' = trace_ t →
  quiet t t'.
Proof. intros H1 H2 H3. split_and!; try done. exists []. by rewrite app_nil_r. Qed.

Ltac quiet_same :=
  apply quiet_silent; member_simpl; reflexivity.

Lemma quiet_emit (e : Event) (t : JobTracker) :
  retractions [e] = [] → quiet t (emit e t).
Proof. intros He. unfold emit. split_and!; member_simpl; try done. by exists [e]. Qed.

Lemma told_retract (js : JobState) (t t' : JobTracker) :
  js = kCompleted ∨ js = kFailed →
  job_id_ t' = job_id_ t → state_ t' = js →
  trace_ t' = trace_ t ++ [EvRetractJob (job_id_ t) js] →
  told t t'.
Proof.
  intros Hjs H1 H2 H3. split; [done|]. eexists. split; [exact H3|]. by simpl.
Qed.

Lemma cancel_fold_trace (job : string) (now keep : Z) (m : gmap Z nat)
    (table : list AllocateItem.t) (trace : list Event) :
  ∃ evs,
    (map_fold (λ _ p acc, cancel_candidate job now keep p acc) (table, trace) m).2
    = trace ++ evs
    ∧ retractions evs = [].
Proof.
  apply (map_fold_weak_ind
           (λ acc _, ∃ evs, acc.2 = trace ++ evs ∧ retractions evs = [])).
  - exists []. by rewrite app_nil_r.
  - intros k p m' acc _ (evs & IH1 & IH2). unfold cancel_candidate.
    destruct (acc.1 !! p) as [cand|]; [|by exists evs].
    case_decide; [by exists evs|]. simpl.
    eexists (evs ++ [_]). rewrite IH1, app_assoc. split; [done|].
    by rewrite retractions_app, IH2.
Qed.

Lemma CancelOtherAttempts_quiet (index : gmap Z (gmap Z nat)) (now n a : Z)
    (t : JobTracker) :
  quiet t (CancelOtherAttempts index now n a t).
Proof.
  unfold CancelOtherAttempts.
  destruct (rpc_client_ t); [|apply quiet_refl].
  destruct (index !! n) as [m|]; [|apply quiet_refl].
  split_and!; member_simpl; try done. apply cancel_fold_trace.
Qed.

Lemma AccumulateCounters_quiet (F : Flags) (counters : gmap string Z)
    (t : JobTracker) :
  quiet t (AccumulateCounters F counters t).2.
Proof. unfold AccumulateCounters. case_match; quiet_same. Qed.

Lemma fake_complete_map_quiet (env : FinishEnv) (n : Z) (state : TaskState)
    (t : JobTracker) :
  quiet t (fake_complete_map env n state t).2.
Proof.
  unfold fake_complete_map.
  repeat case_match; simpl; try apply quiet_refl; by apply quiet_emit.
Qed.

Lemma finish_map_commit_quiet (env : FinishEnv) (ptr : nat) (rn n a : Z)
    (st : TaskState) (fin : bool) (t : JobTracker) :
  quiet t (finish_map_commit env ptr rn n a st fin t).2.
Proof.
  unfold finish_map_commit. cbv zeta.
  set (t3 := set_allocation_table_ _ t).
  assert (H3 : quiet t t3) by (subst t3; quiet_same). clearbody t3.
  set (t4 := if map_allow_duplicates_ t3 && _ then _ else t3).
  assert (H4 : quiet t t4).
  { eapply quiet_trans; [exact H3|]. subst t4.
    destruct (map_allow_duplicates_ t3 && _); [quiet_same|apply quiet_refl]. }
  clearbody t4. clear H3.
  destruct (decide (st ≠ kTaskCompleted)); [done|].
  destruct (negb (map_allow_duplicates_ t4)); [done|]. simpl.
  eapply quiet_trans; [exact H4|].
  eapply quiet_trans; [apply CancelOtherAttempts_quiet|].
  destruct fin; [quiet_same|apply quiet_refl].
Qed.

Lemma finish_reduce_commit_quiet (env : FinishEnv) (ptr : nat) (rn n a : Z)
    (st : TaskState) (fin : bool) (t : JobTracker) :
  quiet t (finish_reduce_commit env ptr rn n a st fin t).2.
Proof.
  unfold finish_reduce_commit. cbv zeta.
  set (t3 := set_allocation_table_ _ t).
  assert (H3 : quiet t t3) by (subst t3; quiet_same). clearbody t3.
  set (t4 := if reduce_allow_duplicates_ t3 && _ then _ else t3).
  assert (H4 : quiet t t4).
  { eapply quiet_trans; [exact H3|]. subst t4.
    destruct (reduce_allow_duplicates_ t3 && _); [quiet_same|apply quiet_refl]. }
  clearbody t4. clear H3.
  destruct (decide (st ≠ kTaskCompleted)); [done|].
  destruct (negb (reduce_allow_duplicates_ t4)); [done|]. simpl.
  eapply quiet_trans; [exact H4|].
  eapply quiet_trans; [apply CancelOtherAttempts_quiet|].
  destruct fin; [quiet_same|apply quiet_refl].
Qed.

Lemma CancelOtherAttempts_pools (index : gmap Z (gmap Z nat)) (now n a : Z)
    (t : JobTracker) :
  pools_of (CancelOtherAttempts index now n a t) = pools_of t.
Proof. unfold CancelOtherAttempts, pools_of. by repeat case_match. Qed.

Lemma finish_map_commit_pools (env : FinishEnv) (ptr : nat) (rn n a : Z)
    (st : TaskState) (fin : bool) (t : JobTracker) :
  pools_of (finish_map_commit env ptr rn n a st fin t).2 = pools_of t.
Proof.
  unfold finish_map_commit. cbv zeta.
  set (t3 := set_allocation_table_ _ t).
  assert (H3 : pools_of t3 = pools_of t) by done. clearbody t3.
  set (t4 := if map_allow_duplicates_ t3 && _ then _ else t3).
  assert (H4 : pools_of t4 = pools_of t).
  { subst t4. by destruct (map_allow_duplicates_ t3 && _). }
  clearbody t4. clear H3.
  destruct (decide (st ≠ kTaskCompleted)); [done|].
  destruct (negb (map_allow_duplicates_ t4)); [done|]. simpl.
  pose proof (CancelOtherAttempts_pools (map_index_ t4) (fe_cancel_now env) n a t4)
    as Hc.
  destruct fin; unfold pools_of in *; member_simpl; congruence.
Qed.

Lemma finish_reduce_commit_pools (env : FinishEnv) (ptr : nat) (rn n a : Z)
    (st : TaskState) (fin : bool) (t : JobTracker) :
  pools_of (finish_reduce_commit env ptr rn n a st fin t).2 = pools_of t.
Proof.
  unfold finish_reduce_commit. cbv zeta.
  set (t3 := set_allocation_table_ _ t).
  assert (H3 : pools_of t3 = pools_of t) by done. clearbody t3.
  set (t4 := if reduce_allow_duplicates_ t3 && _ then _ else t3).
  assert (H4 : pools_of t4 = pools_of t).
  { subst t4. by destruct (reduce_allow_duplicates_ t3 && _). }
  clearbody t4. clear H3.
  destruct (decide (st ≠ kTaskCompleted)); [done|].
  destruct (negb (reduce_allow_duplicates_ t4)); [done|]. simpl.
  pose proof (CancelOtherAttempts_pools (reduce_index_ t4) (fe_cancel_now env) n a t4)
    as Hc.
  destruct fin; unfold pools_of in *; member_simpl; congruence.
Qed.

Lemma fake_complete_map_pools (env : FinishEnv) (n : Z) (state : TaskState)
    (t : JobTracker) :
  pools_of (fake_complete_map env n state t).2 = pools_of t.
Proof. unfold fake_complete_map. by repeat case_match. Qed.

(** What [case kTaskCompleted] of [FinishMap] tells the master, and when it
    marks the job Completed. *)
Lemma map_completed_told (F : Flags) (env : FinishEnv) (n : Z)
    (counters : gmap string Z) (t : JobTracker) (d : Dispatch) :
  map_completed F env n counters t = Some d →
  told t (dispatch_tracker d)
  ∧ job_descriptor_ (dispatch_tracker d) = job_descriptor_ t
  ∧ (state_ (dispatch_tracker d) = kCompleted → state_ t ≠ kCompleted →
     job_type (job_descriptor_ t) = kMapOnlyJob
     ∧ ∃ mm', map_manager_ (dispatch_tracker d) = Some mm'
              ∧ Done mm' = SumOfItem mm').
Proof.
  unfold map_completed. intros H.
  destruct (map_manager_ t) as [mm|]; simpl in H; [|done].
  destruct (FinishItem n mm) as [ok mm'].
  destruct ok; simpl in H.
  2:{ injection H as <-. simpl. split; [apply quiet_told; quiet_same|].
      member_simpl. split; [done|]. congruence. }
  pose proof (AccumulateCounters_quiet F counters (set_map_manager_ (Some mm') t))
    as HA.
  assert (HA2 : job_descriptor_ (AccumulateCounters F counters
                                   (set_map_manager_ (Some mm') t)).2
                = job_descriptor_ t
                ∧ map_manager_ (AccumulateCounters F counters
                                  (set_map_manager_ (Some mm') t)).2 = Some mm'
                ∧ job_id_ (AccumulateCounters F counters
                             (set_map_manager_ (Some mm') t)).2 = job_id_ t)
    by (clear; unfold AccumulateCounters; case_decide; simpl; member_simpl; done).
  set (t2 := (AccumulateCounters F counters (set_map_manager_ (Some mm') t)).2) in *.
  assert (H2 : quiet t t2).
  { eapply quiet_trans; [|exact HA]. quiet_same. }
  clearbody t2. clear HA. destruct HA2 as (J1 & J2 & J3).
  destruct H2 as (Q1 & Q2 & evs & Q3 & Q4).
  repeat (case_match || simplify_option_eq); simpl; member_simpl.
  all: split_and!; try done; try congruence.
  all: try (split; [member_simpl; congruence|];
            eexists; split;
            [member_simpl; rewrite ?Q3, <- ?app_assoc; reflexivity|];
            rewrite ?retractions_app, ?Q4; simpl; rewrite ?J3;
            by auto).
  all: try (intros Hc Hn; split; [congruence|]; eexists; split; [reflexivity|];
            congruence).
  all: try (intros Hc Hn; congruence).
  all: intros _ _; split; [congruence|]; by exists mm'.
Qed.

Lemma count_failure_quiet (n : Z) (cur_node : string) (t t' : JobTracker) :
  count_failure n cur_node t = Some t' →
  quiet t t' ∧ pools_of t' = pools_of t.
Proof.
  unfold count_failure. intros H.
  repeat (case_match || simplify_option_eq); (split; [quiet_same|done]).
Qed.

Lemma map_failed_told (n : Z) (cur_node err_msg : string) (t : JobTracker)
    (d : Dispatch) :
  map_failed n cur_node err_msg t = Some d →
  told t (dispatch_tracker d)
  ∧ job_descriptor_ (dispatch_tracker d) = job_descriptor_ t
  ∧ (state_ (dispatch_tracker d) = kCompleted → state_ t = kCompleted).
Proof.
  unfold map_failed. intros H.
  destruct (map_manager_ t) as [mm|]; simpl in H; [|done].
  destruct (count_failure n cur_node _) as [t2|] eqn:Hc; simpl in H; [|done].
  apply count_failure_quiet in Hc as [Hq Hp].
  assert (H2 : quiet t t2) by (eapply quiet_trans; [|exact Hq]; quiet_same).
  assert (Hjd : job_descriptor_ t2 = job_descriptor_ t)
    by (unfold pools_of in Hp; by injection Hp).
  clear Hq Hp. destruct H2 as (Q1 & Q2 & evs & Q3 & Q4).
  repeat (case_match || simplify_option_eq); simpl; member_simpl.
  all: split_and!; try done; try congruence.
  all: split; [member_simpl; congruence|];
    eexists; split;
    [member_simpl; rewrite ?Q3, <- ?app_assoc; reflexivity|];
    rewrite ?retractions_app, ?Q4; simpl; rewrite ?Q1;
    by auto.
Qed.

Lemma map_dispatch_told (F : Flags) (env : FinishEnv) (n : Z)
    (cur_node err_msg : string) (counters : gmap string Z) (state : TaskState)
    (t : JobTracker) (d : Dispatch) :
  map_dispatch F env n cur_node err_msg counters state t = Some d →
  told t (dispatch_tracker d)
  ∧ job_descriptor_ (dispatch_tracker d) = job_descriptor_ t
  ∧ (state_ (dispatch_tracker d) = kCompleted → state_ t ≠ kCompleted →
     job_type (job_descriptor_ t) = kMapOnlyJob
     ∧ ∃ mm', map_manager_ (dispatch_tracker d) = Some mm'
              ∧ Done mm' = SumOfItem mm').
Proof.
  destruct state; simpl; intros H.
  - simplify_eq. simpl. split_and!; [apply quiet_told, quiet_refl|done|done].
  - by eapply map_completed_told.
  - apply map_failed_told in H as (H1 & H2 & H3). split_and!; try done.
    intros Hc Hn. by destruct Hn; apply H3.
  - destruct (map_manager_ t); simplify_option_eq. simpl.
    split_and!; [apply quiet_told; quiet_same|done|done].
  - destruct (map_manager_ t); simplify_option_eq. simpl.
    split_and!; [apply quiet_told; case_match; quiet_same
                |by case_match|by case_match].
  - simplify_eq. simpl. split_and!; [apply quiet_told, quiet_refl|done|done].
  - simplify_eq. simpl. split_and!; [apply quiet_told, quiet_refl|done|done].
Qed.

Lemma reduce_completed_told (F : Flags) (n : Z) (counters : gmap string Z)
    (t : JobTracker) (d : Dispatch) :
  reduce_completed F n counters t = Some d →
  told t (dispatch_tracker d)
  ∧ (state_ (dispatch_tracker d) = kCompleted → state_ t ≠ kCompleted →
     ∃ rm', reduce_manager_ (dispatch_tracker d) = Some rm'
            ∧ Done rm' = SumOfItem rm').
Proof.
  unfold reduce_completed. intros H.
  destruct (reduce_manager_ t) as [rm|]; simpl in H; [|done].
  destruct (FinishItem n rm) as [ok rm'].
  destruct ok; simpl in H.
  2:{ injection H as <-. simpl. split; [apply quiet_told; quiet_same|].
      member_simpl. congruence. }
  pose proof (AccumulateCounters_quiet F counters (set_reduce_manager_ (Some rm') t))
    as HA.
  assert (HA2 : reduce_manager_ (AccumulateCounters F counters
                                   (set_reduce_manager_ (Some rm') t)).2 = Some rm')
    by (clear; unfold AccumulateCounters; case_decide; simpl; member_simpl; done).
  set (t2 := (AccumulateCounters F counters (set_reduce_manager_ (Some rm') t)).2) in *.
  assert (H2 : quiet t t2).
  { eapply quiet_trans; [|exact HA]. quiet_same. }
  clearbody t2. clear HA.
  destruct H2 as (Q1 & Q2 & evs & Q3 & Q4).
  case_decide; injection H as <-; simpl; member_simpl.
  - split; [|intros _ _; by exists rm'].
    split; [member_simpl; congruence|].
    eexists; split; [member_simpl; rewrite Q3, <- ?app_assoc; reflexivity|].
    rewrite retractions_app, Q4. simpl. rewrite Q1. auto.
  - split; [|congruence]. apply quiet_told. split_and!; try done. by exists evs.
Qed.

Lemma reduce_failed_told (n : Z) (cur_node err_msg : string) (t : JobTracker)
    (d : Dispatch) :
  reduce_failed n cur_node err_msg t = Some d →
  told t (dispatch_tracker d)
  ∧ (state_ (dispatch_tracker d) = kCompleted → state_ t = kCompleted).
Proof.
  unfold reduce_failed. intros H.
  destruct (reduce_manager_ t) as [rm|]; simpl in H; [|done].
  destruct (count_failure n cur_node _) as [t2|] eqn:Hc; simpl in H; [|done].
  apply count_failure_quiet in Hc as [Hq _].
  assert (H2 : quiet t t2) by (eapply quiet_trans; [|exact Hq]; quiet_same).
  clear Hq. destruct H2 as (Q1 & Q2 & evs & Q3 & Q4).
  repeat (case_match || simplify_option_eq); simpl; member_simpl.
  all: split_and!; try done; try congruence.
  all: split; [member_simpl; congruence|];
    eexists; split;
    [member_simpl; rewrite ?Q3, <- ?app_assoc; reflexivity|];
    rewrite ?retractions_app, ?Q4; simpl; rewrite ?Q1;
    by auto.
Qed.

Lemma reduce_dispatch_told (F : Flags) (n : Z) (cur_node err_msg : string)
    (counters : gmap string Z) (state : TaskState) (t : JobTracker)
    (d : Dispatch) :
  reduce_dispatch F n cur_node err_msg counters state t = Some d →
  told t (dispatch_tracker d)
  ∧ (state_ (dispatch_tracker d) = kCompleted → state_ t ≠ kCompleted →
     ∃ rm', reduce_manager_ (dispatch_tracker d) = Some rm'
            ∧ Done rm' = SumOfItem rm').
Proof.
  destruct state; simpl; intros H.
  - simplify_eq. simpl. split; [apply quiet_told, quiet_refl|done].
  - by eapply reduce_completed_told.
  - apply reduce_failed_told in H as (H1 & H3). split; [done|].
    intros Hc Hn. by destruct Hn; apply H3.
  - destruct (reduce_manager_ t); simplify_option_eq. simpl.
    split; [apply quiet_told; quiet_same|done].
  - destruct (reduce_manager_ t); simplify_option_eq. simpl.
    split; [apply quiet_told; case_match; quiet_same|by case_match].
  - simplify_eq. simpl. split; [apply quiet_told, quiet_refl|done].
  - simplify_eq. simpl. split; [apply quiet_told, quiet_refl|done].
Qed.

(** X13.  The master is told of every change of the job state a report
    makes.  A [Finish] call of either phase leaves the job in its state and
    retracts nothing, or it calls [RetractJob] exactly once, for this job,
    as Completed or as Failed, and leaves the job in that state.  It
    marks a job Completed only when every task of the phase is Done in the
    pool, and [FinishMap] does so only for a map-only job. *)
Theorem Finish_tells_the_master (F : Flags) (map : bool) (env : FinishEnv)
    (n a : Z) (state : TaskState) (err_msg : string) (counters : gmap string Z)
    (t : JobTracker) (st : Status) (t' : JobTracker) :
  Finish F map env n a state err_msg counters t = Some (st, t') →
  told t t'
  ∧ (state_ t' = kCompleted → state_ t ≠ kCompleted →
     if map
     then job_type (job_descriptor_ t) = kMapOnlyJob
          ∧ ∃ mm', map_manager_ t' = Some mm' ∧ Done mm' = SumOfItem mm'
     else ∃ rm', reduce_manager_ t' = Some rm' ∧ Done rm' = SumOfItem rm').
Proof.
  destruct map; simpl.
  - unfold FinishMap. intros H.
    destruct (find_running _ _ n a) as [[ptr cur]|];
      [|simplify_eq; split; [apply quiet_told, quiet_refl|done]].
    destruct (remap_move_output_failed _ _ state) as [state1|]; simpl in H; [|done].
    pose proof (fake_complete_map_quiet env (AllocateItem.resource_no cur) state1 t)
      as Hfq.
    pose proof (fake_complete_map_pools env (AllocateItem.resource_no cur) state1 t)
      as Hfp.
    destruct (fake_complete_map env _ state1 t) as [state2 t1]. simpl in Hfq, Hfp.
    destruct (map_dispatch F env _ _ err_msg counters state2 t1) as [d|] eqn:Hd;
      simpl in H; [|done].
    apply map_dispatch_told in Hd as (D1 & D2 & D3).
    assert (Hjd : job_descriptor_ t1 = job_descriptor_ t)
      by (unfold pools_of in Hfp; by injection Hfp).
    assert (Hst : state_ t1 = state_ t) by apply Hfq.
    destruct d as [state3 finished t2|st2 t2]; simpl in *.
    + pose proof (finish_map_commit_quiet env ptr (AllocateItem.resource_no cur)
                    n a state3 finished t2) as Hcq.
      pose proof (finish_map_commit_pools env ptr (AllocateItem.resource_no cur)
                    n a state3 finished t2) as Hcp.
      destruct (finish_map_commit _ _ _ _ _ _ _ _) as [st3 t3]. simpl in *.
      injection H as <- <-.
      split; [eapply quiet_then_told; [exact Hfq|];
              by eapply told_then_quiet|].
      unfold pools_of in Hcp. injection Hcp as P1 P2 P3.
      destruct Hcq as (_ & C2 & _).
      rewrite C2, P1, <- Hst, <- Hjd. exact D3.
    + injection H as <- <-.
      split; [by eapply quiet_then_told|]. by rewrite <- Hst, <- Hjd.
  - unfold FinishReduce. intros H.
    destruct (reduce_too_early state t);
      [simplify_eq; split; [apply quiet_told, quiet_refl|done]|].
    destruct (find_running _ _ n a) as [[ptr cur]|];
      [|simplify_eq; split; [apply quiet_told, quiet_refl|done]].
    destruct (remap_move_output_failed _ _ state) as [state1|]; simpl in H; [|done].
    destruct (reduce_dispatch F _ _ err_msg counters _ t) as [d|] eqn:Hd;
      simpl in H; [|done].
    apply reduce_dispatch_told in Hd as (D1 & D3).
    destruct d as [state3 finished t2|st2 t2]; simpl in *.
    + pose proof (finish_reduce_commit_quiet env ptr (AllocateItem.resource_no cur)
                    n a state3 finished t2) as Hcq.
      pose proof (finish_reduce_commit_pools env ptr (AllocateItem.resource_no cur)
                    n a state3 finished t2) as Hcp.
      destruct (finish_reduce_commit _ _ _ _ _ _ _ _) as [st3 t3]. simpl in *.
      injection H as <- <-.
      split; [by eapply told_then_quiet|].
      unfold pools_of in Hcp. injection Hcp as P1 P2 P3.
      destruct Hcq as (_ & C2 & _).
      rewrite C2, P2. exact D3.
    + by injection H as <- <-.
Qed.

Lemma Finish_tells_the_master_witness :
  Finish ex_flags true ex_finish_env 0 1 kTaskCompleted "" ∅ ex_one_map
  = Some (kOk, ex_one_map_done)
  ∧ state_ ex_one_map = kRunning
  ∧ state_ ex_one_map_done = kCompleted
  ∧ told ex_one_map ex_one_map_done.
Proof.
  assert (H : Finish ex_flags true ex_finish_env 0 1 kTaskCompleted "" ∅ ex_one_map
              = Some (kOk, ex_one_map_done)) by (vm_compute; reflexivity).
  split; [exact H|]. split; [vm_compute; reflexivity|].
  split; [vm_compute; reflexivity|].
  exact (proj1 (Finish_tells_the_master _ _ _ _ _ _ _ _ _ _ _ H)).
Defined.

(** ** Start and Galaxy *)

(** X14.  A submission Galaxy refuses.  A [Start] that gets past the
    output check and the partition answers [kOk] or [kGalaxyError], by the
    answer of Galaxy alone, and leaves the same tracker either way: the
    managers are built, the RPC client and the map Gru are there, and the
    job state is untouched, so a refused submission does not mark the job
    Failed. *)
Theorem Start_refused_by_galaxy (F : Flags) (env : StartEnv) (t : JobTracker)
    (st : Status) (t' : JobTracker) :
  Start F env t = Some (st, t') →
  st ≠ kWriteFileFail → st ≠ kNoMore →
  st = (if decide (se_map_start env = kOk) then kOk else kGalaxyError)
  ∧ Start F {| se_now := se_now env; se_output_exists := se_output_exists env;
              se_partition := se_partition env; se_map_start := kOk |} t
    = Some (kOk, t')
  ∧ state_ t' = state_ t
  ∧ rpc_client_ t' = true
  ∧ is_Some (map_ t')
  ∧ map_manager_ t' = Some (se_partition env).
Proof.
  unfold Start. simpl. intros H H1 H2.
  destruct (se_output_exists env); [by simplify_eq|].
  destruct (BuildResourceManagers _ _) as [[st2 t2]|] eqn:HB; [|done].
  destruct (decide (st2 ≠ kOk)) as [|Hok]; [by simplify_eq|].
  apply dec_stable in Hok. subst st2.
  assert (HB2 : state_ t2 = state_ t ∧ map_manager_ t2 = Some (se_partition env)).
  { unfold BuildResourceManagers in HB.
    repeat case_match; simplify_eq; by member_simpl. }
  destruct HB2 as [B1 B2].
  assert (HE : state_ (BuildEndGameCounters F t2) = state_ t2
               ∧ map_manager_ (BuildEndGameCounters F t2) = map_manager_ t2).
  { unfold BuildEndGameCounters. destruct (map_manager_ t2) eqn:Hm; [|done].
    member_simpl. destruct (reduce_manager_ t2); by member_simpl. }
  destruct HE as [E1 E2].
  set (t3 := BuildEndGameCounters F t2) in *. clearbody t3.
  destruct (decide (se_map_start env = kOk)); injection H as <- <-;
    member_simpl; split_and!; try done; congruence.
Qed.

Lemma Start_refused_by_galaxy_witness :
  Start ex_flags ex_galaxy_refuses (ex_new ex_job) = Some (kGalaxyError, ex_refused)
  ∧ state_ ex_refused = state_ (ex_new ex_job).
Proof.
  assert (H : Start ex_flags ex_galaxy_refuses (ex_new ex_job)
              = Some (kGalaxyError, ex_refused)) by (vm_compute; reflexivity).
  assert (H1 : kGalaxyError ≠ kWriteFileFail) by discriminate.
  assert (H2 : kGalaxyError ≠ kNoMore) by discriminate.
  destruct (Start_refused_by_galaxy _ _ _ _ _ H H1 H2) as (_ & _ & Hs & _).
  exact (conj H Hs).
Defined.

(** ** The watchdog of the worker *)

Lemma WatchDogTask_flags (flags : Minion.WatchFlags) (env : Minion.WatchEnv)
    (m : Minion.MinionImpl) :
  (Minion.over_loaded_ m = true → Minion.task_frozen_ m = true) →
  Minion.over_loaded_ (Minion.WatchDogTask flags env m).1 = true →
  Minion.task_frozen_ (Minion.WatchDogTask flags env m).1 = true.
Proof.
  unfold Minion.WatchDogTask. intros Hinv.
  repeat case_match; simpl; try done.
Qed.

Lemma ticks_snoc (flags : Minion.WatchFlags) (envs : list Minion.WatchEnv)
    (env : Minion.WatchEnv) (m : Minion.MinionImpl) :
  ticks flags (envs ++ [env]) m
  = (Minion.WatchDogTask flags env (ticks flags envs m)).1.
Proof. unfold ticks. by rewrite foldl_app. Qed.

(** X15.  An overloaded worker is a frozen one.  Starting from the worker
    the constructor makes, whatever the watchdog reads at its ticks, a
    worker whose [over_loaded_] is set has [task_frozen_] set; and the
    ticks write neither the job id, nor the task, nor the work mode. *)
Theorem watchdog_overloaded_is_frozen (flags : Minion.WatchFlags)
    (work_mode_flag : string) (envs : list Minion.WatchEnv)
    (m0 : Minion.MinionImpl) :
  Minion.new_MinionImpl work_mode_flag = Some m0 →
  (Minion.over_loaded_ (ticks flags envs m0) = true →
   Minion.task_frozen_ (ticks flags envs m0) = true)
  ∧ Minion.jobid_ (ticks flags envs m0) = Minion.jobid_ m0
  ∧ Minion.work_mode_ (ticks flags envs m0) = Minion.work_mode_ m0
  ∧ Minion.cur_task_id_ (ticks flags envs m0) = Minion.cur_task_id_ m0
  ∧ Minion.cur_attempt_id_ (ticks flags envs m0) = Minion.cur_attempt_id_ m0
  ∧ Minion.cur_task_state_ (ticks flags envs m0) = Minion.cur_task_state_ m0.
Proof.
  intros Hnew.
  assert (I0 : Minion.over_loaded_ m0 = true → Minion.task_frozen_ m0 = true).
  { unfold Minion.new_MinionImpl in Hnew.
    repeat case_match; simplify_option_eq; by simpl. }
  clear Hnew.
  induction envs as [|env envs IH] using rev_ind; [done|].
  rewrite ticks_snoc. destruct IH as (I1 & I2 & I3 & I4 & I5 & I6).
  split; [by apply WatchDogTask_flags|].
  rewrite <- I2, <- I3, <- I4, <- I5, <- I6.
  unfold Minion.WatchDogTask. repeat case_match; simpl; done.
Qed.

Lemma watchdog_overloaded_is_frozen_witness :
  Minion.new_MinionImpl "map"
  = Some {| Minion.jobid_ := ""; Minion.cur_task_id_ := -1;
            Minion.cur_attempt_id_ := -1; Minion.cur_task_state_ := kTaskUnknown;
            Minion.task_frozen_ := false; Minion.over_loaded_ := false;
            Minion.frozen_time_ := 0; Minion.work_mode_ := kMap |}
  ∧ Minion.work_mode_ (ticks ex_watch_flags [ex_busy_tick 100; ex_busy_tick 101]
                         {| Minion.jobid_ := ""; Minion.cur_task_id_ := -1;
                            Minion.cur_attempt_id_ := -1;
                            Minion.cur_task_state_ := kTaskUnknown;
                            Minion.task_frozen_ := false;
                            Minion.over_loaded_ := false;
                            Minion.frozen_time_ := 0; Minion.work_mode_ := kMap |})
    = kMap.
Proof.
  assert (H : Minion.new_MinionImpl "map"
              = Some {| Minion.jobid_ := ""; Minion.cur_task_id_ := -1;
                        Minion.cur_attempt_id_ := -1;
                        Minion.cur_task_state_ := kTaskUnknown;
                        Minion.task_frozen_ := false; Minion.over_loaded_ := false;
                        Minion.frozen_time_ := 0; Minion.work_mode_ := kMap |})
    by reflexivity.
  destruct (watchdog_overloaded_is_frozen ex_watch_flags "map"
              [ex_busy_tick 100; ex_busy_tick 101] _ H) as (_ & _ & Hw & _).
  exact (conj H Hw).
Defined.

Lemma WatchDogTask_stays_frozen (flags : Minion.WatchFlags) (env : Minion.WatchEnv)
    (m : Minion.MinionImpl) :
  Minion.task_frozen_ m = true →
  Minion.we_load_low env = false →
  Minion.task_frozen_ (Minion.WatchDogTask flags env m).1 = true
  ∧ Minion.frozen_time_ (Minion.WatchDogTask flags env m).1 = Minion.frozen_time_ m.
Proof.
  unfold Minion.WatchDogTask, Minion.freeze. intros Hf Hl. rewrite Hf, Hl.
  repeat case_match; simpl; by rewrite ?Hf.
Qed.

(** X16.  A worker that stays frozen goes silent 300 seconds after the
    freeze began.  While the load does not fall under the resume bound,
    the ticks of the watchdog keep the task frozen and leave [frozen_time_]
    at the time of the first freeze, however often they freeze it again;
    so [Query] answers nothing once that time is more than 300 seconds
    back, and the straggler monitor takes the attempt for dead. *)
Theorem frozen_worker_goes_silent (flags : Minion.WatchFlags)
    (envs : list Minion.WatchEnv) (m : Minion.MinionImpl) (now : Z)
    (error_msg : string) (request : Minion.QueryRequest) :
  Minion.task_frozen_ m = true →
  Forall (λ env, Minion.we_load_low env = false) envs →
  Minion.frozen_time_ m + 300 < now →
  Minion.task_frozen_ (ticks flags envs m) = true
  ∧ Minion.frozen_time_ (ticks flags envs m) = Minion.frozen_time_ m
  ∧ Minion.Query now error_msg request (ticks flags envs m) = empty_response.
Proof.
  intros Hf Hl Hnow.
  assert (H : Minion.task_frozen_ (ticks flags envs m) = true
              ∧ Minion.frozen_time_ (ticks flags envs m) = Minion.frozen_time_ m).
  { induction envs as [|env envs IH] using rev_ind; [done|].
    apply Forall_app in Hl as [Hl He]. apply Forall_inv in He.
    destruct (IH Hl) as [I1 I2]. rewrite ticks_snoc.
    destruct (WatchDogTask_stays_frozen flags env _ I1 He) as [W1 W2].
    split; congruence. }
  destruct H as [H1 H2]. split_and!; try done.
  unfold Minion.Query. rewrite H1, H2.
  destruct (Minion.over_loaded_ _); [done|].
  by rewrite bool_decide_eq_true_2.
Qed.

Lemma frozen_worker_goes_silent_witness :
  Minion.task_frozen_ ex_frozen = true
  ∧ Forall (λ env, Minion.we_load_low env = false)
           [ex_busy_tick 200; ex_busy_tick 300; ex_busy_tick 400]
  ∧ Minion.frozen_time_ ex_frozen + 300 < 401
  ∧ Minion.Query 401 "" ex_request
      (ticks ex_watch_flags [ex_busy_tick 200; ex_busy_tick 300; ex_busy_tick 400]
             ex_frozen)
    = empty_response.
Proof.
  assert (H1 : Minion.task_frozen_ ex_frozen = true) by reflexivity.
  assert (H2 : Forall (λ env, Minion.we_load_low env = false)
                 [ex_busy_tick 200; ex_busy_tick 300; ex_busy_tick 400])
    by (repeat constructor).
  assert (H3 : Minion.frozen_time_ ex_frozen + 300 < 401) by (simpl; lia).
  destruct (frozen_worker_goes_silent ex_watch_flags _ ex_frozen 401 "" ex_request
              H1 H2 H3) as (_ & _ & H).
  exact (conj H1 (conj H2 (conj H3 H))).
Defined.

(** ** The breakpoint file of the worker *)

Lemma scan_digits_print (u : Decimal.uint) (rest : string) :
  no_digit_ahead rest →
  Minion.scan_digits (Minion.print_uint u +:+ rest) = (u, rest).
Proof.
  intros Hrest. induction u as [|u IH|u IH|u IH|u IH|u IH|u IH|u IH|u IH|u IH|u IH];
    simpl; try (by rewrite IH).
  destruct rest as [|c r]; [done|]. simpl in *. by rewrite Hrest.
Qed.

Lemma print_uint_head (u : Decimal.uint) :
  u ≠ Decimal.Nil →
  ∃ c r, Minion.print_uint u = String c r
         ∧ is_Some (Minion.digit_of c) ∧ Minion.is_space c = false
         ∧ c ≠ "-"%char ∧ c ≠ "+"%char.
Proof.
  destruct u; [done|..]; intros _; simpl; eexists _, _;
    (split; [reflexivity|]); split_and!; try done; by eexists.
Qed.

Lemma N_to_uint_nonnil (n : N) : N.to_uint n ≠ Decimal.Nil.
Proof. destruct n; [done|]. simpl. apply Unsigned.to_uint_nonnil. Qed.

(** [scanf("%d")] reads back what [printf("%d")] wrote. *)
Lemma scan_print_int (z : Z) (rest : string) :
  no_digit_ahead rest →
  Minion.scan_int (Minion.print_int z +:+ rest) = Some (z, rest).
Proof.
  intros Hrest. unfold Minion.scan_int, Minion.print_int.
  destruct (decide (z < 0)) as [Hneg|Hpos].
  - simpl. rewrite scan_digits_print by done.
    pose proof (N_to_uint_nonnil (Z.to_N (- z))) as Hnn.
    rewrite DecimalN.Unsigned.of_to.
    destruct (N.to_uint (Z.to_N (- z))); [done|..]; f_equal; f_equal; lia.
  - pose proof (N_to_uint_nonnil (Z.to_N z)) as Hnn.
    destruct (print_uint_head _ Hnn) as (c & r & Hp & Hd & Hs & Hm & Hpl).
    rewrite Hp. simpl. rewrite Hs.
    rewrite decide_False by done. rewrite decide_False by done.
    change (String c (r +:+ rest)) with (String c r +:+ rest).
    rewrite <- Hp, scan_digits_print by done.
    rewrite DecimalN.Unsigned.of_to.
    destruct (N.to_uint (Z.to_N z)); [done|..]; f_equal; f_equal; lia.
Qed.

Lemma skip_spaces_print_int (z : Z) (rest : string) :
  Minion.skip_spaces (Minion.print_int z +:+ rest) = Minion.print_int z +:+ rest.
Proof.
  unfold Minion.print_int. destruct (decide (z < 0)); [done|].
  destruct (print_uint_head _ (N_to_uint_nonnil (Z.to_N z)))
    as (c & r & Hp & _ & Hs & _).
  rewrite Hp. simpl. by rewrite Hs.
Qed.

Lemma scan_int_skips (s : string) :
  Minion.scan_int (" " +:+ s) = Minion.scan_int s.
Proof. done. Qed.

(** X17.  The breakpoint file round trip.  The file [SaveBreakpoint] writes
    for a task is read back by [CheckUnfinishedTask] as the same task id
    and attempt id, for all [int]s, and reported to the master as Killed
    under the job id of the flag, with the endpoint and the work mode of
    the worker; the process aborts if the report cannot be sent.  Without
    the file [CheckUnfinishedTask] does nothing; [ClearBreakpoint] removes
    it. *)
Theorem breakpoint_round_trip (task_id attempt_id : Z) (file : option string)
    (jobid_flag endpoint : string) (sent : bool) (m : Minion.MinionImpl) :
  - 2 ^ 31 ≤ task_id < 2 ^ 31 →
  - 2 ^ 31 ≤ attempt_id < 2 ^ 31 →
  Minion.CheckUnfinishedTask (Minion.SaveBreakpoint true task_id attempt_id file)
                             jobid_flag endpoint sent m
  = Some ((if sent then Minion.Reported else Minion.Aborted)
            {| Minion.fn_jobid := jobid_flag; Minion.fn_task_id := task_id;
               Minion.fn_attempt_id := attempt_id;
               Minion.fn_task_state := kTaskKilled;
               Minion.fn_endpoint := endpoint;
               Minion.fn_work_mode := Minion.work_mode_ m |})
  ∧ Minion.CheckUnfinishedTask
      (Minion.ClearBreakpoint true
         (Minion.SaveBreakpoint true task_id attempt_id file))
      jobid_flag endpoint sent m
    = Some Minion.NoBreakpoint.
Proof.
  intros Ht Ha. split; [|done].
  unfold Minion.CheckUnfinishedTask, Minion.SaveBreakpoint.
  rewrite scan_print_int by done.
  rewrite scan_int_skips, scan_print_int by done.
  rewrite !bool_decide_eq_true_2 by done. simpl. by destruct sent.
Qed.

Lemma breakpoint_round_trip_witness :
  - 2 ^ 31 ≤ 7 < 2 ^ 31 ∧ - 2 ^ 31 ≤ -3 < 2 ^ 31
  ∧ Minion.SaveBreakpoint true 7 (-3) None
    = Some (String "7" (String " " (String "-" (String "3"
              (String (ascii_of_nat 10) EmptyString)))))
  ∧ Minion.CheckUnfinishedTask (Minion.SaveBreakpoint true 7 (-3) None)
                               "job_1" "w1:1" true ex_frozen
    = Some (Minion.Reported
              {| Minion.fn_jobid := "job_1"; Minion.fn_task_id := 7;
                 Minion.fn_attempt_id := -3; Minion.fn_task_state := kTaskKilled;
                 Minion.fn_endpoint := "w1:1"; Minion.fn_work_mode := kMap |}).
Proof.
  assert (H1 : - 2 ^ 31 ≤ 7 < 2 ^ 31) by (split; vm_compute; congruence).
  assert (H2 : - 2 ^ 31 ≤ -3 < 2 ^ 31) by (split; vm_compute; congruence).
  split; [exact H1|]. split; [exact H2|]. split; [vm_compute; reflexivity|].
  exact (proj1 (breakpoint_round_trip 7 (-3) None "job_1" "w1:1" true ex_frozen
                  H1 H2)).
Defined.

(** A file that does not hold two numbers is left alone, and nothing is
    reported. *)
Example CheckUnfinishedTask_invalid :
  Minion.CheckUnfinishedTask (Some "7") "job_1" "w1:1" true ex_frozen
  = Some Minion.InvalidBreakpoint
  ∧ Minion.CheckUnfinishedTask (Some "seven 3") "job_1" "w1:1" true ex_frozen
    = Some Minion.InvalidBreakpoint.
Proof. split; vm_compute; reflexivity. Qed.

(** ** Update *)

Lemma set_job_descriptor_same (t : JobTracker) :
  set_job_descriptor_ (job_descriptor_ t) t = t.
Proof. by destruct t. Qed.

(** One Gru's part of [Update], on a tracker that differs from [t] in its
    descriptor only. *)
Lemma update_gru_spec (gru : option WorkMode) (answer : Status) (priority : string)
    (capacity : Z) (set_capacity : Z → JobDescriptor → JobDescriptor)
    (t : JobTracker) (d : JobDescriptor) (p : option JobPriority) :
  update_gru gru answer priority capacity set_capacity (set_job_descriptor_ d t, p)
  = if decide (is_Some gru ∧ answer ≠ kOk) then None
    else Some (set_job_descriptor_
                 (if decide (is_Some gru ∧ capacity ≠ -1)
                  then set_capacity capacity d else d) t,
               if decide (is_Some gru ∧ priority ≠ EmptyString)
               then Some (ParsePriority priority) else p).
Proof.
  assert (Hs : ∀ g : WorkMode, is_Some (Some g)) by (by eexists).
  assert (Hn : ¬ is_Some (@None WorkMode)) by apply is_Some_None.
  unfold update_gru. destruct gru as [g|]; simpl; [specialize (Hs g)|];
    repeat case_decide; try done; tauto.
Qed.

(** X18.  [Update] is not atomic.  It answers [kGalaxyError] exactly when
    a Gru that exists is refused its update by Galaxy, the map Gru being
    asked first, and [kOk] otherwise, so also when there is no Gru to
    update.  The map capacity of the descriptor is the new one exactly when
    the map Gru exists, its update was accepted and the capacity given is
    not -1, whatever the answer for the reduce Gru: an update refused for
    the reduce Gru has already changed the map capacity.  The reduce
    capacity is the new one only under [kOk].  Nothing else of the tracker
    is written. *)
Theorem Update_outcome (env : UpdateEnv) (priority : string)
    (map_capacity' reduce_capacity' : Z) (t : JobTracker) :
  let map_refused := is_Some (map_ t) ∧ ue_map_update env ≠ kOk in
  let reduce_refused := is_Some (reduce_ t) ∧ ue_reduce_update env ≠ kOk in
  let r := Update env priority map_capacity' reduce_capacity' t in
  r.1.1 = (if decide (map_refused ∨ reduce_refused) then kGalaxyError else kOk)
  ∧ r.1.2
    = set_job_descriptor_
        ((if decide (¬ map_refused ∧ ¬ reduce_refused ∧ is_Some (reduce_ t)
                     ∧ reduce_capacity' ≠ -1)
          then set_reduce_capacity reduce_capacity' else id)
           ((if decide (¬ map_refused ∧ is_Some (map_ t) ∧ map_capacity' ≠ -1)
             then set_map_capacity map_capacity' else id)
              (job_descriptor_ t))) t
  ∧ r.2
    = (if decide (priority ≠ EmptyString
                  ∧ ¬ map_refused
                  ∧ (is_Some (map_ t) ∨ (¬ reduce_refused ∧ is_Some (reduce_ t))))
       then Some (ParsePriority priority) else None).
Proof.
  cbv zeta. unfold Update.
  pose proof (update_gru_spec (map_ t) (ue_map_update env) priority map_capacity'
                set_map_capacity t (job_descriptor_ t) None) as H1.
  rewrite set_job_descriptor_same in H1. rewrite H1. clear H1.
  destruct (decide (is_Some (map_ t) ∧ ue_map_update env ≠ kOk)) as [Hm|Hm].
  { simpl. rewrite decide_True by (by left).
    rewrite !decide_False by tauto. simpl.
    split_and!; try done. by rewrite set_job_descriptor_same. }
  cbn [fst snd]. rewrite update_gru_spec.
  assert (Hr : reduce_ (set_job_descriptor_
                          (if decide (is_Some (map_ t) ∧ map_capacity' ≠ -1)
                           then set_map_capacity map_capacity' (job_descriptor_ t)
                           else job_descriptor_ t) t) = reduce_ t) by done.
  rewrite Hr. clear Hr.
  destruct (decide (is_Some (reduce_ t) ∧ ue_reduce_update env ≠ kOk)) as [Hr|Hr].
  { cbn [fst snd]. rewrite decide_True by (by right).
    rewrite (decide_False (P := _ ∧ _ ∧ is_Some (reduce_ t) ∧ _)) by tauto.
    split_and!; try done.
    - simpl. by repeat case_decide; try tauto.
    - repeat case_decide; try done; tauto. }
  cbn [fst snd]. rewrite decide_False by tauto.
  split_and!; try done.
  - repeat case_decide; try done; tauto.
  - repeat case_decide; try done; tauto.
Qed.

(** The reduce Gru is refused: the answer is [kGalaxyError] and the map
    capacity is the new one. *)
Example Update_half_done :
  (let r := Update ex_update_env "kOnline" 20 30
                   (set_reduce_ (Some kReduce) ex_tracker5) in
   (r.1.1, map_capacity (job_descriptor_ r.1.2),
    reduce_capacity (job_descriptor_ r.1.2), r.2))
  = (kGalaxyError, 20, 60, Some kHigh).
Proof. vm_compute. reflexivity. Qed.

(** ** Statistics and ledger *)

Lemma count_entries_app (map : bool) (st : TaskState) (l1 l2 : list AllocateItem.t) :
  count_entries map st (l1 ++ l2) = count_entries map st l1 + count_entries map st l2.
Proof. unfold count_entries. rewrite List.filter_app, length_app. lia. Qed.

Lemma count_entries_cons (map : bool) (st : TaskState) (a : AllocateItem.t)
    (l : list AllocateItem.t) :
  count_entries map st (a :: l) = counts_as map st a + count_entries map st l.
Proof.
  unfold count_entries, counts_as. simpl. destruct (_ && _); simpl; lia.
Qed.

Lemma count_entries_insert (map : bool) (st : TaskState) (table : list AllocateItem.t)
    (p : nat) (c c' : AllocateItem.t) :
  table !! p = Some c →
  count_entries map st (<[p := c']> table)
  = count_entries map st table - counts_as map st c + counts_as map st c'.
Proof.
  intros Hc. pose proof (lookup_lt_Some _ _ _ Hc) as Hlt.
  rewrite insert_take_drop by done.
  rewrite <- (take_drop_middle table p c Hc) at 3.
  rewrite !count_entries_app, !count_entries_cons. lia.
Qed.

Lemma counts_as_state (map : bool) (st st' : TaskState) (period : Z)
    (c : AllocateItem.t) :
  counts_as map st (AllocateItem.set_period period (AllocateItem.set_state st' c))
  = if bool_decide (AllocateItem.is_map c = map) && bool_decide (st' = st)
    then 1 else 0.
Proof. done. Qed.

Lemma counts_as_running (map : bool) (st : TaskState) (c : AllocateItem.t) :
  AllocateItem.state c = kTaskRunning → st ≠ kTaskRunning → counts_as map st c = 0.
Proof.
  intros Hr Hst. unfold counts_as.
  rewrite (bool_decide_eq_false_2 (AllocateItem.state c = st)) by congruence.
  by rewrite andb_false_r.
Qed.

Lemma counts_as_bounds (map : bool) (st : TaskState) (c : AllocateItem.t) :
  0 ≤ counts_as map st c ≤ 1.
Proof. unfold counts_as. destruct (_ && _); lia. Qed.

Lemma count_entries_nonneg (map : bool) (st : TaskState) (l : list AllocateItem.t) :
  0 ≤ count_entries map st l.
Proof. unfold count_entries. lia. Qed.

(** Committing a Running entry adds it to the count of its new state. *)
Lemma count_entries_commit (map : bool) (st st' : TaskState) (now : Z)
    (table : list AllocateItem.t) (ptr : nat) (cur : AllocateItem.t) :
  table !! ptr = Some cur → AllocateItem.state cur = kTaskRunning →
  st ≠ kTaskRunning →
  count_entries map st (commit_entry ptr st' now table)
  = count_entries map st table
    + (if bool_decide (AllocateItem.is_map cur = map) && bool_decide (st' = st)
       then 1 else 0).
Proof.
  intros Hc Hr Hst. unfold commit_entry. rewrite Hc.
  rewrite (count_entries_insert _ _ _ _ cur) by done.
  rewrite counts_as_state, counts_as_running by done. lia.
Qed.

Lemma cancel_fold_count (map : bool) (st : TaskState) (job : string) (now keep : Z)
    (m : gmap Z nat) (table : list AllocateItem.t) (trace : list Event) :
  st ≠ kTaskCanceled →
  count_entries map st
    (map_fold (λ _ p acc, cancel_candidate job now keep p acc) (table, trace) m).1
  ≤ count_entries map st table.
Proof.
  intros Hst.
  apply (map_fold_weak_ind
           (λ acc _, count_entries map st acc.1 ≤ count_entries map st table));
    [done|].
  intros k p m' acc _ IH. unfold cancel_candidate.
  destruct (acc.1 !! p) as [cand|] eqn:Hp; [|done].
  case_decide; [done|]. simpl.
  rewrite (count_entries_insert _ _ _ _ cand) by done.
  rewrite counts_as_state.
  rewrite (bool_decide_eq_false_2 (kTaskCanceled = st)) by congruence.
  rewrite andb_false_r. pose proof (counts_as_bounds map st cand). lia.
Qed.

Lemma CancelOtherAttempts_count (map : bool) (st : TaskState)
    (index : gmap Z (gmap Z nat)) (now n a : Z) (t : JobTracker) :
  st ≠ kTaskCanceled →
  count_entries map st (allocation_table_ (CancelOtherAttempts index now n a t))
  ≤ count_entries map st (allocation_table_ t)
  ∧ tallies (CancelOtherAttempts index now n a t) = tallies t.
Proof.
  intros Hst. unfold CancelOtherAttempts.
  destruct (rpc_client_ t); [|done].
  destruct (index !! n) as [m|]; [|done].
  member_simpl. split; [by apply cancel_fold_count|done].
Qed.

Lemma counted_frame (t t' : JobTracker) :
  allocation_table_ t' = allocation_table_ t → tallies t' = tallies t →
  counted t → counted t'.
Proof.
  unfold counted, tallies. intros Ht Hc. injection Hc as -> -> -> ->.
  by rewrite Ht.
Qed.

Lemma counted_canceled (index : gmap Z (gmap Z nat)) (now n a : Z) (t : JobTracker) :
  counted t → counted (CancelOtherAttempts index now n a t).
Proof.
  intros (H1 & H2 & H3 & H4).
  pose proof (CancelOtherAttempts_count true kTaskFailed index now n a t) as [A1 E].
  { done. }
  pose proof (CancelOtherAttempts_count true kTaskKilled index now n a t) as [A2 _].
  { done. }
  pose proof (CancelOtherAttempts_count false kTaskFailed index now n a t) as [A3 _].
  { done. }
  pose proof (CancelOtherAttempts_count false kTaskKilled index now n a t) as [A4 _].
  { done. }
  unfold counted, tallies in *. injection E as -> -> -> ->. lia.
Qed.

Ltac tally_same := unfold tallies; member_simpl; reflexivity.

Lemma BuildEndGameCounters_tallies (F : Flags) (t : JobTracker) :
  tallies (BuildEndGameCounters F t) = tallies t.
Proof.
  unfold BuildEndGameCounters. destruct (map_manager_ t); [|done].
  member_simpl. destruct (reduce_manager_ t); tally_same.
Qed.

Lemma Start_tallies (F : Flags) (env : StartEnv) (t : JobTracker)
    (st : Status) (t' : JobTracker) :
  Start F env t = Some (st, t') → tallies t' = tallies t.
Proof.
  unfold Start. intros H.
  destruct (se_output_exists env); [injection H as <- <-; tally_same|].
  destruct (BuildResourceManagers _ _) as [[st2 t2]|] eqn:HB; [|done].
  assert (H2 : tallies t2 = tallies t).
  { unfold BuildResourceManagers in HB.
    repeat case_match; simplify_eq; tally_same. }
  pose proof (BuildEndGameCounters_tallies F t2) as HE.
  set (t3 := BuildEndGameCounters F t2) in *. clearbody t3.
  repeat case_match; simplify_eq; try done.
  all: unfold tallies in *; member_simpl; congruence.
Qed.

Lemma AccumulateCounters_tallies (F : Flags) (counters : gmap string Z)
    (t : JobTracker) :
  tallies (AccumulateCounters F counters t).2 = tallies t.
Proof. unfold AccumulateCounters. case_match; tally_same. Qed.

Lemma fake_complete_map_tallies (env : FinishEnv) (n : Z) (state : TaskState)
    (t : JobTracker) :
  tallies (fake_complete_map env n state t).2 = tallies t.
Proof. unfold fake_complete_map. repeat case_match; tally_same. Qed.

(** The tally a state adds for a phase. *)
Lemma map_completed_tallies (F : Flags) (env : FinishEnv) (n : Z)
    (counters : gmap string Z) (t : JobTracker) (d : Dispatch) :
  map_completed F env n counters t = Some d →
  ∃ st fin t', d = Break st fin t' ∧ tallies t' = tallies t
               ∧ st ≠ kTaskFailed ∧ st ≠ kTaskKilled.
Proof.
  unfold map_completed. intros H.
  destruct (map_manager_ t) as [mm|]; simpl in H; [|done].
  destruct (FinishItem n mm) as [ok mm'].
  destruct ok; simpl in H.
  2:{ injection H as <-. eexists _, _, _. split; [done|].
      split_and!; [tally_same|done|done]. }
  pose proof (AccumulateCounters_tallies F counters (set_map_manager_ (Some mm') t))
    as HA.
  set (t2 := (AccumulateCounters F counters (set_map_manager_ (Some mm') t)).2) in *.
  assert (H2 : tallies t2 = tallies t) by (rewrite HA; tally_same).
  clearbody t2. clear HA.
  repeat (case_match || simplify_option_eq).
  all: eexists _, _, _; (split; [done|]); split_and!; try done.
  all: unfold tallies in *; member_simpl; congruence.
Qed.

Lemma count_failure_tallies (n : Z) (cur_node : string) (t t' : JobTracker) :
  count_failure n cur_node t = Some t' → tallies t' = tallies t.
Proof.
  unfold count_failure. intros H.
  repeat (case_match || simplify_option_eq); tally_same.
Qed.

Lemma map_dispatch_tallies (F : Flags) (env : FinishEnv) (n : Z)
    (cur_node err_msg : string) (counters : gmap string Z) (state : TaskState)
    (t : JobTracker) (st3 : TaskState) (fin : bool) (t2 : JobTracker) :
  map_dispatch F env n cur_node err_msg counters state t = Some (Break st3 fin t2) →
  map_failed_ t2
  = map_failed_ t + (if bool_decide (st3 = kTaskFailed) then 1 else 0)
  ∧ map_killed_ t2
    = map_killed_ t + (if bool_decide (st3 = kTaskKilled) then 1 else 0)
  ∧ reduce_failed_ t2 = reduce_failed_ t
  ∧ reduce_killed_ t2 = reduce_killed_ t.
Proof.
  destruct state; simpl; intros H; try done.
  - apply map_completed_tallies in H as (st & fin' & t' & [= -> -> ->] & E & N1 & N2).
    unfold tallies in E. injection E as -> -> -> ->.
    rewrite !bool_decide_eq_false_2 by done. lia.
  - unfold map_failed in H.
    destruct (map_manager_ t) as [mm|]; simpl in H; [|done].
    destruct (count_failure n cur_node _) as [t1|] eqn:Hc; simpl in H; [|done].
    apply count_failure_tallies in Hc. unfold tallies in Hc.
    member_simpl. injection Hc as C1 C2 C3 C4.
    repeat (case_match || simplify_option_eq); member_simpl; simpl; lia.
  - destruct (map_manager_ t); simplify_option_eq.
    member_simpl; simpl. lia.
  - destruct (map_manager_ t); simplify_option_eq.
    case_match; member_simpl; simpl; lia.
Qed.

Lemma counted_committed (map : bool) (ptr : nat) (st3 : TaskState) (now : Z)
    (t0 t : JobTracker) (cur : AllocateItem.t) :
  allocation_table_ t = allocation_table_ t0 →
  allocation_table_ t !! ptr = Some cur →
  AllocateItem.state cur = kTaskRunning →
  AllocateItem.is_map cur = map →
  counted t0 →
  (if map
   then map_failed_ t
        = map_failed_ t0 + (if bool_decide (st3 = kTaskFailed) then 1 else 0)
        ∧ map_killed_ t
          = map_killed_ t0 + (if bool_decide (st3 = kTaskKilled) then 1 else 0)
        ∧ reduce_failed_ t = reduce_failed_ t0
        ∧ reduce_killed_ t = reduce_killed_ t0
   else reduce_failed_ t
        = reduce_failed_ t0 + (if bool_decide (st3 = kTaskFailed) then 1 else 0)
        ∧ reduce_killed_ t
          = reduce_killed_ t0 + (if bool_decide (st3 = kTaskKilled) then 1 else 0)
        ∧ map_failed_ t = map_failed_ t0
        ∧ map_killed_ t = map_killed_ t0) →
  counted (set_allocation_table_
             (commit_entry ptr st3 now (allocation_table_ t)) t).
Proof.
  intros Ht Hc Hr Hm (H1 & H2 & H3 & H4) Htal.
  unfold counted. member_simpl.
  rewrite !(count_entries_commit _ _ _ _ _ _ cur) by done.
  rewrite Ht, Hm.
  destruct map; destruct Htal as (T1 & T2 & T3 & T4); simpl;
    rewrite ?andb_false_l; simpl;
    repeat case_bool_decide; lia.
Qed.

Lemma finish_map_commit_counted (env : FinishEnv) (ptr : nat) (rn n a : Z)
    (st3 : TaskState) (fin : bool) (t0 t : JobTracker) (cur : AllocateItem.t) :
  allocation_table_ t = allocation_table_ t0 →
  allocation_table_ t !! ptr = Some cur →
  AllocateItem.state cur = kTaskRunning →
  AllocateItem.is_map cur = true →
  counted t0 →
  map_failed_ t = map_failed_ t0 + (if bool_decide (st3 = kTaskFailed) then 1 else 0)
  ∧ map_killed_ t
    = map_killed_ t0 + (if bool_decide (st3 = kTaskKilled) then 1 else 0)
  ∧ reduce_failed_ t = reduce_failed_ t0
  ∧ reduce_killed_ t = reduce_killed_ t0 →
  counted (finish_map_commit env ptr rn n a st3 fin t).2.
Proof.
  intros Ht Hc Hr Hm Hok Htal.
  pose proof (counted_committed true ptr st3 (fe_now env) t0 t cur Ht Hc Hr Hm Hok Htal)
    as H3.
  unfold finish_map_commit. cbv zeta.
  set (t3 := set_allocation_table_ _ t) in *. clearbody t3.
  set (t4 := if map_allow_duplicates_ t3 && _ then _ else t3).
  assert (H4 : counted t4).
  { subst t4. destruct (map_allow_duplicates_ t3 && _); [|done].
    revert H3. by apply counted_frame. }
  clearbody t4. clear H3.
  destruct (decide (st3 ≠ kTaskCompleted)); [done|].
  destruct (negb (map_allow_duplicates_ t4)); [done|]. simpl.
  pose proof (counted_canceled (map_index_ t4) (fe_cancel_now env) n a t4 H4) as H5.
  destruct fin; [|done]. revert H5. by apply counted_frame.
Qed.

Lemma finish_reduce_commit_counted (env : FinishEnv) (ptr : nat) (rn n a : Z)
    (st3 : TaskState) (fin : bool) (t0 t : JobTracker) (cur : AllocateItem.t) :
  allocation_table_ t = allocation_table_ t0 →
  allocation_table_ t !! ptr = Some cur →
  AllocateItem.state cur = kTaskRunning →
  AllocateItem.is_map cur = false →
  counted t0 →
  reduce_failed_ t
  = reduce_failed_ t0 + (if bool_decide (st3 = kTaskFailed) then 1 else 0)
  ∧ reduce_killed_ t
    = reduce_killed_ t0 + (if bool_decide (st3 = kTaskKilled) then 1 else 0)
  ∧ map_failed_ t = map_failed_ t0
  ∧ map_killed_ t = map_killed_ t0 →
  counted (finish_reduce_commit env ptr rn n a st3 fin t).2.
Proof.
  intros Ht Hc Hr Hm Hok Htal.
  pose proof (counted_committed false ptr st3 (fe_now env) t0 t cur Ht Hc Hr Hm Hok
                Htal) as H3.
  unfold finish_reduce_commit. cbv zeta.
  set (t3 := set_allocation_table_ _ t) in *. clearbody t3.
  set (t4 := if reduce_allow_duplicates_ t3 && _ then _ else t3).
  assert (H4 : counted t4).
  { subst t4. destruct (reduce_allow_duplicates_ t3 && _); [|done].
    revert H3. by apply counted_frame. }
  clearbody t4. clear H3.
  destruct (decide (st3 ≠ kTaskCompleted)); [done|].
  destruct (negb (reduce_allow_duplicates_ t4)); [done|]. simpl.
  pose proof (counted_canceled (reduce_index_ t4) (fe_cancel_now env) n a t4 H4) as H5.
  destruct fin; [|done]. revert H5. by apply counted_frame.
Qed.

Lemma FinishMap_counted (F : Flags) (env : FinishEnv) (n a : Z)
    (state : TaskState) (err_msg : string) (counters : gmap string Z)
    (t : JobTracker) (st : Status) (t' : JobTracker) :
  FinishMap F env n a state err_msg counters t = Some (st, t') →
  ledger_ok t → counted t → counted t'.
Proof.
  unfold FinishMap. intros H Hl Hok.
  destruct (find_running _ _ n a) as [[ptr cur]|] eqn:Hf; [|by simplify_eq].
  apply find_running_index in Hf as (Hi & Hcur & Hrun).
  assert (Hmap : AllocateItem.is_map cur = true).
  { destruct Hl as (O1 & _). destruct (O1 n a ptr Hi) as (c' & Hc' & _ & _ & Hm).
    by simplify_eq. }
  destruct (remap_move_output_failed _ _ state) as [state1|]; simpl in H; [|done].
  pose proof (fake_complete_map_tallies env (AllocateItem.resource_no cur) state1 t)
    as Hft.
  pose proof (fake_complete_map_kept env (AllocateItem.resource_no cur) state1 t)
    as Hfk.
  destruct (fake_complete_map env _ state1 t) as [state2 t1]. simpl in Hft, Hfk.
  destruct (map_dispatch F env _ _ err_msg counters state2 t1) as [d|] eqn:Hd;
    simpl in H; [|done].
  pose proof (map_dispatch_kept _ _ _ _ _ _ _ _ _ Hd) as Hdk.
  apply ledger_kept_table in Hfk, Hdk.
  unfold tallies in Hft. injection Hft as F1 F2 F3 F4.
  destruct d as [state3 finished t2|st2 t2]; simpl in *.
  - apply map_dispatch_tallies in Hd as (D1 & D2 & D3 & D4).
    injection H as H. apply (f_equal snd) in H. simpl in H. subst t'.
    eapply (finish_map_commit_counted _ _ _ _ _ _ _ t); try done.
    + congruence.
    + congruence.
    + split_and!; congruence.
  - destruct state2; simpl in Hd; try done;
      repeat (case_match || simplify_option_eq); try done.
    all: try (unfold map_completed in Hd; repeat (case_match || simplify_option_eq)).
    all: try (unfold map_failed in Hd; repeat (case_match || simplify_option_eq)).
    all: revert Hok; apply counted_frame; [congruence|unfold tallies; congruence].
Qed.

Lemma reduce_completed_tallies (F : Flags) (n : Z) (counters : gmap string Z)
    (t : JobTracker) (d : Dispatch) :
  reduce_completed F n counters t = Some d →
  ∃ st fin t', d = Break st fin t' ∧ tallies t' = tallies t
               ∧ st ≠ kTaskFailed ∧ st ≠ kTaskKilled.
Proof.
  unfold reduce_completed. intros H.
  destruct (reduce_manager_ t) as [rm|]; simpl in H; [|done].
  destruct (FinishItem n rm) as [ok rm'].
  destruct ok; simpl in H.
  2:{ injection H as <-. eexists _, _, _. split; [done|].
      split_and!; [tally_same|done|done]. }
  pose proof (AccumulateCounters_tallies F counters
                (set_reduce_manager_ (Some rm') t)) as HA.
  set (t2 := (AccumulateCounters F counters (set_reduce_manager_ (Some rm') t)).2)
    in *.
  assert (H2 : tallies t2 = tallies t) by (rewrite HA; tally_same).
  clearbody t2. clear HA.
  repeat (case_match || simplify_option_eq).
  all: eexists _, _, _; (split; [done|]); split_and!; try done.
  all: unfold tallies in *; member_simpl; congruence.
Qed.

Lemma reduce_dispatch_tallies (F : Flags) (n : Z)
    (cur_node err_msg : string) (counters : gmap string Z) (state : TaskState)
    (t : JobTracker) (st3 : TaskState) (fin : bool) (t2 : JobTracker) :
  reduce_dispatch F n cur_node err_msg counters state t = Some (Break st3 fin t2) →
  reduce_failed_ t2
  = reduce_failed_ t + (if bool_decide (st3 = kTaskFailed) then 1 else 0)
  ∧ reduce_killed_ t2
    = reduce_killed_ t + (if bool_decide (st3 = kTaskKilled) then 1 else 0)
  ∧ map_failed_ t2 = map_failed_ t
  ∧ map_killed_ t2 = map_killed_ t.
Proof.
  destruct state; simpl; intros H; try done.
  - apply reduce_completed_tallies in H
      as (st & fin' & t' & [= -> -> ->] & E & N1 & N2).
    unfold tallies in E. injection E as -> -> -> ->.
    rewrite !bool_decide_eq_false_2 by done. lia.
  - unfold reduce_failed in H.
    destruct (reduce_manager_ t) as [rm|]; simpl in H; [|done].
    destruct (count_failure n cur_node _) as [t1|] eqn:Hc; simpl in H; [|done].
    apply count_failure_tallies in Hc. unfold tallies in Hc.
    member_simpl. injection Hc as C1 C2 C3 C4.
    repeat (case_match || simplify_option_eq); member_simpl; simpl; lia.
  - destruct (reduce_manager_ t); simplify_option_eq.
    member_simpl; simpl. lia.
  - destruct (reduce_manager_ t); simplify_option_eq.
    case_match; member_simpl; simpl; lia.
Qed.

Lemma FinishReduce_counted (F : Flags) (env : FinishEnv) (n a : Z)
    (state : TaskState) (err_msg : string) (counters : gmap string Z)
    (t : JobTracker) (st : Status) (t' : JobTracker) :
  FinishReduce F env n a state err_msg counters t = Some (st, t') →
  ledger_ok t → counted t → counted t'.
Proof.
  unfold FinishReduce. intros H Hl Hok.
  destruct (reduce_too_early state t); [by simplify_eq|].
  destruct (find_running _ _ n a) as [[ptr cur]|] eqn:Hf; [|by simplify_eq].
  apply find_running_index in Hf as (Hi & Hcur & Hrun).
  assert (Hmap : AllocateItem.is_map cur = false).
  { destruct Hl as (_ & O2 & _). destruct (O2 n a ptr Hi) as (c' & Hc' & _ & _ & Hm).
    by simplify_eq. }
  destruct (remap_move_output_failed _ _ state) as [state1|]; simpl in H; [|done].
  destruct (reduce_dispatch F _ _ err_msg counters _ t) as [d|] eqn:Hd;
    simpl in H; [|done].
  pose proof (reduce_dispatch_kept _ _ _ _ _ _ _ _ Hd) as Hdk.
  apply ledger_kept_table in Hdk.
  destruct d as [state3 finished t2|st2 t2]; simpl in *.
  - apply reduce_dispatch_tallies in Hd.
    injection H as H. apply (f_equal snd) in H. simpl in H. subst t'.
    eapply (finish_reduce_commit_counted _ _ _ _ _ _ _ t); try done; congruence.
  - match type of Hd with
    | reduce_dispatch _ _ _ _ _ ?s _ = _ => destruct s
    end; simpl in Hd; try (by simplify_eq).
    + apply reduce_completed_tallies in Hd as (? & ? & ? & [=] & _).
    + unfold reduce_failed in Hd. repeat (case_match || simplify_option_eq).
    + destruct (reduce_manager_ t); simplify_option_eq.
    + destruct (reduce_manager_ t); simplify_option_eq.
Qed.

(** One step of the monitor. *)
Lemma kill_entry_counted (top : nat) (now : Z) (map_now : bool) (t : JobTracker)
    (a : AllocateItem.t) :
  allocation_table_ t !! top = Some a → AllocateItem.state a = kTaskRunning →
  AllocateItem.is_map a = map_now →
  counted t → counted (kill_entry top now map_now t).
Proof.
  intros Ha Hr Hm (H1 & H2 & H3 & H4). unfold kill_entry, counted.
  destruct map_now; member_simpl;
    rewrite !(count_entries_commit _ _ _ _ _ _ a) by done;
    rewrite Hm; simpl; rewrite ?andb_false_l; simpl;
    repeat case_bool_decide; try done; lia.
Qed.

Lemma monitor_requeue_counted (F : Flags) (map_now : bool) (top : nat)
    (t : JobTracker) (returned : list nat) (again : bool) (t' : JobTracker)
    (returned' : list nat) :
  monitor_requeue F map_now top t returned = Some (again, t', returned') →
  counted t → counted t'.
Proof.
  unfold monitor_requeue. intros H.
  apply counted_frame;
    repeat (case_match || simplify_option_eq); tally_same || done.
Qed.

Lemma monitor_entry_counted (F : Flags) (env : MonitorEnv)
    (map_now not_allow_duplicates : bool) (timeout : Z) (top : nat)
    (t : JobTracker) (returned : list nat) (again : bool) (t' : JobTracker)
    (returned' : list nat) :
  monitor_entry F env map_now not_allow_duplicates timeout top t returned
  = Some (again, t', returned') →
  counted t → counted t'.
Proof.
  unfold monitor_entry. intros H Hok.
  destruct (allocation_table_ t !! top) as [a|] eqn:Ha; simpl in H; [|done].
  destruct (decide (AllocateItem.state a ≠ kTaskRunning)) as [|Hrun];
    [by simplify_eq|].
  apply dec_stable in Hrun.
  destruct (decide (AllocateItem.is_map a ≠ map_now)) as [|Hmap];
    [by simplify_eq|].
  apply dec_stable in Hmap.
  destruct (_ || _ || _).
  2:{ by eapply monitor_requeue_counted. }
  destruct (rpc_client_ t); [|done].
  assert (Hq : counted (emit (EvQuery (AllocateItem.endpoint a)) t)).
  { revert Hok. apply counted_frame; [done|tally_same]. }
  assert (Q3 : allocation_table_ (emit (EvQuery (AllocateItem.endpoint a)) t) !! top
               = Some a) by done.
  set (t1 := emit (EvQuery (AllocateItem.endpoint a)) t) in *. clearbody t1.
  destruct (me_query env top) as [ok response].
  destruct (ok && _); [by simplify_eq|].
  pose proof (kill_entry_counted top (me_kill_now env) map_now t1 a Q3 Hrun Hmap Hq)
    as Hk.
  set (t2 := kill_entry top (me_kill_now env) map_now t1) in *. clearbody t2.
  match type of H with
  | (?o ≫= _) = _ => destruct o as [orphan|]; simpl in H; [|done]
  end.
  destruct orphan; [by simplify_eq|].
  by eapply monitor_requeue_counted.
Qed.

Lemma monitor_loop_counted (F : Flags) (env : MonitorEnv)
    (map_now not_allow_duplicates : bool) (timeout sleep_time : Z)
    (heap : list nat) :
  ∀ (counter : nat) (t : JobTracker) (returned : list nat) (t' : JobTracker)
    (returned' heap' : list nat),
    monitor_loop F env map_now not_allow_duplicates timeout sleep_time
                 counter heap t returned = Some (t', returned', heap') →
    counted t → counted t'.
Proof.
  induction heap as [|top rest IH]; intros counter t returned t' returned' heap' H.
  - by destruct counter; simplify_eq/=.
  - destruct counter as [|c]; [by simplify_eq/=|].
    simpl in H.
    destruct (allocation_table_ t !! top) as [a|]; simpl in H; [|done].
    case_decide; [by simplify_eq|].
    destruct (monitor_entry F env _ _ timeout top t returned)
      as [[[again t1] returned1]|] eqn:He; simpl in H; [|done].
    intros Hok. eapply IH; [exact H|]. by eapply monitor_entry_counted.
Qed.

Lemma KeepMonitoring_counted (F : Flags) (env : MonitorEnv) (map_now : bool)
    (t t' : JobTracker) :
  KeepMonitoring F env map_now t = Some t' → counted t → counted t'.
Proof.
  unfold KeepMonitoring. intros H Hok.
  destruct (bool_decide (time_used map_now (allocation_table_ t) = [])
            && negb (me_random env)).
  - destruct (monitor_ t) as [tasks|] eqn:Hm; simpl in H; [|done].
    injection H as <-. revert Hok. apply counted_frame; [done|tally_same].
  - destruct (monitor_loop F env _ _ _ _ 10 _ t [])
      as [[[t1 returned] heap]|] eqn:Hl; simpl in H; [|done].
    apply monitor_loop_counted in Hl; [|done].
    destruct (monitor_ _) as [tasks|] eqn:Hm; simpl in H; [|done].
    injection H as <-. revert Hl. apply counted_frame; [done|tally_same].
Qed.

(** [Kill]: what was Running is Killed, and counted. *)
Lemma kill_running_count (map : bool) (st : TaskState) (now : Z)
    (table : list AllocateItem.t) :
  st ≠ kTaskRunning →
  count_entries map st (kill_running now table).1.1
  = count_entries map st table
    + (if bool_decide (st = kTaskKilled) then count_entries map kTaskRunning table
       else 0).
Proof.
  intros Hst. induction table as [|a r IH]; [by case_bool_decide|].
  cbn [kill_running]. destruct (kill_running now r) as [[r' mk] rk].
  cbn [fst snd] in *.
  destruct (decide (AllocateItem.state a = kTaskRunning)) as [Hr|Hr];
    cbn [fst snd]; rewrite !count_entries_cons, IH.
  - rewrite counts_as_state, (counts_as_running _ _ _ Hr Hst).
    unfold counts_as. rewrite Hr.
    rewrite (bool_decide_eq_true_2 (kTaskRunning = kTaskRunning)) by done.
    rewrite andb_true_r.
    rewrite (bool_decide_ext (kTaskKilled = st) (st = kTaskKilled)) by done.
    destruct (bool_decide (AllocateItem.is_map a = map)),
      (bool_decide (st = kTaskKilled)); simpl; lia.
  - unfold counts_as at 3.
    rewrite (bool_decide_eq_false_2 (AllocateItem.state a = kTaskRunning)) by done.
    rewrite andb_false_r. destruct (bool_decide (st = kTaskKilled)); lia.
Qed.

Lemma Kill_counted (now finish : Z) (end_state : JobState) (t : JobTracker) :
  counted t → counted (Kill now finish end_state t).2.
Proof.
  intros (H1 & H2 & H3 & H4). unfold Kill. member_simpl.
  pose proof (kill_running_counts now (allocation_table_ t)) as [C1 C2].
  pose proof (kill_running_count true kTaskFailed now (allocation_table_ t)) as K1.
  pose proof (kill_running_count true kTaskKilled now (allocation_table_ t)) as K2.
  pose proof (kill_running_count false kTaskFailed now (allocation_table_ t)) as K3.
  pose proof (kill_running_count false kTaskKilled now (allocation_table_ t)) as K4.
  destruct (kill_running now (allocation_table_ t)) as [[table mk] rk].
  simpl in *. unfold counted. member_simpl.
  rewrite K1, K2, K3, K4 by done. simpl. lia.
Qed.

(** Assignment: a Running entry more, the tallies as they were. *)
Lemma CanMapDismiss_tallies (F : Flags) (endpoint : string) (t : JobTracker)
    (st : Status) (t' : JobTracker) :
  CanMapDismiss F endpoint t = Some (st, t') → tallies t' = tallies t.
Proof.
  unfold CanMapDismiss. intros H.
  destruct (map_manager_ t); simpl in H; [|done].
  repeat case_match; simplify_eq; tally_same.
Qed.

Lemma CanReduceDismiss_tallies (F : Flags) (endpoint : string) (t : JobTracker)
    (st : Status) (t' : JobTracker) :
  CanReduceDismiss F endpoint t = Some (st, t') → tallies t' = tallies t.
Proof.
  unfold CanReduceDismiss. intros H.
  destruct (reduce_manager_ t); simpl in H; [|done].
  repeat case_match; simplify_eq; tally_same.
Qed.

Lemma AssignMap_tallies (F : Flags) (now : Z) (endpoint : string) (t : JobTracker)
    (r : option ResourceItem) (st : Status) (t' : JobTracker) :
  AssignMap F now endpoint t = Some (r, st, t') → tallies t' = tallies t.
Proof.
  unfold AssignMap. intros H.
  repeat (case_match || simplify_option_eq);
    try match goal with
        | H : CanMapDismiss _ _ _ = Some _ |- _ =>
            apply CanMapDismiss_tallies in H; rewrite H
        end; tally_same.
Qed.

Lemma AssignReduce_tallies (F : Flags) (now : Z) (endpoint : string)
    (t : JobTracker) (r : option IdItem) (st : Status) (t' : JobTracker) :
  AssignReduce F now endpoint t = Some (r, st, t') → tallies t' = tallies t.
Proof.
  unfold AssignReduce. intros H.
  repeat (case_match || simplify_option_eq);
    try match goal with
        | H : CanReduceDismiss _ _ _ = Some _ |- _ =>
            apply CanReduceDismiss_tallies in H; rewrite H
        end; tally_same.
Qed.

Lemma counted_entry_made (map : bool) (alloc : AllocateItem.t) (t t' : JobTracker) :
  entry_made map alloc t t' → AllocateItem.state alloc = kTaskRunning →
  tallies t' = tallies t → counted t → counted t'.
Proof.
  intros (Ht & _) Hr Htal (H1 & H2 & H3 & H4).
  unfold counted, tallies in *. injection Htal as -> -> -> ->.
  rewrite Ht, !count_entries_app, !count_entries_cons.
  rewrite !(counts_as_running _ _ _ Hr) by done.
  change (count_entries true kTaskFailed []) with 0.
  change (count_entries true kTaskKilled []) with 0.
  change (count_entries false kTaskFailed []) with 0.
  change (count_entries false kTaskKilled []) with 0.
  lia.
Qed.

Lemma AssignMap_counted (F : Flags) (now : Z) (endpoint : string) (t : JobTracker)
    (r : option ResourceItem) (st : Status) (t' : JobTracker) :
  AssignMap F now endpoint t = Some (r, st, t') → counted t → counted t'.
Proof.
  intros H. pose proof (AssignMap_tallies _ _ _ _ _ _ _ H) as Htal.
  apply AssignMap_ledger in H as [_ H]. destruct r as [cur|].
  - destruct H as [_ H]. by eapply counted_entry_made.
  - destruct H as [_ H]. apply counted_frame; [|done].
    by apply ledger_kept_table.
Qed.

Lemma AssignReduce_counted (F : Flags) (now : Z) (endpoint : string)
    (t : JobTracker) (r : option IdItem) (st : Status) (t' : JobTracker) :
  AssignReduce F now endpoint t = Some (r, st, t') → counted t → counted t'.
Proof.
  intros H. pose proof (AssignReduce_tallies _ _ _ _ _ _ _ H) as Htal.
  apply AssignReduce_ledger in H as [_ H]. destruct r as [cur|].
  - destruct H as [_ H]. by eapply counted_entry_made.
  - destruct H as [_ H]. apply counted_frame; [|done].
    by apply ledger_kept_table.
Qed.

(** [Load]: every Failed and every Killed entry of the history is counted. *)
Lemma load_entry_counted (t : JobTracker) (it : AllocateItem.t) :
  counted t → counted (load_entry t it).
Proof.
  intros (H1 & H2 & H3 & H4). unfold load_entry, counted.
  destruct it as [ep st rn at' m alloc per]. simpl.
  destruct m, st; simpl; member_simpl;
    rewrite !count_entries_app, !count_entries_cons;
    change (count_entries true kTaskFailed []) with 0;
    change (count_entries true kTaskKilled []) with 0;
    change (count_entries false kTaskFailed []) with 0;
    change (count_entries false kTaskKilled []) with 0;
    unfold counts_as; simpl; lia.
Qed.

Lemma foldl_load_entry_counted (data : list AllocateItem.t) (t : JobTracker) :
  counted t → counted (foldl load_entry t data).
Proof.
  revert t. induction data as [|it data IH]; intros t Hok; [done|].
  simpl. by apply IH, load_entry_counted.
Qed.

Lemma load_managers_tallies (F : Flags) (data : list AllocateItem.t)
    (resource : list ResourceItem) (t : JobTracker) :
  tallies (load_managers F data resource t) = tallies t.
Proof.
  unfold load_managers. rewrite BuildEndGameCounters_tallies.
  repeat case_match; tally_same.
Qed.

Lemma load_failed_count_tallies (t t' : JobTracker) :
  load_failed_count t = Some t' → tallies t' = tallies t.
Proof.
  unfold load_failed_count. intros H. repeat case_match; simplify_eq; tally_same.
Qed.

Lemma load_monitor_tallies (is_map : bool) (t t' : JobTracker) :
  load_monitor is_map t = Some t' → tallies t' = tallies t.
Proof.
  unfold load_monitor. intros H.
  repeat (case_match || simplify_option_eq); tally_same.
Qed.

Lemma Load_counted (F : Flags) (jobid : string) (state : JobState)
    (data : list AllocateItem.t) (resource : list ResourceItem)
    (start_time finish_time : Z) (t : JobTracker) (b : bool) (t' : JobTracker) :
  Load F jobid state data resource start_time finish_time t = Some (b, t') →
  counted t → counted t'.
Proof.
  unfold Load. intros H Hok. member_simpl.
  match type of H with
  | context [load_managers F data resource ?x] =>
      assert (H2 : counted x)
        by (revert Hok; apply counted_frame;
            destruct (bool_decide (state = kRunning ∨ state = kPending));
            tally_same || done);
      set (t2 := x) in *; clearbody t2
  end.
  case_decide; [done|].
  case_decide.
  { injection H as <- <-. revert H2. apply counted_frame; [done|tally_same]. }
  destruct (load_failed_count _) as [t7|] eqn:H7; simpl in H; [|done].
  destruct (load_monitor _ t7) as [t9|] eqn:H9; simpl in H; [|done].
  injection H as <- <-. apply foldl_load_entry_counted.
  pose proof (load_monitor_kept _ _ _ H9) as K9.
  pose proof (load_failed_count_kept _ _ H7) as K7.
  pose proof (load_managers_kept F data resource t2) as K5.
  apply ledger_kept_table in K9, K7, K5.
  apply load_monitor_tallies in H9. apply load_failed_count_tallies in H7.
  pose proof (load_managers_tallies F data resource t2) as H5.
  revert H2. apply counted_frame; congruence.
Qed.

Lemma counted_new (F : Flags) (id : string) (job : JobDescriptor) :
  counted (new_JobTracker F id job).
Proof. unfold counted, new_JobTracker. by member_simpl. Qed.

Lemma call_counted (F : Flags) (c : Call) (t t' : JobTracker) :
  call F c t = Some t' → ledger_ok t → counted t → counted t'.
Proof.
  destruct c; simpl; intros H Hl Hok.
  - destruct (Start F env t) as [[st t1]|] eqn:HS; simplify_eq/=.
    pose proof (Start_kept _ _ _ _ _ HS) as HK. apply ledger_kept_table in HK.
    apply Start_tallies in HS. revert Hok. by apply counted_frame.
  - destruct (AssignMap F now endpoint t) as [[[r st] t1]|] eqn:HA; simplify_eq/=.
    by eapply AssignMap_counted.
  - destruct (AssignReduce F now endpoint t) as [[[r st] t1]|] eqn:HA; simplify_eq/=.
    by eapply AssignReduce_counted.
  - destruct (FinishMap F env n a state err_msg counters t) as [[st t1]|] eqn:HF;
      simplify_eq/=. by eapply FinishMap_counted.
  - destruct (FinishReduce F env n a state err_msg counters t) as [[st t1]|] eqn:HF;
      simplify_eq/=. by eapply FinishReduce_counted.
  - by eapply KeepMonitoring_counted.
  - injection H as <-. by apply Kill_counted.
  - destruct (Load F jobid state data resource start_time finish_time t)
      as [[b t1]|] eqn:HL; simplify_eq/=. by eapply Load_counted.
Qed.

(** X19.  The statistics never under-report the ledger.  In every state a
    master can reach, the failed and the killed number that
    [GetMapStatistics] and [GetReduceStatistics] give are at least the
    number of Failed and of Killed entries the ledger holds for the phase.
    They can be more: cancelling the other attempts of a completed task
    turns a counted Failed or Killed entry into a Canceled one. *)
Theorem statistics_cover_the_ledger (F : Flags) (t : JobTracker) :
  reachable F t →
  count_entries true kTaskFailed (allocation_table_ t) ≤ failed (GetMapStatistics t)
  ∧ count_entries true kTaskKilled (allocation_table_ t)
    ≤ killed (GetMapStatistics t)
  ∧ count_entries false kTaskFailed (allocation_table_ t)
    ≤ failed (GetReduceStatistics t)
  ∧ count_entries false kTaskKilled (allocation_table_ t)
    ≤ killed (GetReduceStatistics t).
Proof.
  intros Hr.
  assert (H : ledger_ok t ∧ counted t).
  { induction Hr as [id job|c t t' _ [IH1 IH2] Hc].
    - split; [apply ledger_ok_new|apply counted_new].
    - split; [by eapply call_ledger|by eapply call_counted]. }
  exact (proj2 H).
Qed.

Lemma statistics_cover_the_ledger_witness :
  reachable ex_flags ex_retried
  ∧ count_entries true kTaskFailed (allocation_table_ ex_retried)
    ≤ failed (GetMapStatistics ex_retried).
Proof.
  assert (Hr : reachable ex_flags ex_retried).
  { eapply (reachable_run ex_flags ex_retry_calls (ex_new ex_job));
      [apply reachable_new | vm_compute; reflexivity]. }
  exact (conj Hr (proj1 (statistics_cover_the_ledger _ _ Hr))).
Defined.

(** The statistics can over-report: after a failed attempt whose retry
    completed and cancelled it, one failure is counted and the ledger holds
    no Failed entry. *)
Example statistics_over_report :
  failed (GetMapStatistics ex_retried) = 1
  ∧ count_entries true kTaskFailed (allocation_table_ ex_retried) = 0.
Proof. by vm_compute. Qed.

(** * Properties over whole runs *)

(** ** Done for good *)

Section PoolCounts.
Context {A : Type} `{PoolItem A}.
Hypothesis id_of_with_id : ∀ (i : IdItem) (a : A), id_of (with_id i a) = i.















End PoolCounts.





























(** ** First Completed wins, for good *)

Lemma reachable_ledger (F : Flags) (t : JobTracker) : reachable F t → ledger_ok t.
Proof.
  induction 1 as [id job|c t t' _ IH Hc]; [apply ledger_ok_new|].
  by eapply call_ledger.
Qed.
















(** [Start] builds the pools anew: called again on the tracker in which
    task 0 is Done, it leaves a map manager that holds task 0 Pending. *)
Example Start_forgets_done :
  (mm ← map_manager_ ex_first_won; Some (IsDone 0 mm)) = Some true
  ∧ (call ex_flags (CallStart (ex_start_env 5)) ex_first_won
     ≫= λ t, mm ← map_manager_ t; Some (IsDone 0 mm)) = Some false.
Proof. split; vm_compute; reflexivity. Qed.

(** ** What puts a task in the ignore set *)

Lemma books_ignore (t t' : JobTracker) :
  failure_books t' = failure_books t → ignore_books t' = ignore_books t.
Proof. unfold failure_books, ignore_books. by intros [= _ _ -> -> _]. Qed.

Ltac ignore_same := unfold ignore_books; member_simpl; reflexivity.

Lemma Start_ignore (F : Flags) (env : StartEnv) (t : JobTracker)
    (st : Status) (t' : JobTracker) :
  Start F env t = Some (st, t') → ignore_books t' = ignore_books t.
Proof.
  unfold Start. intros H.
  destruct (se_output_exists env); [injection H as <- <-; ignore_same|].
  destruct (BuildResourceManagers _ _) as [[st2 t2]|] eqn:HB; [|done].
  assert (H2 : ignore_books t2 = ignore_books t).
  { unfold BuildResourceManagers in HB.
    repeat case_match; simplify_eq; ignore_same. }
  pose proof (books_ignore _ _ (BuildEndGameCounters_books F t2)) as HE.
  set (t3 := BuildEndGameCounters F t2) in *. clearbody t3.
  repeat case_match; simplify_eq; try done.
  all: unfold ignore_books in *; member_simpl; congruence.
Qed.

Lemma map_completed_ignore (F : Flags) (env : FinishEnv) (n : Z)
    (counters : gmap string Z) (t : JobTracker) (d : Dispatch) :
  map_completed F env n counters t = Some d →
  ignore_books (dispatch_tracker d) = ignore_books t.
Proof.
  unfold map_completed. intros H.
  destruct (map_manager_ t) as [mm|]; simpl in H; [|done].
  destruct (FinishItem n mm) as [ok mm'].
  destruct ok; simpl in H; [|injection H as <-; ignore_same].
  pose proof (books_ignore _ _ (AccumulateCounters_books F counters
                                  (set_map_manager_ (Some mm') t))) as HA.
  set (t2 := (AccumulateCounters F counters (set_map_manager_ (Some mm') t)).2) in *.
  assert (H2 : ignore_books t2 = ignore_books t) by (rewrite HA; ignore_same).
  clearbody t2. clear HA.
  repeat (case_match || simplify_option_eq); simpl.
  all: unfold ignore_books in *; member_simpl; congruence.
Qed.

(** The switch of [FinishMap] leaves the ignore set and its counter alone,
    or it puts the task in the set and counts one more. *)
Lemma map_dispatch_ignore (F : Flags) (env : FinishEnv) (n : Z)
    (cur_node err_msg : string) (counters : gmap string Z) (state : TaskState)
    (t : JobTracker) (d : Dispatch) :
  map_dispatch F env n cur_node err_msg counters state t = Some d →
  ignore_books (dispatch_tracker d) = ignore_books t
  ∨ ∃ cnt,
      ignore_failure_mappers_ (dispatch_tracker d)
      = {[n]} ∪ ignore_failure_mappers_ t
      ∧ ignored_map_failures_ (dispatch_tracker d) = ignored_map_failures_ t + 1
      ∧ ignored_map_failures_ t < ignore_map_failures (job_descriptor_ t)
      ∧ failed_count_ (dispatch_tracker d) !! Z.to_nat n = Some cnt
      ∧ cnt >= map_retry (job_descriptor_ t).
Proof.
  destruct state; simpl; intros H.
  - simplify_eq. by left.
  - left. by eapply map_completed_ignore.
  - destruct (map_failed_spec n cur_node err_msg t d H)
      as (finished & t' & c & -> & Hcnt & _ & _ & Hcase).
    simpl. repeat case_decide.
    + right. exists c. destruct Hcase as (_ & Hs & Hc & _). by split_and!.
    + left. destruct Hcase as (_ & Hs & Hc & _). unfold ignore_books. congruence.
    + left. destruct Hcase as (_ & Hs & Hc & _). unfold ignore_books. congruence.
  - left. destruct (map_manager_ t); simplify_option_eq. ignore_same.
  - left. destruct (map_manager_ t); simplify_option_eq. simpl.
    case_match; ignore_same.
  - simplify_eq. by left.
  - simplify_eq. by left.
Qed.

Lemma FinishMap_ignore (F : Flags) (env : FinishEnv) (n a : Z)
    (state : TaskState) (err_msg : string) (counters : gmap string Z)
    (t : JobTracker) (st : Status) (t' : JobTracker) :
  ledger_ok t →
  FinishMap F env n a state err_msg counters t = Some (st, t') →
  ignore_books t' = ignore_books t
  ∨ ∃ cnt,
      ignore_failure_mappers_ t' = {[n]} ∪ ignore_failure_mappers_ t
      ∧ ignored_map_failures_ t' = ignored_map_failures_ t + 1
      ∧ ignored_map_failures_ t < ignore_map_failures (job_descriptor_ t)
      ∧ failed_count_ t' !! Z.to_nat n = Some cnt
      ∧ cnt >= map_retry (job_descriptor_ t).
Proof.
  intros (O1 & _). unfold FinishMap. intros H.
  destruct (find_running _ _ n a) as [[ptr cur]|] eqn:Hf;
    [|simplify_eq; by left].
  apply find_running_index in Hf as (Hi & Hcur & _).
  destruct (O1 n a ptr Hi) as (c' & Hc' & Hn & _).
  rewrite Hcur in Hc'. injection Hc' as <-. rewrite Hn in H.
  destruct (remap_move_output_failed _ _ state) as [state1|]; simpl in H; [|done].
  pose proof (fake_complete_map_books env n state1 t) as Hfb.
  pose proof (fake_complete_map_pools env n state1 t) as Hfp.
  destruct (fake_complete_map env n state1 t) as [state2 t1]. simpl in Hfb, Hfp.
  unfold pools_of in Hfp. injection Hfp as _ _ J.
  destruct (map_dispatch F env _ _ err_msg counters state2 t1) as [d|] eqn:Hd;
    simpl in H; [|done].
  apply map_dispatch_ignore in Hd.
  unfold failure_books in Hfb. injection Hfb as B1 B2 B3 B4 B5.
  assert (Hcommit : failure_books t' = failure_books (dispatch_tracker d)).
  { destruct d as [state3 finished t2|st2 t2]; simpl in *; [|by simplify_eq].
    injection H as H. apply (f_equal snd) in H. simpl in H. subst t'.
    apply finish_map_commit_books. }
  unfold failure_books in Hcommit. injection Hcommit as C1 C2 C3 C4 C5.
  destruct Hd as [Hd|(cnt & D1 & D2 & D3 & D4 & D5)].
  - left. unfold ignore_books in *. congruence.
  - right. exists cnt. rewrite B4, J in D3. rewrite J in D5.
    split_and!; congruence.
Qed.

Lemma count_failure_ignore (n : Z) (cur_node : string) (t t' : JobTracker) :
  count_failure n cur_node t = Some t' → ignore_books t' = ignore_books t.
Proof.
  intros H. apply count_failure_others in H as (H1 & H2 & _).
  unfold ignore_books. congruence.
Qed.

Lemma reduce_dispatch_ignore (F : Flags) (n : Z) (cur_node err_msg : string)
    (counters : gmap string Z) (state : TaskState) (t : JobTracker)
    (d : Dispatch) :
  reduce_dispatch F n cur_node err_msg counters state t = Some d →
  ignore_books (dispatch_tracker d) = ignore_books t.
Proof.
  destruct state; simpl; intros H.
  - by simplify_eq.
  - unfold reduce_completed in H.
    destruct (reduce_manager_ t) as [rm|]; simpl in H; [|done].
    destruct (FinishItem n rm) as [ok rm'].
    destruct ok; simpl in H; [|injection H as <-; ignore_same].
    pose proof (books_ignore _ _ (AccumulateCounters_books F counters
                                    (set_reduce_manager_ (Some rm') t))) as HA.
    set (t2 := (AccumulateCounters F counters (set_reduce_manager_ (Some rm') t)).2)
      in *.
    assert (H2 : ignore_books t2 = ignore_books t) by (rewrite HA; ignore_same).
    clearbody t2. clear HA.
    case_decide; injection H as <-; simpl.
    all: unfold ignore_books in *; member_simpl; congruence.
  - unfold reduce_failed in H.
    destruct (reduce_manager_ t) as [rm|]; simpl in H; [|done].
    destruct (count_failure n cur_node _) as [t2|] eqn:Hc; simpl in H; [|done].
    apply count_failure_ignore in Hc.
    assert (H2 : ignore_books t2 = ignore_books t) by (rewrite Hc; ignore_same).
    clear Hc.
    repeat (case_match || simplify_option_eq); simpl.
    all: unfold ignore_books in *; member_simpl; congruence.
  - destruct (reduce_manager_ t); simplify_option_eq. ignore_same.
  - destruct (reduce_manager_ t); simplify_option_eq. simpl.
    case_match; ignore_same.
  - by simplify_eq.
  - by simplify_eq.
Qed.

Lemma FinishReduce_ignore (F : Flags) (env : FinishEnv) (n a : Z)
    (state : TaskState) (err_msg : string) (counters : gmap string Z)
    (t : JobTracker) (st : Status) (t' : JobTracker) :
  FinishReduce F env n a state err_msg counters t = Some (st, t') →
  ignore_books t' = ignore_books t.
Proof.
  unfold FinishReduce. intros H.
  destruct (reduce_too_early state t); [by simplify_eq|].
  destruct (find_running _ _ n a) as [[ptr cur]|]; [|by simplify_eq].
  destruct (remap_move_output_failed _ _ state) as [state1|]; simpl in H; [|done].
  destruct (reduce_dispatch F _ _ err_msg counters _ t) as [d|] eqn:Hd;
    simpl in H; [|done].
  apply reduce_dispatch_ignore in Hd.
  destruct d as [state3 finished t2|st2 t2]; simpl in *;
    [|injection H as <- <-; exact Hd].
  injection H as H. apply (f_equal snd) in H. simpl in H. subst t'.
  rewrite <- Hd. apply books_ignore, finish_reduce_commit_books.
Qed.

Lemma Load_ignore (F : Flags) (jobid : string) (state : JobState)
    (data : list AllocateItem.t) (resource : list ResourceItem)
    (start_time finish_time : Z) (t : JobTracker) (b : bool) (t' : JobTracker) :
  Load F jobid state data resource start_time finish_time t = Some (b, t') →
  ignore_books t' = ignore_books t.
Proof.
  unfold Load. intros H. member_simpl.
  match type of H with
  | context [load_managers F data resource ?x] =>
      assert (H2 : ignore_books x = ignore_books t)
        by (destruct (bool_decide (state = kRunning ∨ state = kPending));
            ignore_same);
      set (t2 := x) in *; clearbody t2
  end.
  case_decide; [done|].
  case_decide.
  { injection H as <- <-. rewrite <- H2. ignore_same. }
  pose proof (books_ignore _ _ (load_managers_books F data resource t2)) as H5.
  destruct (load_failed_count _) as [t7|] eqn:H7; simpl in H; [|done].
  destruct (load_monitor _ t7) as [t9|] eqn:H9; simpl in H; [|done].
  injection H as <- <-.
  apply load_monitor_books, books_ignore in H9.
  assert (H7' : ignore_books t7 = ignore_books (load_managers F data resource t2)).
  { unfold load_failed_count in H7.
    repeat case_match; simplify_eq; ignore_same. }
  rewrite (books_ignore _ _ (foldl_load_entry_books data t9)). congruence.
Qed.

(** X21.  What puts a task in the ignore set.  A call on a tracker the
    master can reach leaves the ignore set of the map phase and its counter
    as they are, unless it is a [FinishMap] report for a task whose failure
    count has reached [map_retry] while the counter was below the budget:
    then the task is put in the set and the counter grows by one. *)
Theorem ignore_set_grows_by_failures (F : Flags) (c : Call) (t t' : JobTracker) :
  reachable F t →
  call F c t = Some t' →
  (ignore_failure_mappers_ t' = ignore_failure_mappers_ t
   ∧ ignored_map_failures_ t' = ignored_map_failures_ t)
  ∨ ∃ (env : FinishEnv) (n a : Z) (state : TaskState) (err_msg : string)
      (counters : gmap string Z) (cnt : Z),
      c = CallFinishMap env n a state err_msg counters
      ∧ ignore_failure_mappers_ t' = {[n]} ∪ ignore_failure_mappers_ t
      ∧ ignored_map_failures_ t' = ignored_map_failures_ t + 1
      ∧ ignored_map_failures_ t < ignore_map_failures (job_descriptor_ t)
      ∧ failed_count_ t' !! Z.to_nat n = Some cnt
      ∧ cnt >= map_retry (job_descriptor_ t).
Proof.
  intros Hr. pose proof (reachable_ledger F t Hr) as Hok.
  assert (Hsame : ignore_books t' = ignore_books t →
                  ignore_failure_mappers_ t' = ignore_failure_mappers_ t
                  ∧ ignored_map_failures_ t' = ignored_map_failures_ t)
    by (unfold ignore_books; by intros [= -> ->]).
  destruct c; simpl; intros H.
  - destruct (Start F env t) as [[st t1]|] eqn:HS; [|done].
    injection H as <-. left. apply Hsame. exact (Start_ignore _ _ _ _ _ HS).
  - destruct (AssignMap F now endpoint t) as [[[r st] t1]|] eqn:HA; [|done].
    injection H as <-. left. apply Hsame, books_ignore.
    exact (AssignMap_books _ _ _ _ _ _ _ HA).
  - destruct (AssignReduce F now endpoint t) as [[[r st] t1]|] eqn:HA; [|done].
    injection H as <-. left. apply Hsame, books_ignore.
    exact (AssignReduce_books _ _ _ _ _ _ _ HA).
  - destruct (FinishMap F env n a state err_msg counters t) as [[st t1]|] eqn:HF;
      [|done].
    injection H as <-.
    destruct (FinishMap_ignore F env n a state err_msg counters t st t1 Hok HF)
      as [Hs|(cnt & H1 & H2 & H3 & H4 & H5)]; [left; by apply Hsame|].
    right. exists env, n, a, state, err_msg, counters, cnt.
    split; [reflexivity|]. split; [exact H1|]. split; [exact H2|].
    split; [exact H3|]. split; [exact H4|exact H5].
  - destruct (FinishReduce F env n a state err_msg counters t) as [[st t1]|] eqn:HF;
      [|done].
    injection H as <-. left. apply Hsame.
    exact (FinishReduce_ignore _ _ _ _ _ _ _ _ _ _ HF).
  - left. apply Hsame, books_ignore. exact (KeepMonitoring_books _ _ _ _ _ H).
  - injection H as <-. left. apply Hsame, books_ignore, Kill_books.
  - destruct (Load F jobid state data resource start_time finish_time t)
      as [[b t1]|] eqn:HL; [|done].
    injection H as <-. left. apply Hsame.
    exact (Load_ignore _ _ _ _ _ _ _ _ _ _ HL).
Qed.

Lemma ignore_set_grows_by_failures_witness :
  reachable ex_flags ex_before_failure
  ∧ call ex_flags (CallFinishMap ex_finish_env 0 1 kTaskFailed "boom" ∅)
         ex_before_failure
    = Some ex_after_failure
  ∧ ignore_failure_mappers_ ex_before_failure = ∅
  ∧ ignore_failure_mappers_ ex_after_failure = {[0]}
  ∧ ((ignore_failure_mappers_ ex_after_failure
      = ignore_failure_mappers_ ex_before_failure
      ∧ ignored_map_failures_ ex_after_failure
        = ignored_map_failures_ ex_before_failure)
     ∨ ∃ (env : FinishEnv) (n a : Z) (state : TaskState) (err_msg : string)
         (counters : gmap string Z) (cnt : Z),
         CallFinishMap ex_finish_env 0 1 kTaskFailed "boom" ∅
         = CallFinishMap env n a state err_msg counters
         ∧ ignore_failure_mappers_ ex_after_failure
           = {[n]} ∪ ignore_failure_mappers_ ex_before_failure
         ∧ ignored_map_failures_ ex_after_failure
           = ignored_map_failures_ ex_before_failure + 1
         ∧ ignored_map_failures_ ex_before_failure
           < ignore_map_failures (job_descriptor_ ex_before_failure)
         ∧ failed_count_ ex_after_failure !! Z.to_nat n = Some cnt
         ∧ cnt >= map_retry (job_descriptor_ ex_before_failure)).
Proof.
  assert (Hr : reachable ex_flags ex_before_failure).
  { eapply (reachable_run ex_flags
              [CallStart (ex_start_env 2); CallAssignMap 1001 "h1:1"]
              (ex_new ex_job));
      [apply reachable_new | vm_compute; reflexivity]. }
  assert (H0 : ignore_failure_mappers_ ex_before_failure = ∅)
    by (vm_compute; reflexivity).
  assert (H1 : ignore_failure_mappers_ ex_after_failure = {[0]})
    by (vm_compute; reflexivity).
  assert (Hc : call ex_flags (CallFinishMap ex_finish_env 0 1 kTaskFailed "boom" ∅)
                    ex_before_failure
               = Some ex_after_failure) by (vm_compute; reflexivity).
  exact (conj Hr (conj Hc (conj H0 (conj H1
           (ignore_set_grows_by_failures ex_flags _ _ _ Hr Hc))))).
Defined.

(** ** What a monitor pass restores to the heap *)






